(** * Cachito content manifests: a shallow embedding of
    [cachito/web/content_manifest.py] and the properties of its
    Image Content Manifest (ICM) and SBOM generation.

    Package objects live in a store addressed by object identity, because
    the code overwrites the version of a local Go dependency in place and
    uses packages as dictionary keys.  The methods of [ContentManifest] are
    written in a small state-and-exception monad over that store, the
    instance fields and the log. *)

From Stdlib Require Import String Ascii List ZArith Bool Lia Permutation Arith.
Import ListNotations.
Open Scope string_scope.
Open Scope list_scope.

Infix "+:+" := String.append (at level 60, right associativity).

(** ** Python strings and POSIX paths *)

Module Py.

(** [s.startswith(p)] *)
Definition startswith (s p : string) : bool := String.prefix p s.

(** [s.endswith("/")] *)
Fixpoint endswith_sep (s : string) : bool :=
  match s with
  | EmptyString => false
  | String c EmptyString => Ascii.eqb c "/"
  | String _ s' => endswith_sep s'
  end.

(** [s.split("/")]: the accumulator [cur] holds the current piece. *)
Fixpoint split_from (cur s : string) : list string :=
  match s with
  | EmptyString => [cur]
  | String c s' =>
      if Ascii.eqb c "/" then cur :: split_from EmptyString s'
      else split_from (cur +:+ String c EmptyString) s'
  end.

Definition split_sep (s : string) : list string := split_from EmptyString s.

(** ["/".join(parts)] *)
Definition join_sep (parts : list string) : string := String.concat "/" parts.

(** [s.split("/")[-1]] *)
Definition last_segment (s : string) : string := List.last (split_sep s) EmptyString.

(** A value is truthy when it is neither [None] nor the empty string. *)
Definition truthy (v : option string) : bool :=
  match v with
  | Some s => negb (String.eqb s EmptyString)
  | None => false
  end.

(** [v and v.startswith(".")] *)
Definition is_local (v : option string) : bool :=
  match v with
  | Some s => negb (String.eqb s EmptyString) && startswith s "."
  | None => false
  end.

(** [os.path.join(a, b)] of [posixpath]. *)
Definition path_join (a b : string) : string :=
  if startswith b "/" then b
  else if String.eqb a EmptyString || endswith_sep a then a +:+ b
  else a +:+ "/" +:+ b.

(** The loop of [posixpath.normpath] over the components of the path;
    [acc] is [new_comps] reversed, [abs] says whether the path started
    with a slash. *)
Fixpoint norm_comps (abs : bool) (acc : list string) (comps : list string) : list string :=
  match comps with
  | [] => List.rev acc
  | comp :: rest =>
      if String.eqb comp EmptyString || String.eqb comp "." then norm_comps abs acc rest
      else if negb (String.eqb comp "..") then norm_comps abs (comp :: acc) rest
      else match acc with
           | [] => if abs then norm_comps abs acc rest else norm_comps abs (comp :: acc) rest
           | top :: acc' =>
               if String.eqb top ".." then norm_comps abs (comp :: acc) rest
               else norm_comps abs acc' rest
           end
  end.

(** Number of initial slashes kept by [normpath]: POSIX keeps exactly two
    leading slashes and treats three or more as one. *)
Definition initial_slashes (p : string) : nat :=
  if startswith p "/" then
    if startswith p "//" && negb (startswith p "///") then 2 else 1
  else 0.

Fixpoint slashes (n : nat) : string :=
  match n with O => EmptyString | S n' => "/" +:+ slashes n' end.

(** [os.path.normpath(p)] of [posixpath]. *)
Definition normpath (p : string) : string :=
  if String.eqb p EmptyString then "."
  else
    let n := initial_slashes p in
    let comps := norm_comps (negb (Nat.eqb n 0)) [] (split_sep p) in
    let r := slashes n +:+ join_sep comps in
    if String.eqb r EmptyString then "." else r.

(** The parsed form of a [PurePosixPath]: its root and its parts below the
    root; empty and ["."] components are dropped. *)
Definition path_root (p : string) : string := slashes (initial_slashes p).

Definition path_parts (p : string) : list string :=
  List.filter (fun c => negb (String.eqb c EmptyString || String.eqb c ".")) (split_sep p).

(** [abs_parts] of [PurePath.relative_to]: drive and root come first for an
    anchored path. *)
Definition abs_parts (p : string) : list string :=
  if String.eqb (path_root p) EmptyString then path_parts p
  else EmptyString :: path_root p :: path_parts p.

Definition list_string_eqb (a b : list string) : bool :=
  if list_eq_dec string_dec a b then true else false.

(** [str(Path(p).relative_to(Path(base)))]; [None] stands for the
    [ValueError] of a path outside [base]. *)
Definition relative_to (p base : string) : option string :=
  let ap := abs_parts p in
  let ab := abs_parts base in
  let n := List.length ab in
  let bad :=
    if Nat.eqb n 0 then negb (String.eqb (path_root p) EmptyString)
    else negb (list_string_eqb (List.firstn n ap) ab) in
  if bad then None
  else
    let rest := List.skipn n ap in
    Some (if Nat.eqb (List.length rest) 0 then "." else join_sep rest).

End Py.


(** ** Data model *)

(** The identity of a Python object: its address in the store. *)
Definition addr := nat.

(** [class Package], with [__slots__] name, type, version, dev, dependencies
    and path.  The dependencies are Package objects, held by reference. *)
Record Package := mkPackage {
  name : string;
  type : string;
  version : option string;
  dev : bool;
  dependencies : list addr;
  path : option string
}.

(** The request: an external entity read for its [repo] and [ref]. *)
Record Request := mkRequest { repo : string; ref : string }.

(** The tuple [(self.name, self.type, self.version, self.dev)] that
    [__hash__] hashes and [__eq__] compares. *)
Definition identity : Type := string * string * option string * bool.

Definition Package_identity (p : Package) : identity :=
  (name p, type p, version p, dev p).

Definition option_string_eqb (a b : option string) : bool :=
  match a, b with
  | Some x, Some y => String.eqb x y
  | None, None => true
  | _, _ => false
  end.

(** [Package.__eq__]; the [isinstance] test holds for every object of the
    store. *)
Definition Package_eq (p q : Package) : bool :=
  String.eqb (name p) (name q)
  && String.eqb (type p) (type q)
  && option_string_eqb (version p) (version q)
  && Bool.eqb (dev p) (dev q).

(** [Package.__repr__] *)
Definition Package_repr (p : Package) : string :=
  "<Package name=" +:+ name p +:+ ", type=" +:+ type p +:+ ", version="
  +:+ match version p with Some v => v | None => "None" end +:+ ">".

(** [dependency.version = v] *)
Definition set_version (v : option string) (p : Package) : Package :=
  {| name := name p; type := type p; version := v; dev := dev p;
     dependencies := dependencies p; path := path p |}.

(** The exceptions the module raises or lets through. *)
Inductive exn :=
| ValueError (msg : string)
| RuntimeError (msg : string)
| KeyError
| TypeError
| AttributeError
| ContentManifestError (msg : string).

Inductive result (A : Type) :=
| Ok (a : A)
| Raise (e : exn).
Arguments Ok {A} a.
Arguments Raise {A} e.

Definition is_ok {A} (r : result A) : bool :=
  match r with Ok _ => true | Raise _ => false end.

(** The entries of the working maps and of [image_contents]: a dictionary
    with the keys purl, dependencies and sources, and for a go-package
    entry also name until [set_go_package_sources] pops it.  A list of
    [{"purl": p}] dictionaries is kept as the list of its purls. *)
Record PkgData := mkPkgData {
  d_name : option string;
  d_purl : string;
  d_dependencies : list string;
  d_sources : list string
}.

(** The entries of [_gomod_data]: purl and dependencies. *)
Record ModData := mkModData {
  m_purl : string;
  m_dependencies : list string
}.

(** An SBOM component; the key version is absent when [c_version] is
    [None]. *)
Record Component := mkComponent {
  c_type : string;
  c_name : string;
  c_purl : string;
  c_version : option string
}.

Record Metadata := mkMetadata {
  icm_version : Z;
  icm_spec : string;
  image_layer_index : Z
}.

Record ICM := mkICM {
  metadata : Metadata;
  image_contents : list PkgData
}.

Definition VERSION : Z := 1.
Definition JSON_SCHEMA_URL : string :=
  "https://raw.githubusercontent.com/containerbuildsystem/atomic-reactor/"
  +:+ "f4abcfdaf8247a6b074f94fa84f3846f82d781c6/atomic_reactor/schemas/content_manifest.json".
Definition UNKNOWN_LAYER_INDEX : Z := -1.

Definition BASE_ICM : ICM :=
  {| metadata := {| icm_version := VERSION; icm_spec := JSON_SCHEMA_URL;
                    image_layer_index := UNKNOWN_LAYER_INDEX |};
     image_contents := [] |}.

(** Records of [flask.current_app.logger]: level, format and argument. *)
Inductive log_record :=
| LogDebug (fmt arg : string)
| LogWarning (fmt arg : string).

(** ** Dictionaries *)

(** A dictionary with string keys, in insertion order. *)
Definition sdict (V : Type) : Type := list (string * V).

Fixpoint sdict_get {V} (k : string) (d : sdict V) : option V :=
  match d with
  | [] => None
  | (k', v) :: d' => if String.eqb k' k then Some v else sdict_get k d'
  end.

Definition sdict_mem {V} (k : string) (d : sdict V) : bool :=
  match sdict_get k d with Some _ => true | None => false end.

Definition sdict_keys {V} (d : sdict V) : list string := List.map fst d.

(** [d[k] = v]: an existing key keeps its position. *)
Fixpoint sdict_set {V} (k : string) (v : V) (d : sdict V) : sdict V :=
  match d with
  | [] => [(k, v)]
  | (k', v') :: d' =>
      if String.eqb k' k then (k', v) :: d' else (k', v') :: sdict_set k v d'
  end.

(** [d.setdefault(k, v)] *)
Definition sdict_setdefault {V} (k : string) (v : V) (d : sdict V) : sdict V :=
  if sdict_mem k d then d else d ++ [(k, v)].

(** In-place change of the value at [k]; [None] is the [KeyError]. *)
Fixpoint sdict_update {V} (k : string) (f : V -> V) (d : sdict V) : option (sdict V) :=
  match d with
  | [] => None
  | (k', v) :: d' =>
      if String.eqb k' k then Some ((k', f v) :: d')
      else option_map (cons (k', v)) (sdict_update k f d')
  end.

(** A slot of a dictionary keyed by Package objects: the hash computed when
    the key was inserted, the key object and the value. *)
Record slot (V : Type) := mkSlot {
  slot_hash : Z;
  slot_key : addr;
  slot_val : V
}.
Arguments mkSlot {V} _ _ _.
Arguments slot_hash {V} _.
Arguments slot_key {V} _.
Arguments slot_val {V} _.

Definition pdict (V : Type) : Type := list (slot V).

Definition pdict_values {V} (d : pdict V) : list V := List.map (@slot_val V) d.

(** ** The instance, the store and the monad *)

(** The fields of a [ContentManifest] instance.  The last field is the
    value remembered by the [cached_property] [go_modules_by_name], [None]
    until its first use. *)
Record ContentManifest := mkCM {
  request : Request;
  packages : list addr;
  _gopkg_data : pdict PkgData;
  _gomod_data : sdict ModData;
  _npm_data : pdict PkgData;
  _pip_data : pdict PkgData;
  _yarn_data : pdict PkgData;
  _rubygems_data : pdict PkgData;
  _gitsubmodule_data : pdict PkgData;
  _sbom_components : list Component;
  go_modules_by_name_cache : option (sdict addr)
}.

(** [ContentManifest.__init__] *)
Definition init (rq : Request) (pkgs : list addr) : ContentManifest :=
  {| request := rq; packages := pkgs;
     _gopkg_data := []; _gomod_data := []; _npm_data := []; _pip_data := [];
     _yarn_data := []; _rubygems_data := []; _gitsubmodule_data := [];
     _sbom_components := []; go_modules_by_name_cache := None |}.

(** The dictionaries keyed by Package objects, as selected by name. *)
Inductive field := F_gopkg | F_npm | F_pip | F_yarn | F_rubygems | F_gitsubmodule.

Definition get_field (f : field) (cm : ContentManifest) : pdict PkgData :=
  match f with
  | F_gopkg => _gopkg_data cm
  | F_npm => _npm_data cm
  | F_pip => _pip_data cm
  | F_yarn => _yarn_data cm
  | F_rubygems => _rubygems_data cm
  | F_gitsubmodule => _gitsubmodule_data cm
  end.

Definition set_field (f : field) (d : pdict PkgData) (cm : ContentManifest) : ContentManifest :=
  {| request := request cm; packages := packages cm;
     _gopkg_data := match f with F_gopkg => d | _ => _gopkg_data cm end;
     _gomod_data := _gomod_data cm;
     _npm_data := match f with F_npm => d | _ => _npm_data cm end;
     _pip_data := match f with F_pip => d | _ => _pip_data cm end;
     _yarn_data := match f with F_yarn => d | _ => _yarn_data cm end;
     _rubygems_data := match f with F_rubygems => d | _ => _rubygems_data cm end;
     _gitsubmodule_data := match f with F_gitsubmodule => d | _ => _gitsubmodule_data cm end;
     _sbom_components := _sbom_components cm;
     go_modules_by_name_cache := go_modules_by_name_cache cm |}.

Definition set_gomod_data (d : sdict ModData) (cm : ContentManifest) : ContentManifest :=
  {| request := request cm; packages := packages cm;
     _gopkg_data := _gopkg_data cm; _gomod_data := d;
     _npm_data := _npm_data cm; _pip_data := _pip_data cm; _yarn_data := _yarn_data cm;
     _rubygems_data := _rubygems_data cm; _gitsubmodule_data := _gitsubmodule_data cm;
     _sbom_components := _sbom_components cm;
     go_modules_by_name_cache := go_modules_by_name_cache cm |}.

Definition set_sbom_components (l : list Component) (cm : ContentManifest) : ContentManifest :=
  {| request := request cm; packages := packages cm;
     _gopkg_data := _gopkg_data cm; _gomod_data := _gomod_data cm;
     _npm_data := _npm_data cm; _pip_data := _pip_data cm; _yarn_data := _yarn_data cm;
     _rubygems_data := _rubygems_data cm; _gitsubmodule_data := _gitsubmodule_data cm;
     _sbom_components := l;
     go_modules_by_name_cache := go_modules_by_name_cache cm |}.

Definition set_cache (c : option (sdict addr)) (cm : ContentManifest) : ContentManifest :=
  {| request := request cm; packages := packages cm;
     _gopkg_data := _gopkg_data cm; _gomod_data := _gomod_data cm;
     _npm_data := _npm_data cm; _pip_data := _pip_data cm; _yarn_data := _yarn_data cm;
     _rubygems_data := _rubygems_data cm; _gitsubmodule_data := _gitsubmodule_data cm;
     _sbom_components := _sbom_components cm;
     go_modules_by_name_cache := c |}.

(** [getattr(self, f"_{t}_data")] for the package types that use it. *)
Definition field_of_type (t : string) : option field :=
  if String.eqb t "npm" then Some F_npm
  else if String.eqb t "pip" then Some F_pip
  else if String.eqb t "yarn" then Some F_yarn
  else if String.eqb t "rubygems" then Some F_rubygems
  else None.

(** What a call can read and change: the Package objects, the instance and
    the log. *)
Record World := mkWorld {
  heap : addr -> Package;
  self : ContentManifest;
  log : list log_record
}.

Definition M (A : Type) : Type := World -> World * result A.

Definition ret {A} (a : A) : M A := fun w => (w, Ok a).

Definition raise {A} (e : exn) : M A := fun w => (w, Raise e).

Definition bind {A B} (m : M A) (k : A -> M B) : M B :=
  fun w => match m w with
           | (w', Ok a) => k a w'
           | (w', Raise e) => (w', Raise e)
           end.

Notation "x <- m ;; k" := (bind m (fun x => k))
  (at level 61, m at next level, right associativity).
Notation "m ;;; k" := (bind m (fun _ => k))
  (at level 61, right associativity).

Definition lift {A} (r : result A) : M A := fun w => (w, r).

Definition get_self : M ContentManifest := fun w => (w, Ok (self w)).

(** Reading a field of the instance. *)
Definition gets {A} (f : ContentManifest -> A) : M A := fun w => (w, Ok (f (self w))).

Definition modify_self (f : ContentManifest -> ContentManifest) : M unit :=
  fun w => ({| heap := heap w; self := f (self w); log := log w |}, Ok tt).

Definition get_heap : M (addr -> Package) := fun w => (w, Ok (heap w)).

(** Reading the fields of the object at [a]. *)
Definition deref (a : addr) : M Package := fun w => (w, Ok (heap w a)).

Definition heap_set (h : addr -> Package) (a : addr) (p : Package) : addr -> Package :=
  fun b => if Nat.eqb b a then p else h b.

(** [obj.version = v] on the object at [a]. *)
Definition assign_version (a : addr) (v : option string) : M unit :=
  fun w => ({| heap := heap_set (heap w) a (set_version v (heap w a));
               self := self w; log := log w |}, Ok tt).

Definition emit (r : log_record) : M unit :=
  fun w => ({| heap := heap w; self := self w; log := log w ++ [r] |}, Ok tt).

(** A [for] loop: the first exception ends it. *)
Fixpoint for_each {A} (l : list A) (body : A -> M unit) : M unit :=
  match l with
  | [] => ret tt
  | x :: l' => body x ;;; for_each l' body
  end.

(** ** Collaborators of the module *)

(** The purl functions of [cachito.web.purl] and [get_repo_name] of
    [cachito.common.utils], which the module imports.  They are pure and may
    raise. *)
Class PurlCodec := {
  to_purl : Package -> option string -> result string;
  to_top_level_purl : Package -> Request -> option string -> result string;
  to_vcs_purl : string -> string -> string -> result string;
  replace_parent_purl_placeholder : string -> string -> string;
  get_repo_name : string -> string
}.

(** Modelled from the spec: [gomod.match_parent_module], which is imported
    from [cachito.workers.pkg_managers].  A module name matches a path when
    it is equal to it or is followed in it by a path separator; the longest
    matching name wins, and there is no result when none matches. *)
Definition is_path_prefix (module_name candidate_path : string) : bool :=
  String.eqb module_name candidate_path
  || Py.startswith candidate_path (module_name +:+ "/").

Definition longer (best : option string) (m : string) : option string :=
  match best with
  | None => Some m
  | Some b => if Nat.ltb (String.length b) (String.length m) then Some m else best
  end.

Definition match_parent_module (candidate_path : string) (module_names : list string)
  : option string :=
  List.fold_left
    (fun best m => if is_path_prefix m candidate_path then longer best m else best)
    module_names None.

(** Modelled from the spec: [deep_sort_icm] of [cachito.web.utils].  Every
    list of mappings is sorted by its elements read in key order
    (dependencies, name, purl, sources), then value; the keys of a mapping
    have no order in a record. *)
Fixpoint insert_sorted {A} (leb : A -> A -> bool) (x : A) (l : list A) : list A :=
  match l with
  | [] => [x]
  | y :: l' => if leb x y then x :: l else y :: insert_sorted leb x l'
  end.

Definition sort_by {A} (leb : A -> A -> bool) (l : list A) : list A :=
  List.fold_right (insert_sorted leb) [] l.

Fixpoint list_compare {A} (cmp : A -> A -> comparison) (a b : list A) : comparison :=
  match a, b with
  | [], [] => Eq
  | [], _ :: _ => Lt
  | _ :: _, [] => Gt
  | x :: a', y :: b' =>
      match cmp x y with
      | Eq => list_compare cmp a' b'
      | c => c
      end
  end.

Definition option_compare {A} (cmp : A -> A -> comparison) (a b : option A) : comparison :=
  match a, b with
  | None, None => Eq
  | None, Some _ => Lt
  | Some _, None => Gt
  | Some x, Some y => cmp x y
  end.

Definition then_compare (c : comparison) (d : comparison) : comparison :=
  match c with Eq => d | _ => c end.

Definition PkgData_compare (a b : PkgData) : comparison :=
  then_compare (list_compare String.compare (d_dependencies a) (d_dependencies b))
    (then_compare (option_compare String.compare (d_name a) (d_name b))
       (then_compare (String.compare (d_purl a) (d_purl b))
          (list_compare String.compare (d_sources a) (d_sources b)))).

Definition is_le (c : comparison) : bool :=
  match c with Gt => false | _ => true end.

Definition sort_purls (l : list string) : list string :=
  sort_by (fun a b => is_le (String.compare a b)) l.

Definition sort_entry (e : PkgData) : PkgData :=
  {| d_name := d_name e; d_purl := d_purl e;
     d_dependencies := sort_purls (d_dependencies e);
     d_sources := sort_purls (d_sources e) |}.

Definition deep_sort_icm (icm : ICM) : ICM :=
  {| metadata := metadata icm;
     image_contents :=
       sort_by (fun a b => is_le (PkgData_compare a b))
         (List.map sort_entry (image_contents icm)) |}.

(** ** The methods of [ContentManifest] *)

Section Manifest.

(** Python's built-in [hash] on the identity tuple of a package. *)
Variable py_hash : identity -> Z.

Context {codec : PurlCodec}.

(** [Package.__hash__] *)
Definition Package_hash (p : Package) : Z := py_hash (Package_identity p).

(** A dictionary lookup with key [a] stops at a slot whose stored hash is
    the hash of [a] and whose key is the same object as [a] or equal to
    it. *)
Definition slot_matches {V} (h : addr -> Package) (a : addr) (s : slot V) : bool :=
  Z.eqb (slot_hash s) (Package_hash (h a))
  && (Nat.eqb (slot_key s) a || Package_eq (h (slot_key s)) (h a)).

Fixpoint pdict_get {V} (h : addr -> Package) (a : addr) (d : pdict V) : option V :=
  match d with
  | [] => None
  | s :: d' => if slot_matches h a s then Some (slot_val s) else pdict_get h a d'
  end.

(** [d.setdefault(a, v)] *)
Definition pdict_setdefault {V} (h : addr -> Package) (a : addr) (v : V) (d : pdict V)
  : pdict V :=
  match pdict_get h a d with
  | Some _ => d
  | None => d ++ [mkSlot (Package_hash (h a)) a v]
  end.

(** The position of the slot a lookup with key [a] stops at. *)
Fixpoint pdict_index {V} (h : addr -> Package) (a : addr) (d : pdict V) : option nat :=
  match d with
  | [] => None
  | s :: d' => if slot_matches h a s then Some 0 else option_map S (pdict_index h a d')
  end.

(** Every key of the dictionary is found in its own slot: the stored
    hashes are those of the keys, and no two keys are equal. *)
Definition findable {V} (h : addr -> Package) (d : pdict V) : Prop :=
  forall i s, List.nth_error d i = Some s -> pdict_index h (slot_key s) d = Some i.

(** In-place change of the value [d[a]]; [None] is the [KeyError]. *)
Fixpoint pdict_update {V} (h : addr -> Package) (a : addr) (f : V -> V) (d : pdict V)
  : option (pdict V) :=
  match d with
  | [] => None
  | s :: d' =>
      if slot_matches h a s
      then Some (mkSlot (slot_hash s) (slot_key s) (f (slot_val s)) :: d')
      else option_map (cons s) (pdict_update h a f d')
  end.

(** [self.<f>[a][...]] changed in place by [g]. *)
Definition update_entry (f : field) (a : addr) (g : PkgData -> PkgData) : M unit :=
  h <- get_heap ;;
  cm <- get_self ;;
  match pdict_update h a g (get_field f cm) with
  | Some d => modify_self (set_field f d)
  | None => raise KeyError
  end.

(** [self.<f>.setdefault(a, v)] *)
Definition setdefault_entry (f : field) (a : addr) (v : PkgData) : M unit :=
  h <- get_heap ;;
  modify_self (fun cm => set_field f (pdict_setdefault h a v (get_field f cm)) cm).

Definition append_dependency (purl : string) (e : PkgData) : PkgData :=
  {| d_name := d_name e; d_purl := d_purl e;
     d_dependencies := d_dependencies e ++ [purl]; d_sources := d_sources e |}.

Definition append_source (purl : string) (e : PkgData) : PkgData :=
  {| d_name := d_name e; d_purl := d_purl e;
     d_dependencies := d_dependencies e; d_sources := d_sources e ++ [purl] |}.

Definition mod_append_dependency (purl : string) (e : ModData) : ModData :=
  {| m_purl := m_purl e; m_dependencies := m_dependencies e ++ [purl] |}.

(** The component of a package or dependency: the key version is set when
    the version is truthy. *)
Definition component_of (p : Package) (purl : string) : Component :=
  {| c_type := "library"; c_name := name p; c_purl := purl;
     c_version := if Py.truthy (version p) then version p else None |}.

Definition append_component (c : Component) : M unit :=
  modify_self (fun cm => set_sbom_components (_sbom_components cm ++ [c]) cm).

Definition version_text (p : Package) : string :=
  match version p with Some v => v | None => EmptyString end.

(** The [cached_property] [go_modules_by_name]: computed from
    [self.packages] at its first use, then remembered. *)
Definition compute_go_modules (h : addr -> Package) (pkgs : list addr) : sdict addr :=
  List.fold_left
    (fun acc a => if String.eqb (type (h a)) "gomod" then sdict_set (name (h a)) a acc else acc)
    pkgs [].

Definition go_modules_by_name : M (sdict addr) :=
  cm <- get_self ;;
  match go_modules_by_name_cache cm with
  | Some modules => ret modules
  | None =>
      h <- get_heap ;;
      let modules := compute_go_modules h (packages cm) in
      modify_self (set_cache (Some modules)) ;;;
      ret modules
  end.

(** [ContentManifest.process_gomod]; [mode] is the parameter [type]. *)
Definition process_gomod (package dependency : addr) (mode : string) : M unit :=
  dep <- deref dependency ;;
  if String.eqb (type dep) "gomod" then
    pkg <- deref package ;;
    gomod_data <- gets _gomod_data ;;
    parent_and_relpath <-
      (if Py.is_local (version dep) then
         let dep_normpath := Py.normpath (Py.path_join (name pkg) (version_text dep)) in
         let parent := match_parent_module dep_normpath (sdict_keys gomod_data) in
         if negb (sdict_mem (name dep) gomod_data) then
           match parent with
           | None => raise TypeError
           | Some parent_name =>
               match Py.relative_to dep_normpath parent_name with
               | None => raise (ValueError "not in the subpath")
               | Some rel => ret (parent, Some rel)
               end
           end
         else ret (parent, None)
       else ret (Some (name pkg), None)) ;;
    parent_purl <-
      match fst parent_and_relpath with
      | None => raise KeyError
      | Some parent_name =>
          match sdict_get parent_name gomod_data with
          | None => raise KeyError
          | Some m => ret (m_purl m)
          end
      end ;;
    dep_purl <- lift (to_purl dep (snd parent_and_relpath)) ;;
    let dep_purl := replace_parent_purl_placeholder dep_purl parent_purl in
    if String.eqb mode "icm" then
      match sdict_update (name pkg) (mod_append_dependency dep_purl) gomod_data with
      | None => raise KeyError
      | Some d => modify_self (set_gomod_data d)
      end
    else if String.eqb mode "sbom" then append_component (component_of dep dep_purl)
    else ret tt
  else ret tt.

(** [ContentManifest._get_local_go_package_dep_purl] *)
Definition _get_local_go_package_dep_purl (package dependency : addr) : M string :=
  dep <- deref dependency ;;
  if negb (Py.is_local (version dep)) then
    raise (ValueError (Package_repr dep +:+ " has an invalid version for a local dependency"))
  else
    modules <- go_modules_by_name ;;
    match match_parent_module (name dep) (sdict_keys modules) with
    | Some dep_module_name =>
        match sdict_get dep_module_name modules with
        | None => raise KeyError
        | Some module =>
            m <- deref module ;;
            assign_version dependency (version m) ;;;
            dep' <- deref dependency ;;
            lift (to_purl dep' None)
        end
    | None =>
        pkg <- deref package ;;
        match match_parent_module (name pkg) (sdict_keys modules) with
        | None =>
            raise (RuntimeError ("Could not find parent Go module for package: " +:+ name pkg))
        | Some package_module_name =>
            let dep_normpath :=
              Py.normpath (Py.path_join package_module_name (version_text dep)) in
            match match_parent_module dep_normpath (sdict_keys modules) with
            | None =>
                raise (RuntimeError
                         ("Could not find parent Go module for package: " +:+ dep_normpath))
            | Some dep_module_name =>
                match Py.relative_to dep_normpath dep_module_name with
                | None => raise (ValueError "not in the subpath")
                | Some rel =>
                    gomod_data <- gets _gomod_data ;;
                    match sdict_get dep_module_name gomod_data with
                    | None => raise KeyError
                    | Some m =>
                        dep_purl <- lift (to_purl dep (Some rel)) ;;
                        ret (replace_parent_purl_placeholder dep_purl (m_purl m))
                    end
                end
            end
        end
    end.

(** [ContentManifest.process_go_package] *)
Definition process_go_package (package dependency : addr) (mode : string) : M unit :=
  dep <- deref dependency ;;
  if String.eqb (type dep) "go-package" then
    dep_purl <-
      (if Py.is_local (version dep)
       then _get_local_go_package_dep_purl package dependency
       else lift (to_purl dep None)) ;;
    if String.eqb mode "icm" then
      update_entry F_gopkg package (append_dependency dep_purl)
    else if String.eqb mode "sbom" then
      dep' <- deref dependency ;;
      append_component (component_of dep' dep_purl)
    else ret tt
  else ret tt.

(** [ContentManifest._process_standard_package] *)
Definition _process_standard_package (pkg_type : string) (package dependency : addr)
  : M unit :=
  match field_of_type pkg_type with
  | None => raise AttributeError
  | Some f =>
      dep <- deref dependency ;;
      purl <- lift (to_purl dep None) ;;
      update_entry f package (append_source purl) ;;;
      if negb (dev dep) then update_entry f package (append_dependency purl)
      else ret tt
  end.

(** [ContentManifest._process_standard_package_sbom] *)
Definition _process_standard_package_sbom (dependency : addr) : M unit :=
  dep <- deref dependency ;;
  purl <- lift (to_purl dep None) ;;
  append_component (component_of dep purl).

(** [process_npm_package], [process_pip_package] and
    [process_yarn_package] differ in the type string only. *)
Definition process_standard (t : string) (package dependency : addr) (mode : string)
  : M unit :=
  dep <- deref dependency ;;
  if String.eqb (type dep) t then
    if String.eqb mode "icm" then _process_standard_package t package dependency
    else if String.eqb mode "sbom" then _process_standard_package_sbom dependency
    else ret tt
  else ret tt.

Definition process_npm_package := process_standard "npm".
Definition process_pip_package := process_standard "pip".
Definition process_yarn_package := process_standard "yarn".

(** [ContentManifest.process_rubygems_package] *)
Definition process_rubygems_package (package dependency : addr) (mode : string) : M unit :=
  dep <- deref dependency ;;
  if String.eqb (type dep) "rubygems" then
    rq <- gets request ;;
    let parent_package_name := Py.last_segment (get_repo_name (repo rq)) in
    parent_purl <-
      lift (to_vcs_purl parent_package_name (repo rq) (ref rq)) ;;
    pkg <- deref package ;;
    dep_purl <- lift (to_purl dep (path pkg)) ;;
    let dep_purl := replace_parent_purl_placeholder dep_purl parent_purl in
    if String.eqb mode "icm" then
      update_entry F_rubygems package (append_source dep_purl) ;;;
      update_entry F_rubygems package (append_dependency dep_purl)
    else if String.eqb mode "sbom" then append_component (component_of dep dep_purl)
    else ret tt
  else ret tt.

Definition pop_name (e : PkgData) : PkgData :=
  {| d_name := None; d_purl := d_purl e;
     d_dependencies := d_dependencies e; d_sources := d_sources e |}.

Definition assign_sources (l : list string) (e : PkgData) : PkgData :=
  {| d_name := d_name e; d_purl := d_purl e;
     d_dependencies := d_dependencies e; d_sources := l |}.

Definition slot_map {V} (g : V -> V) (s : slot V) : slot V :=
  mkSlot (slot_hash s) (slot_key s) (g (slot_val s)).

Fixpoint update_nth {A} (n : nat) (g : A -> A) (l : list A) : list A :=
  match l, n with
  | [], _ => []
  | x :: l', O => g x :: l'
  | x :: l', S n' => x :: update_nth n' g l'
  end.

(** The body of the loop of [set_go_package_sources] for the [i]-th item
    of [self._gopkg_data]: [pkg_data] is the value of that item, while the
    sources are assigned through a lookup of its key. *)
Definition set_sources_at (i : nat) : M unit :=
  item <- gets (fun cm => List.nth_error (_gopkg_data cm) i) ;;
  gomod_data <- gets _gomod_data ;;
  match item with
  | None => ret tt
  | Some s =>
      match d_name (slot_val s) with
      | None => raise KeyError
      | Some pkg_name =>
          modify_self
            (fun cm => set_field F_gopkg (update_nth i (slot_map pop_name) (_gopkg_data cm)) cm) ;;;
          let module_name :=
            if sdict_mem pkg_name gomod_data then Some pkg_name
            else match_parent_module pkg_name (sdict_keys gomod_data) in
          match module_name with
          | Some module_name =>
              match sdict_get module_name gomod_data with
              | None => raise KeyError
              | Some module =>
                  update_entry F_gopkg (slot_key s) (assign_sources (m_dependencies module))
              end
          | None =>
              emit (LogWarning "Could not find a Go module for %s" (d_purl (slot_val s)))
          end
      end
  end.

(** [ContentManifest.set_go_package_sources] *)
Definition set_go_package_sources : M unit :=
  n <- gets (fun cm => List.length (_gopkg_data cm)) ;;
  for_each (List.seq 0 n) set_sources_at.

(** [ContentManifest.generate_icm] *)
Definition generate_icm (contents : list PkgData) : ICM :=
  deep_sort_icm {| metadata := metadata BASE_ICM; image_contents := contents |}.

Definition new_entry (nm : option string) (purl : string) : PkgData :=
  {| d_name := nm; d_purl := purl; d_dependencies := []; d_sources := [] |}.

Definition new_module (purl : string) : ModData :=
  {| m_purl := purl; m_dependencies := [] |}.

Definition setdefault_module (nm : string) (purl : string) : M unit :=
  modify_self (fun cm => set_gomod_data (sdict_setdefault nm (new_module purl) (_gomod_data cm)) cm).

(** The body of the first loop of [to_json]. *)
Definition seed_icm (package : addr) : M unit :=
  pkg <- deref package ;;
  rq <- gets request ;;
  if String.eqb (type pkg) "go-package" then
    purl <- lift (to_top_level_purl pkg rq (path pkg)) ;;
    setdefault_entry F_gopkg package (new_entry (Some (name pkg)) purl)
  else if String.eqb (type pkg) "gomod" then
    purl <- lift (to_top_level_purl pkg rq (path pkg)) ;;
    setdefault_module (name pkg) purl
  else
    match field_of_type (type pkg) with
    | Some f =>
        purl <- lift (to_top_level_purl pkg rq (path pkg)) ;;
        setdefault_entry f package (new_entry None purl)
    | None =>
        if String.eqb (type pkg) "git-submodule" then
          purl <- lift (to_top_level_purl pkg rq (path pkg)) ;;
          setdefault_entry F_gitsubmodule package (new_entry None purl)
        else emit (LogDebug "No ICM implementation for '%s' packages" (type pkg))
    end.

(** The body of the inner loop of [to_json] and of [sbom_components_list]:
    the processor is chosen by the type of the owning package. *)
Definition process_dependency (mode : string) (package dependency : addr) : M unit :=
  pkg <- deref package ;;
  if String.eqb (type pkg) "go-package" then process_go_package package dependency mode
  else if String.eqb (type pkg) "gomod" then process_gomod package dependency mode
  else if String.eqb (type pkg) "npm" then process_npm_package package dependency mode
  else if String.eqb (type pkg) "pip" then process_pip_package package dependency mode
  else if String.eqb (type pkg) "yarn" then process_yarn_package package dependency mode
  else if String.eqb (type pkg) "rubygems" then process_rubygems_package package dependency mode
  else ret tt.

Definition process_package (mode : string) (package : addr) : M unit :=
  pkg <- deref package ;;
  for_each (dependencies pkg) (process_dependency mode package).

Definition reset_icm_maps (cm : ContentManifest) : ContentManifest :=
  {| request := request cm; packages := packages cm;
     _gopkg_data := []; _gomod_data := []; _npm_data := []; _pip_data := [];
     _yarn_data := []; _rubygems_data := []; _gitsubmodule_data := [];
     _sbom_components := _sbom_components cm;
     go_modules_by_name_cache := go_modules_by_name_cache cm |}.

Definition top_level_packages (cm : ContentManifest) : list PkgData :=
  pdict_values (_gopkg_data cm) ++ pdict_values (_npm_data cm)
  ++ pdict_values (_pip_data cm) ++ pdict_values (_yarn_data cm)
  ++ pdict_values (_rubygems_data cm) ++ pdict_values (_gitsubmodule_data cm).

(** [ContentManifest.to_json] *)
Definition to_json : M ICM :=
  modify_self reset_icm_maps ;;;
  pkgs <- gets packages ;;
  for_each pkgs seed_icm ;;;
  for_each pkgs (process_package "icm") ;;;
  set_go_package_sources ;;;
  gets (fun cm => generate_icm (top_level_packages cm)).

Definition sbom_supported (t : string) : bool :=
  String.eqb t "go-package" || String.eqb t "gomod" || String.eqb t "npm"
  || String.eqb t "pip" || String.eqb t "yarn" || String.eqb t "rubygems"
  || String.eqb t "git-submodule".

(** The body of the first loop of [sbom_components_list]. *)
Definition seed_sbom (package : addr) : M unit :=
  pkg <- deref package ;;
  rq <- gets request ;;
  if sbom_supported (type pkg) then
    purl <- lift (to_top_level_purl pkg rq (path pkg)) ;;
    (if String.eqb (type pkg) "gomod" then setdefault_module (name pkg) purl else ret tt) ;;;
    append_component (component_of pkg purl)
  else emit (LogDebug "No SBOM implementation for '%s' packages" (type pkg)).

Definition reset_sbom (cm : ContentManifest) : ContentManifest :=
  set_gomod_data [] (set_sbom_components [] cm).

(** [ContentManifest.sbom_components_list] *)
Definition sbom_components_list : M (list Component) :=
  modify_self reset_sbom ;;;
  pkgs <- gets packages ;;
  for_each pkgs seed_sbom ;;;
  for_each pkgs (process_package "sbom") ;;;
  gets _sbom_components.

End Manifest.

(** A new instance for a request and a list of packages, in a store. *)
Definition fresh (h : addr -> Package) (rq : Request) (pkgs : list addr) : World :=
  {| heap := h; self := init rq pkgs; log := [] |}.

(** A store from a list of objects; addresses past the list hold an
    object that no package refers to. *)
Definition store (objs : list Package) : addr -> Package :=
  fun a => List.nth a objs (mkPackage EmptyString EmptyString None false [] None).

(** The two entry points, and what a call gives back. *)
Inductive call := ToJson | SbomComponentsList.

Inductive outcome :=
| JsonOutcome (r : result ICM)
| SbomOutcome (r : result (list Component)).

Section Calls.

Variable py_hash : identity -> Z.
Context {codec : PurlCodec}.

Definition run_call (c : call) (w : World) : World * outcome :=
  match c with
  | ToJson => (fst (to_json py_hash w), JsonOutcome (snd (to_json py_hash w)))
  | SbomComponentsList =>
      (fst (sbom_components_list py_hash w), SbomOutcome (snd (sbom_components_list py_hash w)))
  end.

(** The world after a sequence of calls on the instance. *)
Definition run_calls (cs : list call) (w : World) : World :=
  List.fold_left (fun w c => fst (run_call c w)) cs w.

(** The purl of a go-package dependency, as [process_go_package] computes
    it. *)
Definition go_dependency_purl (package dependency : addr) : M string :=
  dep <- deref dependency ;;
  if Py.is_local (version dep)
  then _get_local_go_package_dep_purl package dependency
  else lift (to_purl dep None).

(** What [process_go_package] does with the purl. *)
Definition go_package_continuation (mode : string) (package dependency : addr)
           (dep_purl : string) : M unit :=
  if String.eqb mode "icm" then
    update_entry py_hash F_gopkg package (append_dependency dep_purl)
  else if String.eqb mode "sbom" then
    dep' <- deref dependency ;;
    append_component (component_of dep' dep_purl)
  else ret tt.

End Calls.

(** ** A model of the purl functions

    The theorems below hold for every [PurlCodec] and every hash function.
    The examples run the methods with the codec of this module. *)

Module PurlModel.

Definition PARENT_PURL_PLACEHOLDER : string := "PARENT_PURL".

Definition hex_digit (n : nat) : ascii :=
  List.nth n (list_ascii_of_string "0123456789ABCDEF") "0"%char.

Definition is_unreserved (c : ascii) : bool :=
  let n := nat_of_ascii c in
  (Nat.leb 65 n && Nat.leb n 90) || (Nat.leb 97 n && Nat.leb n 122)
  || (Nat.leb 48 n && Nat.leb n 57)
  || Ascii.eqb c "_" || Ascii.eqb c "." || Ascii.eqb c "-" || Ascii.eqb c "~".

(** [urllib.parse.quote(s, safe="")] on ASCII text. *)
Fixpoint quote (s : string) : string :=
  match s with
  | EmptyString => EmptyString
  | String c s' =>
      if is_unreserved c then String c (quote s')
      else
        let n := nat_of_ascii c in
        String "%" (String (hex_digit (n / 16)) (String (hex_digit (n mod 16)) (quote s')))
  end.

(** [s.replace(old, new)] for a non-empty [old]; [skip] counts the
    characters of a match still to be dropped. *)
Fixpoint replace_from (old new : string) (skip : nat) (s : string) : string :=
  match s with
  | EmptyString => EmptyString
  | String c s' =>
      match skip with
      | S k => replace_from old new k s'
      | O =>
          if String.prefix old s
          then new +:+ replace_from old new (String.length old - 1) s'
          else String c (replace_from old new 0 s')
      end
  end.

Definition str_replace (s old new : string) : string := replace_from old new 0 s.

Fixpoint contains_char (c : ascii) (s : string) : bool :=
  match s with
  | EmptyString => false
  | String c' s' => Ascii.eqb c c' || contains_char c s'
  end.

(** The placeholder purl of a local dependency, with the relative path as
    its subpath when one is given. *)
Definition placeholder_purl (relative_path : option string) : string :=
  match relative_path with
  | Some rel => PARENT_PURL_PLACEHOLDER +:+ "#" +:+ rel
  | None => PARENT_PURL_PLACEHOLDER
  end.

Definition undefined_purl (t : string) : exn :=
  ContentManifestError ("The PURL spec is not defined for " +:+ t +:+ " packages").

Definition unmodelled_version (v : string) : exn :=
  ContentManifestError ("Could not convert version " +:+ v +:+ " to purl").

(** Modelled from the spec: [to_purl] of [cachito.web.purl], for Go
    packages and modules in full and for npm, yarn and rubygems packages
    with a registry version or a local path.  Versions that name a URL, a
    forge or a file, and the types pip and git-submodule, need the URL
    parsing of the original and are answered here by an error. *)
Definition model_to_purl (p : Package) (relative_path : option string) : result string :=
  let t := type p in
  if String.eqb t "gomod" || String.eqb t "go-package" then
    if negb (Py.truthy (version p)) then Ok ("pkg:golang/" +:+ quote (name p))
    else if Py.is_local (version p) then Ok (placeholder_purl relative_path)
    else Ok ("pkg:golang/" +:+ quote (name p) +:+ "@" +:+ version_text p)
  else if String.eqb t "npm" || String.eqb t "yarn" then
    if contains_char ":" (version_text p) then Raise (unmodelled_version (version_text p))
    else Ok ("pkg:npm/" +:+ str_replace (name p) "@" "%40" +:+ "@" +:+ version_text p)
  else if String.eqb t "rubygems" then
    if Py.is_local (version p) then Ok (placeholder_purl relative_path)
    else if contains_char ":" (version_text p) then Raise (unmodelled_version (version_text p))
    else Ok ("pkg:gem/" +:+ name p +:+ "@" +:+ version_text p)
  else Raise (undefined_purl t).

(** The text after the first occurrence of [sep] in [s], or [s] itself. *)
Definition after (sep s : string) : string :=
  match String.index 0 sep s with
  | Some i => String.substring (i + String.length sep) (String.length s) s
  | None => s
  end.

Definition before (sep s : string) : string :=
  match String.index 0 sep s with
  | Some i => String.substring 0 i s
  | None => s
  end.

Definition strip_suffix (suffix s : string) : string :=
  let n := String.length s - String.length suffix in
  if String.eqb (String.substring n (String.length suffix) s) suffix
  then String.substring 0 n s else s.

(** Host and path of a repository URL, without credentials, port, a
    trailing slash and a trailing [.git]. *)
Definition url_host (url : string) : string :=
  let authority := before "/" (after "://" url) in
  before ":" (if contains_char "@" authority then after "@" authority else authority).

Definition url_path (url : string) : string :=
  let rest := after "://" url in
  let p := if contains_char "/" rest then after "/" rest else EmptyString in
  strip_suffix ".git" (strip_suffix "/" p).

(** Modelled from the spec: [to_vcs_purl]. *)
Definition model_to_vcs_purl (nm repo_url rf : string) : result string :=
  let host := url_host repo_url in
  if String.eqb host "github.com" then Ok ("pkg:github/" +:+ url_path repo_url +:+ "@" +:+ rf)
  else if String.eqb host "bitbucket.org"
  then Ok ("pkg:bitbucket/" +:+ url_path repo_url +:+ "@" +:+ rf)
  else Ok ("pkg:generic/" +:+ nm +:+ "?vcs_url="
           +:+ quote (strip_suffix "/" repo_url +:+ "@" +:+ rf)).

(** Modelled from the spec: [get_repo_name], the path of the repository
    URL. *)
Definition model_get_repo_name (url : string) : string := url_path url.

(** Modelled from the spec: [to_top_level_purl]. *)
Definition model_to_top_level_purl (p : Package) (rq : Request) (subpath : option string)
  : result string :=
  let t := type p in
  if String.eqb t "gomod" || String.eqb t "go-package" || String.eqb t "git-submodule"
  then model_to_purl p None
  else if String.eqb t "npm" || String.eqb t "pip" || String.eqb t "yarn"
          || String.eqb t "rubygems" then
    match model_to_vcs_purl (Py.last_segment (model_get_repo_name (repo rq))) (repo rq) (ref rq) with
    | Ok purl =>
        Ok (match subpath with Some sp => purl +:+ "#" +:+ sp | None => purl end)
    | Raise e => Raise e
    end
  else Raise (ContentManifestError ("'" +:+ t +:+ "' is not a valid top level package")).

(** Modelled from the spec: [replace_parent_purl_placeholder]. *)
Definition model_replace_parent_purl_placeholder (dep_purl parent_purl : string) : string :=
  str_replace dep_purl PARENT_PURL_PLACEHOLDER parent_purl.

#[global] Instance codec : PurlCodec := {
  to_purl := model_to_purl;
  to_top_level_purl := model_to_top_level_purl;
  to_vcs_purl := model_to_vcs_purl;
  replace_parent_purl_placeholder := model_replace_parent_purl_placeholder;
  get_repo_name := model_get_repo_name
}.

(** A hash of the identity tuple: the characters of its fields, folded. *)
Definition string_hash (s : string) : Z :=
  List.fold_left (fun acc c => (acc * 31 + Z.of_nat (nat_of_ascii c))%Z)
    (list_ascii_of_string s) 7%Z.

Definition tuple_hash (i : identity) : Z :=
  match i with
  | (n, t, v, d) =>
      (string_hash n * 1000003 + string_hash t * 10007
       + match v with Some s => string_hash s * 101 + 1 | None => 0 end
       + if d then 1 else 0)%Z
  end.

Definition GIT_REPO : string := "https://github.com/namespace/repo".
Definition GIT_REF : string := "1798a59f297f5f3886e41bc054e538540581f8ce".
Definition default_request : Request := {| repo := GIT_REPO; ref := GIT_REF |}.

End PurlModel.


(** ** Packages from JSON *)

(** The dictionary [Package.from_json] reads.  A key is present or not;
    the values of version and path may be null.  Other keys are not
    read. *)
#[warnings="-register-all"] Inductive PackageJson :=
| mkPackageJson (j_name j_type : option string) (j_version : option (option string))
    (j_dev : option bool) (j_path : option (option string))
    (j_dependencies : option (list PackageJson)).

(** The Package objects made so far, in the order they were made: the
    address of an object is its position. *)
Definition objects := list Package.

Section LoadAll.

Variable load_one : PackageJson -> objects -> result (addr * objects).

(** A list comprehension over [load_one]: the first exception ends it. *)
Fixpoint load_all (l : list PackageJson) (objs : objects) : result (list addr * objects) :=
  match l with
  | [] => Ok ([], objs)
  | j :: l' =>
      match load_one j objs with
      | Raise e => Raise e
      | Ok (a, objs1) =>
          match load_all l' objs1 with
          | Raise e => Raise e
          | Ok (rest, objs2) => Ok (a :: rest, objs2)
          end
      end
  end.

End LoadAll.

(** [Package.__init__] on the keyword arguments [from_json] passes: the
    new object is the last of the objects. *)
Definition new_package (nm ty : string) (ver : option string) (dv : bool)
    (deps : list addr) (pth : option string) (objs : objects) : addr * objects :=
  (List.length objs, objs ++ [mkPackage nm ty ver dv deps pth]).

(** [Package.from_json]: the dependencies are converted first, then the
    keys name, type and version are read, each with a [KeyError] when it is
    missing; dev defaults to false, path to [None], dependencies to the empty
    list. *)
Fixpoint from_json (package : PackageJson) (objs : objects) : result (addr * objects) :=
  match package with
  | mkPackageJson nm ty ver dv pth deps =>
      match
        match deps with
        | Some l => load_all from_json l objs
        | None => Ok ([], objs)
        end
      with
      | Raise e => Raise e
      | Ok (dependencies, objs1) =>
          match nm, ty, ver with
          | Some nm, Some ty, Some ver =>
              Ok (new_package nm ty ver
                    (match dv with Some b => b | None => false end)
                    dependencies
                    (match pth with Some p => p | None => None end) objs1)
          | _, _, _ => Raise KeyError
          end
      end
  end.

(** [_load_packages_from_json] of the tests. *)
Definition _load_packages_from_json (packages_json : list PackageJson) (objs : objects)
  : result (list addr * objects) :=
  load_all from_json packages_json objs.
(** ** Vocabulary of the properties *)

(** The Go modules of a list of packages, by name. *)
Definition go_modules (h : addr -> Package) (pkgs : list addr) : sdict addr :=
  compute_go_modules h pkgs.

(** What the object at [a] becomes when it is processed as a local
    dependency of a go-package: when its type is go-package, its version
    starts with a dot and its name has a parent module among the Go modules
    of the list, its version is replaced by the version of that module. *)
Definition resolution (h : addr -> Package) (pkgs : list addr) (a : addr) : option Package :=
  if String.eqb (type (h a)) "go-package" && Py.is_local (version (h a)) then
    match match_parent_module (name (h a)) (sdict_keys (go_modules h pkgs)) with
    | Some m =>
        match sdict_get m (go_modules h pkgs) with
        | Some module => Some (set_version (version (h module)) (h a))
        | None => None
        end
    | None => None
    end
  else None.

(** The object at [a] as the dependency loops leave it. *)
Definition resolved (h : addr -> Package) (pkgs : list addr) (a : addr) : Package :=
  match resolution h pkgs a with
  | Some p => p
  | None => h a
  end.

(** [a] is a dependency of a go-package of the list. *)
Definition go_package_dependency (h : addr -> Package) (pkgs : list addr) (a : addr) : Prop :=
  exists p, In p pkgs /\ type (h p) = "go-package" /\ In a (dependencies (h p)).

(** A store [h'] reached from [h]: every object is as it was, or is a
    dependency of a go-package of the list and has been resolved. *)
Definition evolved (h : addr -> Package) (pkgs : list addr) (h' : addr -> Package) : Prop :=
  forall a, h' a = h a
            \/ (go_package_dependency h pkgs a /\ resolution h pkgs a = Some (h' a)).

(** The remembered value of [go_modules_by_name], if any, is the one the
    property computes. *)
Definition cache_ok (w : World) : Prop :=
  go_modules_by_name_cache (self w) = None
  \/ go_modules_by_name_cache (self w) = Some (go_modules (heap w) (packages (self w))).

(** A call keeps a property of the world when the property holds after the
    call whenever it held before, whether the call returns or raises. *)
Definition keeps {A} (I : World -> Prop) (m : M A) : Prop :=
  forall w, I w -> I (fst (m w)).

(** A property that looks at the store, the packages, the request and the
    remembered modules only. *)
Definition view_stable (I : World -> Prop) : Prop :=
  forall w w',
    heap w' = heap w -> packages (self w') = packages (self w) ->
    request (self w') = request (self w) ->
    go_modules_by_name_cache (self w') = go_modules_by_name_cache (self w) ->
    I w -> I w'.

(** The state of a call on an instance for the packages [pkgs] that started
    in the store [h]. *)
Definition call_inv (h : addr -> Package) (pkgs : list addr) (w : World) : Prop :=
  evolved h pkgs (heap w)
  /\ packages (self w) = pkgs
  /\ (go_modules_by_name_cache (self w) = None
      \/ go_modules_by_name_cache (self w) = Some (go_modules h pkgs)).

(** Two worlds with the same instance fields and log, up to the remembered
    modules. *)
Definition same_fields (w w' : World) : Prop :=
  self w' = set_cache (go_modules_by_name_cache (self w')) (self w) /\ log w' = log w.

(** What the properties say of an SBOM component: its type, its name and
    its version, [None] when the key version is absent. *)
Definition shape : Type := string * string * option string.

Definition component_shape (c : Component) : shape := (c_type c, c_name c, c_version c).

(** The shape of the component of a package or dependency: a library with
    the name of the package, and with its version when that is set and not
    empty. *)
Definition shape_of (p : Package) : shape :=
  ("library", name p, if Py.truthy (version p) then version p else None).

Definition sbom_shapes (w : World) : list shape :=
  List.map component_shape (_sbom_components (self w)).

(** One component for each package of a supported type, in the order of
    the list. *)
Definition top_level_shapes (h : addr -> Package) (pkgs : list addr) : list shape :=
  List.map (fun a => shape_of (h a))
    (List.filter (fun a => sbom_supported (type (h a))) pkgs).

(** The types whose dependencies are processed. *)
Definition has_processor (t : string) : bool :=
  String.eqb t "go-package" || String.eqb t "gomod" || String.eqb t "npm"
  || String.eqb t "pip" || String.eqb t "yarn" || String.eqb t "rubygems".

(** The component of the dependency [d] of the package [p]: one when [d]
    has the type of [p] and that type is processed, with the version [d]
    has once it is resolved. *)
Definition dependency_shape (h : addr -> Package) (pkgs : list addr) (p d : addr)
  : list shape :=
  if has_processor (type (h p)) && String.eqb (type (h d)) (type (h p))
  then [shape_of (resolved h pkgs d)] else [].

(** The components of the dependencies, in the order they are met. *)
Definition dependency_shapes (h : addr -> Package) (pkgs : list addr) : list shape :=
  List.flat_map
    (fun p => List.flat_map (dependency_shape h pkgs p) (dependencies (h p))) pkgs.

(** The first of each group of equal packages of [l], in the order of
    [l], after those of [acc]. *)
Definition distinct_from (h : addr -> Package) (acc l : list addr) : list addr :=
  List.fold_left
    (fun acc a => if List.existsb (fun b => Package_eq (h b) (h a)) acc then acc else acc ++ [a])
    l acc.

Definition distinct_packages (h : addr -> Package) (l : list addr) : list addr :=
  distinct_from h [] l.

Definition packages_of_type (h : addr -> Package) (t : string) (pkgs : list addr)
  : list addr :=
  List.filter (fun a => String.eqb (type (h a)) t) pkgs.

(** The package type kept in each dictionary of entries. *)
Definition field_type (f : field) : string :=
  match f with
  | F_gopkg => "go-package"
  | F_npm => "npm"
  | F_pip => "pip"
  | F_yarn => "yarn"
  | F_rubygems => "rubygems"
  | F_gitsubmodule => "git-submodule"
  end.

Definition icm_fields : list field :=
  [F_gopkg; F_npm; F_pip; F_yarn; F_rubygems; F_gitsubmodule].

(** The packages with an entry in [image_contents]: for each of the types
    go-package, npm, pip, yarn, rubygems and git-submodule, the distinct
    packages of that type. *)
Definition icm_packages (h : addr -> Package) (pkgs : list addr) : list addr :=
  List.flat_map (fun f => distinct_packages h (packages_of_type h (field_type f) pkgs))
    icm_fields.

(** Key and purl of the slots of a dictionary of entries. *)
Definition skeleton (d : pdict PkgData) : list (addr * string) :=
  List.map (fun s => (slot_key s, d_purl (slot_val s))) d.

(** The keys of a dictionary of entries. *)
Definition pdict_keys (d : pdict PkgData) : list addr := List.map slot_key d.

(** The Go module that owns a go-package: the module of the same name, or
    failing that the longest parent module of the name. *)
Definition owning_module (pkg_name : string) (gomod : sdict ModData) : option ModData :=
  match sdict_get pkg_name gomod with
  | Some m => Some m
  | None =>
      match match_parent_module pkg_name (sdict_keys gomod) with
      | Some module_name => sdict_get module_name gomod
      | None => None
      end
  end.

(** The entry of a go-package after [set_go_package_sources]: the name is
    gone, and the sources are the dependencies of the owning module when
    there is one. *)
Definition with_sources (gomod : sdict ModData) (e : PkgData) : PkgData :=
  match d_name e with
  | Some n =>
      match owning_module n gomod with
      | Some m => assign_sources (m_dependencies m) (pop_name e)
      | None => pop_name e
      end
  | None => e
  end.

(** The warning for an entry without an owning module. *)
Definition missing_module_warning (gomod : sdict ModData) (s : slot PkgData)
  : list log_record :=
  match d_name (slot_val s) with
  | Some n =>
      match owning_module n gomod with
      | Some _ => []
      | None => [LogWarning "Could not find a Go module for %s" (d_purl (slot_val s))]
      end
  | None => []
  end.

(** The value of [self.go_modules_by_name] in a world: the remembered
    one, or the one computed from the packages. *)
Definition known_modules (w : World) : sdict addr :=
  match go_modules_by_name_cache (self w) with
  | Some modules => modules
  | None => compute_go_modules (heap w) (packages (self w))
  end.

(** The path of a local dependency under the module of its package. *)
Definition local_path (package_module_name : string) (dep : Package) : string :=
  Py.normpath (Py.path_join package_module_name (version_text dep)).

(** No package of the list is also a dependency of a go-package of the
    list whose version the calls overwrite. *)
Definition no_alias (h : addr -> Package) (pkgs : list addr) : Prop :=
  forall a, In a pkgs -> go_package_dependency h pkgs a -> resolution h pkgs a = None.

(** Two worlds of calls on instances for the same request and packages that
    started in the store [h]: the working state the mode uses is the
    same, and the dictionaries of entries are keyed by packages of the
    list. *)
Definition related (h : addr -> Package) (pkgs : list addr) (mode : string)
           (wA wB : World) : Prop :=
  call_inv h pkgs wA /\ call_inv h pkgs wB
  /\ request (self wA) = request (self wB)
  /\ _gomod_data (self wA) = _gomod_data (self wB)
  /\ (mode = "icm" ->
      forall f, get_field f (self wA) = get_field f (self wB)
                /\ Forall (fun s => In (slot_key s) pkgs) (get_field f (self wA)))
  /\ (mode = "sbom" -> _sbom_components (self wA) = _sbom_components (self wB)).

(** A world with the store [h] and nothing but the Go module data [gm]. *)
Definition canonical (h : addr -> Package) (rq : Request) (pkgs : list addr)
           (gm : sdict ModData) : World :=
  {| heap := h; self := set_gomod_data gm (init rq pkgs); log := [] |}.

(** A computation respects a relation between worlds when, run in two
    related worlds, it gives the same result and leaves related worlds. *)
Definition respects {A} (R : World -> World -> Prop) (m : M A) : Prop :=
  forall wA wB, R wA wB ->
    R (fst (m wA)) (fst (m wB)) /\ snd (m wA) = snd (m wB).

(** ** The working maps during a call *)

(** The keys and purls of the entries of every working map are those of
    [sk]. *)
Definition skel (sk : field -> list (addr * string)) (w : World) : Prop :=
  forall f, skeleton (get_field f (self w)) = sk f.

(** A slot as [setdefault] stores it in the first loop: the hash is the
    hash of its key, and the purl is the top-level purl of its key. *)
Definition seeded_slot (py_hash : identity -> Z) {codec : PurlCodec}
    (h : addr -> Package) (rq : Request) (s : slot PkgData) : Prop :=
  slot_hash s = Package_hash py_hash (h (slot_key s))
  /\ to_top_level_purl (h (slot_key s)) rq (path (h (slot_key s))) = Ok (d_purl (slot_val s)).

Definition seeding (py_hash : identity -> Z) {codec : PurlCodec}
    (h : addr -> Package) (rq : Request) (w : World) : Prop :=
  heap w = h /\ request (self w) = rq
  /\ forall f, Forall (seeded_slot py_hash h rq) (get_field f (self w)).

(** The go-package map when the loop of [set_go_package_sources] has done
    its first [i] items. *)
Definition partial (gm : sdict ModData) (i : nat) (d : pdict PkgData) : pdict PkgData :=
  List.map (slot_map (with_sources gm)) (List.firstn i d) ++ List.skipn i d.

(** ** Inputs of the runs shown with the properties *)

Module Examples.

Import PurlModel.

Definition pkg (n t v : string) (deps : list addr) : Package :=
  mkPackage n t (Some v) false deps None.

(** The packages of [test_process_go_package_with_local_dep]: two Go
    modules, a go-package at address 2, and their dependencies. *)
Definition local_dep_store : addr -> Package :=
  store [ pkg "example.com/org/project" "gomod" "1.1.1" [3];
          pkg "example.com/org/project/foo" "gomod" "2.2.2" [];
          pkg "example.com/org/project" "go-package" "1.1.1" [4];
          pkg "example.com/org/project/foo" "gomod" "./foo" [];
          pkg "example.com/org/project/foo/package" "go-package" "./foo/package" [] ].

Definition local_dep_world : World := fresh local_dep_store default_request [0; 1; 2].

(** The packages of [test_process_go_package_with_local_dep_unprocessed_module]:
    the dependency at address 3 is local and under no module by its name. *)
Definition unprocessed_store : addr -> Package :=
  store [ pkg "example.com/org/project" "gomod" "1.1.1" [2];
          pkg "example.com/org/project" "go-package" "1.1.1" [3];
          pkg "example.com/otherorg/project/foo" "gomod" "./foo" [];
          pkg "example.com/otherorg/project/foo/package" "go-package" "./foo/package" [] ].

Definition unprocessed_world : World := fresh unprocessed_store default_request [0; 1].

(** The same instance after the first loop of [to_json]. *)
Definition unprocessed_seeded : World :=
  fst (for_each [0; 1] (seed_icm tuple_hash) unprocessed_world).

(** The instance of [local_dep_world] when [to_json] reaches
    [set_go_package_sources]. *)
Definition local_dep_processed : World :=
  fst (for_each [0; 1; 2] (process_package tuple_hash "icm")
         (fst (for_each [0; 1; 2] (seed_icm tuple_hash) local_dep_world))).

(** An npm package with a dev dependency and another one. *)
Definition npm_store : addr -> Package :=
  store [ pkg "app" "npm" "1.0.0" [1; 2];
          mkPackage "mocha" "npm" (Some "8.1.3") true [] None;
          pkg "@angular/core" "npm" "10.0.5" [] ].

Definition npm_world : World := fresh npm_store default_request [0].

Definition repo_purl : string := "pkg:github/namespace/repo@" +:+ GIT_REF.

(** A rubygems package in the subpath [sub], with a dev dependency. *)
Definition rubygems_store : addr -> Package :=
  store [ mkPackage "app" "rubygems" (Some "1.0.0") false [1] (Some "sub");
          mkPackage "rspec" "rubygems" (Some "3.9.0") true [] None ].

Definition rubygems_world : World := fresh rubygems_store default_request [0].

(** A Go module that lists a go-package among its dependencies. *)
Definition mixed_store : addr -> Package :=
  store [ pkg "example.com/org/project" "gomod" "1.1.1" [1];
          pkg "example.com/org/project/lib" "go-package" "2.2.2" [] ].

Definition mixed_world : World :=
  fst (for_each [0] (seed_icm tuple_hash) (fresh mixed_store default_request [0])).

(** The same Package object, at address 2, is in the list of packages and
    among the dependencies of the go-package at address 1. *)
Definition shared_store : addr -> Package :=
  store [ pkg "example.com/org/project" "gomod" "1.1.1" [];
          pkg "example.com/org/project" "go-package" "1.1.1" [2];
          pkg "example.com/org/project/lib" "go-package" "./lib" [] ].

Definition shared_world : World := fresh shared_store default_request [0; 1; 2].

(** Two go-packages of the list that become equal: the one at address 2
    is a dependency of the one at address 1 and has a local version, which
    [to_json] overwrites with the version of the module. *)
Definition overwritten_store : addr -> Package :=
  store [ pkg "example.com/org/project" "gomod" "1.1.1" [3];
          pkg "example.com/org/project/lib" "go-package" "1.1.1" [2];
          pkg "example.com/org/project/lib" "go-package" "./lib" [];
          pkg "example.com/anotherorg/project/lib" "gomod" "3.3.3" [] ].

Definition overwritten_world : World := fresh overwritten_store default_request [0; 1; 2].

(** The instance of [overwritten_world] when [to_json] reaches
    [set_go_package_sources]. *)
Definition overwritten_processed : World :=
  fst (for_each [0; 1; 2] (process_package tuple_hash "icm")
         (fst (for_each [0; 1; 2] (seed_icm tuple_hash) overwritten_world))).

(** A Go module without a version, and a go-package with a local
    dependency under it. *)
Definition unversioned_store : addr -> Package :=
  store [ mkPackage "example.com/org/project" "gomod" None false [] None;
          pkg "example.com/org/project" "go-package" "1.1.1" [2];
          pkg "example.com/org/project/lib" "go-package" "./lib" [] ].

Definition unversioned_world : World := fresh unversioned_store default_request [0; 1].

(** A go-package outside every module of the request, with a local
    dependency inside the module. *)
Definition foreign_store : addr -> Package :=
  store
    [pkg "example.com/org/project" "gomod" "1.1.1" [];
     pkg "other.com/tool" "go-package" "1.0.0" [2];
     pkg "example.com/org/project/lib" "go-package" "./lib" []].

Definition foreign_world : World := fresh foreign_store default_request [0; 1].

End Examples.

(** ** Vocabulary of the properties of single methods *)

(** The last Go module of the list with the name [n]. *)
Definition last_module (h : addr -> Package) (pkgs : list addr) (n : string) : option addr :=
  List.find (fun a => String.eqb (type (h a)) "gomod" && String.eqb (name (h a)) n)
    (List.rev pkgs).

(** What [to_json] leaves alone in an instance that was [cm0] before the
    call: the SBOM components, the request and the package list. *)
Definition outside_to_json (cm0 : ContentManifest) (w : World) : Prop :=
  _sbom_components (self w) = _sbom_components cm0
  /\ request (self w) = request cm0
  /\ packages (self w) = packages cm0.

(** What [sbom_components_list] leaves alone: the dictionaries of entries,
    the request and the package list. *)
Definition outside_sbom (cm0 : ContentManifest) (w : World) : Prop :=
  (forall f, get_field f (self w) = get_field f cm0)
  /\ request (self w) = request cm0
  /\ packages (self w) = packages cm0.

(** The debug records of the packages of the list whose type has no
    implementation, in the order of the list. *)
Definition unsupported_records (fmt : string) (h : addr -> Package) (pkgs : list addr)
  : list log_record :=
  List.map (fun a => LogDebug fmt (type (h a)))
    (List.filter (fun a => negb (sbom_supported (type (h a)))) pkgs).

(** The log [l] followed by warnings about go-packages without a module. *)
Definition with_warnings (l : list log_record) (w : World) : Prop :=
  exists purls,
    log w = l ++ List.map (LogWarning "Could not find a Go module for %s") purls.

(** The keys name, type and version are in the dictionary and in the
    dictionary of every dependency, at any depth. *)
Fixpoint complete (j : PackageJson) : bool :=
  match j with
  | mkPackageJson nm ty ver _ _ deps =>
      match nm, ty, ver with
      | Some _, Some _, Some _ => true
      | _, _, _ => false
      end
      && match deps with
         | Some l => List.forallb complete l
         | None => true
         end
  end.

Section All2.

Context {A B : Type} (R : A -> B -> Prop).

(** The lists have the same length and their items are related in
    order. *)
Fixpoint all2 (l1 : list A) (l2 : list B) {struct l2} : Prop :=
  match l2, l1 with
  | [], [] => True
  | y :: l2', x :: l1' => R x y /\ all2 l1' l2'
  | _, _ => False
  end.

End All2.

(** The object at [a] is the package the dictionary describes: name, type
    and version are the values of the keys, dev is the value of its key or
    false, path is the value of its key or [None], and the dependencies are
    objects that are, in order, the packages the dictionaries under the key
    dependencies describe. *)
Fixpoint represents (objs : objects) (a : addr) (j : PackageJson) {struct j} : Prop :=
  match j with
  | mkPackageJson nm ty ver dv pth deps =>
      match List.nth_error objs a with
      | None => False
      | Some p =>
          nm = Some (name p) /\ ty = Some (type p) /\ ver = Some (version p)
          /\ dev p = match dv with Some b => b | None => false end
          /\ path p = match pth with Some x => x | None => None end
          /\ match deps with
             | Some l => all2 (represents objs) (dependencies p) l
             | None => dependencies p = []
             end
      end
  end.

(** The object at [a] and, at any depth, the objects of its dependencies
    are not among the first [n] objects: each was made for this dictionary.
    The objects of the dependencies come before the object of their
    package, and no two dependencies of a package are the same object. *)
Fixpoint new_tree (n : nat) (objs : objects) (a : addr) (j : PackageJson) {struct j}
  : Prop :=
  match j with
  | mkPackageJson _ _ _ _ _ deps =>
      n <= a
      /\ match List.nth_error objs a with
         | None => False
         | Some p =>
             NoDup (dependencies p)
             /\ Forall (fun d => d < a) (dependencies p)
             /\ match deps with
                | Some l => all2 (new_tree n objs) (dependencies p) l
                | None => True
                end
         end
  end.

(** An induction principle for the dictionaries: the property holds of
    every dependency. *)
Fixpoint PackageJson_nested_ind (P : PackageJson -> Prop)
    (H : forall nm ty ver dv pth deps,
        match deps with Some l => Forall P l | None => True end ->
        P (mkPackageJson nm ty ver dv pth deps))
    (j : PackageJson) {struct j} : P j :=
  match j with
  | mkPackageJson nm ty ver dv pth deps =>
      H nm ty ver dv pth deps
        match deps with
        | Some l =>
            (fix all (l : list PackageJson) : Forall P l :=
               match l with
               | [] => Forall_nil P
               | x :: l' => Forall_cons x (PackageJson_nested_ind P H x) (all l')
               end) l
        | None => I
        end
  end.

(** What [from_json] makes: the objects so far are kept, the new package is
    the last object, and its dependencies are objects made for it. *)
Definition from_json_makes (j : PackageJson) : Prop :=
  forall objs a objs',
    from_json j objs = Ok (a, objs') ->
    exists new p,
      objs' = objs ++ new ++ [p]
      /\ a = List.length (objs ++ new)
      /\ represents objs' a j
      /\ new_tree (List.length objs) objs' a j
      /\ Forall (fun d => List.length objs <= d < a) (dependencies p).

(** ** Inputs of the runs shown with the properties of single methods *)

Module Runs.

Import PurlModel.
Import Examples.

(** Two Go modules with the same name. *)
Definition twin_store : addr -> Package :=
  store [ pkg "example.com/org/project" "gomod" "1.0.0" [];
          pkg "example.com/org/project" "gomod" "2.0.0" [] ].

Definition twin_world : World := fresh twin_store default_request [0; 1].

(** A Go module with a dependency on a module of another repository, after
    the first loop of [to_json]. *)
Definition gomod_store : addr -> Package :=
  store [ pkg "example.com/org/project" "gomod" "1.1.1" [1];
          pkg "example.com/anotherorg/project/lib" "gomod" "3.3.3" [] ].

Definition gomod_seeded : World :=
  fst (for_each [0] (seed_icm tuple_hash) (fresh gomod_store default_request [0])).

(** A Go module whose local dependency leaves the module and the
    repository. *)
Definition escaping_store : addr -> Package :=
  store [ pkg "example.com/org/project" "gomod" "1.1.1" [1];
          pkg "example.com/x" "gomod" "../../x" [] ].

Definition escaping_seeded : World :=
  fst (for_each [0] (seed_icm tuple_hash) (fresh escaping_store default_request [0])).

(** The packages of [test_process_go]: a go-package with a dependency,
    after the first loop of [to_json]. *)
Definition gopkg_store : addr -> Package :=
  store [ pkg "example.com/org/project" "go-package" "1.1.1" [1];
          pkg "example.com/org/project/lib" "go-package" "2.2.2" [] ].

Definition gopkg_seeded : World :=
  fst (for_each [0] (seed_icm tuple_hash) (fresh gopkg_store default_request [0])).

(** A git submodule that lists a dependency, and a package of an unknown
    type. *)
Definition submodule_store : addr -> Package :=
  store [ pkg "vendor/lib" "git-submodule" "179..." [2];
          pkg "thing" "bogus" "1.0.0" [];
          pkg "left-pad" "npm" "1.3.0" [] ].

Definition submodule_world : World := fresh submodule_store default_request [0; 1].

(** The package of the unknown type and the npm package. *)
Definition bogus_world : World := fresh submodule_store default_request [1; 2].

(** The dictionary of [test_package_from_json] with a dependency, and one
    with the optional keys. *)
Definition module_json : PackageJson :=
  mkPackageJson (Some "example.com/org/project") (Some "gomod") (Some (Some "1.0.0"))
    None None
    (Some [mkPackageJson (Some "example.com/org/project/dep") (Some "gomod")
             (Some (Some "1.0.0")) None None None]).

Definition folder_json : PackageJson :=
  mkPackageJson (Some "example.com/org/project") (Some "gomod") (Some (Some "1.0.0"))
    (Some true) (Some (Some "folder")) None.

(** A dictionary whose dependency has no version. *)
Definition broken_json : PackageJson :=
  mkPackageJson (Some "app") (Some "npm") (Some (Some "1.0.0")) None None
    (Some [mkPackageJson (Some "left-pad") (Some "npm") None None None None]).

(** A Go module, a go-package and an npm package, each with dependencies
    whose versions are not local. *)
Definition full_store : addr -> Package :=
  store [ pkg "example.com/org/project" "gomod" "1.1.1" [3];
          pkg "example.com/org/project" "go-package" "1.1.1" [4];
          pkg "app" "npm" "1.0.0" [5; 6];
          pkg "example.com/anotherorg/project/lib" "gomod" "3.3.3" [];
          pkg "example.com/org/project/lib" "go-package" "2.2.2" [];
          mkPackage "mocha" "npm" (Some "8.1.3") true [] None;
          pkg "@angular/core" "npm" "10.0.5" [] ].

Definition full_world : World := fresh full_store default_request [0; 1; 2].

End Runs.

(** ** The working maps when nothing can be missing *)

(** The state of [to_json] between its steps, for the packages [seen] of
    the list that the first loop has met: the Package objects and the
    request are as at the start, every package met is found in the
    dictionary of its type, every Go module met has its entry, and every
    go-package entry has the hash of its key and still has its name. *)
Definition ready (py_hash : identity -> Z) (h : addr -> Package) (rq : Request)
    (seen : list addr) (w : World) : Prop :=
  heap w = h
  /\ request (self w) = rq
  /\ (forall f a, In a seen -> type (h a) = field_type f ->
                  pdict_index py_hash h a (get_field f (self w)) <> None)
  /\ (forall a, In a seen -> type (h a) = "gomod" ->
                sdict_get (name (h a)) (_gomod_data (self w)) <> None)
  /\ Forall (fun s => slot_hash s = Package_hash py_hash (h (slot_key s)))
       (_gopkg_data (self w)).

(** The go-package entries from the [i]-th on still have their names. *)
Definition named_from (i : nat) (w : World) : Prop :=
  Forall (fun s => d_name (slot_val s) <> None) (List.skipn i (_gopkg_data (self w))).

(** A dependency that [to_json] processes: a dependency of a package of
    the list that has the type of the package, a type with a processor. *)
Definition processed_dependency (h : addr -> Package) (pkgs : list addr) (a d : addr)
  : Prop :=
  In a pkgs /\ In d (dependencies (h a))
  /\ has_processor (type (h a)) = true /\ type (h d) = type (h a).

(** The loop of [set_go_package_sources] before its [i]-th step: the
    Package objects are those of [h], there are [n] go-package entries,
    each with the hash of its key, and those from the [i]-th on have their
    names. *)
Definition sources_ready (py_hash : identity -> Z) (h : addr -> Package) (n i : nat)
    (w : World) : Prop :=
  heap w = h
  /\ List.length (_gopkg_data (self w)) = n
  /\ Forall (fun s => slot_hash s = Package_hash py_hash (h (slot_key s)))
       (_gopkg_data (self w))
  /\ named_from i w.

(** ** The SBOM components, stated without loops *)

(** The string a purl function returned. *)
Definition value (r : result string) : string :=
  match r with
  | Ok s => s
  | Raise _ => EmptyString
  end.

Section Expected.

Context {codec : PurlCodec}.

Variable h : addr -> Package.
Variable rq : Request.
Variable pkgs : list addr.

Definition top_level_purl (a : addr) : string :=
  value (to_top_level_purl (h a) rq (path (h a))).

(** The purl of the first Go module of the list with the name [n]. *)
Definition module_purl (n : string) : string :=
  match List.find (fun a => String.eqb (type (h a)) "gomod" && String.eqb (name (h a)) n) pkgs
  with
  | Some a => top_level_purl a
  | None => EmptyString
  end.

(** The purl of the repository of the request, the parent of local gems. *)
Definition request_purl : string :=
  value (to_vcs_purl (Py.last_segment (get_repo_name (repo rq))) (repo rq) (ref rq)).

(** The purl of the dependency [d] of the package [p], when its version
    is not local in a Go module or go-package. *)
Definition dependency_purl (p d : addr) : string :=
  if String.eqb (type (h p)) "rubygems" then
    replace_parent_purl_placeholder (value (to_purl (h d) (path (h p)))) request_purl
  else if String.eqb (type (h p)) "gomod" then
    replace_parent_purl_placeholder (value (to_purl (h d) None)) (module_purl (name (h p)))
  else value (to_purl (h d) None).

(** One component for each package of a supported type, then one for each
    dependency that has the type of its package, a type with a
    processor. *)
Definition expected_components : list Component :=
  List.map (fun a => component_of (h a) (top_level_purl a))
    (List.filter (fun a => sbom_supported (type (h a))) pkgs)
  ++ List.flat_map
       (fun p =>
          List.flat_map
            (fun d =>
               if has_processor (type (h p)) && String.eqb (type (h d)) (type (h p))
               then [component_of (h d) (dependency_purl p d)] else [])
            (dependencies (h p)))
       pkgs.

(** The state of [sbom_components_list] in its first loop, after the
    packages [seen]: their components are listed, and each name of a Go
    module among them has the purl of the first module of that name. *)
Definition sbom_seeded (seen : list addr) (w : World) : Prop :=
  heap w = h
  /\ request (self w) = rq
  /\ _sbom_components (self w)
     = List.map (fun a => component_of (h a) (top_level_purl a))
         (List.filter (fun a => sbom_supported (type (h a))) seen)
  /\ forall n,
      sdict_get n (_gomod_data (self w))
      = option_map (fun a => new_module (top_level_purl a))
          (List.find (fun a => String.eqb (type (h a)) "gomod" && String.eqb (name (h a)) n)
             seen).

(** The state of [sbom_components_list] in its second loop. *)
Definition sbom_processing (w : World) : Prop :=
  heap w = h
  /\ request (self w) = rq
  /\ forall n,
      sdict_get n (_gomod_data (self w))
      = option_map (fun a => new_module (top_level_purl a))
          (List.find (fun a => String.eqb (type (h a)) "gomod" && String.eqb (name (h a)) n)
             pkgs).

End Expected.

(** ** The document, stated without loops *)

(** No two packages of the list are equal. *)
Fixpoint distinct (h : addr -> Package) (l : list addr) : Prop :=
  match l with
  | [] => True
  | k :: l' => Forall (fun k' => Package_eq (h k) (h k') = false) l' /\ distinct h l'
  end.

(** A dictionary whose slots are made from its keys, each with the hash of
    its key. *)
Definition dict_of (py_hash : identity -> Z) (h : addr -> Package) (F : addr -> PkgData)
    (keys : list addr) : pdict PkgData :=
  List.map (fun k => mkSlot (Package_hash py_hash (h k)) k (F k)) keys.

Section Document.

Context {codec : PurlCodec}.

Variable py_hash : identity -> Z.
Variable h : addr -> Package.
Variable rq : Request.
Variable pkgs : list addr.

(** The packages with their dependencies, in the order the second loop
    meets them. *)
Definition all_pairs : list (addr * addr) :=
  List.flat_map (fun p => List.map (pair p) (dependencies (h p))) pkgs.

(** The dependency [d] of [p] is processed: it has the type of [p], and
    that type has a processor. *)
Definition processed (p d : addr) : bool :=
  has_processor (type (h p)) && String.eqb (type (h d)) (type (h p)).

Definition is_standard (t : string) : bool :=
  String.eqb t "npm" || String.eqb t "pip" || String.eqb t "yarn".

(** What the dependency [d] of [p] adds to the dependencies of the entry
    with the key [k]: its purl, when [p] is equal to [k] and [d] is
    processed, but for the dev dependencies of an npm, pip or yarn
    package. *)
Definition dependency_of (k : addr) (pd : addr * addr) : list string :=
  if Package_eq (h k) (h (fst pd)) && processed (fst pd) (snd pd)
     && negb (is_standard (type (h (fst pd))) && dev (h (snd pd)))
  then [dependency_purl h rq pkgs (fst pd) (snd pd)] else [].

(** What it adds to the sources of the entry: its purl, when [p] is equal
    to [k] and [d] is processed, but for go-packages, whose sources come
    from their module. *)
Definition source_of (k : addr) (pd : addr * addr) : list string :=
  if Package_eq (h k) (h (fst pd)) && processed (fst pd) (snd pd)
     && negb (String.eqb (type (h (fst pd))) "go-package")
  then [dependency_purl h rq pkgs (fst pd) (snd pd)] else [].

(** What it adds to the dependencies of the Go module [n]. *)
Definition module_dependency_of (n : string) (pd : addr * addr) : list string :=
  if String.eqb (type (h (fst pd))) "gomod" && String.eqb (name (h (fst pd))) n
     && processed (fst pd) (snd pd)
  then [dependency_purl h rq pkgs (fst pd) (snd pd)] else [].

(** The names of the Go modules among [l], each once, in the order of
    their first module. *)
Definition module_names (l : list addr) : list string :=
  List.fold_left
    (fun acc a =>
       if String.eqb (type (h a)) "gomod"
       then if List.existsb (String.eqb (name (h a))) acc then acc else acc ++ [name (h a)]
       else acc)
    l [].

(** The Go module data when the pairs [done] are processed. *)
Definition modules_after (done : list (addr * addr)) : sdict ModData :=
  List.map
    (fun n => (n, {| m_purl := module_purl h rq pkgs n;
                     m_dependencies := List.flat_map (module_dependency_of n) done |}))
    (module_names pkgs).

(** The entry of the package [k] in the dictionary [f] when the pairs
    [done] are processed. *)
Definition entry_after (f : field) (done : list (addr * addr)) (k : addr) : PkgData :=
  {| d_name := match f with F_gopkg => Some (name (h k)) | _ => None end;
     d_purl := top_level_purl h rq k;
     d_dependencies := List.flat_map (dependency_of k) done;
     d_sources := List.flat_map (source_of k) done |}.

(** The keys of the dictionary [f]: the distinct packages of its type. *)
Definition keys_of (f : field) (l : list addr) : list addr :=
  distinct_packages h (packages_of_type h (field_type f) l).

Definition dict_after (f : field) (done : list (addr * addr)) : pdict PkgData :=
  dict_of py_hash h (entry_after f done) (keys_of f pkgs).

(** The entry of the package [k] in the document: its top-level purl, the
    purls of the dependencies of the packages equal to it, and its sources;
    the sources of a go-package are the dependencies of the module of its
    name, or failing that of the longest parent module of its name. *)
Definition expected_entry (f : field) (k : addr) : PkgData :=
  match f with
  | F_gopkg => with_sources (modules_after all_pairs) (entry_after f all_pairs k)
  | _ => entry_after f all_pairs k
  end.

Definition expected_entries : list PkgData :=
  List.flat_map (fun f => List.map (expected_entry f) (keys_of f pkgs)) icm_fields.

(** The state of [to_json] in its second loop, when the pairs [done] are
    processed. *)
Definition icm_processing (done : list (addr * addr)) (w : World) : Prop :=
  heap w = h
  /\ request (self w) = rq
  /\ (forall f, get_field f (self w) = dict_after f done)
  /\ _gomod_data (self w) = modules_after done.

End Document.


(** Every dictionary of entries holds, for the keys of its type, the
    entries [F]. *)
Definition dicts (py_hash : identity -> Z) (h : addr -> Package) (pkgs : list addr)
    (F : field -> addr -> PkgData) (w : World) : Prop :=
  forall f, get_field f (self w) = dict_of py_hash h (F f) (keys_of h f pkgs).

(** An entry with more dependencies and sources. *)
Definition add_to (e : PkgData) (deps srcs : list string) : PkgData :=
  {| d_name := d_name e; d_purl := d_purl e;
     d_dependencies := d_dependencies e ++ deps;
     d_sources := d_sources e ++ srcs |}.

(** ** The entries of the packages that are no go-packages *)

(** A store [h'] that [to_json] can reach from [h]: every object keeps its
    type and its dependencies, and an object that is no go-package is as it
    was. *)
Definition untouched (h h' : addr -> Package) : Prop :=
  forall a,
    type (h' a) = type (h a)
    /\ dependencies (h' a) = dependencies (h a)
    /\ (type (h a) <> "go-package" -> h' a = h a).

(** The request is [rq], and the dictionaries of entries but the one of
    the go-packages are those of [D]. *)
Definition other_dicts (rq : Request) (D : field -> pdict PkgData) (w : World) : Prop :=
  request (self w) = rq
  /\ forall f, f <> F_gopkg -> get_field f (self w) = D f.

Section Owned.

Context {codec : PurlCodec}.

Variable py_hash : identity -> Z.
Variable h : addr -> Package.
Variable rq : Request.
Variable pkgs : list addr.

(** The dependencies behind the entry of [p]: for each package of the list
    that is equal to [p], in the order of the list, its dependencies of its
    own type, in their order. *)
Definition owned (p : addr) : list (addr * addr) :=
  List.flat_map
    (fun q =>
       if Package_eq (h q) (h p)
       then List.map (pair q)
              (List.filter (fun d => String.eqb (type (h d)) (type (h q)))
                 (dependencies (h q)))
       else [])
    pkgs.

(** The purl [_process_standard_package] gives the dependency. *)
Definition standard_purl (pd : addr * addr) : string :=
  value (to_purl (h (snd pd)) None).

(** The purl [process_rubygems_package] gives the dependency: the path of
    the package is passed on, and the parent is the repository of the
    request. *)
Definition rubygems_purl (pd : addr * addr) : string :=
  replace_parent_purl_placeholder
    (value (to_purl (h (snd pd)) (path (h (fst pd))))) (request_purl rq).

(** The types with a processor that are kept in a dictionary of their
    own. *)
Definition is_other (t : string) : bool := is_standard t || String.eqb t "rubygems".

(** The purl functions return for the dependency. *)
Definition purl_returns (pd : addr * addr) : bool :=
  if String.eqb (type (h (fst pd))) "rubygems"
  then is_ok (to_vcs_purl (Py.last_segment (get_repo_name (repo rq))) (repo rq) (ref rq))
       && is_ok (to_purl (h (snd pd)) (path (h (fst pd))))
  else is_ok (to_purl (h (snd pd)) None).

(** The state of [to_json] in its second loop when the pairs [done] are
    processed, whatever was done for the Go modules and go-packages. *)
Definition other_processing (done : list (addr * addr)) (w : World) : Prop :=
  untouched h (heap w)
  /\ other_dicts rq (fun f => dict_after py_hash h rq pkgs f done) w
  /\ forall pd, In pd done -> processed h (fst pd) (snd pd) = true ->
                is_other (type (h (fst pd))) = true -> purl_returns pd = true.

(** The entries of [image_contents] but those of the go-packages. *)
Definition other_entries : list PkgData :=
  List.flat_map
    (fun f => List.map (entry_after h rq pkgs f (all_pairs h pkgs)) (keys_of h f pkgs))
    [F_npm; F_pip; F_yarn; F_rubygems; F_gitsubmodule].

End Owned.
(** * Properties *)

(** ** Evaluation of the model on the cases of the test suite *)

Example normpath_parent :
  Py.normpath (Py.path_join "example.com/org/project/foo" "../bar")
  = "example.com/org/project/bar".
Proof. reflexivity. Qed.

Example relative_to_inside :
  Py.relative_to "example.com/org/project/foo/package" "example.com/org/project"
  = Some "foo/package".
Proof. reflexivity. Qed.

Example relative_to_outside : Py.relative_to "a/b" "c" = None.
Proof. reflexivity. Qed.

Example match_parent_module_longest :
  match_parent_module "example.com/org/project/foo"
    ["example.com/org"; "example.com/org/project"; "example.com/organic"]
  = Some "example.com/org/project".
Proof. reflexivity. Qed.

Example to_purl_golang :
  PurlModel.model_to_purl
    (mkPackage "example.com/org/project" "go-package" (Some "1.1.1") false [] None) None
  = Ok "pkg:golang/example.com%2Forg%2Fproject@1.1.1".
Proof. reflexivity. Qed.

(** ** Tactics and basic facts *)

Ltac break_match :=
  match goal with
  | |- context [match ?x with _ => _ end] =>
      lazymatch x with
      | context [match _ with _ => _ end] => fail
      | _ => let E := fresh "E" in destruct x eqn:E
      end
  end.

Ltac break_match_hyp :=
  match goal with
  | H : context [match ?x with _ => _ end] |- _ =>
      lazymatch x with
      | context [match _ with _ => _ end] => fail
      | _ => let E := fresh "E" in destruct x eqn:E
      end
  end.

Ltac break_if :=
  match goal with
  | |- context [if ?b then _ else _] =>
      let T := type of b in
      unify T bool; let E := fresh "E" in destruct b eqn:E
  end.

Ltac run :=
  cbv beta iota delta
    [bind ret raise lift get_self gets get_heap deref modify_self emit assign_version] in *.

Lemma option_string_eqb_eq (a b : option string) :
  option_string_eqb a b = true <-> a = b.
Proof.
  destruct a as [x|], b as [y|]; simpl; split; intro H;
    try discriminate; try reflexivity.
  - apply String.eqb_eq in H. now subst.
  - inversion H. apply String.eqb_refl.
Qed.

Lemma Package_eq_identity (p q : Package) :
  Package_eq p q = true <-> Package_identity p = Package_identity q.
Proof.
  unfold Package_eq, Package_identity. split.
  - intro H. repeat (apply andb_prop in H; destruct H as [H ?]).
    apply String.eqb_eq in H.
    match goal with X : String.eqb _ _ = true |- _ => apply String.eqb_eq in X end.
    match goal with X : option_string_eqb _ _ = true |- _ =>
      apply option_string_eqb_eq in X end.
    match goal with X : Bool.eqb _ _ = true |- _ => apply Bool.eqb_prop in X end.
    congruence.
  - intro H. injection H as Hn Ht Hv Hd. rewrite Hn, Ht, Hv, Hd.
    rewrite !String.eqb_refl, Bool.eqb_reflx.
    assert (Hq : option_string_eqb (version q) (version q) = true)
      by now apply option_string_eqb_eq.
    rewrite Hq. reflexivity.
Qed.

Lemma Package_eq_refl (p : Package) : Package_eq p p = true.
Proof. now apply Package_eq_identity. Qed.

(** ** Package identity *)

(** C3: equality and hash of packages are decided by the four fields name,
    type, version and dev.  Packages with the same four fields are equal and
    have the same hash, whatever their paths and dependencies; packages
    that differ in one of the four are unequal. *)
Theorem Package_identity_decides_eq_and_hash :
  forall (py_hash : identity -> Z) (p q : Package),
    (Package_eq p q = true <-> Package_identity p = Package_identity q)
    /\ (Package_identity p = Package_identity q ->
        Package_hash py_hash p = Package_hash py_hash q)
    /\ (forall n t v d deps1 path1 deps2 path2,
           Package_eq (mkPackage n t v d deps1 path1) (mkPackage n t v d deps2 path2) = true
           /\ Package_hash py_hash (mkPackage n t v d deps1 path1)
              = Package_hash py_hash (mkPackage n t v d deps2 path2))
    /\ ((name p <> name q \/ type p <> type q \/ version p <> version q \/ dev p <> dev q) ->
        Package_eq p q = false).
Proof.
  intros py_hash p q. split; [apply Package_eq_identity|]. split; [|split].
  - intro H. unfold Package_hash. now rewrite H.
  - intros. split; [now apply Package_eq_identity | reflexivity].
  - intro H. destruct (Package_eq p q) eqn:E; [|reflexivity].
    apply Package_eq_identity in E. inversion E. tauto.
Qed.

Section Properties.

Variable py_hash : identity -> Z.
Context {codec : PurlCodec}.

(** ** Dictionaries keyed by packages *)

Lemma slot_matches_slot_map {V} (h : addr -> Package) a (g : V -> V) (s : slot V) :
  slot_matches py_hash h a (mkSlot (slot_hash s) (slot_key s) (g (slot_val s)))
  = slot_matches py_hash h a s.
Proof. reflexivity. Qed.

Lemma pdict_update_get {V} (h : addr -> Package) a (g : V -> V) (d : pdict V) e :
  pdict_get py_hash h a d = Some e ->
  exists d', pdict_update py_hash h a g d = Some d'
             /\ pdict_get py_hash h a d' = Some (g e).
Proof.
  induction d as [|s d IH]; simpl; [discriminate|].
  destruct (slot_matches py_hash h a s) eqn:E; intro H.
  - inversion H; subst. eexists. split; [reflexivity|].
    simpl. rewrite slot_matches_slot_map, E. reflexivity.
  - destruct (IH H) as (d' & Hu & Hg). exists (s :: d'). rewrite Hu. simpl.
    split; [reflexivity|]. now rewrite E.
Qed.

Lemma pdict_update_none {V} (h : addr -> Package) a (g : V -> V) (d : pdict V) :
  pdict_get py_hash h a d = None -> pdict_update py_hash h a g d = None.
Proof.
  induction d as [|s d IH]; simpl; [reflexivity|].
  destruct (slot_matches py_hash h a s); [discriminate|].
  intro H. now rewrite (IH H).
Qed.

Lemma field_eq_dec (f f' : field) : {f = f'} + {f <> f'}.
Proof. decide equality. Qed.

Lemma get_set_field f d cm : get_field f (set_field f d cm) = d.
Proof. destruct f; reflexivity. Qed.

Lemma get_set_field_other f f' d cm :
  f <> f' -> get_field f' (set_field f d cm) = get_field f' cm.
Proof. destruct f, f'; intro H; try reflexivity; congruence. Qed.

(** The effect of [update_entry] on an entry that is present. *)
Lemma update_entry_present f a g w e :
  pdict_get py_hash (heap w) a (get_field f (self w)) = Some e ->
  exists d',
    pdict_update py_hash (heap w) a g (get_field f (self w)) = Some d'
    /\ pdict_get py_hash (heap w) a d' = Some (g e)
    /\ update_entry py_hash f a g w
       = ({| heap := heap w; self := set_field f d' (self w); log := log w |}, Ok tt).
Proof.
  intro H. destruct (pdict_update_get (heap w) a g _ e H) as (d' & Hu & Hg).
  exists d'. repeat split; try assumption.
  unfold update_entry. run. now rewrite Hu.
Qed.

(** ** Dependencies of another type *)

Lemma process_dependency_other_type mode w package dependency :
  type (heap w dependency) <> type (heap w package) ->
  process_dependency py_hash mode package dependency w = (w, Ok tt).
Proof.
  intros Hne.
  unfold process_dependency. run.
  repeat match goal with
  | |- (if String.eqb (type (heap w package)) ?t then _ else _) _ = _ =>
      let E := fresh "E" in
      destruct (String.eqb (type (heap w package)) t) eqn:E;
      [ apply String.eqb_eq in E;
        assert (Hd : String.eqb (type (heap w dependency)) t = false)
          by (apply String.eqb_neq; congruence);
        unfold process_go_package, process_gomod, process_npm_package,
          process_pip_package, process_yarn_package, process_standard,
          process_rubygems_package; run; rewrite Hd; reflexivity
      | ]
  end.
  reflexivity.
Qed.

(** C10: a dependency whose type differs from the type of its owning
    package is skipped by the body of the dependency loop of [to_json] and
    of [sbom_components_list]: the processor chosen by the owner's type
    tests the dependency's type and does nothing, so no dependencies list,
    sources list or SBOM component list changes. *)
Theorem mismatched_dependency_skipped :
  forall (mode : string) (w : World) (package dependency : addr),
    type (heap w dependency) <> type (heap w package) ->
    process_dependency py_hash mode package dependency w = (w, Ok tt).
Proof.
  intros mode w package dependency Hne.
  now apply process_dependency_other_type.
Qed.

(** ** Loops, and the store under a call *)

Lemma for_each_preserves {A} (I : World -> Prop) (l : list A) (body : A -> M unit) :
  (forall x w, In x l -> I w -> I (fst (body x w))) ->
  forall w, I w -> I (fst (for_each l body w)).
Proof.
  induction l as [|x l IH]; intros Hb w Hw; simpl; [exact Hw|].
  unfold bind. destruct (body x w) as [w1 r] eqn:E.
  assert (H1 : I w1) by (change w1 with (fst (w1, r)); rewrite <- E; apply Hb; [now left|exact Hw]).
  destruct r; [|exact H1].
  apply IH; [|exact H1]. intros y w2 Hy. apply Hb. now right.
Qed.

Lemma set_version_set_version v v' p :
  set_version v (set_version v' p) = set_version v p.
Proof. reflexivity. Qed.

Lemma match_parent_module_fold path names best :
  forall m,
    List.fold_left
      (fun best m => if is_path_prefix m path then longer best m else best) names best
    = Some m ->
    best = Some m \/ In m names.
Proof.
  revert best. induction names as [|n names IH]; simpl; intros best m H; [now left|].
  apply IH in H. destruct H as [H|H]; [|now right; right].
  destruct (is_path_prefix n path); [|now left].
  unfold longer in H. destruct best as [b|].
  - destruct (Nat.ltb (String.length b) (String.length n)).
    + inversion H. right. now left.
    + now left.
  - inversion H. right. now left.
Qed.

Lemma match_parent_module_In path names m :
  match_parent_module path names = Some m -> In m names.
Proof.
  intro H. apply match_parent_module_fold in H. destruct H as [H|H]; [discriminate|exact H].
Qed.

Lemma sdict_get_In {V} (k : string) (d : sdict V) :
  In k (sdict_keys d) -> exists v, sdict_get k d = Some v.
Proof.
  induction d as [|[k' v'] d IH]; simpl; [tauto|].
  intros [H|H].
  - subst. rewrite String.eqb_refl. eauto.
  - destruct (String.eqb k' k); eauto.
Qed.

Lemma sdict_get_set {V} (k k' : string) (v : V) (d : sdict V) :
  sdict_get k' (sdict_set k v d) = if String.eqb k k' then Some v else sdict_get k' d.
Proof.
  induction d as [|[k0 v0] d IH]; simpl.
  - reflexivity.
  - destruct (String.eqb k0 k) eqn:E0.
    + apply String.eqb_eq in E0. subst. simpl.
      destruct (String.eqb k k'); reflexivity.
    + simpl. rewrite IH. destruct (String.eqb k0 k') eqn:E1; [|reflexivity].
      apply String.eqb_eq in E1. subst. now rewrite String.eqb_sym, E0.
Qed.

(** The modules of a list are packages of the list of type gomod, under
    their names. *)
Lemma compute_go_modules_acc (h : addr -> Package) pkgs (acc : sdict addr) m (a : addr) :
  sdict_get m (List.fold_left
                 (fun acc a => if String.eqb (type (h a)) "gomod"
                               then sdict_set (name (h a)) a acc else acc) pkgs acc)
  = Some a ->
  sdict_get m acc = Some a
  \/ (In a pkgs /\ type (h a) = "gomod" /\ name (h a) = m).
Proof.
  revert acc. induction pkgs as [|p pkgs IH]; simpl; intros acc H; [now left|].
  apply IH in H. destruct H as [H|(H1 & H2 & H3)]; [|right; tauto].
  destruct (String.eqb (type (h p)) "gomod") eqn:E; [|now left].
  rewrite sdict_get_set in H. destruct (String.eqb (name (h p)) m) eqn:En.
  - inversion H; subst. right. apply String.eqb_eq in E, En. tauto.
  - now left.
Qed.

Lemma go_modules_gomod h pkgs m a :
  sdict_get m (go_modules h pkgs) = Some a ->
  In a pkgs /\ type (h a) = "gomod" /\ name (h a) = m.
Proof.
  intro H. apply compute_go_modules_acc in H. destruct H as [H|H]; [discriminate|exact H].
Qed.

Lemma go_modules_ext h h' pkgs :
  (forall a, type (h' a) = type (h a) /\ name (h' a) = name (h a)) ->
  go_modules h' pkgs = go_modules h pkgs.
Proof.
  intro H. unfold go_modules, compute_go_modules. generalize (@nil (string * addr)).
  induction pkgs as [|p pkgs IH]; simpl; intro acc; [reflexivity|].
  destruct (H p) as [Ht Hn]. rewrite Ht, Hn. apply IH.
Qed.

Lemma resolution_fields h pkgs a p :
  resolution h pkgs a = Some p ->
  name p = name (h a) /\ type p = type (h a) /\ dev p = dev (h a)
  /\ dependencies p = dependencies (h a) /\ path p = path (h a)
  /\ type (h a) = "go-package".
Proof.
  unfold resolution.
  destruct (String.eqb (type (h a)) "go-package") eqn:Et; simpl; [|discriminate].
  destruct (Py.is_local (version (h a))); [|discriminate].
  destruct (match_parent_module _ _); [|discriminate].
  destruct (sdict_get _ _); [|discriminate].
  intro H. inversion H; subst. simpl. apply String.eqb_eq in Et. tauto.
Qed.

Lemma evolved_fields h pkgs h' a :
  evolved h pkgs h' ->
  name (h' a) = name (h a) /\ type (h' a) = type (h a) /\ dev (h' a) = dev (h a)
  /\ dependencies (h' a) = dependencies (h a) /\ path (h' a) = path (h a).
Proof.
  intro H. destruct (H a) as [->|[_ Hr]]; [tauto|].
  apply resolution_fields in Hr. tauto.
Qed.

Lemma evolved_refl h pkgs : evolved h pkgs h.
Proof. intro a. now left. Qed.

Lemma evolved_other_type h pkgs h' a :
  evolved h pkgs h' -> type (h a) <> "go-package" -> h' a = h a.
Proof.
  intros H Ht. destruct (H a) as [E|[_ Hr]]; [exact E|].
  apply resolution_fields in Hr. tauto.
Qed.

Lemma evolved_go_modules h pkgs h' :
  evolved h pkgs h' -> go_modules h' pkgs = go_modules h pkgs.
Proof.
  intro H. apply go_modules_ext. intro a.
  pose proof (evolved_fields h pkgs h' a H). tauto.
Qed.

Lemma evolved_module h pkgs h' m a :
  evolved h pkgs h' -> sdict_get m (go_modules h pkgs) = Some a -> h' a = h a.
Proof.
  intros H Hm. apply go_modules_gomod in Hm. destruct Hm as (_ & Ht & _).
  apply (evolved_other_type h pkgs h' a H). rewrite Ht. discriminate.
Qed.

(** ** Properties kept by the methods *)

Lemma keeps_bind {A B} (I : World -> Prop) (m : M A) (k : A -> M B) :
  keeps I m -> (forall a, keeps I (k a)) -> keeps I (bind m k).
Proof.
  intros Hm Hk w Hw. unfold bind. specialize (Hm w Hw).
  destruct (m w) as [w1 [a|e]]; simpl in *; [apply Hk; exact Hm | exact Hm].
Qed.

Lemma keeps_ret {A} (I : World -> Prop) (a : A) : keeps I (ret a).
Proof. intros w Hw. exact Hw. Qed.

Lemma keeps_raise {A} (I : World -> Prop) (e : exn) : keeps I (@raise A e).
Proof. intros w Hw. exact Hw. Qed.

Lemma keeps_lift {A} (I : World -> Prop) (r : result A) : keeps I (lift r).
Proof. intros w Hw. exact Hw. Qed.

Lemma keeps_get_self (I : World -> Prop) : keeps I get_self.
Proof. intros w Hw. exact Hw. Qed.

Lemma keeps_gets {A} (I : World -> Prop) (f : ContentManifest -> A) : keeps I (gets f).
Proof. intros w Hw. exact Hw. Qed.

Lemma keeps_get_heap (I : World -> Prop) : keeps I get_heap.
Proof. intros w Hw. exact Hw. Qed.

Lemma keeps_deref (I : World -> Prop) a : keeps I (deref a).
Proof. intros w Hw. exact Hw. Qed.

Lemma keeps_for_each {A} (I : World -> Prop) (l : list A) (body : A -> M unit) :
  (forall x, In x l -> keeps I (body x)) -> keeps I (for_each l body).
Proof.
  intros H w Hw. apply for_each_preserves; [|exact Hw].
  intros x w' Hx Hw'. now apply H.
Qed.

(** Splits a goal [keeps I m] along the structure of [m]; what is left are
    the steps that change the world. *)
Ltac keeps_with leaf :=
  repeat first
    [ leaf
    | apply keeps_ret | apply keeps_raise | apply keeps_lift | apply keeps_get_self
    | apply keeps_get_heap | apply keeps_deref | apply keeps_gets
    | apply keeps_bind; [|intro]
    | apply keeps_for_each; intros ? ?
    | match goal with
      | |- keeps _ (match ?x with _ => _ end) => destruct x
      | |- keeps _ (let _ := _ in _) => cbv zeta
      end ].

Ltac keeps_struct := keeps_with fail.

Ltac destruct_field :=
  repeat match goal with f : field |- _ => destruct f end.

Section ViewStable.

Variable I : World -> Prop.
Hypothesis I_stable : view_stable I.

Lemma keeps_modify (f : ContentManifest -> ContentManifest) :
  (forall cm, packages (f cm) = packages cm /\ request (f cm) = request cm
              /\ go_modules_by_name_cache (f cm) = go_modules_by_name_cache cm) ->
  keeps I (modify_self f).
Proof.
  intros Hf w Hw. destruct (Hf (self w)) as (H1 & H2 & H3).
  apply (I_stable w); simpl; try assumption; reflexivity.
Qed.

Lemma keeps_emit r : keeps I (emit r).
Proof. intros w Hw. apply (I_stable w); try reflexivity; exact Hw. Qed.

Ltac keeps_view :=
  keeps_struct;
  try (apply keeps_modify; intro; destruct_field; repeat split);
  try apply keeps_emit.

Lemma keeps_update_entry f a g : keeps I (update_entry py_hash f a g).
Proof. unfold update_entry. keeps_view. Qed.

Lemma keeps_setdefault_entry f a v : keeps I (setdefault_entry py_hash f a v).
Proof. unfold setdefault_entry. keeps_view. Qed.

Lemma keeps_append_component c : keeps I (append_component c).
Proof. unfold append_component. keeps_view. Qed.

Lemma keeps_setdefault_module nm purl : keeps I (setdefault_module nm purl).
Proof. unfold setdefault_module. keeps_view. Qed.

Lemma keeps_process_gomod package dependency mode :
  keeps I (process_gomod package dependency mode).
Proof. unfold process_gomod. keeps_view; apply keeps_append_component. Qed.

Lemma keeps_process_standard t package dependency mode :
  keeps I (process_standard py_hash t package dependency mode).
Proof.
  unfold process_standard, _process_standard_package, _process_standard_package_sbom.
  keeps_view; first [apply keeps_update_entry | apply keeps_append_component].
Qed.

Lemma keeps_process_rubygems_package package dependency mode :
  keeps I (process_rubygems_package py_hash package dependency mode).
Proof.
  unfold process_rubygems_package.
  keeps_view; first [apply keeps_update_entry | apply keeps_append_component].
Qed.

Lemma keeps_set_go_package_sources : keeps I (set_go_package_sources py_hash).
Proof.
  unfold set_go_package_sources, set_sources_at.
  keeps_view; apply keeps_update_entry.
Qed.

Lemma keeps_seed_icm package : keeps I (seed_icm py_hash package).
Proof.
  unfold seed_icm.
  keeps_view; first [apply keeps_setdefault_entry | apply keeps_setdefault_module].
Qed.

Lemma keeps_seed_sbom package : keeps I (seed_sbom package).
Proof.
  unfold seed_sbom.
  keeps_view; first [apply keeps_setdefault_module | apply keeps_append_component].
Qed.

End ViewStable.
(** ** The store under the resolution of local Go dependencies *)

Lemma call_inv_stable h pkgs : view_stable (call_inv h pkgs).
Proof.
  intros w w' Hh Hp _ Hc (H1 & H2 & H3). unfold call_inv.
  rewrite Hh, Hp, Hc. tauto.
Qed.

Lemma resolution_some h pkgs a m module :
  type (h a) = "go-package" ->
  Py.is_local (version (h a)) = true ->
  match_parent_module (name (h a)) (sdict_keys (go_modules h pkgs)) = Some m ->
  sdict_get m (go_modules h pkgs) = Some module ->
  resolution h pkgs a = Some (set_version (version (h module)) (h a)).
Proof.
  intros Ht Hl Hm Hg. unfold resolution. now rewrite Ht, Hl, Hm, Hg.
Qed.

Lemma resolution_local h pkgs a p :
  resolution h pkgs a = Some p -> Py.is_local (version (h a)) = true.
Proof.
  unfold resolution. destruct (String.eqb _ _); simpl; [|discriminate].
  destruct (Py.is_local _); [reflexivity|discriminate].
Qed.

Lemma resolution_match h pkgs a p :
  resolution h pkgs a = Some p ->
  exists m, match_parent_module (name (h a)) (sdict_keys (go_modules h pkgs)) = Some m.
Proof.
  unfold resolution. destruct (_ && _); [|discriminate].
  destruct (match_parent_module _ _); [eauto|discriminate].
Qed.

Lemma same_fields_refl w : same_fields w w.
Proof. unfold same_fields. destruct w as [h [] l]; simpl. now split. Qed.

(** The remembered modules of a call are the modules of the list in the
    store the call started in. *)
Lemma go_modules_by_name_inv h pkgs w :
  call_inv h pkgs w ->
  exists w1,
    go_modules_by_name w = (w1, Ok (go_modules h pkgs))
    /\ call_inv h pkgs w1 /\ heap w1 = heap w /\ same_fields w w1.
Proof.
  intros (He & Hp & Hc). unfold go_modules_by_name. run.
  destruct Hc as [Hc|Hc]; rewrite Hc.
  - simpl. rewrite Hp. fold (go_modules (heap w) pkgs).
    rewrite (evolved_go_modules h pkgs (heap w) He).
    eexists. split; [reflexivity|]. simpl. repeat split; try assumption; auto.
  - exists w. repeat split; try assumption; auto. apply same_fields_refl.
Qed.

Lemma evolved_heap_set h pkgs h' a p :
  evolved h pkgs h' ->
  go_package_dependency h pkgs a ->
  resolution h pkgs a = Some p ->
  evolved h pkgs (heap_set h' a p).
Proof.
  intros He Hd Hr b. unfold heap_set. destruct (Nat.eqb b a) eqn:E.
  - apply Nat.eqb_eq in E. subst. right. now split.
  - apply He.
Qed.

(** [_get_local_go_package_dep_purl] on a dependency of a go-package of the
    list: the store stays a store of the call, the fields of the instance
    other than the remembered modules stay as they are, and when a purl is
    returned the dependency is resolved. *)
Lemma get_local_inv h pkgs package dependency w :
  call_inv h pkgs w ->
  go_package_dependency h pkgs dependency ->
  type (h dependency) = "go-package" ->
  let w' := fst (_get_local_go_package_dep_purl package dependency w) in
  call_inv h pkgs w' /\ same_fields w w'
  /\ (is_ok (snd (_get_local_go_package_dep_purl package dependency w)) = true ->
      heap w' dependency = resolved h pkgs dependency).
Proof.
  intros Hinv Hdep Ht. unfold _get_local_go_package_dep_purl. run.
  destruct (Py.is_local (version (heap w dependency))) eqn:Hl; cbn [negb].
  2:{ repeat split; try apply Hinv; try apply same_fields_refl. discriminate. }
  destruct (go_modules_by_name_inv h pkgs w Hinv) as (w1 & Hg & Hinv1 & Hh1 & Hs1).
  rewrite Hg.
  destruct Hinv as (He & Hp & Hc).
  destruct (evolved_fields h pkgs (heap w) dependency He) as (Hn & _).
  rewrite Hn.
  destruct (match_parent_module (name (h dependency)) (sdict_keys (go_modules h pkgs)))
    as [m|] eqn:Hm.
  - destruct (sdict_get m (go_modules h pkgs)) as [module|] eqn:Hgm.
    2:{ cbn. repeat split; try apply Hinv1; try apply Hs1. discriminate. }
    cbn [fst snd]. rewrite Hh1.
    rewrite (evolved_module h pkgs (heap w) m module He Hgm).
    assert (Hloc : Py.is_local (version (h dependency)) = true).
    { destruct (He dependency) as [E|[_ Hr]]; [now rewrite <- E|].
      now apply resolution_local in Hr. }
    pose proof (resolution_some h pkgs dependency m module Ht Hloc Hm Hgm) as Hres.
    assert (Hnew : set_version (version (h module)) (heap w dependency)
                   = set_version (version (h module)) (h dependency)).
    { destruct (He dependency) as [E|[_ Hr]]; [now rewrite E|].
      rewrite Hres in Hr. injection Hr as Hr'. rewrite <- Hr'. reflexivity. }
    rewrite Hnew. cbn [heap self log].
    split; [|split].
    + destruct Hinv1 as (He1 & Hp1 & Hc1). split; [|split; assumption].
      cbn [heap]. apply evolved_heap_set; assumption.
    + destruct Hs1 as [Hs1 Hs2]. split; cbn [self log]; assumption.
    + intros _. unfold heap_set. rewrite Nat.eqb_refl. unfold resolved. now rewrite Hres.
  - assert (Hsame : heap w dependency = resolved h pkgs dependency).
    { unfold resolved. destruct (He dependency) as [E|[_ Hr]].
      - destruct (resolution h pkgs dependency) eqn:Hr; [|exact E].
        apply resolution_match in Hr. destruct Hr as [m Hr]. congruence.
      - apply resolution_match in Hr. destruct Hr as [m Hr]. congruence. }
    repeat break_match; cbn [fst snd]; rewrite ?Hh1;
      (split; [exact Hinv1|split; [exact Hs1|intros _; exact Hsame]]).
Qed.

Lemma process_go_package_inv h pkgs package dependency mode w :
  call_inv h pkgs w ->
  go_package_dependency h pkgs dependency ->
  call_inv h pkgs (fst (process_go_package py_hash package dependency mode w)).
Proof.
  intros Hinv Hdep. unfold process_go_package. run.
  destruct (String.eqb (type (heap w dependency)) "go-package") eqn:Et; [|exact Hinv].
  apply String.eqb_eq in Et.
  assert (Ht : type (h dependency) = "go-package").
  { destruct Hinv as (He & _).
    destruct (evolved_fields h pkgs (heap w) dependency He) as (_ & Ht' & _). congruence. }
  assert (Hk : forall w1 purl,
             call_inv h pkgs w1 ->
             call_inv h pkgs
               (fst ((if String.eqb mode "icm"
                      then update_entry py_hash F_gopkg package (append_dependency purl)
                      else if String.eqb mode "sbom"
                           then fun w0 =>
                                  append_component (component_of (heap w0 dependency) purl) w0
                           else fun w0 => (w0, Ok tt)) w1))).
  { intros w1 purl H1. destruct (String.eqb mode "icm").
    - apply keeps_update_entry; [apply call_inv_stable|exact H1].
    - destruct (String.eqb mode "sbom"); [|exact H1].
      apply keeps_append_component; [apply call_inv_stable|exact H1]. }
  destruct (Py.is_local (version (heap w dependency))).
  - pose proof (get_local_inv h pkgs package dependency w Hinv Hdep Ht) as (H1 & _).
    destruct (_get_local_go_package_dep_purl package dependency w) as [w1 [purl|e]];
      cbn [fst snd] in *; [apply Hk; exact H1 | exact H1].
  - destruct (to_purl (heap w dependency) None) as [purl|e]; [apply Hk; exact Hinv|exact Hinv].
Qed.

Lemma process_dependency_inv h pkgs mode package dependency w :
  call_inv h pkgs w ->
  In package pkgs ->
  In dependency (dependencies (h package)) ->
  call_inv h pkgs (fst (process_dependency py_hash mode package dependency w)).
Proof.
  intros Hinv Hp Hd. unfold process_dependency. run.
  pose proof (call_inv_stable h pkgs) as Hst.
  destruct (String.eqb (type (heap w package)) "go-package") eqn:Et.
  - apply process_go_package_inv; [exact Hinv|].
    exists package. apply String.eqb_eq in Et. destruct Hinv as (He & _).
    destruct (evolved_fields h pkgs (heap w) package He) as (_ & Ht' & _).
    repeat split; try assumption. congruence.
  - unfold process_npm_package, process_pip_package, process_yarn_package.
    repeat break_if;
      first [ exact Hinv
            | apply keeps_process_gomod; assumption
            | apply keeps_process_standard; assumption
            | apply keeps_process_rubygems_package; assumption ].
Qed.

Lemma process_package_inv h pkgs mode package w :
  call_inv h pkgs w ->
  In package pkgs ->
  call_inv h pkgs (fst (process_package py_hash mode package w)).
Proof.
  intros Hinv Hp. unfold process_package. run.
  apply for_each_preserves; [|exact Hinv].
  intros d w1 Hd H1. apply process_dependency_inv; try assumption.
  destruct Hinv as (He & _).
  destruct (evolved_fields h pkgs (heap w) package He) as (_ & _ & _ & Hdeps & _).
  now rewrite <- Hdeps.
Qed.

Lemma call_inv_reset h pkgs w (f : ContentManifest -> ContentManifest) :
  (forall cm, packages (f cm) = packages cm
              /\ go_modules_by_name_cache (f cm) = go_modules_by_name_cache cm) ->
  call_inv h pkgs w ->
  call_inv h pkgs {| heap := heap w; self := f (self w); log := log w |}.
Proof.
  intros Hf (He & Hp & Hc). destruct (Hf (self w)) as [H1 H2].
  unfold call_inv. simpl. rewrite H1, H2. tauto.
Qed.

Lemma to_json_inv h pkgs w :
  call_inv h pkgs w -> call_inv h pkgs (fst (to_json py_hash w)).
Proof.
  intro Hinv. unfold to_json. run.
  set (w0 := {| heap := heap w; self := reset_icm_maps (self w); log := log w |}).
  assert (H0 : call_inv h pkgs w0)
    by (apply call_inv_reset; [intro; split; reflexivity | exact Hinv]).
  assert (Hpk : packages (self w0) = pkgs) by apply H0.
  pose proof (call_inv_stable h pkgs) as Hst.
  assert (H1 : call_inv h pkgs (fst (for_each (packages (self w0)) (seed_icm py_hash) w0))).
  { apply for_each_preserves; [|exact H0]. intros. now apply keeps_seed_icm. }
  destruct (for_each (packages (self w0)) (seed_icm py_hash) w0) as [w1 [[]|e]];
    cbn [fst] in *; [|exact H1].
  assert (H2 : call_inv h pkgs
                 (fst (for_each (packages (self w0)) (process_package py_hash "icm") w1))).
  { apply for_each_preserves; [|exact H1]. intros p w' Hp Hw'.
    apply process_package_inv; [exact Hw'|]. now rewrite <- Hpk. }
  destruct (for_each (packages (self w0)) (process_package py_hash "icm") w1) as [w2 [[]|e]];
    cbn [fst] in *; [|exact H2].
  pose proof (keeps_set_go_package_sources _ Hst w2 H2) as H3.
  destruct (set_go_package_sources py_hash w2) as [w3 [[]|e]]; cbn [fst] in *; exact H3.
Qed.

Lemma sbom_components_list_inv h pkgs w :
  call_inv h pkgs w -> call_inv h pkgs (fst (sbom_components_list py_hash w)).
Proof.
  intro Hinv. unfold sbom_components_list. run.
  set (w0 := {| heap := heap w; self := reset_sbom (self w); log := log w |}).
  assert (H0 : call_inv h pkgs w0)
    by (apply call_inv_reset; [intro; split; reflexivity | exact Hinv]).
  assert (Hpk : packages (self w0) = pkgs) by apply H0.
  pose proof (call_inv_stable h pkgs) as Hst.
  assert (H1 : call_inv h pkgs (fst (for_each (packages (self w0)) seed_sbom w0))).
  { apply for_each_preserves; [|exact H0]. intros. now apply keeps_seed_sbom. }
  destruct (for_each (packages (self w0)) seed_sbom w0) as [w1 [[]|e]];
    cbn [fst] in *; [|exact H1].
  assert (H2 : call_inv h pkgs
                 (fst (for_each (packages (self w0)) (process_package py_hash "sbom") w1))).
  { apply for_each_preserves; [|exact H1]. intros p w' Hp Hw'.
    apply process_package_inv; [exact Hw'|]. now rewrite <- Hpk. }
  destruct (for_each (packages (self w0)) (process_package py_hash "sbom") w1) as [w2 [[]|e]];
    cbn [fst] in *; exact H2.
Qed.

Lemma call_inv_start w :
  cache_ok w -> call_inv (heap w) (packages (self w)) w.
Proof.
  intro Hc. split; [apply evolved_refl|]. split; [reflexivity|exact Hc].
Qed.

(** C8 (amended): [to_json] and [sbom_components_list] leave the name, type,
    dev, path and dependencies of every Package object as they were, and
    its version too, except for a dependency of a go-package of the list
    that is itself a go-package with a version starting with a dot and a
    name under a Go module of the list: its version is overwritten with
    the version of that module. *)
Theorem calls_change_versions_of_local_go_dependencies_only :
  forall (w : World),
    cache_ok w ->
    forall (w' : World),
      w' = fst (to_json py_hash w) \/ w' = fst (sbom_components_list py_hash w) ->
      forall a : addr,
        name (heap w' a) = name (heap w a)
        /\ type (heap w' a) = type (heap w a)
        /\ dev (heap w' a) = dev (heap w a)
        /\ path (heap w' a) = path (heap w a)
        /\ dependencies (heap w' a) = dependencies (heap w a)
        /\ (version (heap w' a) = version (heap w a)
            \/ (go_package_dependency (heap w) (packages (self w)) a
                /\ resolution (heap w) (packages (self w)) a = Some (heap w' a))).
Proof.
  intros w Hc w' Hw' a.
  assert (Hinv : call_inv (heap w) (packages (self w)) w') .
  { destruct Hw' as [-> | ->].
    - apply to_json_inv. now apply call_inv_start.
    - apply sbom_components_list_inv. now apply call_inv_start. }
  destruct Hinv as (He & _).
  pose proof (evolved_fields _ _ _ a He) as (H1 & H2 & H3 & H4 & H5).
  repeat split; try assumption.
  destruct (He a) as [E|E]; [left; now rewrite E | right; exact E].
Qed.

(** ** The SBOM component list *)

Lemma for_each_acc {A X} (I : World -> Prop) (out : World -> list X) (f : A -> list X)
      (l : list A) (body : A -> M unit) :
  (forall x w, In x l -> I w ->
     I (fst (body x w))
     /\ (snd (body x w) = Ok tt -> out (fst (body x w)) = out w ++ f x)) ->
  forall w, I w ->
    I (fst (for_each l body w))
    /\ (snd (for_each l body w) = Ok tt ->
        out (fst (for_each l body w)) = out w ++ List.flat_map f l).
Proof.
  induction l as [|x l IH]; intros Hb w Hw; simpl.
  - split; [exact Hw|]. intros _. now rewrite app_nil_r.
  - unfold bind. destruct (Hb x w (or_introl eq_refl) Hw) as [H1 H2].
    destruct (body x w) as [w1 [[]|e]]; cbn [fst snd] in *.
    + destruct (IH (fun y w' Hy => Hb y w' (or_intror Hy)) w1 H1) as [H3 H4].
      split; [exact H3|]. intro Hr. rewrite (H4 Hr), (H2 eq_refl). now rewrite app_assoc.
    + split; [exact H1|discriminate].
Qed.

Lemma sbom_shapes_append w c :
  sbom_shapes {| heap := heap w;
                 self := set_sbom_components (_sbom_components (self w) ++ [c]) (self w);
                 log := log w |}
  = sbom_shapes w ++ [component_shape c].
Proof. unfold sbom_shapes. simpl. now rewrite map_app. Qed.

Ltac exec :=
  run; repeat (break_match; cbn [fst snd] in *; try discriminate).

Lemma seed_sbom_shapes package w :
  snd (seed_sbom package w) = Ok tt ->
  sbom_shapes (fst (seed_sbom package w))
  = sbom_shapes w ++ (if sbom_supported (type (heap w package))
                      then [shape_of (heap w package)] else []).
Proof.
  unfold seed_sbom, setdefault_module, append_component. exec; intros _.
  - cbn [heap self log]. unfold sbom_shapes. simpl. now rewrite map_app.
  - apply sbom_shapes_append.
  - unfold sbom_shapes. simpl. now rewrite app_nil_r.
Qed.

Lemma process_gomod_sbom package dependency w :
  snd (process_gomod package dependency "sbom" w) = Ok tt ->
  sbom_shapes (fst (process_gomod package dependency "sbom" w))
  = sbom_shapes w ++ (if String.eqb (type (heap w dependency)) "gomod"
                      then [shape_of (heap w dependency)] else []).
Proof.
  unfold process_gomod, append_component. exec; intros _;
    first [ apply sbom_shapes_append | now rewrite app_nil_r ].
Qed.

Lemma process_standard_sbom t package dependency w :
  snd (process_standard py_hash t package dependency "sbom" w) = Ok tt ->
  sbom_shapes (fst (process_standard py_hash t package dependency "sbom" w))
  = sbom_shapes w ++ (if String.eqb (type (heap w dependency)) t
                      then [shape_of (heap w dependency)] else []).
Proof.
  unfold process_standard, _process_standard_package_sbom, append_component.
  exec; intros _; first [ apply sbom_shapes_append | now rewrite app_nil_r ].
Qed.

Lemma process_rubygems_sbom package dependency w :
  snd (process_rubygems_package py_hash package dependency "sbom" w) = Ok tt ->
  sbom_shapes (fst (process_rubygems_package py_hash package dependency "sbom" w))
  = sbom_shapes w ++ (if String.eqb (type (heap w dependency)) "rubygems"
                      then [shape_of (heap w dependency)] else []).
Proof.
  unfold process_rubygems_package, append_component.
  exec; intros _; first [ apply sbom_shapes_append | now rewrite app_nil_r ].
Qed.

Lemma same_fields_sbom_shapes w w' : same_fields w w' -> sbom_shapes w' = sbom_shapes w.
Proof. intros [H _]. unfold sbom_shapes. now rewrite H. Qed.

Lemma evolved_not_local h pkgs h' a :
  evolved h pkgs h' -> Py.is_local (version (h' a)) = false -> h' a = resolved h pkgs a.
Proof.
  intros He Hl. unfold resolved. destruct (He a) as [E|[_ Hr]].
  - rewrite E in *. unfold resolution. rewrite Hl, andb_false_r. reflexivity.
  - now rewrite Hr.
Qed.

Lemma evolved_other_resolved h pkgs h' a :
  evolved h pkgs h' -> type (h a) <> "go-package" -> h' a = resolved h pkgs a.
Proof.
  intros He Ht. rewrite (evolved_other_type h pkgs h' a He Ht).
  unfold resolved, resolution.
  destruct (String.eqb (type (h a)) "go-package") eqn:E; [|reflexivity].
  apply String.eqb_eq in E. contradiction.
Qed.

Lemma process_go_package_sbom h pkgs package dependency w :
  call_inv h pkgs w ->
  go_package_dependency h pkgs dependency ->
  snd (process_go_package py_hash package dependency "sbom" w) = Ok tt ->
  sbom_shapes (fst (process_go_package py_hash package dependency "sbom" w))
  = sbom_shapes w ++ (if String.eqb (type (h dependency)) "go-package"
                      then [shape_of (resolved h pkgs dependency)] else []).
Proof.
  intros Hinv Hdep. unfold process_go_package. run.
  destruct Hinv as (He & Hrest).
  destruct (evolved_fields h pkgs (heap w) dependency He) as (_ & Ht' & _).
  rewrite Ht'.
  destruct (String.eqb (type (h dependency)) "go-package") eqn:Et;
    [|intros _; now rewrite app_nil_r].
  apply String.eqb_eq in Et.
  destruct (Py.is_local (version (heap w dependency))) eqn:Hl.
  - pose proof (get_local_inv h pkgs package dependency w (conj He Hrest) Hdep Et)
      as (_ & Hs & Hres).
    destruct (_get_local_go_package_dep_purl package dependency w) as [w1 [purl|e]];
      cbn [fst snd] in *; [|discriminate].
    intros _. unfold append_component. run.
    change (String.eqb "sbom" "icm") with false. change (String.eqb "sbom" "sbom") with true.
    cbn [fst].
    rewrite sbom_shapes_append, (same_fields_sbom_shapes w w1 Hs).
    now rewrite (Hres eq_refl).
  - destruct (to_purl (heap w dependency) None) as [purl|e]; cbn [fst snd]; [|discriminate].
    intros _. unfold append_component. run.
    change (String.eqb "sbom" "icm") with false. change (String.eqb "sbom" "sbom") with true.
    cbn [fst].
    rewrite sbom_shapes_append.
    now rewrite (evolved_not_local h pkgs (heap w) dependency He Hl).
Qed.

Lemma process_dependency_sbom h pkgs package dependency w :
  call_inv h pkgs w ->
  In package pkgs ->
  In dependency (dependencies (h package)) ->
  snd (process_dependency py_hash "sbom" package dependency w) = Ok tt ->
  sbom_shapes (fst (process_dependency py_hash "sbom" package dependency w))
  = sbom_shapes w ++ dependency_shape h pkgs package dependency.
Proof.
  intros Hinv Hp Hd. unfold process_dependency, dependency_shape, has_processor. run.
  pose proof Hinv as (He & _).
  destruct (evolved_fields h pkgs (heap w) package He) as (_ & Htp & _).
  destruct (evolved_fields h pkgs (heap w) dependency He) as (_ & Htd & _).
  rewrite Htp.
  assert (Hother : forall t, t <> "go-package" ->
            (if String.eqb (type (heap w dependency)) t
             then [shape_of (heap w dependency)] else [])
            = (if String.eqb (type (h dependency)) t
               then [shape_of (resolved h pkgs dependency)] else [])).
  { intros t Hne. rewrite Htd. destruct (String.eqb (type (h dependency)) t) eqn:E;
      [|reflexivity].
    apply String.eqb_eq in E.
    rewrite (evolved_other_resolved h pkgs (heap w) dependency He); [reflexivity|congruence]. }
  unfold process_npm_package, process_pip_package, process_yarn_package.
  repeat match goal with
  | |- context [String.eqb (type (h package)) ?t] =>
      let E := fresh "E" in
      destruct (String.eqb (type (h package)) t) eqn:E;
      [ apply String.eqb_eq in E; rewrite E | ]
  end; cbn [orb andb].
  - intro Hr.
    assert (Hdep : go_package_dependency h pkgs dependency) by (exists package; auto).
    rewrite (process_go_package_sbom h pkgs package dependency w Hinv Hdep Hr).
    reflexivity.
  - intro Hr. rewrite process_gomod_sbom by exact Hr. apply f_equal, Hother. discriminate.
  - intro Hr. rewrite process_standard_sbom by exact Hr. apply f_equal, Hother. discriminate.
  - intro Hr. rewrite process_standard_sbom by exact Hr. apply f_equal, Hother. discriminate.
  - intro Hr. rewrite process_standard_sbom by exact Hr. apply f_equal, Hother. discriminate.
  - intro Hr. rewrite process_rubygems_sbom by exact Hr. apply f_equal, Hother. discriminate.
  - intros _. cbn [fst]. now rewrite app_nil_r.
Qed.

Lemma process_package_sbom h pkgs package w :
  call_inv h pkgs w ->
  In package pkgs ->
  call_inv h pkgs (fst (process_package py_hash "sbom" package w))
  /\ (snd (process_package py_hash "sbom" package w) = Ok tt ->
      sbom_shapes (fst (process_package py_hash "sbom" package w))
      = sbom_shapes w
        ++ List.flat_map (dependency_shape h pkgs package) (dependencies (h package))).
Proof.
  intros Hinv Hp. unfold process_package. run.
  pose proof Hinv as (He & _).
  destruct (evolved_fields h pkgs (heap w) package He) as (_ & _ & _ & Hdeps & _).
  rewrite Hdeps.
  apply (for_each_acc (call_inv h pkgs) sbom_shapes (dependency_shape h pkgs package));
    [|exact Hinv].
  intros d w1 Hd H1. split.
  - now apply process_dependency_inv.
  - now apply process_dependency_sbom.
Qed.

(** C6 (amended): [sbom_components_list] returns one component for each
    package of a supported type, in the order of the list, followed by
    one component for each dependency that has the type of its owning
    package, in the order the dependencies are met.  Every component is a
    library with the name of its package or dependency; it has the key
    version exactly when the version is set and not empty, where the
    version of a local go-package dependency under a Go module of the
    list is the version of that module. *)
Theorem sbom_components_shapes :
  forall (w : World) (components : list Component),
    cache_ok w ->
    snd (sbom_components_list py_hash w) = Ok components ->
    List.map component_shape components
    = top_level_shapes (heap w) (packages (self w))
      ++ dependency_shapes (heap w) (packages (self w)).
Proof.
  intros w components Hc. unfold sbom_components_list. run.
  set (w0 := {| heap := heap w; self := reset_sbom (self w); log := log w |}).
  change (packages (self w0)) with (packages (self w)).
  set (h := heap w). set (pkgs := packages (self w)).
  assert (H0 : call_inv h pkgs w0).
  { apply call_inv_reset; [intro; split; reflexivity|]. now apply call_inv_start. }
  pose proof (for_each_acc (fun w1 => call_inv h pkgs w1 /\ heap w1 = h) sbom_shapes
                (fun a => if sbom_supported (type (h a)) then [shape_of (h a)] else [])
                pkgs seed_sbom) as Hseed.
  destruct (Hseed) with (w := w0) as [[H1 Hh1] Hs1]; [|now split|].
  { intros a w1 Ha [Hw1 Hh]. split; [split|].
    - apply keeps_seed_sbom; [apply call_inv_stable|exact Hw1].
    - apply (keeps_seed_sbom (fun w2 => heap w2 = h)); [|exact Hh].
      intros u u' Hu _ _ _ Hu'. now rewrite Hu.
    - intro Hr. rewrite (seed_sbom_shapes a w1 Hr), Hh. reflexivity. }
  destruct (for_each pkgs seed_sbom w0) as [w1 [[]|e]]; cbn [fst snd] in *; [|discriminate].
  specialize (Hs1 eq_refl).
  pose proof (for_each_acc (call_inv h pkgs) sbom_shapes
                (fun p => List.flat_map (dependency_shape h pkgs p) (dependencies (h p)))
                pkgs (process_package py_hash "sbom")) as Hproc.
  destruct (Hproc) with (w := w1) as [H2 Hs2]; [|exact H1|].
  { intros p w2 Hp Hw2. now apply process_package_sbom. }
  destruct (for_each pkgs (process_package py_hash "sbom") w1) as [w2 [[]|e]];
    cbn [fst snd] in *; [|discriminate].
  intro Hr. injection Hr as <-.
  specialize (Hs2 eq_refl). unfold sbom_shapes in Hs2 at 1. rewrite Hs2, Hs1.
  unfold top_level_shapes, dependency_shapes.
  replace (sbom_shapes w0) with (@nil shape) by reflexivity. cbn [app].
  f_equal. clear. induction pkgs as [|a l IH]; simpl; [reflexivity|].
  destruct (sbom_supported (type (h a))); simpl; now rewrite IH.
Qed.

(** ** The entries of the working maps *)

Section Skeleton.

(** The keys and purls of the entries, as the first loop of [to_json]
    leaves them. *)
Variable sk : field -> list (addr * string).

Lemma pdict_update_skeleton h a g d d' :
  (forall e, d_purl (g e) = d_purl e) ->
  pdict_update py_hash h a g d = Some d' -> skeleton d' = skeleton d.
Proof.
  intro Hg. revert d'. induction d as [|s d IH]; simpl; intros d' H; [discriminate|].
  destruct (slot_matches py_hash h a s).
  - inversion H; subst. simpl. now rewrite Hg.
  - destruct (pdict_update py_hash h a g d) as [d1|]; simpl in H; [|discriminate].
    inversion H; subst. simpl. now rewrite (IH d1 eq_refl).
Qed.

Lemma skel_update_entry f a g :
  (forall e, d_purl (g e) = d_purl e) -> keeps (skel sk) (update_entry py_hash f a g).
Proof.
  intros Hg w Hw. unfold update_entry. run.
  destruct (pdict_update py_hash (heap w) a g (get_field f (self w))) as [d'|] eqn:E;
    cbn [fst]; [|exact Hw].
  intro f'. cbn [self]. destruct (field_eq_dec f f') as [<-|Hne].
  - rewrite get_set_field, (pdict_update_skeleton _ _ _ _ _ Hg E). apply Hw.
  - rewrite get_set_field_other by exact Hne. apply Hw.
Qed.

Lemma skel_modify (g : ContentManifest -> ContentManifest) :
  (forall cm f, get_field f (g cm) = get_field f cm) -> keeps (skel sk) (modify_self g).
Proof. intros Hg w Hw f. cbn. rewrite Hg. apply Hw. Qed.

Lemma skel_emit r : keeps (skel sk) (emit r).
Proof. intros w Hw. exact Hw. Qed.

Lemma skel_assign_version a v : keeps (skel sk) (assign_version a v).
Proof. intros w Hw. exact Hw. Qed.

Lemma skeleton_update_nth i g d :
  (forall e, d_purl (g e) = d_purl e) ->
  skeleton (update_nth i (slot_map g) d) = skeleton d.
Proof.
  intro Hg. revert i. induction d as [|s d IH]; intros [|i]; simpl; try reflexivity.
  - now rewrite Hg.
  - now rewrite IH.
Qed.

Lemma skel_pop_name i :
  keeps (skel sk)
    (modify_self
       (fun cm => set_field F_gopkg (update_nth i (slot_map pop_name) (_gopkg_data cm)) cm)).
Proof.
  intros w Hw f. specialize (Hw f). destruct f; cbn in *; try exact Hw.
  rewrite skeleton_update_nth by reflexivity. exact Hw.
Qed.

Ltac skel_leaf :=
  first
    [ apply skel_update_entry; reflexivity
    | apply skel_pop_name
    | apply skel_emit
    | apply skel_assign_version
    | apply skel_modify; intros ? f; destruct f; reflexivity ].

Ltac skel_tac := keeps_with skel_leaf.

Lemma skel_append_component c : keeps (skel sk) (append_component c).
Proof. unfold append_component. skel_tac. Qed.

Lemma skel_go_modules_by_name : keeps (skel sk) go_modules_by_name.
Proof. unfold go_modules_by_name. skel_tac. Qed.

Lemma skel_get_local package dependency :
  keeps (skel sk) (_get_local_go_package_dep_purl package dependency).
Proof.
  unfold _get_local_go_package_dep_purl. skel_tac.
Qed.

Lemma skel_process_dependency mode package dependency :
  keeps (skel sk) (process_dependency py_hash mode package dependency).
Proof.
  unfold process_dependency, process_go_package, process_gomod, process_npm_package,
    process_pip_package, process_yarn_package, process_standard,
    _process_standard_package, _process_standard_package_sbom, process_rubygems_package.
  keeps_with ltac:(first [apply skel_get_local | apply skel_append_component | skel_leaf]).
Qed.

Lemma skel_process_package mode package :
  keeps (skel sk) (process_package py_hash mode package).
Proof.
  unfold process_package.
  keeps_with ltac:(first [apply skel_process_dependency | skel_leaf]).
Qed.

Lemma skel_set_go_package_sources : keeps (skel sk) (set_go_package_sources py_hash).
Proof. unfold set_go_package_sources, set_sources_at. skel_tac. Qed.

End Skeleton.

(** ** The first loop of [to_json] *)

Section Seeding.

Variable h : addr -> Package.
Variable rq : Request.

Lemma slot_matches_seeded a s :
  (seeded_slot py_hash h rq) s ->
  slot_matches py_hash h a s = Package_eq (h (slot_key s)) (h a).
Proof.
  intros [Hh _]. unfold slot_matches. rewrite Hh.
  destruct (Package_eq (h (slot_key s)) (h a)) eqn:E.
  - rewrite orb_true_r, andb_true_r. apply Z.eqb_eq. unfold Package_hash.
    apply Package_eq_identity in E. now rewrite E.
  - rewrite orb_false_r. destruct (Nat.eqb (slot_key s) a) eqn:En; [|apply andb_false_r].
    apply Nat.eqb_eq in En. rewrite En, Package_eq_refl in E. discriminate.
Qed.

Lemma pdict_get_seeded a (d : pdict PkgData) :
  Forall (seeded_slot py_hash h rq) d ->
  match pdict_get py_hash h a d with Some _ => true | None => false end
  = List.existsb (fun b => Package_eq (h b) (h a)) (pdict_keys d).
Proof.
  induction 1 as [|s d Hs Hd IH]; simpl; [reflexivity|].
  rewrite (slot_matches_seeded a s Hs).
  destruct (Package_eq (h (slot_key s)) (h a)); [reflexivity|exact IH].
Qed.

Lemma pdict_setdefault_seeded a v (d : pdict PkgData) :
  Forall (seeded_slot py_hash h rq) d ->
  to_top_level_purl (h a) rq (path (h a)) = Ok (d_purl v) ->
  Forall (seeded_slot py_hash h rq) (pdict_setdefault py_hash h a v d)
  /\ pdict_keys (pdict_setdefault py_hash h a v d) = distinct_from h (pdict_keys d) [a].
Proof.
  intros Hd Hv. pose proof (pdict_get_seeded a d Hd) as Hg.
  unfold pdict_setdefault, distinct_from. simpl. rewrite <- Hg.
  destruct (pdict_get py_hash h a d); [now split|].
  split.
  - apply Forall_app. split; [exact Hd|]. constructor; [|constructor]. now split.
  - unfold pdict_keys. now rewrite map_app.
Qed.

Lemma distinct_from_app acc l1 l2 :
  distinct_from h acc (l1 ++ l2) = distinct_from h (distinct_from h acc l1) l2.
Proof. unfold distinct_from. apply fold_left_app. Qed.

Lemma seeding_setdefault f a v w :
  (seeding py_hash h rq) w ->
  to_top_level_purl (h a) rq (path (h a)) = Ok (d_purl v) ->
  type (h a) = field_type f ->
  (seeding py_hash h rq) (fst (setdefault_entry py_hash f a v w))
  /\ forall f', pdict_keys (get_field f' (self (fst (setdefault_entry py_hash f a v w))))
                = distinct_from h (pdict_keys (get_field f' (self w)))
                    (packages_of_type h (field_type f') [a]).
Proof.
  intros (Hh & Hr & Hf) Hv Ht. unfold setdefault_entry. run. cbn [fst]. rewrite Hh.
  destruct (pdict_setdefault_seeded a v (get_field f (self w)) (Hf f) Hv) as [H1 H2].
  split.
  - split; [reflexivity|]. split; [destruct f; exact Hr|].
    intro f'. cbn [self]. destruct (field_eq_dec f f') as [<-|Hne].
    + now rewrite get_set_field.
    + rewrite get_set_field_other by exact Hne. apply Hf.
  - intro f'. cbn [self]. unfold packages_of_type. cbn [filter]. rewrite Ht.
    destruct (field_eq_dec f f') as [<-|Hne].
    + rewrite get_set_field, String.eqb_refl. exact H2.
    + rewrite get_set_field_other by exact Hne.
      destruct f, f'; try congruence; reflexivity.
Qed.

End Seeding.

Lemma field_of_type_some t f : field_of_type t = Some f -> t = field_type f.
Proof.
  unfold field_of_type.
  repeat match goal with
  | |- context [String.eqb t ?s] =>
      let E := fresh "E" in destruct (String.eqb t s) eqn:E;
      [apply String.eqb_eq in E; intro H; inversion H; subst; reflexivity|]
  end.
  discriminate.
Qed.

Lemma field_of_type_none t f :
  field_of_type t = None -> f <> F_gopkg -> f <> F_gitsubmodule -> t <> field_type f.
Proof.
  unfold field_of_type. intros H H1 H2 ->.
  destruct f; try congruence; discriminate.
Qed.

Lemma packages_of_type_other (h : addr -> Package) a f :
  type (h a) <> field_type f -> packages_of_type h (field_type f) [a] = [].
Proof.
  intro H. unfold packages_of_type. cbn [filter].
  apply String.eqb_neq in H. now rewrite H.
Qed.

Lemma seeding_same_fields h rq w w' :
  seeding py_hash h rq w -> heap w' = h -> request (self w') = rq ->
  (forall f, get_field f (self w') = get_field f (self w)) ->
  seeding py_hash h rq w'.
Proof.
  intros (_ & _ & Hf) Hh Hr He. split; [exact Hh|]. split; [exact Hr|].
  intro f. rewrite He. apply Hf.
Qed.

Lemma seed_icm_step h rq a w :
  seeding py_hash h rq w ->
  seeding py_hash h rq (fst (seed_icm py_hash a w))
  /\ (snd (seed_icm py_hash a w) = Ok tt ->
      forall f, pdict_keys (get_field f (self (fst (seed_icm py_hash a w))))
                = distinct_from h (pdict_keys (get_field f (self w)))
                    (packages_of_type h (field_type f) [a])).
Proof.
  intro Hs. pose proof Hs as (Hh & Hr & Hf). unfold seed_icm. run. rewrite Hh, Hr.
  assert (Hraise : forall e,
             seeding py_hash h rq (fst (w, @Raise unit e))
             /\ (snd (w, @Raise unit e) = Ok tt ->
                 forall f, pdict_keys (get_field f (self (fst (w, @Raise unit e))))
                           = distinct_from h (pdict_keys (get_field f (self w)))
                               (packages_of_type h (field_type f) [a])))
    by (intro e; split; [exact Hs|discriminate]).
  assert (Hkeep : forall w' : World,
             heap w' = h -> request (self w') = rq ->
             (forall f, get_field f (self w') = get_field f (self w)) ->
             (forall f, type (h a) <> field_type f) ->
             seeding py_hash h rq w'
             /\ forall f, pdict_keys (get_field f (self w'))
                          = distinct_from h (pdict_keys (get_field f (self w)))
                              (packages_of_type h (field_type f) [a])).
  { intros w' H1 H2 H3 H4. split; [now apply (seeding_same_fields h rq w)|].
    intro f. rewrite H3, packages_of_type_other by apply H4. reflexivity. }
  destruct (String.eqb (type (h a)) "go-package") eqn:E1.
  { apply String.eqb_eq in E1.
    destruct (to_top_level_purl (h a) rq (path (h a))) as [purl|e] eqn:Ep; [|apply Hraise].
    destruct (seeding_setdefault h rq F_gopkg a (new_entry (Some (name (h a))) purl) w Hs Ep E1)
      as [H1 H2].
    split; [exact H1|intros _; exact H2]. }
  destruct (String.eqb (type (h a)) "gomod") eqn:E2.
  { apply String.eqb_eq in E2.
    destruct (to_top_level_purl (h a) rq (path (h a))) as [purl|e] eqn:Ep; [|apply Hraise].
    unfold setdefault_module. run. cbn [fst snd].
    destruct (Hkeep {| heap := heap w;
                       self := set_gomod_data
                                 (sdict_setdefault (name (h a)) (new_module purl)
                                    (_gomod_data (self w))) (self w);
                       log := log w |}) as [H1 H2]; try assumption.
    - intro f. destruct f; reflexivity.
    - intro f. rewrite E2. destruct f; discriminate.
    - split; [exact H1|intros _; exact H2]. }
  destruct (field_of_type (type (h a))) as [f|] eqn:E3.
  { pose proof (field_of_type_some _ _ E3) as Ht.
    destruct (to_top_level_purl (h a) rq (path (h a))) as [purl|e] eqn:Ep; [|apply Hraise].
    destruct (seeding_setdefault h rq f a (new_entry None purl) w Hs Ep Ht) as [H1 H2].
    split; [exact H1|intros _; exact H2]. }
  destruct (String.eqb (type (h a)) "git-submodule") eqn:E4.
  { apply String.eqb_eq in E4.
    destruct (to_top_level_purl (h a) rq (path (h a))) as [purl|e] eqn:Ep; [|apply Hraise].
    destruct (seeding_setdefault h rq F_gitsubmodule a (new_entry None purl) w Hs Ep E4)
      as [H1 H2].
    split; [exact H1|intros _; exact H2]. }
  cbn [fst snd].
  destruct (Hkeep {| heap := heap w; self := self w;
                     log := log w ++ [LogDebug "No ICM implementation for '%s' packages"
                                        (type (h a))] |}) as [H1 H2];
    try assumption; try reflexivity.
  - intro f. apply String.eqb_neq in E1, E4.
    destruct f; try assumption; apply (field_of_type_none _ _ E3); discriminate.
  - split; [exact H1|intros _; exact H2].
Qed.

Lemma packages_of_type_cons (h : addr -> Package) t a l :
  packages_of_type h t (a :: l) = packages_of_type h t [a] ++ packages_of_type h t l.
Proof. unfold packages_of_type. simpl. destruct (String.eqb (type (h a)) t); reflexivity. Qed.

Lemma seed_icm_loop h rq l :
  forall w,
    seeding py_hash h rq w ->
    seeding py_hash h rq (fst (for_each l (seed_icm py_hash) w))
    /\ (snd (for_each l (seed_icm py_hash) w) = Ok tt ->
        forall f, pdict_keys (get_field f (self (fst (for_each l (seed_icm py_hash) w))))
                  = distinct_from h (pdict_keys (get_field f (self w)))
                      (packages_of_type h (field_type f) l)).
Proof.
  induction l as [|a l IH]; intros w Hs; cbn [for_each].
  - split; [exact Hs|]. intros _ f. reflexivity.
  - unfold bind. destruct (seed_icm_step h rq a w Hs) as [H1 H2].
    destruct (seed_icm py_hash a w) as [w1 [[]|e]]; cbn [fst snd] in *.
    + destruct (IH w1 H1) as [H3 H4]. split; [exact H3|].
      intros Hr f. rewrite (H4 Hr f), (H2 eq_refl f).
      rewrite (packages_of_type_cons h (field_type f) a l).
      now rewrite distinct_from_app.
    + split; [exact H1|discriminate].
Qed.

(** ** The document of [to_json] *)

Lemma insert_sorted_perm {A} (leb : A -> A -> bool) x l :
  Permutation (insert_sorted leb x l) (x :: l).
Proof.
  induction l as [|y l IH]; simpl; [reflexivity|].
  destruct (leb x y); [reflexivity|].
  rewrite IH. apply perm_swap.
Qed.

Lemma sort_by_perm {A} (leb : A -> A -> bool) l : Permutation (sort_by leb l) l.
Proof.
  induction l as [|x l IH]; simpl; [reflexivity|].
  unfold sort_by in *. simpl. rewrite insert_sorted_perm. now constructor.
Qed.

Lemma generate_icm_purls contents :
  metadata (generate_icm contents) = metadata BASE_ICM
  /\ Permutation (List.map d_purl (image_contents (generate_icm contents)))
       (List.map d_purl contents).
Proof.
  split; [reflexivity|]. unfold generate_icm, deep_sort_icm. cbn [image_contents].
  rewrite sort_by_perm. rewrite map_map. reflexivity.
Qed.

Lemma purls_of_skeleton d :
  List.map d_purl (pdict_values d) = List.map snd (skeleton d).
Proof. unfold pdict_values, skeleton. now rewrite !map_map. Qed.

Lemma top_level_purls cm :
  List.map d_purl (top_level_packages cm)
  = List.flat_map (fun f => List.map snd (skeleton (get_field f cm))) icm_fields.
Proof.
  unfold top_level_packages. cbn [flat_map icm_fields get_field].
  rewrite !map_app, !purls_of_skeleton, app_nil_r. reflexivity.
Qed.

Lemma seeded_purls h rq d :
  Forall (seeded_slot py_hash h rq) d ->
  Forall2 (fun a purl => to_top_level_purl (h a) rq (path (h a)) = Ok purl)
    (pdict_keys d) (List.map snd (skeleton d)).
Proof.
  induction 1 as [|s d [_ Hs] Hd IH]; simpl; constructor; assumption.
Qed.

Lemma Forall2_flat_map {A B C} (R : B -> C -> Prop) (f : A -> list B) (g : A -> list C) l :
  (forall x, In x l -> Forall2 R (f x) (g x)) ->
  Forall2 R (List.flat_map f l) (List.flat_map g l).
Proof.
  induction l as [|x l IH]; intro H; simpl; [constructor|].
  apply Forall2_app; [apply H; now left|]. apply IH. intros y Hy. apply H. now right.
Qed.

(** C1: the document of [to_json] has the metadata of the template
    (version 1, the schema URL, layer index -1), and its [image_contents]
    has one entry for each distinct package of type go-package, npm, pip,
    yarn, rubygems or git-submodule, with the top-level purl of the first
    such package, and no other entry; an empty package list gives the empty
    [image_contents]. *)
Theorem to_json_document :
  forall (w : World),
    (packages (self w) = [] -> snd (to_json py_hash w) = Ok BASE_ICM)
    /\ (forall icm : ICM,
           snd (to_json py_hash w) = Ok icm ->
           metadata icm
           = {| icm_version := 1; icm_spec := JSON_SCHEMA_URL; image_layer_index := -1 |}
           /\ exists purls : list string,
               Forall2
                 (fun a purl =>
                    to_top_level_purl (heap w a) (request (self w)) (path (heap w a))
                    = Ok purl)
                 (icm_packages (heap w) (packages (self w))) purls
               /\ Permutation (List.map d_purl (image_contents icm)) purls).
Proof.
  intro w. split.
  { intro Hnil. unfold to_json. run. cbn [self packages reset_icm_maps].
    rewrite Hnil. reflexivity. }
  intros icm. unfold to_json. run.
  set (w0 := {| heap := heap w; self := reset_icm_maps (self w); log := log w |}).
  change (packages (self w0)) with (packages (self w)).
  set (h := heap w). set (rq := request (self w)). set (pkgs := packages (self w)).
  assert (H0 : seeding py_hash h rq w0).
  { split; [reflexivity|]. split; [reflexivity|]. intro f. destruct f; constructor. }
  destruct (seed_icm_loop h rq pkgs w0 H0) as [H1 K1].
  destruct (for_each pkgs (seed_icm py_hash) w0) as [w1 [[]|e]]; cbn [fst snd] in *;
    [|discriminate].
  specialize (K1 eq_refl).
  set (sk := fun f => skeleton (get_field f (self w1))).
  assert (S1 : skel sk w1) by (intro f; reflexivity).
  assert (S2 : skel sk (fst (for_each pkgs (process_package py_hash "icm") w1))).
  { apply for_each_preserves; [|exact S1]. intros p w' _ Hw'.
    now apply skel_process_package. }
  destruct (for_each pkgs (process_package py_hash "icm") w1) as [w2 [[]|e]];
    cbn [fst snd] in *; [|discriminate].
  pose proof (skel_set_go_package_sources sk w2 S2) as S3.
  destruct (set_go_package_sources py_hash w2) as [w3 [[]|e]]; cbn [fst snd] in *;
    [|discriminate].
  intro Hr. injection Hr as <-.
  destruct (generate_icm_purls (top_level_packages (self w3))) as [Hm Hp].
  split; [exact Hm|].
  exists (List.flat_map (fun f => List.map snd (sk f)) icm_fields). split.
  - unfold icm_packages. apply Forall2_flat_map. intros f _.
    unfold distinct_packages. destruct H1 as (_ & _ & Hf).
    replace (distinct_from h [] (packages_of_type h (field_type f) pkgs))
      with (pdict_keys (get_field f (self w1))).
    + apply seeded_purls, Hf.
    + rewrite K1. destruct f; reflexivity.
  - rewrite Hp, top_level_purls.
    replace (List.flat_map (fun f => List.map snd (skeleton (get_field f (self w3)))) icm_fields)
      with (List.flat_map (fun f => List.map snd (sk f)) icm_fields); [reflexivity|].
    cbn [flat_map icm_fields]. now rewrite !S3.
Qed.

(** ** The sources of go-packages *)

Lemma pdict_update_index {V} (h : addr -> Package) a (g : V -> V) (d : pdict V) i :
  pdict_index py_hash h a d = Some i ->
  pdict_update py_hash h a g d = Some (update_nth i (slot_map g) d).
Proof.
  revert i. induction d as [|s d IH]; simpl; intros i H; [discriminate|].
  destruct (slot_matches py_hash h a s).
  - inversion H; subst. reflexivity.
  - destruct (pdict_index py_hash h a d) as [j|]; simpl in H; [|discriminate].
    inversion H; subst. now rewrite (IH j eq_refl).
Qed.

Lemma pdict_index_frame {V} (h : addr -> Package) a (d d' : pdict V) :
  Forall2 (fun s s' => slot_hash s' = slot_hash s /\ slot_key s' = slot_key s) d d' ->
  pdict_index py_hash h a d' = pdict_index py_hash h a d.
Proof.
  induction 1 as [|s s' d d' [Hh Hk] Hd IH]; simpl; [reflexivity|].
  unfold slot_matches. rewrite Hh, Hk, IH. reflexivity.
Qed.

Lemma pdict_index_update_nth {V} (h : addr -> Package) a i (g : V -> V) (d : pdict V) :
  pdict_index py_hash h a (update_nth i (slot_map g) d) = pdict_index py_hash h a d.
Proof.
  revert i. induction d as [|s d IH]; intros [|i]; simpl; try reflexivity.
  rewrite IH. reflexivity.
Qed.

Section Sources.

Variable h : addr -> Package.
Variable gm : sdict ModData.

Lemma partial_frame i d :
  Forall2 (fun s s' => slot_hash s' = slot_hash s /\ slot_key s' = slot_key s)
    d ((partial gm) i d).
Proof.
  unfold partial. revert i. induction d as [|s d IH]; intros [|i]; simpl.
  - constructor.
  - constructor.
  - constructor; [now split|]. apply (IH 0).
  - constructor; [now split|]. apply IH.
Qed.

Lemma partial_nth i d : List.nth_error ((partial gm) i d) i = List.nth_error d i.
Proof.
  unfold partial. revert i. induction d as [|s d IH]; intros [|i]; simpl; try reflexivity.
  apply IH.
Qed.

Lemma partial_step i d s (g : PkgData -> PkgData) :
  List.nth_error d i = Some s ->
  g (slot_val s) = with_sources gm (slot_val s) ->
  update_nth i (slot_map g) ((partial gm) i d) = (partial gm) (S i) d.
Proof.
  unfold partial. revert i. induction d as [|s0 d IH]; intros [|i] Hn Hg; simpl in *;
    try discriminate.
  - inversion Hn; subst. unfold slot_map. now rewrite Hg.
  - f_equal. now apply IH.
Qed.

Lemma update_nth_twice {V} i (g1 g2 : V -> V) (l : pdict V) :
  update_nth i (slot_map g2) (update_nth i (slot_map g1) l)
  = update_nth i (slot_map (fun x => g2 (g1 x))) l.
Proof.
  revert i. induction l as [|x l IH]; intros [|i]; simpl; try reflexivity.
  now rewrite IH.
Qed.

Lemma partial_all d : (partial gm) (List.length d) d = List.map (slot_map (with_sources gm)) d.
Proof. unfold partial. now rewrite firstn_all, skipn_all, app_nil_r. Qed.

Lemma set_sources_at_step d i s w :
  findable py_hash h d ->
  List.nth_error d i = Some s ->
  d_name (slot_val s) <> None ->
  heap w = h ->
  _gopkg_data (self w) = (partial gm) i d ->
  _gomod_data (self w) = gm ->
  set_sources_at py_hash i w
  = ({| heap := heap w; self := set_field F_gopkg ((partial gm) (S i) d) (self w);
        log := log w ++ missing_module_warning gm s |}, Ok tt).
Proof.
  intros Hf Hn Hname Hh Hd Hg. unfold set_sources_at. run.
  rewrite Hd, partial_nth, Hn.
  destruct (d_name (slot_val s)) as [n|] eqn:En; [|contradiction].
  cbv beta. rewrite Hg, Hd. cbn [heap self log].
  assert (Hupd : forall m,
             owning_module n gm = Some m ->
             update_entry py_hash F_gopkg (slot_key s) (assign_sources (m_dependencies m))
               {| heap := heap w;
                  self := set_field F_gopkg (update_nth i (slot_map pop_name) ((partial gm) i d))
                            (self w);
                  log := log w |}
             = ({| heap := heap w; self := set_field F_gopkg ((partial gm) (S i) d) (self w);
                   log := log w ++ missing_module_warning gm s |}, Ok tt)).
  { intros m Hm. unfold update_entry. run. cbn [heap self log get_field set_field].
    rewrite Hh.
    assert (Hi : pdict_index py_hash h (slot_key s)
                   (update_nth i (slot_map pop_name) ((partial gm) i d)) = Some i).
    { rewrite pdict_index_update_nth, (pdict_index_frame h _ d ((partial gm) i d)).
      - now apply Hf.
      - apply partial_frame. }
    rewrite (pdict_update_index h _ _ _ i Hi), update_nth_twice.
    rewrite (partial_step i d s (fun x => assign_sources (m_dependencies m) (pop_name x)) Hn).
    - unfold missing_module_warning. rewrite En, Hm, app_nil_r. reflexivity.
    - unfold with_sources. cbn [pop_name d_name]. now rewrite En, Hm. }
  unfold sdict_mem. destruct (sdict_get n gm) as [m|] eqn:Egn.
  - rewrite Egn. apply Hupd. unfold owning_module. now rewrite Egn.
  - destruct (match_parent_module n (sdict_keys gm)) as [mn|] eqn:Em.
    + destruct (sdict_get_In mn gm (match_parent_module_In _ _ _ Em)) as [m Hm].
      rewrite Hm. apply Hupd. unfold owning_module. now rewrite Egn, Em.
    + rewrite (partial_step i d s pop_name Hn).
      * unfold missing_module_warning, owning_module. now rewrite En, Egn, Em.
      * unfold with_sources, owning_module. now rewrite En, Egn, Em.
Qed.

Lemma skipn_nth {A} i (l : list A) x :
  List.nth_error l i = Some x -> List.skipn i l = x :: List.skipn (S i) l.
Proof.
  revert i. induction l as [|y l IH]; intros [|i] H; simpl in *; try discriminate.
  - now inversion H.
  - now apply IH.
Qed.

Lemma set_sources_loop d n :
  forall i w,
    i + n = List.length d ->
    findable py_hash h d ->
    Forall (fun s => d_name (slot_val s) <> None) d ->
    heap w = h ->
    _gopkg_data (self w) = (partial gm) i d ->
    _gomod_data (self w) = gm ->
    for_each (List.seq i n) (set_sources_at py_hash) w
    = ({| heap := heap w; self := set_field F_gopkg ((partial gm) (i + n) d) (self w);
          log := log w ++ List.flat_map (missing_module_warning gm)
                            (List.firstn n (List.skipn i d)) |}, Ok tt).
Proof.
  induction n as [|n IH]; intros i w Hlen Hf Hnames Hh Hd Hg.
  - cbn [seq for_each firstn flat_map]. unfold ret. rewrite Nat.add_0_r, app_nil_r, <- Hd.
    destruct w as [hp [] lg]; reflexivity.
  - cbn [seq for_each]. unfold bind.
    destruct (List.nth_error d i) as [s|] eqn:Hn.
    2:{ apply nth_error_None in Hn. lia. }
    assert (Hname : d_name (slot_val s) <> None).
    { rewrite Forall_forall in Hnames. apply Hnames. eapply nth_error_In; eassumption. }
    rewrite (set_sources_at_step d i s w Hf Hn Hname Hh Hd Hg).
    rewrite IH; cbn [heap self log]; try assumption; try lia; try reflexivity.
    rewrite (skipn_nth i d s Hn). cbn [firstn flat_map].
    rewrite <- app_assoc, <- plus_n_Sm. reflexivity.
Qed.

End Sources.

(** C5 (amended): when every go-package entry has its name and is found
    under its key, as [to_json] has seeded the entries unless the version
    of a key was overwritten since, [set_go_package_sources] returns, and
    afterwards every go-package entry has as sources the dependencies of
    the Go module of the same name, or failing that of the longest parent
    module of its name; an entry with no such module keeps its sources,
    empty as [to_json] seeded them, and a warning with its purl is logged.
    The names are removed from the entries. *)
Theorem set_go_package_sources_assigns :
  forall (w : World),
    findable py_hash (heap w) (_gopkg_data (self w)) ->
    Forall (fun s => d_name (slot_val s) <> None) (_gopkg_data (self w)) ->
    set_go_package_sources py_hash w
    = ({| heap := heap w;
          self := set_field F_gopkg
                    (List.map (slot_map (with_sources (_gomod_data (self w))))
                       (_gopkg_data (self w)))
                    (self w);
          log := log w ++ List.flat_map (missing_module_warning (_gomod_data (self w)))
                            (_gopkg_data (self w)) |}, Ok tt).
Proof.
  intros w Hf Hnames. unfold set_go_package_sources. run.
  rewrite (set_sources_loop (heap w) (_gomod_data (self w)) (_gopkg_data (self w))
             (List.length (_gopkg_data (self w))) 0 w); try reflexivity; try assumption.
  cbn [Nat.add skipn]. now rewrite partial_all, firstn_all.
Qed.

(** ** Errors of [_get_local_go_package_dep_purl] *)

Lemma go_modules_by_name_known w :
  exists w1, go_modules_by_name w = (w1, Ok (known_modules w))
             /\ heap w1 = heap w /\ _gomod_data (self w1) = _gomod_data (self w).
Proof.
  unfold go_modules_by_name, known_modules. run.
  destruct (go_modules_by_name_cache (self w)); eexists; split; try reflexivity;
    split; reflexivity.
Qed.

(** C7 (amended): when every known module has an entry in [_gomod_data], as
    after the first loop of [to_json] and of [sbom_components_list], and
    [to_purl] does not fail, [_get_local_go_package_dep_purl] raises in
    these cases and no other: the version of the dependency is missing or
    does not start with a dot; or the name of the dependency has no parent
    module, and the name of the package has none either, or the path of
    the dependency under the module of the package has none, or that path
    has one but is not a relative path under it ([ValueError] of
    [Path.relative_to]).  For a dependency with a local version and a name
    under a known module it returns a purl. *)
Theorem get_local_purl_raises_iff :
  forall (w : World) (package dependency : addr),
    let dep := heap w dependency in
    let pkg := heap w package in
    let names := sdict_keys (known_modules w) in
    (forall m, In m names -> sdict_get m (_gomod_data (self w)) <> None) ->
    (forall v rel, is_ok (to_purl (set_version v dep) rel) = true) ->
    (is_ok (snd (_get_local_go_package_dep_purl package dependency w)) = false
     <-> (Py.is_local (version dep) = false
          \/ (match_parent_module (name dep) names = None
              /\ (match_parent_module (name pkg) names = None
                  \/ exists pm,
                      match_parent_module (name pkg) names = Some pm
                      /\ (match_parent_module (local_path pm dep) names = None
                          \/ exists dm,
                              match_parent_module (local_path pm dep) names = Some dm
                              /\ Py.relative_to (local_path pm dep) dm = None)))))
    /\ (Py.is_local (version dep) = true ->
        match_parent_module (name dep) names <> None ->
        is_ok (snd (_get_local_go_package_dep_purl package dependency w)) = true).
Proof.
  intros w package dependency dep pkg names Hseed Hpurl.
  unfold _get_local_go_package_dep_purl. run. fold dep.
  destruct (Py.is_local (version dep)) eqn:Hl; cbn [negb].
  2:{ cbn. split; [split; [now left|reflexivity]|discriminate]. }
  destruct (go_modules_by_name_known w) as (w1 & Hg & Hh1 & Hm1). rewrite Hg.
  cbv beta iota. fold names.
  destruct (match_parent_module (name dep) names) as [m|] eqn:Hdm.
  - destruct (sdict_get_In m (known_modules w) (match_parent_module_In _ _ _ Hdm))
      as [ma Hma].
    rewrite Hma. cbn [fst snd heap]. unfold heap_set. rewrite Nat.eqb_refl, Hh1. fold dep.
    rewrite Hpurl. split; [|reflexivity].
    split; [discriminate|]. intros [H|[H _]]; discriminate.
  - rewrite Hh1. fold pkg.
    destruct (match_parent_module (name pkg) names) as [pm|] eqn:Hpm.
    2:{ cbn. split; [|congruence]. split; [intros _; right; split; auto | reflexivity]. }
    fold (local_path pm dep).
    destruct (match_parent_module (local_path pm dep) names) as [dm|] eqn:Hdpm.
    2:{ cbn. split; [|congruence]. split; [|reflexivity].
        intros _. right. split; [reflexivity|]. right. exists pm.
        split; [reflexivity|now left]. }
    destruct (Py.relative_to (local_path pm dep) dm) as [rel|] eqn:Hr.
    2:{ cbn. split; [|congruence]. split; [|reflexivity].
        intros _. right. split; [reflexivity|]. right. exists pm.
        split; [reflexivity|]. right. exists dm. now split. }
    rewrite Hm1.
    destruct (sdict_get dm (_gomod_data (self w))) as [md|] eqn:Hmd.
    2:{ exfalso. apply (Hseed dm); [|exact Hmd]. eapply match_parent_module_In; eassumption. }
    pose proof (Hpurl (version dep) (Some rel)) as Hp.
    replace (set_version (version dep) dep) with dep in Hp by (destruct dep; reflexivity).
    destruct (to_purl dep (Some rel)) as [purl|e]; [|discriminate].
    cbn. split; [|congruence]. split; [discriminate|].
    intros [H|[_ [H|(pm' & H1 & [H2|(dm' & H2 & H3)])]]]; congruence.
Qed.

(** ** Calls on the same instance *)

Lemma call_inv_canonical h rq pkgs gm : call_inv h pkgs (canonical h rq pkgs gm).
Proof. split; [apply evolved_refl|]. split; [reflexivity|now left]. Qed.

Lemma same_fields_gomod w w' : same_fields w w' -> _gomod_data (self w') = _gomod_data (self w).
Proof. intros [H _]. now rewrite H. Qed.

(** The purl of a local dependency whose name has a parent module. *)
Lemma get_local_matched h pkgs package dependency w m module :
  call_inv h pkgs w ->
  Py.is_local (version (heap w dependency)) = true ->
  match_parent_module (name (heap w dependency)) (sdict_keys (go_modules h pkgs)) = Some m ->
  sdict_get m (go_modules h pkgs) = Some module ->
  snd (_get_local_go_package_dep_purl package dependency w)
  = to_purl (set_version (version (h module)) (heap w dependency)) None.
Proof.
  intros Hinv Hl Hm Hg. unfold _get_local_go_package_dep_purl. run. rewrite Hl. cbn [negb].
  destruct (go_modules_by_name_inv h pkgs w Hinv) as (w1 & Hgm & _ & Hh1 & _).
  rewrite Hgm. cbv beta iota. rewrite Hm, Hg. cbn [fst snd heap].
  unfold heap_set. rewrite Nat.eqb_refl, Hh1.
  destruct Hinv as (He & _). now rewrite (evolved_module h pkgs (heap w) m module He Hg).
Qed.

(** The purl of a local dependency whose name has no parent module depends
    on the dependency, the package and the Go module data only. *)
Lemma get_local_unmatched h pkgs package dependency w w' :
  call_inv h pkgs w -> call_inv h pkgs w' ->
  heap w' dependency = heap w dependency ->
  heap w' package = heap w package ->
  _gomod_data (self w') = _gomod_data (self w) ->
  match_parent_module (name (heap w dependency)) (sdict_keys (go_modules h pkgs)) = None ->
  snd (_get_local_go_package_dep_purl package dependency w')
  = snd (_get_local_go_package_dep_purl package dependency w).
Proof.
  intros Hinv Hinv' Hd Hp Hg Hm. unfold _get_local_go_package_dep_purl. run.
  rewrite Hd.
  destruct (Py.is_local (version (heap w dependency))); cbn [negb]; [|reflexivity].
  destruct (go_modules_by_name_inv h pkgs w Hinv) as (w1 & Hgm & _ & Hh1 & Hs1).
  destruct (go_modules_by_name_inv h pkgs w' Hinv') as (w1' & Hgm' & _ & Hh1' & Hs1').
  rewrite Hgm, Hgm'. cbv beta iota. rewrite Hm, Hh1, Hh1', Hp.
  destruct (match_parent_module (name (heap w package)) _) as [pm|]; [|reflexivity].
  destruct (match_parent_module (Py.normpath _) _) as [dm|]; [|reflexivity].
  destruct (Py.relative_to _ dm) as [rel|]; [|reflexivity].
  cbv beta.
  rewrite (same_fields_gomod _ _ Hs1), (same_fields_gomod _ _ Hs1'), Hg.
  destruct (sdict_get dm (_gomod_data (self w))); [|reflexivity].
  destruct (to_purl (heap w dependency) (Some rel)); reflexivity.
Qed.

Lemma resolution_inv h pkgs a r :
  resolution h pkgs a = Some r ->
  exists m module,
    match_parent_module (name (h a)) (sdict_keys (go_modules h pkgs)) = Some m
    /\ sdict_get m (go_modules h pkgs) = Some module
    /\ r = set_version (version (h module)) (h a)
    /\ Py.is_local (version (h a)) = true.
Proof.
  unfold resolution.
  destruct (String.eqb (type (h a)) "go-package"); cbn [andb]; [|discriminate].
  destruct (Py.is_local (version (h a))); [|discriminate].
  destruct (match_parent_module _ _) as [m|]; [|discriminate].
  destruct (sdict_get m _) as [module|] eqn:E; [|discriminate].
  intro H. inversion H. exists m, module. repeat split; auto.
Qed.

(** The purl of a go-package dependency does not depend on the calls made
    before: it is the purl computed in the store the calls started in. *)
Lemma go_dependency_purl_canonical h rq pkgs package dependency w :
  call_inv h pkgs w ->
  heap w package = h package ->
  snd (go_dependency_purl package dependency w)
  = snd (go_dependency_purl package dependency
           (canonical h rq pkgs (_gomod_data (self w)))).
Proof.
  intros Hinv Hp. unfold go_dependency_purl. run. cbn [canonical heap].
  pose proof (call_inv_canonical h rq pkgs (_gomod_data (self w))) as Hc.
  pose proof Hinv as (He & _).
  destruct (He dependency) as [E|[_ Hr]].
  - rewrite E. destruct (Py.is_local (version (h dependency))) eqn:Hl; [|reflexivity].
    destruct (match_parent_module (name (h dependency)) (sdict_keys (go_modules h pkgs)))
      as [m|] eqn:Hm.
    + destruct (sdict_get_In m _ (match_parent_module_In _ _ _ Hm)) as [module Hg].
      rewrite (get_local_matched h pkgs package dependency w m module),
        (get_local_matched h pkgs package dependency (canonical h rq pkgs _) m module);
        try assumption; cbn [canonical heap]; rewrite ?E; auto.
    + apply (get_local_unmatched h pkgs package dependency
               (canonical h rq pkgs (_gomod_data (self w))) w); try assumption;
        cbn [canonical heap self]; rewrite ?E, ?Hp; auto.
  - destruct (resolution_inv h pkgs dependency _ Hr) as (m & module & Hm & Hg & Hv & Hl).
    rewrite Hl.
    rewrite (get_local_matched h pkgs package dependency (canonical h rq pkgs _) m module);
      try assumption.
    cbn [canonical heap]. rewrite <- Hv.
    destruct (Py.is_local (version (heap w dependency))) eqn:Hl'; [|reflexivity].
    rewrite (get_local_matched h pkgs package dependency w m module); try assumption.
    + rewrite Hv. reflexivity.
    + rewrite Hv. exact Hm.
Qed.

Lemma process_go_package_unfold package dependency mode w :
  process_go_package py_hash package dependency mode w
  = if String.eqb (type (heap w dependency)) "go-package"
    then bind (go_dependency_purl package dependency)
           (go_package_continuation py_hash mode package dependency) w
    else (w, Ok tt).
Proof.
  unfold process_go_package, go_dependency_purl, go_package_continuation. run.
  destruct (String.eqb (type (heap w dependency)) "go-package"); [|reflexivity].
  destruct (Py.is_local (version (heap w dependency))); reflexivity.
Qed.

Lemma go_dependency_purl_inv h pkgs package dependency w :
  call_inv h pkgs w ->
  go_package_dependency h pkgs dependency ->
  type (h dependency) = "go-package" ->
  call_inv h pkgs (fst (go_dependency_purl package dependency w))
  /\ same_fields w (fst (go_dependency_purl package dependency w))
  /\ (is_ok (snd (go_dependency_purl package dependency w)) = true ->
      heap (fst (go_dependency_purl package dependency w)) dependency
      = resolved h pkgs dependency).
Proof.
  intros Hinv Hdep Ht. unfold go_dependency_purl. run.
  destruct (Py.is_local (version (heap w dependency))) eqn:Hl.
  - apply get_local_inv; assumption.
  - cbn [fst snd lift]. split; [exact Hinv|]. split; [apply same_fields_refl|].
    intros _. destruct Hinv as (He & _). now apply evolved_not_local.
Qed.

(** ** Relational reasoning *)

Lemma respects_bind {A B} R (m : M A) (k : A -> M B) :
  respects R m -> (forall a, respects R (k a)) -> respects R (bind m k).
Proof.
  intros Hm Hk wA wB HR. unfold bind. destruct (Hm wA wB HR) as [H1 H2].
  destruct (m wA) as [wA' rA], (m wB) as [wB' rB]. cbn [fst snd] in *. subst rB.
  destruct rA as [a|e]; [now apply Hk|]. now split.
Qed.

Lemma respects_ret {A} R (a : A) : respects R (ret a).
Proof. intros wA wB HR. now split. Qed.

Lemma respects_raise {A} R e : respects R (@raise A e).
Proof. intros wA wB HR. now split. Qed.

Lemma respects_lift {A} R (r : result A) : respects R (lift r).
Proof. intros wA wB HR. now split. Qed.

Lemma respects_for_each {A} R (l : list A) (body : A -> M unit) :
  (forall x, In x l -> respects R (body x)) -> respects R (for_each l body).
Proof.
  induction l as [|x l IH]; intro H; cbn [for_each].
  - apply respects_ret.
  - apply respects_bind; [apply H; now left|]. intros _. apply IH.
    intros y Hy. apply H. now right.
Qed.

(** Reading a value that is the same in related worlds and has the
    property [P]. *)
Lemma respects_bind_read {A B} (R : World -> World -> Prop) (rd : World -> A)
      (P : A -> Prop) (k : A -> M B) :
  (forall wA wB, R wA wB -> rd wA = rd wB /\ P (rd wA)) ->
  (forall a, P a -> respects R (k a)) ->
  respects R (bind (fun w => (w, Ok (rd w))) k).
Proof.
  intros Hrd Hk wA wB HR. unfold bind. destruct (Hrd wA wB HR) as [He HP].
  rewrite <- He. now apply Hk.
Qed.

Lemma pdict_get_ext {V} (hA hB : addr -> Package) a (d : pdict V) :
  hA a = hB a ->
  Forall (fun s => hA (slot_key s) = hB (slot_key s)) d ->
  pdict_get py_hash hA a d = pdict_get py_hash hB a d.
Proof.
  intros Ha. induction 1 as [|s d Hs Hd IH]; simpl; [reflexivity|].
  unfold slot_matches. now rewrite Ha, Hs, IH.
Qed.

Lemma pdict_update_ext {V} (hA hB : addr -> Package) a (g : V -> V) (d : pdict V) :
  hA a = hB a ->
  Forall (fun s => hA (slot_key s) = hB (slot_key s)) d ->
  pdict_update py_hash hA a g d = pdict_update py_hash hB a g d.
Proof.
  intros Ha. induction 1 as [|s d Hs Hd IH]; simpl; [reflexivity|].
  unfold slot_matches. now rewrite Ha, Hs, IH.
Qed.

Lemma pdict_update_keys {V} (P : addr -> Prop) (h : addr -> Package) a (g : V -> V)
      (d d' : pdict V) :
  pdict_update py_hash h a g d = Some d' ->
  Forall (fun s => P (slot_key s)) d -> Forall (fun s => P (slot_key s)) d'.
Proof.
  revert d'. induction d as [|s d IH]; simpl; intros d' H Hd; [discriminate|].
  inversion Hd as [|? ? Hs Hd']; subst.
  destruct (slot_matches py_hash h a s).
  - inversion H; subst. constructor; assumption.
  - destruct (pdict_update py_hash h a g d) as [d1|]; simpl in H; [|discriminate].
    inversion H; subst. constructor; [assumption|]. now apply IH.
Qed.

Lemma update_nth_keys {V} (P : addr -> Prop) i (g : V -> V) (d : pdict V) :
  Forall (fun s => P (slot_key s)) d ->
  Forall (fun s => P (slot_key s)) (update_nth i (slot_map g) d).
Proof.
  intro H. revert i. induction H as [|s d Hs Hd IH]; intros [|i]; simpl;
    constructor; auto.
Qed.

Section Related.

Variable h : addr -> Package.
Variable pkgs : list addr.
Hypothesis NA : no_alias h pkgs.
Variable mode : string.

Lemma inv_package w a : call_inv h pkgs w -> In a pkgs -> heap w a = h a.
Proof.
  intros (He & _) Ha. destruct (He a) as [E|[Hd Hr]]; [exact E|].
  rewrite (NA a Ha Hd) in Hr. discriminate.
Qed.

Lemma inv_other w a : call_inv h pkgs w -> type (h a) <> "go-package" -> heap w a = h a.
Proof. intros (He & _) Ha. now apply (evolved_other_type h pkgs). Qed.

Lemma inv_stable w a :
  call_inv h pkgs w -> In a pkgs \/ type (h a) <> "go-package" -> heap w a = h a.
Proof. intros Hw [H|H]; [now apply inv_package | now apply inv_other]. Qed.

Lemma respects_bind_deref {B} a (k : Package -> M B) :
  In a pkgs \/ type (h a) <> "go-package" ->
  respects (related h pkgs mode) (k (h a)) ->
  respects (related h pkgs mode) (bind (deref a) k).
Proof.
  intros Ha Hk wA wB HR. unfold bind, deref.
  pose proof HR as (HA & HB & _).
  rewrite (inv_stable wA a HA Ha), (inv_stable wB a HB Ha). now apply Hk.
Qed.

Lemma respects_bind_gets {A B} (f : ContentManifest -> A) (P : A -> Prop) (k : A -> M B) :
  (forall wA wB, related h pkgs mode wA wB -> f (self wA) = f (self wB) /\ P (f (self wA))) ->
  (forall a, P a -> respects (related h pkgs mode) (k a)) ->
  respects (related h pkgs mode) (bind (gets f) k).
Proof. intros Hf Hk. apply (respects_bind_read _ (fun w => f (self w)) P); assumption. Qed.

Lemma respects_gets {A} (f : ContentManifest -> A) :
  (forall wA wB, related h pkgs mode wA wB -> f (self wA) = f (self wB)) ->
  respects (related h pkgs mode) (gets f).
Proof. intros Hf wA wB HR. split; [exact HR|]. cbn. now rewrite (Hf wA wB HR). Qed.

(** Related worlds stay related under the same change of the fields. *)
Lemma related_update wA wB (cA cB : ContentManifest) lA lB :
  related h pkgs mode wA wB ->
  packages cA = packages (self wA) ->
  packages cB = packages (self wB) ->
  go_modules_by_name_cache cA = go_modules_by_name_cache (self wA) ->
  go_modules_by_name_cache cB = go_modules_by_name_cache (self wB) ->
  request cA = request cB ->
  _gomod_data cA = _gomod_data cB ->
  (mode = "icm" ->
   forall f, get_field f cA = get_field f cB
             /\ Forall (fun s => In (slot_key s) pkgs) (get_field f cA)) ->
  (mode = "sbom" -> _sbom_components cA = _sbom_components cB) ->
  related h pkgs mode {| heap := heap wA; self := cA; log := lA |}
    {| heap := heap wB; self := cB; log := lB |}.
Proof.
  intros (HA & HB & _) H1 H2 H3 H4 H5 H6 H7 H8.
  unfold related, call_inv in *. cbn [heap self]. rewrite H1, H2, H3, H4. tauto.
Qed.

Lemma respects_emit r : respects (related h pkgs mode) (emit r).
Proof.
  intros wA wB HR. split; [|reflexivity]. cbn [emit fst].
  pose proof HR as (_ & _ & H1 & H2 & H3 & H4).
  apply related_update; auto.
Qed.

Lemma respects_setdefault_module nm purl :
  respects (related h pkgs mode) (setdefault_module nm purl).
Proof.
  intros wA wB HR. split; [|reflexivity]. unfold setdefault_module. run. cbn [fst].
  pose proof HR as (_ & _ & H1 & H2 & H3 & H4).
  apply related_update; auto.
  - cbn. now rewrite H2.
Qed.

Lemma respects_set_gomod_data d :
  respects (related h pkgs mode) (modify_self (set_gomod_data d)).
Proof.
  intros wA wB HR. split; [|reflexivity]. run. cbn [fst].
  pose proof HR as (_ & _ & H1 & H2 & H3 & H4).
  apply related_update; auto.
Qed.

Lemma respects_append_component c :
  mode = "sbom" -> respects (related h pkgs mode) (append_component c).
Proof.
  intros Hm wA wB HR. split; [|reflexivity]. unfold append_component. run. cbn [fst].
  pose proof HR as (_ & _ & H1 & H2 & H3 & H4).
  apply related_update; auto.
  all: try (intro Hi; rewrite Hm in Hi; discriminate).
  all: try (intros _; cbn; now rewrite (H4 Hm)).
Qed.

Lemma related_keys wA wB f :
  related h pkgs mode wA wB -> mode = "icm" ->
  get_field f (self wB) = get_field f (self wA)
  /\ Forall (fun s => heap wA (slot_key s) = heap wB (slot_key s)) (get_field f (self wA))
  /\ Forall (fun s => In (slot_key s) pkgs) (get_field f (self wA)).
Proof.
  intros (HA & HB & _ & _ & H3 & _) Hm. destruct (H3 Hm f) as [He Hk].
  split; [now rewrite He|]. split; [|exact Hk].
  apply Forall_impl with (2 := Hk). intros s Hs.
  now rewrite (inv_package wA _ HA Hs), (inv_package wB _ HB Hs).
Qed.

Lemma related_set_field wA wB f d :
  related h pkgs mode wA wB -> mode = "icm" ->
  Forall (fun s => In (slot_key s) pkgs) d ->
  related h pkgs mode
    {| heap := heap wA; self := set_field f d (self wA); log := log wA |}
    {| heap := heap wB; self := set_field f d (self wB); log := log wB |}.
Proof.
  intros HR Hm Hd. pose proof HR as (_ & _ & H1 & H2 & H3 & H4).
  apply related_update; auto; try (destruct f; assumption).
  all: try (intro Hs; rewrite Hm in Hs; discriminate).
  intros _ f'. destruct (H3 Hm f') as [He Hk].
  destruct (field_eq_dec f f') as [<-|Hne].
  - rewrite !get_set_field. now split.
  - rewrite !get_set_field_other by exact Hne. now split.
Qed.

Lemma respects_update_entry f a g :
  mode = "icm" -> In a pkgs ->
  respects (related h pkgs mode) (update_entry py_hash f a g).
Proof.
  intros Hm Ha wA wB HR. unfold update_entry. run.
  destruct (related_keys wA wB f HR Hm) as (He & Hk & Hin). rewrite He.
  pose proof HR as (HA & HB & _).
  assert (Hh : heap wA a = heap wB a)
    by now rewrite (inv_package wA a HA Ha), (inv_package wB a HB Ha).
  rewrite <- (pdict_update_ext (heap wA) (heap wB) a g _ Hh Hk).
  destruct (pdict_update py_hash (heap wA) a g (get_field f (self wA))) as [d'|] eqn:E;
    cbn [fst snd]; [|now split].
  split; [|reflexivity]. apply related_set_field; try assumption.
  exact (pdict_update_keys (fun x => In x pkgs) _ _ _ _ _ E Hin).
Qed.

Lemma respects_setdefault_entry f a v :
  mode = "icm" -> In a pkgs ->
  respects (related h pkgs mode) (setdefault_entry py_hash f a v).
Proof.
  intros Hm Ha wA wB HR. unfold setdefault_entry. run. cbn [fst snd].
  destruct (related_keys wA wB f HR Hm) as (He & Hk & Hin). rewrite He.
  pose proof HR as (HA & HB & _).
  assert (Hh : heap wA a = heap wB a)
    by now rewrite (inv_package wA a HA Ha), (inv_package wB a HB Ha).
  unfold pdict_setdefault.
  rewrite <- (pdict_get_ext (heap wA) (heap wB) a _ Hh Hk), <- Hh.
  split; [|reflexivity]. apply related_set_field; try assumption.
  destruct (pdict_get py_hash (heap wA) a (get_field f (self wA))); [exact Hin|].
  apply Forall_app. split; [exact Hin|]. constructor; [exact Ha|constructor].
Qed.

Lemma respects_pop_name i :
  mode = "icm" ->
  respects (related h pkgs mode)
    (modify_self
       (fun cm => set_field F_gopkg (update_nth i (slot_map pop_name) (_gopkg_data cm)) cm)).
Proof.
  intros Hm wA wB HR. run. cbn [fst snd]. split; [|reflexivity].
  destruct (related_keys wA wB F_gopkg HR Hm) as (He & Hk & Hin). cbn [get_field] in *.
  rewrite He. apply related_set_field; try assumption.
  exact (update_nth_keys (fun x => In x pkgs) _ _ _ Hin).
Qed.

Lemma related_same_fields wA wB wA' wB' :
  related h pkgs mode wA wB ->
  same_fields wA wA' -> same_fields wB wB' ->
  call_inv h pkgs wA' -> call_inv h pkgs wB' ->
  related h pkgs mode wA' wB'.
Proof.
  intros (_ & _ & H1 & H2 & H3 & H4) [SA _] [SB _] IA IB.
  unfold related. rewrite SA, SB.
  split; [exact IA|]. split; [exact IB|]. split; [exact H1|]. split; [exact H2|].
  split; [|exact H4].
  intros Hm f. destruct (H3 Hm f) as [He Hk]. destruct f; split; assumption.
Qed.

Lemma related_types wA wB a :
  related h pkgs mode wA wB ->
  type (heap wA a) = type (h a) /\ type (heap wB a) = type (h a).
Proof.
  intros ((HA & _) & (HB & _) & _).
  destruct (evolved_fields h pkgs (heap wA) a HA) as (_ & H1 & _).
  destruct (evolved_fields h pkgs (heap wB) a HB) as (_ & H2 & _). now split.
Qed.

Lemma respects_process_go_package package dependency :
  mode = "icm" \/ mode = "sbom" ->
  In package pkgs ->
  go_package_dependency h pkgs dependency ->
  respects (related h pkgs mode) (process_go_package py_hash package dependency mode).
Proof.
  intros Hmode Hp Hdep wA wB HR. rewrite !process_go_package_unfold.
  destruct (related_types wA wB dependency HR) as [TA TB]. rewrite TA, TB.
  destruct (String.eqb (type (h dependency)) "go-package") eqn:Et;
    [|split; [exact HR|reflexivity]].
  apply String.eqb_eq in Et.
  pose proof HR as (HA & HB & Hrq & Hgm & Hicm & Hsb).
  pose proof (go_dependency_purl_inv h pkgs package dependency wA HA Hdep Et) as (IA & SA & RA).
  pose proof (go_dependency_purl_inv h pkgs package dependency wB HB Hdep Et) as (IB & SB & RB).
  pose proof (go_dependency_purl_canonical h (request (self wA)) pkgs package dependency wA HA
                (inv_package wA package HA Hp)) as CA.
  pose proof (go_dependency_purl_canonical h (request (self wA)) pkgs package dependency wB HB
                (inv_package wB package HB Hp)) as CB.
  rewrite <- Hgm, <- CA in CB.
  unfold bind.
  destruct (go_dependency_purl package dependency wA) as [wA1 rA].
  destruct (go_dependency_purl package dependency wB) as [wB1 rB].
  cbn [fst snd] in *. subst rB.
  pose proof (related_same_fields wA wB wA1 wB1 HR SA SB IA IB) as HR1.
  destruct rA as [purl|e]; [|split; [exact HR1|reflexivity]].
  unfold go_package_continuation.
  destruct Hmode as [Hm | Hm].
  - replace (String.eqb mode "icm") with true by (rewrite Hm; reflexivity).
    now apply respects_update_entry.
  - replace (String.eqb mode "icm") with false by (rewrite Hm; reflexivity).
    replace (String.eqb mode "sbom") with true by (rewrite Hm; reflexivity).
    run. rewrite (RA eq_refl), (RB eq_refl).
    now apply respects_append_component.
Qed.

Ltac resp_side :=
  first [ left; assumption | right; assumption ].

Ltac resp_mode :=
  match goal with
  | E : String.eqb mode _ = true |- _ = _ => apply String.eqb_eq in E; exact E
  end.

Ltac resp_leaf :=
  first
    [ apply respects_bind_deref; [resp_side|]
    | apply respects_bind_gets with (P := fun _ => True);
      [ let HR := fresh "HR" in
        intros ? ? HR; split;
        [destruct HR as (_ & _ & ? & ? & _); assumption | exact I]
      | intros ? _ ]
    | apply respects_update_entry; [resp_mode | assumption]
    | apply respects_setdefault_entry; [assumption | assumption]
    | apply respects_append_component; first [assumption | resp_mode]
    | apply respects_set_gomod_data
    | apply respects_setdefault_module
    | apply respects_emit ].

Ltac resp_with extra :=
  repeat first
    [ extra
    | resp_leaf
    | apply respects_ret | apply respects_raise | apply respects_lift
    | apply respects_bind; [|intro]
    | match goal with
      | |- respects _ (match ?x with _ => _ end) =>
          let E := fresh "E" in destruct x eqn:E; try congruence
      | |- respects _ (let _ := _ in _) => cbv zeta
      end ].

Ltac resp_struct := resp_with fail.

Lemma respects_process_dependency package dependency :
  mode = "icm" \/ mode = "sbom" ->
  In package pkgs ->
  In dependency (dependencies (h package)) ->
  respects (related h pkgs mode) (process_dependency py_hash mode package dependency).
Proof.
  intros Hmode Hp Hd.
  destruct (String.eqb (type (h package)) "go-package") eqn:Ep.
  - unfold process_dependency. apply respects_bind_deref; [now left|]. rewrite Ep.
    apply respects_process_go_package; try assumption.
    exists package. apply String.eqb_eq in Ep. auto.
  - destruct (String.eqb (type (h dependency)) (type (h package))) eqn:Ed.
    + assert (Hne : type (h dependency) <> "go-package").
      { apply String.eqb_eq in Ed. apply String.eqb_neq in Ep. congruence. }
      unfold process_dependency, process_gomod, process_npm_package,
        process_pip_package, process_yarn_package, process_standard,
        _process_standard_package, _process_standard_package_sbom,
        process_rubygems_package.
      resp_struct.
    + intros wA wB HR.
      destruct (related_types wA wB dependency HR) as [TA TB].
      destruct (related_types wA wB package HR) as [PA PB].
      apply String.eqb_neq in Ed.
      rewrite !process_dependency_other_type by congruence.
      split; [exact HR|reflexivity].
Qed.

Lemma respects_process_package package :
  mode = "icm" \/ mode = "sbom" ->
  In package pkgs ->
  respects (related h pkgs mode) (process_package py_hash mode package).
Proof.
  intros Hmode Hp. unfold process_package.
  apply respects_bind_deref; [now left|].
  apply respects_for_each. intros d Hd. now apply respects_process_dependency.
Qed.

Lemma respects_seed_icm package :
  mode = "icm" -> In package pkgs ->
  respects (related h pkgs mode) (seed_icm py_hash package).
Proof. intros Hm Hp. unfold seed_icm. resp_struct. Qed.

Lemma respects_seed_sbom package :
  mode = "sbom" -> In package pkgs ->
  respects (related h pkgs mode) (seed_sbom package).
Proof. intros Hm Hp. unfold seed_sbom. resp_struct. Qed.

Lemma respects_set_go_package_sources :
  mode = "icm" ->
  respects (related h pkgs mode) (set_go_package_sources py_hash).
Proof.
  intro Hm. unfold set_go_package_sources.
  apply respects_bind_gets with (P := fun _ => True).
  { intros wA wB HR. split; [|exact I].
    destruct (related_keys wA wB F_gopkg HR Hm) as (He & _). cbn [get_field] in He.
    now rewrite He. }
  intros n _. apply respects_for_each. intros i _. unfold set_sources_at.
  apply respects_bind_gets
    with (P := fun item => forall s, item = Some s -> In (slot_key s) pkgs).
  { intros wA wB HR.
    destruct (related_keys wA wB F_gopkg HR Hm) as (He & _ & Hin). cbn [get_field] in *.
    split; [now rewrite He|].
    intros s Hs. apply nth_error_In in Hs. rewrite Forall_forall in Hin. now apply Hin. }
  intros item Hitem.
  resp_with ltac:(first [ apply respects_pop_name; exact Hm
                        | apply respects_update_entry;
                          [exact Hm | apply Hitem; reflexivity] ]).
Qed.

End Related.

Lemma top_level_packages_ext cmA cmB :
  (forall f, get_field f cmA = get_field f cmB) ->
  top_level_packages cmA = top_level_packages cmB.
Proof.
  intro H. unfold top_level_packages.
  pose proof (H F_gopkg) as H1. pose proof (H F_npm) as H2. pose proof (H F_pip) as H3.
  pose proof (H F_yarn) as H4. pose proof (H F_rubygems) as H5.
  pose proof (H F_gitsubmodule) as H6. cbn [get_field] in *.
  now rewrite H1, H2, H3, H4, H5, H6.
Qed.

Lemma related_packages h pkgs mode wA wB :
  related h pkgs mode wA wB ->
  packages (self wA) = packages (self wB) /\ packages (self wA) = pkgs.
Proof. intros ((_ & HA & _) & (_ & HB & _) & _). split; congruence. Qed.

(** Two calls of [to_json] on instances for the same request and packages
    give the same document, whatever calls came before. *)
Lemma to_json_related h pkgs wA wB :
  no_alias h pkgs ->
  call_inv h pkgs wA -> call_inv h pkgs wB ->
  request (self wA) = request (self wB) ->
  snd (to_json py_hash wA) = snd (to_json py_hash wB).
Proof.
  intros NA HA HB Hrq.
  set (rest :=
         pkgs' <- gets packages ;;
         for_each pkgs' (seed_icm py_hash) ;;;
         for_each pkgs' (process_package py_hash "icm") ;;;
         set_go_package_sources py_hash ;;;
         gets (fun cm => generate_icm (top_level_packages cm))).
  assert (Hrest : respects (related h pkgs "icm") rest).
  { unfold rest.
    apply respects_bind_gets with (P := fun l => l = pkgs).
    { intros uA uB HR. exact (related_packages h pkgs "icm" uA uB HR). }
    intros l ->.
    apply respects_bind.
    { apply respects_for_each. intros p Hp. now apply respects_seed_icm. }
    intros _. apply respects_bind.
    { apply respects_for_each. intros p Hp. apply respects_process_package; auto. }
    intros _. apply respects_bind.
    { now apply respects_set_go_package_sources. }
    intros _. apply respects_gets. intros uA uB (_ & _ & _ & _ & H3 & _).
    f_equal. apply top_level_packages_ext. intro f. now destruct (H3 eq_refl f). }
  assert (HR0 : related h pkgs "icm"
                  {| heap := heap wA; self := reset_icm_maps (self wA); log := log wA |}
                  {| heap := heap wB; self := reset_icm_maps (self wB); log := log wB |}).
  { split; [apply call_inv_reset; [intro; split; reflexivity|exact HA]|].
    split; [apply call_inv_reset; [intro; split; reflexivity|exact HB]|].
    split; [exact Hrq|]. split; [reflexivity|]. split; [|discriminate].
    intros _ f. destruct f; split; constructor. }
  destruct (Hrest _ _ HR0) as [_ Hs]. exact Hs.
Qed.

Lemma sbom_components_list_related h pkgs wA wB :
  no_alias h pkgs ->
  call_inv h pkgs wA -> call_inv h pkgs wB ->
  request (self wA) = request (self wB) ->
  snd (sbom_components_list py_hash wA) = snd (sbom_components_list py_hash wB).
Proof.
  intros NA HA HB Hrq.
  set (rest :=
         pkgs' <- gets packages ;;
         for_each pkgs' seed_sbom ;;;
         for_each pkgs' (process_package py_hash "sbom") ;;;
         gets _sbom_components).
  assert (Hrest : respects (related h pkgs "sbom") rest).
  { unfold rest.
    apply respects_bind_gets with (P := fun l => l = pkgs).
    { intros uA uB HR. exact (related_packages h pkgs "sbom" uA uB HR). }
    intros l ->.
    apply respects_bind.
    { apply respects_for_each. intros p Hp. now apply respects_seed_sbom. }
    intros _. apply respects_bind.
    { apply respects_for_each. intros p Hp. apply respects_process_package; auto. }
    intros _. apply respects_gets. intros uA uB (_ & _ & _ & _ & _ & H4). now apply H4. }
  assert (HR0 : related h pkgs "sbom"
                  {| heap := heap wA; self := reset_sbom (self wA); log := log wA |}
                  {| heap := heap wB; self := reset_sbom (self wB); log := log wB |}).
  { split; [apply call_inv_reset; [intro; split; reflexivity|exact HA]|].
    split; [apply call_inv_reset; [intro; split; reflexivity|exact HB]|].
    split; [exact Hrq|]. split; [reflexivity|]. split; [discriminate|]. reflexivity. }
  destruct (Hrest _ _ HR0) as [_ Hs]. exact Hs.
Qed.

Lemma keeps_request_modify rq (g : ContentManifest -> ContentManifest) :
  (forall cm, request (g cm) = request cm) ->
  keeps (fun w => request (self w) = rq) (modify_self g).
Proof. intros Hg w Hw. cbn. now rewrite Hg. Qed.

Ltac request_leaf :=
  first
    [ apply keeps_request_modify; intro; try destruct_field; reflexivity
    | match goal with
      | |- keeps _ (emit _) => intros ? ?; assumption
      | |- keeps _ (assign_version _ _) => intros ? ?; assumption
      end ].

Lemma run_call_request rq c :
  keeps (fun w => request (self w) = rq) (fun w => (fst (run_call py_hash c w), Ok tt)).
Proof.
  intros w Hw. cbn [fst]. destruct c; cbn [run_call fst].
  - revert w Hw. change (keeps (fun w => request (self w) = rq) (to_json py_hash)).
    keeps_with request_leaf.
  - revert w Hw. change (keeps (fun w => request (self w) = rq) (sbom_components_list py_hash)).
    keeps_with request_leaf.
Qed.

Lemma run_calls_inv h rq pkgs cs :
  forall w,
    call_inv h pkgs w -> request (self w) = rq ->
    call_inv h pkgs (run_calls py_hash cs w)
    /\ request (self (run_calls py_hash cs w)) = rq.
Proof.
  induction cs as [|c cs IH]; intros w Hw Hr; cbn [run_calls fold_left]; [now split|].
  apply IH.
  - destruct c; cbn [run_call fst];
      [now apply to_json_inv | now apply sbom_components_list_inv].
  - apply (run_call_request rq c w Hr).
Qed.

Lemma run_call_related h pkgs c wA wB :
  no_alias h pkgs ->
  call_inv h pkgs wA -> call_inv h pkgs wB ->
  request (self wA) = request (self wB) ->
  snd (run_call py_hash c wA) = snd (run_call py_hash c wB).
Proof.
  intros NA HA HB Hr. destruct c; cbn [run_call snd]; f_equal.
  - now apply (to_json_related h pkgs).
  - now apply (sbom_components_list_related h pkgs).
Qed.

(** C4 (amended): when no package of the list is also a dependency of a
    go-package of the list whose version the calls overwrite, every call of
    [to_json] or [sbom_components_list] on an instance, after any calls of
    the two, returns what the same call returns on a new instance with
    the same request and packages, be it made before any call or in the
    store as the earlier calls left it. *)
Theorem calls_do_not_depend_on_earlier_calls :
  forall (h : addr -> Package) (rq : Request) (pkgs : list addr),
    no_alias h pkgs ->
    forall (earlier : list call) (c : call),
      snd (run_call py_hash c (run_calls py_hash earlier (fresh h rq pkgs)))
      = snd (run_call py_hash c (fresh h rq pkgs))
      /\ snd (run_call py_hash c (run_calls py_hash earlier (fresh h rq pkgs)))
         = snd (run_call py_hash c
                  (fresh (heap (run_calls py_hash earlier (fresh h rq pkgs))) rq pkgs)).
Proof.
  intros h rq pkgs NA earlier c.
  assert (H0 : call_inv h pkgs (fresh h rq pkgs)).
  { split; [apply evolved_refl|]. split; [reflexivity|now left]. }
  destruct (run_calls_inv h rq pkgs earlier (fresh h rq pkgs) H0 eq_refl) as [H1 H2].
  split.
  - apply (run_call_related h pkgs); auto.
  - apply (run_call_related h pkgs); auto.
    split; [apply H1|]. split; [reflexivity|now left].
Qed.

(** * Properties of single methods *)

(** ** The Go modules by name *)

Lemma find_snoc {A} (P : A -> bool) (l : list A) (x : A) :
  List.find P (l ++ [x])
  = match List.find P l with
    | Some y => Some y
    | None => if P x then Some x else None
    end.
Proof.
  induction l as [|y l IH]; simpl; [reflexivity|].
  destruct (P y); [reflexivity|exact IH].
Qed.

Lemma compute_go_modules_fold (h : addr -> Package) pkgs (acc : sdict addr) n :
  sdict_get n (List.fold_left
                 (fun acc a => if String.eqb (type (h a)) "gomod"
                               then sdict_set (name (h a)) a acc else acc) pkgs acc)
  = match last_module h pkgs n with
    | Some a => Some a
    | None => sdict_get n acc
    end.
Proof.
  unfold last_module. revert acc.
  induction pkgs as [|p pkgs IH]; intro acc; simpl; [reflexivity|].
  rewrite IH, find_snoc.
  destruct (List.find _ (List.rev pkgs)); [reflexivity|].
  destruct (String.eqb (type (h p)) "gomod"); simpl; [|reflexivity].
  rewrite sdict_get_set. destruct (String.eqb (name (h p)) n); reflexivity.
Qed.

(** X1: the first use of [go_modules_by_name] maps every name to the last
    package of type gomod with that name in [self.packages], and
    remembers the mapping: a later use returns the same mapping, whatever
    the Package objects have become. *)
Theorem go_modules_by_name_last_module :
  forall w,
    go_modules_by_name_cache (self w) = None ->
    exists modules w',
      go_modules_by_name w = (w', Ok modules)
      /\ (forall n, sdict_get n modules = last_module (heap w) (packages (self w)) n)
      /\ (forall w'', self w'' = self w' -> snd (go_modules_by_name w'') = Ok modules).
Proof.
  intros w Hc.
  exists (compute_go_modules (heap w) (packages (self w))).
  eexists. split; [|split].
  - unfold go_modules_by_name. run. rewrite Hc. reflexivity.
  - intro n. unfold compute_go_modules. rewrite compute_go_modules_fold.
    destruct (last_module (heap w) (packages (self w)) n); reflexivity.
  - intros w'' Hs. unfold go_modules_by_name. run. rewrite Hs. reflexivity.
Qed.

(** ** Dependencies of Go modules *)

Lemma sdict_update_get {V} (k : string) (g : V -> V) (d : sdict V) (v : V) :
  sdict_get k d = Some v ->
  exists d',
    sdict_update k g d = Some d'
    /\ sdict_keys d' = sdict_keys d
    /\ forall k', sdict_get k' d' = if String.eqb k k' then Some (g v) else sdict_get k' d.
Proof.
  induction d as [|[k0 v0] d IH]; simpl; [discriminate|].
  destruct (String.eqb k0 k) eqn:E.
  - intro H. injection H as ->. apply String.eqb_eq in E. subst k0.
    eexists. split; [reflexivity|]. split; [reflexivity|].
    intro k'. simpl. destruct (String.eqb k k'); reflexivity.
  - intro H. destruct (IH H) as (d' & Hu & Hk & Hg). rewrite Hu.
    eexists. split; [reflexivity|]. split; [simpl; now rewrite Hk|].
    intro k'. simpl. rewrite Hg.
    destruct (String.eqb k0 k') eqn:E'; [|reflexivity].
    apply String.eqb_eq in E'. subst k'. now rewrite String.eqb_sym, E.
Qed.

Lemma sdict_update_none {V} (k : string) (g : V -> V) (d : sdict V) :
  sdict_get k d = None -> sdict_update k g d = None.
Proof.
  induction d as [|[k0 v0] d IH]; simpl; [reflexivity|].
  destruct (String.eqb k0 k); [discriminate|]. intro H. now rewrite IH.
Qed.

Lemma process_gomod_not_local w package dependency m purl :
  type (heap w dependency) = "gomod" ->
  Py.is_local (version (heap w dependency)) = false ->
  sdict_get (name (heap w package)) (_gomod_data (self w)) = Some m ->
  to_purl (heap w dependency) None = Ok purl ->
  exists gm',
    process_gomod package dependency "icm" w
    = ({| heap := heap w; self := set_gomod_data gm' (self w); log := log w |}, Ok tt)
    /\ sdict_keys gm' = sdict_keys (_gomod_data (self w))
    /\ forall n,
        sdict_get n gm'
        = if String.eqb (name (heap w package)) n
          then Some (mod_append_dependency
                       (replace_parent_purl_placeholder purl (m_purl m)) m)
          else sdict_get n (_gomod_data (self w)).
Proof.
  intros Ht Hl Hm Hp.
  destruct (sdict_update_get (name (heap w package))
              (mod_append_dependency (replace_parent_purl_placeholder purl (m_purl m)))
              (_gomod_data (self w)) m Hm) as (gm' & Hu & Hk & Hg).
  exists gm'. split; [|split; assumption].
  unfold process_gomod. run. rewrite Ht, Hl. cbn. rewrite Hm. cbn. rewrite Hp. cbn.
  rewrite Hu. reflexivity.
Qed.

(** X2: [process_gomod] on a Go module dependency whose version is not
    local takes the purl of the module of the owning package as the parent
    purl, and appends the purl of the dependency to the dependencies of
    that module; no other module and no Package object changes. *)
Theorem process_gomod_appends_dependency :
  forall w package dependency m purl,
    type (heap w dependency) = "gomod" ->
    Py.is_local (version (heap w dependency)) = false ->
    sdict_get (name (heap w package)) (_gomod_data (self w)) = Some m ->
    to_purl (heap w dependency) None = Ok purl ->
    exists gm',
      process_gomod package dependency "icm" w
      = ({| heap := heap w; self := set_gomod_data gm' (self w); log := log w |}, Ok tt)
      /\ sdict_keys gm' = sdict_keys (_gomod_data (self w))
      /\ forall n,
          sdict_get n gm'
          = if String.eqb (name (heap w package)) n
            then Some (mod_append_dependency
                         (replace_parent_purl_placeholder purl (m_purl m)) m)
            else sdict_get n (_gomod_data (self w)).
Proof.
  intros w package dependency m purl. apply process_gomod_not_local.
Qed.

(** X3: for a Go module dependency with a local version, [process_gomod]
    takes as parent the longest module under which the normalised path of
    the dependency (the version joined to the name of the owning package)
    lies.  The purl is built with the path relative to that module when the
    name of the dependency is not itself a module of the request, and
    without a relative path when it is; it is appended to the dependencies
    of the module of the owning package. *)
Theorem process_gomod_local_dependency :
  forall w package dependency parent pm m rel purl,
    type (heap w dependency) = "gomod" ->
    Py.is_local (version (heap w dependency)) = true ->
    match_parent_module (local_path (name (heap w package)) (heap w dependency))
      (sdict_keys (_gomod_data (self w))) = Some parent ->
    sdict_get parent (_gomod_data (self w)) = Some pm ->
    sdict_get (name (heap w package)) (_gomod_data (self w)) = Some m ->
    rel = (if sdict_mem (name (heap w dependency)) (_gomod_data (self w)) then None
           else Py.relative_to
                  (local_path (name (heap w package)) (heap w dependency)) parent) ->
    (sdict_mem (name (heap w dependency)) (_gomod_data (self w)) = false -> rel <> None) ->
    to_purl (heap w dependency) rel = Ok purl ->
    exists gm',
      process_gomod package dependency "icm" w
      = ({| heap := heap w; self := set_gomod_data gm' (self w); log := log w |}, Ok tt)
      /\ sdict_keys gm' = sdict_keys (_gomod_data (self w))
      /\ forall n,
          sdict_get n gm'
          = if String.eqb (name (heap w package)) n
            then Some (mod_append_dependency
                         (replace_parent_purl_placeholder purl (m_purl pm)) m)
            else sdict_get n (_gomod_data (self w)).
Proof.
  intros w package dependency parent pm m rel purl Ht Hl Hpar Hpm Hm Hrel Hsome Hp.
  destruct (sdict_update_get (name (heap w package))
              (mod_append_dependency (replace_parent_purl_placeholder purl (m_purl pm)))
              (_gomod_data (self w)) m Hm) as (gm' & Hu & Hk & Hg).
  exists gm'. split; [|split; assumption].
  unfold process_gomod. run. rewrite Ht, Hl. cbn [String.eqb Ascii.eqb Bool.eqb].
  unfold local_path in Hpar, Hrel. rewrite Hpar.
  destruct (sdict_mem (name (heap w dependency)) (_gomod_data (self w))) eqn:Emem;
    cbn [negb].
  - subst rel. cbn [fst snd]. rewrite Hpm. cbv beta iota. rewrite Hp. cbv beta iota.
    rewrite Hu. reflexivity.
  - specialize (Hsome eq_refl).
    destruct (Py.relative_to _ parent) as [r|] eqn:Er; [|now subst rel].
    subst rel. cbn [fst snd]. rewrite Hpm. cbv beta iota. rewrite Hp. cbv beta iota.
    rewrite Hu. reflexivity.
Qed.

(** X4: [process_gomod] raises for a Go module dependency in two cases the
    code does not guard.  With a local version whose normalised path lies
    under no module of [_gomod_data], it raises [TypeError] when the name of
    the dependency is not a module either, and [KeyError] when it is.  With
    a version that is not local, it raises [KeyError] when the owning
    package has no module entry.  In each case nothing is changed. *)
Theorem process_gomod_raises :
  forall w package dependency mode,
    type (heap w dependency) = "gomod" ->
    (Py.is_local (version (heap w dependency)) = true ->
     match_parent_module (local_path (name (heap w package)) (heap w dependency))
       (sdict_keys (_gomod_data (self w))) = None ->
     process_gomod package dependency mode w
     = (w, Raise (if sdict_mem (name (heap w dependency)) (_gomod_data (self w))
                  then KeyError else TypeError)))
    /\ (Py.is_local (version (heap w dependency)) = false ->
        sdict_get (name (heap w package)) (_gomod_data (self w)) = None ->
        process_gomod package dependency mode w = (w, Raise KeyError)).
Proof.
  intros w package dependency mode Ht. split.
  - intros Hl Hpar. unfold process_gomod. run. rewrite Ht, Hl.
    cbn [String.eqb Ascii.eqb Bool.eqb].
    unfold local_path in Hpar. rewrite Hpar.
    destruct (sdict_mem (name (heap w dependency)) (_gomod_data (self w)));
      reflexivity.
  - intros Hl Hm. unfold process_gomod. run. rewrite Ht, Hl.
    cbn [String.eqb Ascii.eqb Bool.eqb fst snd]. rewrite Hm. reflexivity.
Qed.

(** ** Dependencies of Go packages *)

Lemma go_modules_by_name_run w :
  exists w1,
    go_modules_by_name w = (w1, Ok (known_modules w))
    /\ heap w1 = heap w
    /\ same_fields w w1
    /\ go_modules_by_name_cache (self w1) = Some (known_modules w).
Proof.
  unfold go_modules_by_name, known_modules. run.
  destruct w as [h cm l]. destruct cm. cbn.
  destruct go_modules_by_name_cache0; eexists; (split; [reflexivity|]);
    repeat split; reflexivity.
Qed.

(** X5: [process_go_package] on a go-package dependency whose version is
    not local appends the purl of the dependency to the dependencies of the
    entry of the owning package: the name, the purl and the sources of that
    entry and the Package objects stay as they are.  When the owning
    package has no entry, it raises [KeyError] and changes nothing. *)
Theorem process_go_package_appends_dependency :
  forall w package dependency purl,
    type (heap w dependency) = "go-package" ->
    Py.is_local (version (heap w dependency)) = false ->
    to_purl (heap w dependency) None = Ok purl ->
    (forall e,
        pdict_get py_hash (heap w) package (_gopkg_data (self w)) = Some e ->
        exists w',
          process_go_package py_hash package dependency "icm" w = (w', Ok tt)
          /\ heap w' = heap w
          /\ pdict_get py_hash (heap w') package (_gopkg_data (self w'))
             = Some {| d_name := d_name e; d_purl := d_purl e;
                       d_dependencies := d_dependencies e ++ [purl];
                       d_sources := d_sources e |})
    /\ (pdict_get py_hash (heap w) package (_gopkg_data (self w)) = None ->
        process_go_package py_hash package dependency "icm" w = (w, Raise KeyError)).
Proof.
  intros w package dependency purl Ht Hl Hp. split.
  - intros e He.
    destruct (update_entry_present F_gopkg package (append_dependency purl) w e He)
      as (d1 & _ & Hg1 & Hr1).
    eexists. split; [|split].
    + unfold process_go_package. run. rewrite Ht, Hl. cbn [String.eqb Ascii.eqb Bool.eqb].
      rewrite Hp. cbv beta iota. exact Hr1.
    + reflexivity.
    + exact Hg1.
  - intro Hn. unfold process_go_package. run. rewrite Ht, Hl.
    cbn [String.eqb Ascii.eqb Bool.eqb]. rewrite Hp. cbv beta iota.
    unfold update_entry. run. cbn [get_field].
    now rewrite (pdict_update_none (heap w) package (append_dependency purl) _ Hn).
Qed.

(** X6: for a dependency with a local version whose name lies under a known
    Go module, [_get_local_go_package_dep_purl] writes the version of the
    longest such module into the dependency object, and returns what
    [to_purl] gives for the dependency with that version; the version is
    written also when [to_purl] then raises.  No other object and no
    working map changes. *)
Theorem get_local_purl_of_module_package :
  forall w package dependency m module,
    Py.is_local (version (heap w dependency)) = true ->
    match_parent_module (name (heap w dependency)) (sdict_keys (known_modules w)) = Some m ->
    sdict_get m (known_modules w) = Some module ->
    exists w',
      _get_local_go_package_dep_purl package dependency w
      = (w', to_purl (set_version (version (heap w module)) (heap w dependency)) None)
      /\ heap w' dependency = set_version (version (heap w module)) (heap w dependency)
      /\ (forall a, a <> dependency -> heap w' a = heap w a)
      /\ same_fields w w'.
Proof.
  intros w package dependency m module Hl Hm Hg.
  destruct (go_modules_by_name_run w) as (w1 & Hgm & Hh1 & Hs1 & _).
  assert (E : forall h p, heap_set h dependency p dependency = p)
    by (intros h p; unfold heap_set; now rewrite Nat.eqb_refl).
  exists {| heap := heap_set (heap w) dependency
                      (set_version (version (heap w module)) (heap w dependency));
            self := self w1; log := log w1 |}.
  split; [|split; [|split]].
  - unfold _get_local_go_package_dep_purl. run. rewrite Hl. cbn [negb].
    rewrite Hgm. cbv beta iota. rewrite Hm, Hg. cbv beta iota. cbn [heap].
    rewrite Hh1, E.
    destruct (to_purl _ None); reflexivity.
  - cbn [heap]. apply E.
  - intros a Ha. cbn [heap]. unfold heap_set.
    destruct (Nat.eqb a dependency) eqn:Ea; [apply Nat.eqb_eq in Ea; contradiction|].
    reflexivity.
  - destruct Hs1 as [H1 H2]. split; [exact H1|exact H2].
Qed.

(** X7: for a dependency with a local version whose name lies under no
    known Go module, [_get_local_go_package_dep_purl] resolves the version
    against the module of the owning package: it returns the purl of the
    dependency, built with the path relative to the longest module that
    contains the normalised path, with the purl of that module in the
    place of the parent placeholder.  No Package object changes. *)
Theorem get_local_purl_of_foreign_package :
  forall w package dependency pm dm rel md purl,
    Py.is_local (version (heap w dependency)) = true ->
    match_parent_module (name (heap w dependency)) (sdict_keys (known_modules w)) = None ->
    match_parent_module (name (heap w package)) (sdict_keys (known_modules w)) = Some pm ->
    match_parent_module (local_path pm (heap w dependency)) (sdict_keys (known_modules w))
    = Some dm ->
    Py.relative_to (local_path pm (heap w dependency)) dm = Some rel ->
    sdict_get dm (_gomod_data (self w)) = Some md ->
    to_purl (heap w dependency) (Some rel) = Ok purl ->
    exists w',
      _get_local_go_package_dep_purl package dependency w
      = (w', Ok (replace_parent_purl_placeholder purl (m_purl md)))
      /\ heap w' = heap w
      /\ same_fields w w'.
Proof.
  intros w package dependency pm dm rel md purl Hl Hm Hpm Hdm Hrel Hmd Hp.
  destruct (go_modules_by_name_run w) as (w1 & Hgm & Hh1 & Hs1 & _).
  exists w1. split; [|split; assumption].
  unfold _get_local_go_package_dep_purl. run. rewrite Hl. cbn [negb].
  rewrite Hgm. cbv beta iota. rewrite Hm, Hh1, Hpm.
  unfold local_path in Hdm, Hrel. rewrite Hdm, Hrel. cbv beta.
  rewrite (same_fields_gomod _ _ Hs1), Hmd, Hp. reflexivity.
Qed.

(** ** What each entry point leaves alone *)

Ltac mode_leaf :=
  match goal with
  | |- keeps _ (if String.eqb "icm" "icm" then _ else _) =>
      change (String.eqb "icm" "icm") with true; cbv iota
  | |- keeps _ (if String.eqb "sbom" "icm" then _ else _) =>
      change (String.eqb "sbom" "icm") with false; cbv iota
  | |- keeps _ (if String.eqb "sbom" "sbom" then _ else _) =>
      change (String.eqb "sbom" "sbom") with true; cbv iota
  end.

Ltac frame_leaf :=
  first
    [ mode_leaf
    | match goal with
      | |- keeps (outside_to_json _) (modify_self _) =>
          intros ? (? & ? & ?); repeat split; cbn; assumption
      | |- keeps (outside_to_json _) (emit _) => intros ? ?; assumption
      | |- keeps (outside_to_json _) (assign_version _ _) => intros ? ?; assumption
      | |- keeps (outside_sbom _) (modify_self _) =>
          let f := fresh "f" in
          let H := fresh "H" in
          intros ? (H & ? & ?); repeat split; cbn; try assumption;
          intro f; specialize (H f); destruct f; exact H
      | |- keeps (outside_sbom _) (emit _) => intros ? ?; assumption
      | |- keeps (outside_sbom _) (assign_version _ _) => intros ? ?; assumption
      end ].

Lemma outside_to_json_update_entry cm0 f a g :
  keeps (outside_to_json cm0) (update_entry py_hash f a g).
Proof.
  unfold update_entry. keeps_with frame_leaf.
Qed.

Lemma outside_to_json_process_package cm0 package :
  keeps (outside_to_json cm0) (process_package py_hash "icm" package).
Proof.
  unfold process_package, process_dependency, process_go_package, process_gomod,
    process_npm_package, process_pip_package, process_yarn_package, process_standard,
    _process_standard_package, process_rubygems_package,
    _get_local_go_package_dep_purl, go_modules_by_name.
  keeps_with ltac:(first [apply outside_to_json_update_entry | frame_leaf]).
Qed.

Lemma outside_sbom_process_package cm0 package :
  keeps (outside_sbom cm0) (process_package py_hash "sbom" package).
Proof.
  unfold process_package, process_dependency, process_go_package, process_gomod,
    process_npm_package, process_pip_package, process_yarn_package, process_standard,
    _process_standard_package_sbom, process_rubygems_package,
    _get_local_go_package_dep_purl, go_modules_by_name, append_component.
  keeps_with frame_leaf.
Qed.

(** X9: the two entry points do not touch each other's result: [to_json]
    leaves [_sbom_components] as it was, [sbom_components_list] leaves the
    six dictionaries of entries as they were, and neither changes the
    request or the package list of the instance, whether the call returns
    or raises. *)
Theorem entry_points_leave_each_other_alone :
  forall w,
    outside_to_json (self w) (fst (to_json py_hash w))
    /\ outside_sbom (self w) (fst (sbom_components_list py_hash w)).
Proof.
  intro w. split.
  - assert (K : keeps (outside_to_json (self w)) (to_json py_hash)).
    { unfold to_json, seed_icm, setdefault_entry, setdefault_module,
        set_go_package_sources, set_sources_at.
      keeps_with ltac:(first [ apply outside_to_json_process_package
                             | apply outside_to_json_update_entry
                             | frame_leaf ]). }
    apply K. repeat split.
  - assert (K : keeps (outside_sbom (self w)) (sbom_components_list py_hash)).
    { unfold sbom_components_list, seed_sbom, setdefault_module, append_component.
      keeps_with ltac:(first [apply outside_sbom_process_package | frame_leaf]). }
    apply K. repeat split.
Qed.

(** ** Running [set_go_package_sources] again *)

Lemma set_go_package_sources_run w :
  findable py_hash (heap w) (_gopkg_data (self w)) ->
  Forall (fun s => d_name (slot_val s) <> None) (_gopkg_data (self w)) ->
  set_go_package_sources py_hash w
  = ({| heap := heap w;
        self := set_field F_gopkg
                  (List.map (slot_map (with_sources (_gomod_data (self w))))
                     (_gopkg_data (self w)))
                  (self w);
        log := log w ++ List.flat_map (missing_module_warning (_gomod_data (self w)))
                          (_gopkg_data (self w)) |}, Ok tt).
Proof.
  intros Hf Hnames. unfold set_go_package_sources. run.
  rewrite (set_sources_loop (heap w) (_gomod_data (self w)) (_gopkg_data (self w))
             (List.length (_gopkg_data (self w))) 0 w); try reflexivity; try assumption.
  cbn [Nat.add skipn]. now rewrite partial_all, firstn_all.
Qed.

Lemma with_sources_no_name gm e : d_name e <> None -> d_name (with_sources gm e) = None.
Proof.
  unfold with_sources. destruct (d_name e) as [n|]; [|congruence].
  intros _. destruct (owning_module n gm); reflexivity.
Qed.

Lemma set_go_package_sources_nameless w s d :
  _gopkg_data (self w) = s :: d ->
  d_name (slot_val s) = None ->
  set_go_package_sources py_hash w = (w, Raise KeyError).
Proof.
  intros Hd Hn. unfold set_go_package_sources. run. rewrite Hd.
  cbn [List.length List.seq for_each]. run.
  unfold set_sources_at at 1. run. rewrite Hd. cbn [List.nth_error]. rewrite Hn.
  reflexivity.
Qed.

(** X8: [set_go_package_sources] removes the name of every go-package
    entry, and needs the name: run a second time without a new seeding of
    the entries, it raises [KeyError] at the first entry and changes
    nothing. *)
Theorem set_go_package_sources_twice :
  forall w,
    findable py_hash (heap w) (_gopkg_data (self w)) ->
    Forall (fun s => d_name (slot_val s) <> None) (_gopkg_data (self w)) ->
    _gopkg_data (self w) <> [] ->
    exists w1,
      set_go_package_sources py_hash w = (w1, Ok tt)
      /\ set_go_package_sources py_hash w1 = (w1, Raise KeyError).
Proof.
  intros w Hf Hnames Hne.
  eexists. split; [apply set_go_package_sources_run; assumption|].
  destruct (_gopkg_data (self w)) as [|s d] eqn:Ed; [congruence|].
  apply (set_go_package_sources_nameless _
           (slot_map (with_sources (_gomod_data (self w))) s)
           (List.map (slot_map (with_sources (_gomod_data (self w)))) d)).
  - reflexivity.
  - cbn [slot_map slot_val]. apply with_sources_no_name. now inversion Hnames.
Qed.

(** ** Packages whose dependencies are not processed *)

(** X10: the dependencies of a package whose type is none of go-package,
    gomod, npm, pip, yarn and rubygems are not processed, whatever the
    mode: for a git-submodule package, or one of an unknown type, the loop
    over its dependencies returns and changes nothing. *)
Theorem process_package_without_processor :
  forall mode w package,
    has_processor (type (heap w package)) = false ->
    process_package py_hash mode package w = (w, Ok tt).
Proof.
  intros mode w package H. unfold has_processor in H.
  repeat (apply Bool.orb_false_iff in H; destruct H as [H ?]).
  unfold process_package. run.
  induction (dependencies (heap w package)) as [|d l IH]; [reflexivity|].
  cbn [for_each]. run. unfold process_dependency at 1. run.
  repeat match goal with E : String.eqb _ _ = false |- _ => rewrite E; clear E end.
  exact IH.
Qed.

(** ** The log *)

Ltac log_leaf :=
  first
    [ mode_leaf
    | match goal with
      | |- keeps (fun w => log w = _) (modify_self _) => intros ? ?; assumption
      | |- keeps (fun w => log w = _) (assign_version _ _) => intros ? ?; assumption
      | |- keeps (with_warnings _) (modify_self _) => intros ? ?; assumption
      | |- keeps (with_warnings _) (emit (LogWarning _ _)) =>
          let purls := fresh "purls" in
          let H := fresh "H" in
          intros ? [purls H];
          match goal with
          | |- with_warnings _ (fst (emit (LogWarning _ ?p) _)) =>
              exists (purls ++ [p]); cbn; rewrite H, List.map_app, <- List.app_assoc;
              reflexivity
          end
      end ].

Lemma log_process_package l mode package :
  mode = "icm" \/ mode = "sbom" ->
  keeps (fun w => log w = l) (process_package py_hash mode package).
Proof.
  unfold process_package, process_dependency, process_go_package, process_gomod,
    process_npm_package, process_pip_package, process_yarn_package, process_standard,
    _process_standard_package, _process_standard_package_sbom, process_rubygems_package,
    _get_local_go_package_dep_purl, go_modules_by_name, append_component, update_entry.
  intros [-> | ->]; keeps_with log_leaf.
Qed.

Lemma seed_sbom_log package w :
  heap (fst (seed_sbom package w)) = heap w
  /\ (snd (seed_sbom package w) = Ok tt ->
      log (fst (seed_sbom package w))
      = log w ++ (if sbom_supported (type (heap w package)) then []
                  else [LogDebug "No SBOM implementation for '%s' packages"
                          (type (heap w package))])).
Proof.
  unfold seed_sbom, setdefault_module, append_component. exec;
    (split; [reflexivity|]); intros _; cbn [log]; now rewrite ?List.app_nil_r.
Qed.

Lemma seed_icm_log package w :
  heap (fst (seed_icm py_hash package w)) = heap w
  /\ (snd (seed_icm py_hash package w) = Ok tt ->
      log (fst (seed_icm py_hash package w))
      = log w ++ (if sbom_supported (type (heap w package)) then []
                  else [LogDebug "No ICM implementation for '%s' packages"
                          (type (heap w package))])).
Proof.
  unfold seed_icm, setdefault_entry, setdefault_module, sbom_supported.
  destruct (String.eqb (type (heap w package)) "go-package") eqn:E1;
    [run; rewrite E1; exec; (split; [reflexivity|]); intros _; cbn [log];
     now rewrite ?List.app_nil_r|].
  destruct (String.eqb (type (heap w package)) "gomod") eqn:E2;
    [run; rewrite E1, E2; exec; (split; [reflexivity|]); intros _; cbn [log];
     now rewrite ?List.app_nil_r|].
  unfold field_of_type.
  destruct (String.eqb (type (heap w package)) "npm") eqn:E3;
    [run; rewrite E1, E2, E3; exec; (split; [reflexivity|]); intros _; cbn [log];
     now rewrite ?List.app_nil_r|].
  destruct (String.eqb (type (heap w package)) "pip") eqn:E4;
    [run; rewrite E1, E2, E3, E4; exec; (split; [reflexivity|]); intros _; cbn [log];
     now rewrite ?List.app_nil_r|].
  destruct (String.eqb (type (heap w package)) "yarn") eqn:E5;
    [run; rewrite E1, E2, E3, E4, E5; exec; (split; [reflexivity|]); intros _; cbn [log];
     now rewrite ?List.app_nil_r|].
  destruct (String.eqb (type (heap w package)) "rubygems") eqn:E6;
    [run; rewrite E1, E2, E3, E4, E5, E6; exec; (split; [reflexivity|]); intros _;
     cbn [log]; now rewrite ?List.app_nil_r|].
  destruct (String.eqb (type (heap w package)) "git-submodule") eqn:E7;
    run; rewrite E1, E2, E3, E4, E5, E6, E7; exec; (split; [reflexivity|]); intros _;
    cbn [log]; now rewrite ?List.app_nil_r.
Qed.

Lemma unsupported_records_flat_map fmt (h : addr -> Package) pkgs :
  List.flat_map (fun a => if sbom_supported (type (h a)) then []
                          else [LogDebug fmt (type (h a))]) pkgs
  = unsupported_records fmt h pkgs.
Proof.
  unfold unsupported_records. induction pkgs as [|a l IH]; simpl; [reflexivity|].
  destruct (sbom_supported (type (h a))); simpl; now rewrite IH.
Qed.

Lemma with_warnings_set_go_package_sources l :
  keeps (with_warnings l) (set_go_package_sources py_hash).
Proof.
  unfold set_go_package_sources, set_sources_at, update_entry.
  keeps_with log_leaf.
Qed.

(** X11: a call that returns has logged one debug record for each package
    of the list whose type is none of go-package, gomod, npm, pip, yarn,
    rubygems and git-submodule, in the order of the list.
    [sbom_components_list] logs nothing else; [to_json] logs after them
    only the warnings of [set_go_package_sources]. *)
Theorem calls_log_unsupported_types :
  forall w,
    (forall components,
        snd (sbom_components_list py_hash w) = Ok components ->
        log (fst (sbom_components_list py_hash w))
        = log w ++ unsupported_records "No SBOM implementation for '%s' packages"
                     (heap w) (packages (self w)))
    /\ (forall icm,
           snd (to_json py_hash w) = Ok icm ->
           with_warnings
             (log w ++ unsupported_records "No ICM implementation for '%s' packages"
                         (heap w) (packages (self w)))
             (fst (to_json py_hash w))).
Proof.
  intro w. split.
  - intro components. unfold sbom_components_list. run.
    set (w0 := {| heap := heap w; self := reset_sbom (self w); log := log w |}).
    change (packages (self w0)) with (packages (self w)).
    set (h := heap w). set (pkgs := packages (self w)).
    destruct (for_each_acc (fun w1 => heap w1 = h) log
                (fun a => if sbom_supported (type (h a)) then []
                          else [LogDebug "No SBOM implementation for '%s' packages"
                                  (type (h a))])
                pkgs seed_sbom) with (w := w0) as [Hh1 Hl1]; [|reflexivity|].
    { intros a w1 _ Hw1. destruct (seed_sbom_log a w1) as [H1 H2].
      split; [now rewrite H1|]. intro Hr. rewrite (H2 Hr), Hw1. reflexivity. }
    destruct (for_each pkgs seed_sbom w0) as [w1 [[]|e]]; cbn [fst snd] in *;
      [|discriminate].
    specialize (Hl1 eq_refl). rewrite unsupported_records_flat_map in Hl1.
    assert (K : log (fst (for_each pkgs (process_package py_hash "sbom") w1)) = log w1).
    { apply (keeps_for_each (fun w' => log w' = log w1)); [|reflexivity].
      intros p _. apply log_process_package. now right. }
    destruct (for_each pkgs (process_package py_hash "sbom") w1) as [w2 [[]|e]];
      cbn [fst snd] in *; [|discriminate].
    intros _. now rewrite K, Hl1.
  - intro icm. unfold to_json. run.
    set (w0 := {| heap := heap w; self := reset_icm_maps (self w); log := log w |}).
    change (packages (self w0)) with (packages (self w)).
    set (h := heap w). set (pkgs := packages (self w)).
    destruct (for_each_acc (fun w1 => heap w1 = h) log
                (fun a => if sbom_supported (type (h a)) then []
                          else [LogDebug "No ICM implementation for '%s' packages"
                                  (type (h a))])
                pkgs (seed_icm py_hash)) with (w := w0) as [Hh1 Hl1]; [|reflexivity|].
    { intros a w1 _ Hw1. destruct (seed_icm_log a w1) as [H1 H2].
      split; [now rewrite H1|]. intro Hr. rewrite (H2 Hr), Hw1. reflexivity. }
    destruct (for_each pkgs (seed_icm py_hash) w0) as [w1 [[]|e]]; cbn [fst snd] in *;
      [|discriminate].
    specialize (Hl1 eq_refl). rewrite unsupported_records_flat_map in Hl1.
    assert (K : log (fst (for_each pkgs (process_package py_hash "icm") w1)) = log w1).
    { apply (keeps_for_each (fun w' => log w' = log w1)); [|reflexivity].
      intros p _. apply log_process_package. now left. }
    destruct (for_each pkgs (process_package py_hash "icm") w1) as [w2 [[]|e]];
      cbn [fst snd] in *; [|discriminate].
    assert (W : with_warnings (log w2) (fst (set_go_package_sources py_hash w2))).
    { apply with_warnings_set_go_package_sources. exists []. cbn.
      now rewrite List.app_nil_r. }
    destruct (set_go_package_sources py_hash w2) as [w3 [[]|e]]; cbn [fst snd] in *;
      [|discriminate].
    intros _. rewrite K, Hl1 in W. exact W.
Qed.

(** * Packages from JSON *)

Lemma load_all_complete (l : list PackageJson) :
  Forall (fun j => forall objs,
              (complete j = true -> is_ok (from_json j objs) = true)
              /\ (complete j = false -> from_json j objs = Raise KeyError)) l ->
  forall objs,
    (List.forallb complete l = true -> is_ok (load_all from_json l objs) = true)
    /\ (List.forallb complete l = false -> load_all from_json l objs = Raise KeyError).
Proof.
  induction 1 as [|j l Hj _ IH]; intro objs; cbn [List.forallb load_all].
  - split; [reflexivity|discriminate].
  - destruct (Hj objs) as [H1 H2]. destruct (complete j); cbn [andb].
    + specialize (H1 eq_refl). destruct (from_json j objs) as [[a objs1]|e];
        [|discriminate]. destruct (IH objs1) as [H3 H4]. split; intro Hl.
      * specialize (H3 Hl). destruct (load_all from_json l objs1) as [[rest objs2]|e];
          [reflexivity|discriminate].
      * now rewrite (H4 Hl).
    + split; [discriminate|]. intros _. now rewrite (H2 eq_refl).
Qed.

(** X12: [Package.from_json] returns a package exactly when the keys name,
    type and version are present in the dictionary and in the
    dictionaries of all its dependencies, at any depth; when one is missing
    anywhere it raises [KeyError].  The keys dev, path and dependencies
    may be absent. *)
Theorem from_json_raises_iff_incomplete :
  forall j objs,
    (complete j = true -> is_ok (from_json j objs) = true)
    /\ (complete j = false -> from_json j objs = Raise KeyError).
Proof.
  intro j. induction j as [nm ty ver dv pth deps IH] using PackageJson_nested_ind.
  intro objs. cbn [complete from_json].
  assert (Hd : (match deps with Some l => List.forallb complete l | None => true end = true ->
                is_ok (match deps with
                       | Some l => load_all from_json l objs
                       | None => Ok ([], objs)
                       end) = true)
               /\ (match deps with Some l => List.forallb complete l | None => true end = false ->
                   match deps with
                   | Some l => load_all from_json l objs
                   | None => Ok ([], objs)
                   end = Raise KeyError)).
  { destruct deps as [l|]; [apply load_all_complete; exact IH|].
    split; [reflexivity|discriminate]. }
  destruct Hd as [H1 H2].
  destruct (match deps with Some l => List.forallb complete l | None => true end).
  - specialize (H1 eq_refl).
    destruct (match deps with Some l => load_all from_json l objs | None => Ok ([], objs) end)
      as [[das objs1]|e]; [|discriminate].
    destruct nm, ty, ver; cbn; split; try reflexivity; discriminate.
  - rewrite (H2 eq_refl). rewrite Bool.andb_false_r. split; [discriminate|reflexivity].
Qed.

Lemma all2_impl {A B} (R1 R2 : A -> B -> Prop) (l2 : list B) :
  Forall (fun y => forall x, R1 x y -> R2 x y) l2 ->
  forall l1, all2 R1 l1 l2 -> all2 R2 l1 l2.
Proof.
  induction 1 as [|y l2 Hy _ IH]; intros [|x l1]; cbn [all2]; try tauto.
  intros [H1 H2]. split; [now apply Hy|now apply IH].
Qed.

Lemma represents_app (new : objects) (j : PackageJson) :
  forall objs a, represents objs a j -> represents (objs ++ new) a j.
Proof.
  induction j as [nm ty ver dv pth deps IH] using PackageJson_nested_ind.
  intros objs a. cbn [represents].
  destruct (List.nth_error objs a) as [p|] eqn:E; [|tauto].
  rewrite List.nth_error_app1 by (apply List.nth_error_Some; congruence).
  rewrite E. intros (H1 & H2 & H3 & H4 & H5 & H6). repeat split; try assumption.
  destruct deps as [l|]; [|exact H6].
  revert H6. apply all2_impl.
  eapply Forall_impl; [|exact IH]. intros j0 Hj0 x. apply Hj0.
Qed.

Lemma new_tree_app (new : objects) (j : PackageJson) :
  forall n n' objs a, n' <= n -> new_tree n objs a j -> new_tree n' (objs ++ new) a j.
Proof.
  induction j as [nm ty ver dv pth deps IH] using PackageJson_nested_ind.
  intros n n' objs a Hn. cbn [new_tree].
  destruct (List.nth_error objs a) as [p|] eqn:E; [|tauto].
  rewrite List.nth_error_app1 by (apply List.nth_error_Some; congruence).
  rewrite E. intros (H1 & H2 & H3 & H4). split; [lia|]. repeat split; try assumption.
  destruct deps as [l|]; [|exact I].
  revert H4. apply all2_impl.
  eapply Forall_impl; [|exact IH]. intros j0 Hj0 x. now apply Hj0.
Qed.

Lemma load_all_makes (l : list PackageJson) :
  Forall from_json_makes l ->
  forall objs addrs objs1,
    load_all from_json l objs = Ok (addrs, objs1) ->
    exists new,
      objs1 = objs ++ new
      /\ all2 (represents objs1) addrs l
      /\ all2 (new_tree (List.length objs) objs1) addrs l
      /\ NoDup addrs
      /\ Forall (fun d => List.length objs <= d < List.length objs1) addrs.
Proof.
  induction 1 as [|j l Hj _ IH]; intros objs addrs objs1; cbn [load_all].
  - intro H. injection H as <- <-. exists []. rewrite List.app_nil_r.
    split; [reflexivity|]. split; [exact I|]. split; [exact I|].
    split; constructor.
  - destruct (from_json j objs) as [[a objsA]|e] eqn:Ej; [|discriminate].
    destruct (load_all from_json l objsA) as [[rest objsB]|e] eqn:El; [|discriminate].
    intro H. injection H as <- <-.
    destruct (Hj objs a objsA Ej) as (newA & p & HA & Ha & Hrep & Hnew & _).
    destruct (IH objsA rest objsB El) as (newB & HB & Hall & Hnews & Hnd & Hrange).
    assert (Hlen : List.length objsA = S a).
    { rewrite HA, Ha. rewrite !List.length_app. cbn. lia. }
    assert (Hle : List.length objs <= List.length objsA).
    { rewrite HA, List.length_app. lia. }
    exists ((newA ++ [p]) ++ newB). split; [|split; [|split; [|split]]].
    + rewrite HB, HA. now rewrite <- !List.app_assoc.
    + cbn [all2]. split; [|exact Hall]. rewrite HB. now apply represents_app.
    + cbn [all2]. split.
      * rewrite HB. now apply (new_tree_app newB j (List.length objs)).
      * revert Hnews. apply all2_impl. apply Forall_forall. intros j0 _ x Hx.
        rewrite <- (List.app_nil_r objsB). now apply (new_tree_app [] j0 (List.length objsA)).
    + constructor; [|exact Hnd]. intro Hin.
      pose proof (proj1 (Forall_forall _ _) Hrange a Hin) as Hr. cbv beta in Hr. lia.
    + constructor.
      * rewrite HB, List.length_app, Hlen, Ha, List.length_app. lia.
      * eapply Forall_impl; [|exact Hrange]. cbn beta. intros d Hd.
        rewrite Hlen, Ha, List.length_app in Hd. lia.
Qed.

Lemma from_json_makes_all (j : PackageJson) : from_json_makes j.
Proof.
  induction j as [nm ty ver dv pth deps IH] using PackageJson_nested_ind.
  intros objs a objs'. cbn [from_json].
  assert (Hd : forall addrs objs1,
             match deps with
             | Some l => load_all from_json l objs
             | None => Ok ([], objs)
             end = Ok (addrs, objs1) ->
             exists new,
               objs1 = objs ++ new
               /\ match deps with
                  | Some l => all2 (represents objs1) addrs l
                               /\ all2 (new_tree (List.length objs) objs1) addrs l
                  | None => addrs = []
                  end
               /\ NoDup addrs
               /\ Forall (fun d => List.length objs <= d < List.length objs1) addrs).
  { destruct deps as [l|].
    - intros addrs objs1 H.
      destruct (load_all_makes l IH objs addrs objs1 H) as (new & H1 & H2 & H3 & H4 & H5).
      exists new. repeat split; assumption.
    - intros addrs objs1 H. injection H as <- <-. exists []. rewrite List.app_nil_r.
      split; [reflexivity|]. split; [reflexivity|]. split; constructor. }
  destruct (match deps with Some l => load_all from_json l objs | None => Ok ([], objs) end)
    as [[addrs objs1]|e]; [|discriminate].
  destruct (Hd addrs objs1 eq_refl) as (new & Hn & Hall & Hnd & Hrange).
  destruct nm as [nm|]; [|discriminate]. destruct ty as [ty|]; [|discriminate].
  destruct ver as [ver|]; [|discriminate].
  unfold new_package. intro H. injection H as <- <-.
  eexists new, _. split; [rewrite Hn, <- List.app_assoc; reflexivity|].
  split; [now rewrite Hn|]. split; [|split].
  - cbn [represents]. rewrite List.nth_error_app2 by lia.
    rewrite Nat.sub_diag. cbn [List.nth_error name type version dev path dependencies].
    repeat split.
    destruct deps as [l|]; [|exact Hall]. destruct Hall as [Hall _].
    revert Hall. apply all2_impl.
    apply Forall_forall. intros j0 _ x. apply represents_app.
  - cbn [new_tree]. split; [rewrite Hn, List.length_app; lia|].
    rewrite List.nth_error_app2 by lia.
    rewrite Nat.sub_diag. cbn [List.nth_error dependencies].
    split; [exact Hnd|]. split.
    + eapply Forall_impl; [|exact Hrange]. cbn beta. intros d Hlt. lia.
    + destruct deps as [l|]; [|exact I]. destruct Hall as [_ Hall].
      revert Hall. apply all2_impl.
      apply Forall_forall. intros j0 _ x. now apply new_tree_app.
  - cbn [dependencies]. exact Hrange.
Qed.

(** X13: the package [Package.from_json] returns is a new object, made
    after the objects of its dependencies, and every object that was there
    before is as it was.  Its name, type and version are the values of the
    keys, dev is the value of its key or false, path the value of its key
    or [None], and its dependencies are, in order, the packages of the
    dictionaries under the key dependencies.  The objects of the
    dependencies, at any depth, are new as well: none was there before the
    call, each comes before the object of its package, and no two
    dependencies of a package are the same object. *)
Theorem from_json_builds_the_package :
  forall j objs a objs',
    from_json j objs = Ok (a, objs') ->
    represents objs' a j
    /\ new_tree (List.length objs) objs' a j
    /\ List.length objs <= a
    /\ List.length objs' = S a
    /\ exists new, objs' = objs ++ new.
Proof.
  intros j objs a objs' H.
  destruct (from_json_makes_all j objs a objs' H) as (new & p & H1 & H2 & H3 & H4 & _).
  split; [exact H3|]. split; [exact H4|]. split; [rewrite H2, List.length_app; lia|].
  split; [rewrite H1, H2, !List.length_app; cbn; lia|].
  exists (new ++ [p]). exact H1.
Qed.

Lemma load_all_tree (l : list PackageJson) :
  forall objs pkgs objs',
    load_all from_json l objs = Ok (pkgs, objs') ->
    (exists new, objs' = objs ++ new)
    /\ Forall (fun a => List.length objs <= a < List.length objs') pkgs
    /\ forall p pk d,
        In p pkgs -> List.nth_error objs' p = Some pk -> In d (dependencies pk) ->
        List.length objs <= d /\ ~ In d pkgs.
Proof.
  induction l as [|j l IH]; intros objs pkgs objs'; cbn [load_all].
  - intro H. injection H as <- <-. split; [exists []; now rewrite List.app_nil_r|].
    split; [constructor|]. intros p pk d [].
  - destruct (from_json j objs) as [[a objsA]|e] eqn:Ej; [|discriminate].
    destruct (load_all from_json l objsA) as [[rest objsB]|e] eqn:El; [|discriminate].
    intro H. injection H as <- <-.
    destruct (from_json_makes_all j objs a objsA Ej) as (newA & pa & HA & Ha & _ & _ & Hdeps).
    destruct (IH objsA rest objsB El) as ((newB & HB) & Hrange & Htree).
    assert (Hlen : List.length objsA = S a).
    { rewrite HA, Ha. rewrite !List.length_app. cbn. lia. }
    assert (Hlo : List.length objs <= a) by (rewrite Ha, List.length_app; lia).
    assert (Hrest : forall b, In b rest -> S a <= b).
    { intros b Hb. rewrite Forall_forall in Hrange. specialize (Hrange b Hb). lia. }
    split; [|split].
    + exists ((newA ++ [pa]) ++ newB). rewrite HB, HA. now rewrite <- !List.app_assoc.
    + constructor.
      * rewrite HB, List.length_app. lia.
      * eapply Forall_impl; [|exact Hrange]. cbn beta. intros b Hb. lia.
    + intros p pk d [<-|Hp] Hpk Hd.
      * assert (Epk : pk = pa).
        { rewrite HB, HA in Hpk.
          rewrite List.nth_error_app1 in Hpk
            by (rewrite !List.length_app; cbn; rewrite Ha, List.length_app; lia).
          rewrite List.app_assoc, List.nth_error_app2 in Hpk by lia.
          rewrite Ha, Nat.sub_diag in Hpk. cbn in Hpk. congruence. }
        subst pk. rewrite Forall_forall in Hdeps. specialize (Hdeps d Hd).
        split; [lia|]. intros [E|Hin]; [lia|]. specialize (Hrest d Hin). lia.
      * destruct (Htree p pk d Hp Hpk Hd) as [H1 H2].
        split; [lia|]. intros [E|Hin]; [lia|contradiction].
Qed.

Lemma store_nth_error (objs : objects) (a : addr) :
  a < List.length objs -> List.nth_error objs a = Some (store objs a).
Proof. intro H. unfold store. now apply List.nth_error_nth'. Qed.

(** X14: the packages [_load_packages_from_json] returns share no object:
    no package of the list is a dependency of a package of the list.  So a
    call of [to_json] or [sbom_components_list] on an instance made for
    them returns, after any earlier calls on the instance, what it returns
    on a new instance. *)
Theorem loaded_packages_share_no_object :
  forall packages_json objs pkgs objs' rq,
    _load_packages_from_json packages_json objs = Ok (pkgs, objs') ->
    (forall a p, In a pkgs -> In p pkgs -> ~ In a (dependencies (store objs' p)))
    /\ forall (earlier : list call) (c : call),
        snd (run_call py_hash c (run_calls py_hash earlier (fresh (store objs') rq pkgs)))
        = snd (run_call py_hash c (fresh (store objs') rq pkgs)).
Proof.
  intros packages_json objs pkgs objs' rq H.
  destruct (load_all_tree packages_json objs pkgs objs' H) as (_ & Hrange & Htree).
  assert (Hshare : forall a p, In a pkgs -> In p pkgs ->
                               ~ In a (dependencies (store objs' p))).
  { intros a p Ha Hp Hin. rewrite Forall_forall in Hrange.
    assert (Hlt : p < List.length objs') by (specialize (Hrange p Hp); lia).
    destruct (Htree p _ a Hp (store_nth_error objs' p Hlt) Hin) as [_ Hn].
    exact (Hn Ha). }
  split; [exact Hshare|]. intros earlier c.
  assert (NA : no_alias (store objs') pkgs).
  { intros a Ha (p & Hp & _ & Hin). exfalso. exact (Hshare a p Ha Hp Hin). }
  assert (H0 : call_inv (store objs') pkgs (fresh (store objs') rq pkgs)).
  { split; [apply evolved_refl|]. split; [reflexivity|now left]. }
  destruct (run_calls_inv (store objs') rq pkgs earlier _ H0 eq_refl) as [H1 H2].
  apply (run_call_related (store objs') pkgs); auto.
Qed.

(** * When [to_json] returns *)

Section Ready.

Variable h : addr -> Package.
Variable rq : Request.

Lemma pdict_index_get {V} a (d : pdict V) :
  pdict_index py_hash h a d = None <-> pdict_get py_hash h a d = None.
Proof.
  induction d as [|s d IH]; simpl; [tauto|].
  destruct (slot_matches py_hash h a s); [split; discriminate|].
  destruct (pdict_index py_hash h a d); simpl; split; intro H;
    try discriminate; try (apply IH; assumption); try reflexivity.
  - apply IH in H. discriminate.
Qed.

Lemma pdict_index_app {V} a (d d' : pdict V) :
  pdict_index py_hash h a d <> None \/ pdict_index py_hash h a d' <> None ->
  pdict_index py_hash h a (d ++ d') <> None.
Proof.
  induction d as [|s d IH]; simpl; [tauto|].
  destruct (slot_matches py_hash h a s); [discriminate|].
  intro H.
  assert (H' : pdict_index py_hash h a d <> None \/ pdict_index py_hash h a d' <> None).
  { destruct H as [H|H]; [left|right; exact H].
    destruct (pdict_index py_hash h a d); [discriminate|]. now apply H. }
  specialize (IH H').
  destruct (pdict_index py_hash h a (d ++ d')); [discriminate|]. now apply IH.
Qed.

Lemma pdict_index_setdefault {V} a b (v : V) (d : pdict V) :
  b = a \/ pdict_index py_hash h b d <> None ->
  pdict_index py_hash h b (pdict_setdefault py_hash h a v d) <> None.
Proof.
  intro H. unfold pdict_setdefault.
  destruct (pdict_get py_hash h a d) eqn:E.
  - destruct H as [->|H]; [|exact H]. rewrite pdict_index_get. congruence.
  - apply pdict_index_app. destruct H as [->|H]; [right|left; exact H].
    simpl. unfold slot_matches. cbn [slot_hash slot_key].
    now rewrite Z.eqb_refl, Nat.eqb_refl.
Qed.

Lemma sdict_get_app {V} k (d d' : sdict V) :
  sdict_get k (d ++ d') = match sdict_get k d with Some v => Some v | None => sdict_get k d' end.
Proof.
  induction d as [|[k0 v0] d IH]; simpl; [reflexivity|].
  destruct (String.eqb k0 k); [reflexivity|exact IH].
Qed.

Lemma sdict_get_setdefault {V} k k' (v : V) (d : sdict V) :
  k' = k \/ sdict_get k' d <> None ->
  sdict_get k' (sdict_setdefault k v d) <> None.
Proof.
  intro H. unfold sdict_setdefault, sdict_mem.
  destruct (sdict_get k d) eqn:E.
  - destruct H as [->|H]; [congruence|exact H].
  - rewrite sdict_get_app. destruct (sdict_get k' d); [discriminate|].
    destruct H as [->|H]; [|congruence]. simpl. now rewrite String.eqb_refl.
Qed.

Lemma Forall_setdefault {V} (P : slot V -> Prop) a (v : V) (d : pdict V) :
  Forall P d -> P (mkSlot (Package_hash py_hash (h a)) a v) ->
  Forall P (pdict_setdefault py_hash h a v d).
Proof.
  intros Hd Hv. unfold pdict_setdefault.
  destruct (pdict_get py_hash h a d); [exact Hd|].
  apply Forall_app. split; [exact Hd|]. now constructor.
Qed.

Lemma Forall_update_nth {A} (P : A -> Prop) (g : A -> A) i (l : list A) :
  Forall P l -> (forall x, P x -> P (g x)) -> Forall P (update_nth i g l).
Proof.
  intros Hl Hg. revert i. induction Hl as [|x l Hx Hl IH]; intros [|i]; simpl;
    constructor; auto.
Qed.

Lemma field_type_inj f f' : field_type f = field_type f' -> f = f'.
Proof. destruct f, f'; intro H; try reflexivity; discriminate. Qed.

Lemma field_type_not_gomod f : field_type f <> "gomod".
Proof. destruct f; discriminate. Qed.

Lemma setdefault_entry_ready f a v seen w :
  ready py_hash h rq seen w -> named_from 0 w ->
  type (h a) = field_type f ->
  (f = F_gopkg -> d_name v <> None) ->
  exists w',
    setdefault_entry py_hash f a v w = (w', Ok tt)
    /\ ready py_hash h rq (a :: seen) w' /\ named_from 0 w'.
Proof.
  intros (Hh & Hr & Hidx & Hmod & Hhash) Hnamed Ht Hv.
  unfold setdefault_entry. run. eexists. split; [reflexivity|].
  split; [split; [|split; [|split; [|split]]]|]; cbn [heap self]; rewrite ?Hh.
  - reflexivity.
  - destruct f; exact Hr.
  - intros f' b Hb Hb'. destruct (field_eq_dec f f') as [<-|Hne].
    + rewrite get_set_field. apply pdict_index_setdefault.
      destruct Hb as [<-|Hb]; [now left|right; now apply Hidx].
    + rewrite get_set_field_other by exact Hne.
      destruct Hb as [<-|Hb]; [|now apply Hidx].
      exfalso. apply Hne. apply field_type_inj. congruence.
  - intros b Hb Hb'. destruct Hb as [<-|Hb].
    + exfalso. apply (field_type_not_gomod f). congruence.
    + destruct f; now apply Hmod.
  - destruct f; try exact Hhash. cbn [_gopkg_data set_field get_field].
    apply Forall_setdefault; [exact Hhash|reflexivity].
  - unfold named_from in *. cbn [List.skipn] in *.
    destruct f; try exact Hnamed. cbn [self _gopkg_data set_field get_field].
    apply Forall_setdefault; [exact Hnamed|]. cbn [slot_val]. now apply Hv.
Qed.

Lemma setdefault_module_ready a purl seen w :
  ready py_hash h rq seen w -> named_from 0 w ->
  type (h a) = "gomod" ->
  exists w',
    setdefault_module (name (h a)) purl w = (w', Ok tt)
    /\ ready py_hash h rq (a :: seen) w' /\ named_from 0 w'.
Proof.
  intros (Hh & Hr & Hidx & Hmod & Hhash) Hnamed Ht.
  unfold setdefault_module. run. eexists. split; [reflexivity|].
  split; [split; [|split; [|split; [|split]]]|]; cbn [heap self].
  - exact Hh.
  - exact Hr.
  - intros f b Hb Hb'. destruct Hb as [<-|Hb].
    + exfalso. apply (field_type_not_gomod f). congruence.
    + destruct f; exact (Hidx _ b Hb Hb').
  - intros b Hb Hb'. cbn [_gomod_data set_gomod_data]. apply sdict_get_setdefault.
    destruct Hb as [<-|Hb]; [now left|right; now apply Hmod].
  - exact Hhash.
  - exact Hnamed.
Qed.

Lemma emit_ready r a seen w :
  ready py_hash h rq seen w -> named_from 0 w ->
  sbom_supported (type (h a)) = false ->
  exists w',
    emit r w = (w', Ok tt)
    /\ ready py_hash h rq (a :: seen) w' /\ named_from 0 w'.
Proof.
  intros (Hh & Hr & Hidx & Hmod & Hhash) Hnamed Ht.
  unfold emit. eexists. split; [reflexivity|].
  unfold sbom_supported in Ht.
  repeat (apply Bool.orb_false_iff in Ht; destruct Ht as [Ht ?]).
  repeat match goal with E : String.eqb _ _ = false |- _ => apply String.eqb_neq in E end.
  split; [split; [|split; [|split; [|split]]]|]; cbn [heap self]; try assumption.
  - intros f b Hb Hb'. destruct Hb as [<-|Hb]; [|now apply Hidx].
    exfalso. destruct f; cbn [field_type] in Hb'; congruence.
  - intros b Hb Hb'. destruct Hb as [<-|Hb]; [congruence|now apply Hmod].
Qed.

Lemma seed_icm_ready a seen w :
  ready py_hash h rq seen w -> named_from 0 w ->
  (sbom_supported (type (h a)) = true ->
   is_ok (to_top_level_purl (h a) rq (path (h a))) = true) ->
  exists w',
    seed_icm py_hash a w = (w', Ok tt)
    /\ ready py_hash h rq (a :: seen) w' /\ named_from 0 w'.
Proof.
  intros Hready Hnamed Hp.
  pose proof Hready as (Hh & Hr & _).
  unfold seed_icm. run. rewrite Hh, Hr.
  destruct (sbom_supported (type (h a))) eqn:Es.
  - specialize (Hp eq_refl).
    destruct (to_top_level_purl (h a) rq (path (h a))) as [purl|e]; [|discriminate].
    unfold sbom_supported in Es.
    destruct (String.eqb (type (h a)) "go-package") eqn:E1.
    { apply String.eqb_eq in E1.
      apply (setdefault_entry_ready F_gopkg); try assumption. discriminate. }
    destruct (String.eqb (type (h a)) "gomod") eqn:E2.
    { apply String.eqb_eq in E2. now apply setdefault_module_ready. }
    unfold field_of_type.
    destruct (String.eqb (type (h a)) "npm") eqn:E3.
    { apply String.eqb_eq in E3.
      apply (setdefault_entry_ready F_npm); try assumption. discriminate. }
    destruct (String.eqb (type (h a)) "pip") eqn:E4.
    { apply String.eqb_eq in E4.
      apply (setdefault_entry_ready F_pip); try assumption. discriminate. }
    destruct (String.eqb (type (h a)) "yarn") eqn:E5.
    { apply String.eqb_eq in E5.
      apply (setdefault_entry_ready F_yarn); try assumption. discriminate. }
    destruct (String.eqb (type (h a)) "rubygems") eqn:E6.
    { apply String.eqb_eq in E6.
      apply (setdefault_entry_ready F_rubygems); try assumption. discriminate. }
    destruct (String.eqb (type (h a)) "git-submodule") eqn:E7; [|discriminate].
    apply String.eqb_eq in E7.
    apply (setdefault_entry_ready F_gitsubmodule); try assumption. discriminate.
  - pose proof Es as Es'. unfold sbom_supported in Es'.
    repeat (apply Bool.orb_false_iff in Es'; destruct Es' as [Es' ?]).
    unfold field_of_type.
    repeat match goal with E : String.eqb _ _ = false |- _ => rewrite E; clear E end.
    now apply emit_ready.
Qed.

Lemma seed_icm_loop_ready l :
  forall seen w,
    ready py_hash h rq seen w -> named_from 0 w ->
    (forall a, In a l -> sbom_supported (type (h a)) = true ->
               is_ok (to_top_level_purl (h a) rq (path (h a))) = true) ->
    exists w',
      for_each l (seed_icm py_hash) w = (w', Ok tt)
      /\ ready py_hash h rq (List.rev l ++ seen) w' /\ named_from 0 w'.
Proof.
  induction l as [|a l IH]; intros seen w Hready Hnamed Hp.
  - exists w. split; [reflexivity|]. split; assumption.
  - destruct (seed_icm_ready a seen w Hready Hnamed (Hp a (or_introl eq_refl)))
      as (w1 & H1 & Hr1 & Hn1).
    destruct (IH (a :: seen) w1 Hr1 Hn1 (fun b Hb => Hp b (or_intror Hb)))
      as (w2 & H2 & Hr2 & Hn2).
    exists w2. split; [|split; [|exact Hn2]].
    + cbn [for_each]. unfold bind. now rewrite H1.
    + cbn [List.rev]. now rewrite <- List.app_assoc.
Qed.

End Ready.

Section Processing.

Variable h : addr -> Package.
Variable rq : Request.
Variable pkgs : list addr.

Lemma update_entry_ready f a g w :
  ready py_hash h rq pkgs w -> named_from 0 w ->
  pdict_index py_hash h a (get_field f (self w)) <> None ->
  (forall e, d_name (g e) = d_name e) ->
  exists w',
    update_entry py_hash f a g w = (w', Ok tt)
    /\ ready py_hash h rq pkgs w' /\ named_from 0 w'.
Proof.
  intros (Hh & Hr & Hidx & Hmod & Hhash) Hnamed Hi Hg.
  destruct (pdict_index py_hash h a (get_field f (self w))) as [i|] eqn:E; [|congruence].
  unfold update_entry. run. rewrite Hh, (pdict_update_index h a g _ i E).
  eexists. split; [reflexivity|].
  split; [split; [|split; [|split; [|split]]]|]; cbn [heap self].
  - exact Hh.
  - destruct f; exact Hr.
  - intros f' b Hb Hb'. destruct (field_eq_dec f f') as [<-|Hne].
    + rewrite get_set_field, pdict_index_update_nth. now apply Hidx.
    + rewrite get_set_field_other by exact Hne. now apply Hidx.
  - intros b Hb Hb'. destruct f; now apply Hmod.
  - destruct f; try exact Hhash. cbn [_gopkg_data set_field get_field].
    apply Forall_update_nth; [exact Hhash|]. intros s Hs. exact Hs.
  - unfold named_from in *. cbn [List.skipn] in *.
    destruct f; try exact Hnamed. cbn [self _gopkg_data set_field get_field].
    apply Forall_update_nth; [exact Hnamed|]. intros s Hs. cbn [slot_map slot_val].
    now rewrite Hg.
Qed.

Lemma process_gomod_ready a d w :
  ready py_hash h rq pkgs w -> named_from 0 w ->
  In a pkgs -> type (h a) = "gomod" -> type (h d) = "gomod" ->
  Py.is_local (version (h d)) = false ->
  is_ok (to_purl (h d) None) = true ->
  exists w',
    process_gomod a d "icm" w = (w', Ok tt)
    /\ ready py_hash h rq pkgs w' /\ named_from 0 w'.
Proof.
  intros Hready Hnamed Ha Hta Htd Hl Hp.
  pose proof Hready as (Hh & Hr & Hidx & Hmod & Hhash).
  destruct (to_purl (h d) None) as [purl|e] eqn:Ep; [|discriminate].
  destruct (sdict_get (name (h a)) (_gomod_data (self w))) as [m|] eqn:Em;
    [|exfalso; now apply (Hmod a Ha Hta)].
  rewrite <- Hh in Htd, Hl, Ep, Em.
  destruct (process_gomod_not_local w a d m purl Htd Hl Em Ep) as (gm' & Hrun & _ & Hget).
  eexists. split; [exact Hrun|].
  split; [split; [|split; [|split; [|split]]]|]; cbn [heap self].
  - exact Hh.
  - exact Hr.
  - intros f b Hb Hb'. destruct f; exact (Hidx _ b Hb Hb').
  - intros b Hb Hb'. cbn [_gomod_data set_gomod_data]. rewrite Hget.
    destruct (String.eqb (name (heap w a)) (name (h b))); [discriminate|].
    now apply Hmod.
  - exact Hhash.
  - exact Hnamed.
Qed.

Lemma process_go_package_ready a d w :
  ready py_hash h rq pkgs w -> named_from 0 w ->
  In a pkgs -> type (h a) = "go-package" -> type (h d) = "go-package" ->
  Py.is_local (version (h d)) = false ->
  is_ok (to_purl (h d) None) = true ->
  exists w',
    process_go_package py_hash a d "icm" w = (w', Ok tt)
    /\ ready py_hash h rq pkgs w' /\ named_from 0 w'.
Proof.
  intros Hready Hnamed Ha Hta Htd Hl Hp.
  pose proof Hready as (Hh & Hr & Hidx & Hmod & Hhash).
  destruct (to_purl (h d) None) as [purl|e] eqn:Ep; [|discriminate].
  unfold process_go_package. run. rewrite Hh, Htd, Hl, Ep.
  cbn [String.eqb Ascii.eqb Bool.eqb]. cbv beta iota.
  apply update_entry_ready; try assumption; [|reflexivity].
  exact (Hidx F_gopkg a Ha Hta).
Qed.

Lemma process_standard_ready t f a d w :
  ready py_hash h rq pkgs w -> named_from 0 w ->
  field_of_type t = Some f ->
  In a pkgs -> type (h a) = t -> type (h d) = t ->
  is_ok (to_purl (h d) None) = true ->
  exists w',
    process_standard py_hash t a d "icm" w = (w', Ok tt)
    /\ ready py_hash h rq pkgs w' /\ named_from 0 w'.
Proof.
  intros Hready Hnamed Hf Ha Hta Htd Hp.
  pose proof Hready as (Hh & Hr & Hidx & Hmod & Hhash).
  destruct (to_purl (h d) None) as [purl|e] eqn:Ep; [|discriminate].
  pose proof (field_of_type_some t f Hf) as Hft.
  unfold process_standard. run. rewrite Hh, Htd, String.eqb_refl.
  cbn [String.eqb Ascii.eqb Bool.eqb]. cbv beta iota.
  unfold _process_standard_package. rewrite Hf. run. rewrite Hh, Ep. cbv beta iota.
  destruct (update_entry_ready f a (append_source purl) w Hready Hnamed)
    as (w1 & H1 & Hr1 & Hn1); [apply Hidx; congruence|reflexivity|].
  rewrite H1. cbv beta iota.
  destruct (dev (h d)); cbn [negb].
  - exists w1. split; [reflexivity|]. split; assumption.
  - apply update_entry_ready; try assumption; [|reflexivity].
    destruct Hr1 as (_ & _ & Hidx1 & _). apply Hidx1; congruence.
Qed.

Lemma process_rubygems_ready a d w :
  ready py_hash h rq pkgs w -> named_from 0 w ->
  In a pkgs -> type (h a) = "rubygems" -> type (h d) = "rubygems" ->
  is_ok (to_vcs_purl (Py.last_segment (get_repo_name (repo rq))) (repo rq) (ref rq)) = true ->
  is_ok (to_purl (h d) (path (h a))) = true ->
  exists w',
    process_rubygems_package py_hash a d "icm" w = (w', Ok tt)
    /\ ready py_hash h rq pkgs w' /\ named_from 0 w'.
Proof.
  intros Hready Hnamed Ha Hta Htd Hv Hp.
  pose proof Hready as (Hh & Hr & Hidx & Hmod & Hhash).
  destruct (to_vcs_purl _ (repo rq) (ref rq)) as [parent|e] eqn:Ev; [|discriminate].
  destruct (to_purl (h d) (path (h a))) as [purl|e] eqn:Ep; [|discriminate].
  unfold process_rubygems_package. run. rewrite Hh, Htd.
  cbn [String.eqb Ascii.eqb Bool.eqb]. cbv beta iota. rewrite Hr, Ev. cbv beta iota.
  rewrite Hh, Ep. cbv beta iota.
  destruct (update_entry_ready F_rubygems a
              (append_source (replace_parent_purl_placeholder purl parent)) w Hready Hnamed)
    as (w1 & H1 & Hr1 & Hn1); [now apply Hidx|reflexivity|].
  rewrite H1. cbv beta iota.
  apply update_entry_ready; try assumption; [|reflexivity].
  destruct Hr1 as (_ & _ & Hidx1 & _). now apply Hidx1.
Qed.

Lemma for_each_runs {A} (J : World -> Prop) (l : list A) (body : A -> M unit) :
  (forall x w, In x l -> J w -> exists w', body x w = (w', Ok tt) /\ J w') ->
  forall w, J w -> exists w', for_each l body w = (w', Ok tt) /\ J w'.
Proof.
  induction l as [|x l IH]; intros Hb w Hw.
  - exists w. now split.
  - destruct (Hb x w (or_introl eq_refl) Hw) as (w1 & H1 & J1).
    destruct (IH (fun y w' Hy => Hb y w' (or_intror Hy)) w1 J1) as (w2 & H2 & J2).
    exists w2. split; [|exact J2]. cbn [for_each]. unfold bind. now rewrite H1.
Qed.

Lemma process_dependency_ready a d w :
  ready py_hash h rq pkgs w -> named_from 0 w ->
  In a pkgs ->
  (type (h d) = type (h a) -> has_processor (type (h a)) = true ->
   (forall rel, is_ok (to_purl (h d) rel) = true)
   /\ (type (h a) = "gomod" \/ type (h a) = "go-package" ->
       Py.is_local (version (h d)) = false)) ->
  is_ok (to_vcs_purl (Py.last_segment (get_repo_name (repo rq))) (repo rq) (ref rq)) = true ->
  exists w',
    process_dependency py_hash "icm" a d w = (w', Ok tt)
    /\ ready py_hash h rq pkgs w' /\ named_from 0 w'.
Proof.
  intros Hready Hnamed Ha Hdep Hv.
  pose proof Hready as (Hh & _).
  destruct (String.eqb (type (h d)) (type (h a))) eqn:E.
  - apply String.eqb_eq in E. specialize (Hdep E).
    unfold process_dependency. run. rewrite Hh. unfold has_processor in Hdep.
    destruct (String.eqb (type (h a)) "go-package") eqn:E1.
    { apply String.eqb_eq in E1. destruct (Hdep eq_refl) as [Hp Hl].
      apply process_go_package_ready; try assumption; try congruence; auto. }
    destruct (String.eqb (type (h a)) "gomod") eqn:E2.
    { apply String.eqb_eq in E2. destruct (Hdep eq_refl) as [Hp Hl].
      apply process_gomod_ready; try assumption; try congruence; auto. }
    destruct (String.eqb (type (h a)) "npm") eqn:E3.
    { apply String.eqb_eq in E3. destruct (Hdep eq_refl) as [Hp Hl].
      apply (process_standard_ready "npm" F_npm); try assumption; try congruence; auto. }
    destruct (String.eqb (type (h a)) "pip") eqn:E4.
    { apply String.eqb_eq in E4. destruct (Hdep eq_refl) as [Hp Hl].
      apply (process_standard_ready "pip" F_pip); try assumption; try congruence; auto. }
    destruct (String.eqb (type (h a)) "yarn") eqn:E5.
    { apply String.eqb_eq in E5. destruct (Hdep eq_refl) as [Hp Hl].
      apply (process_standard_ready "yarn" F_yarn); try assumption; try congruence; auto. }
    destruct (String.eqb (type (h a)) "rubygems") eqn:E6.
    { apply String.eqb_eq in E6. destruct (Hdep eq_refl) as [Hp Hl].
      apply process_rubygems_ready; try assumption; try congruence; auto. }
    exists w. split; [reflexivity|]. split; assumption.
  - apply String.eqb_neq in E. exists w. split; [|split; assumption].
    apply process_dependency_other_type. now rewrite Hh.
Qed.

Lemma process_package_ready a w :
  ready py_hash h rq pkgs w -> named_from 0 w ->
  In a pkgs ->
  (forall d, In d (dependencies (h a)) ->
     type (h d) = type (h a) -> has_processor (type (h a)) = true ->
     (forall rel, is_ok (to_purl (h d) rel) = true)
     /\ (type (h a) = "gomod" \/ type (h a) = "go-package" ->
         Py.is_local (version (h d)) = false)) ->
  is_ok (to_vcs_purl (Py.last_segment (get_repo_name (repo rq))) (repo rq) (ref rq)) = true ->
  exists w',
    process_package py_hash "icm" a w = (w', Ok tt)
    /\ ready py_hash h rq pkgs w' /\ named_from 0 w'.
Proof.
  intros Hready Hnamed Ha Hdeps Hv.
  pose proof Hready as (Hh & _).
  unfold process_package. run. rewrite Hh.
  apply (for_each_runs (fun w => ready py_hash h rq pkgs w /\ named_from 0 w));
    [|now split].
  intros d w0 Hd [Hr0 Hn0]. now apply process_dependency_ready; auto.
Qed.

End Processing.

Section SourcesReady.

Variable h : addr -> Package.

Lemma pdict_index_own (d : pdict PkgData) i s :
  List.nth_error d i = Some s ->
  slot_hash s = Package_hash py_hash (h (slot_key s)) ->
  pdict_index py_hash h (slot_key s) d <> None.
Proof.
  revert i. induction d as [|s0 d IH]; intros [|i] Hn Hs; simpl in *; try discriminate.
  - injection Hn as ->. unfold slot_matches.
    rewrite Hs, Z.eqb_refl, Nat.eqb_refl. discriminate.
  - destruct (slot_matches py_hash h (slot_key s) s0); [discriminate|].
    specialize (IH i Hn Hs).
    destruct (pdict_index py_hash h (slot_key s) d); [discriminate|congruence].
Qed.

Lemma length_update_nth {A} i (g : A -> A) (l : list A) :
  List.length (update_nth i g l) = List.length l.
Proof.
  revert i. induction l as [|x l IH]; intros [|i]; simpl; try reflexivity.
  now rewrite IH.
Qed.

Lemma skipn_update_nth_before {A} i (g : A -> A) (l : list A) :
  List.skipn (S i) (update_nth i g l) = List.skipn (S i) l.
Proof.
  revert i. induction l as [|x l IH]; intros [|i]; try reflexivity.
  cbn [update_nth]. cbn [List.skipn]. apply IH.
Qed.

Lemma Forall_skipn_update_nth {A} (P : A -> Prop) k j (g : A -> A) (l : list A) :
  (forall x, P x -> P (g x)) ->
  Forall P (List.skipn k l) -> Forall P (List.skipn k (update_nth j g l)).
Proof.
  intro Hg. revert k j. induction l as [|x l IH]; intros [|k] [|j]; simpl; intro H;
    try assumption.
  - inversion H; subst. constructor; auto.
  - inversion H; subst. constructor; [assumption|].
    apply (IH 0 j). assumption.
  - now apply IH.
Qed.

Lemma set_sources_at_ready n i w :
  sources_ready py_hash h n i w -> i < n ->
  exists w', set_sources_at py_hash i w = (w', Ok tt) /\ sources_ready py_hash h n (S i) w'.
Proof.
  intros (Hh & Hlen & Hhash & Hnamed) Hi.
  destruct (List.nth_error (_gopkg_data (self w)) i) as [s|] eqn:En;
    [|apply List.nth_error_None in En; lia].
  unfold named_from in Hnamed. rewrite (skipn_nth i _ s En) in Hnamed.
  apply Forall_cons_iff in Hnamed. destruct Hnamed as [Hs Hrest].
  destruct (d_name (slot_val s)) as [pkg_name|] eqn:Ename; [|congruence].
  assert (Hs_hash : slot_hash s = Package_hash py_hash (h (slot_key s))).
  { apply (proj1 (Forall_forall _ _) Hhash). eapply List.nth_error_In. exact En. }
  set (d1 := update_nth i (slot_map pop_name) (_gopkg_data (self w))).
  set (w1 := {| heap := heap w; self := set_field F_gopkg d1 (self w); log := log w |}).
  assert (Hupd : forall g, (forall e, d_name (g e) = d_name e) ->
                 exists w', update_entry py_hash F_gopkg (slot_key s) g w1 = (w', Ok tt)
                            /\ sources_ready py_hash h n (S i) w').
  { intros g Hg.
    destruct (pdict_index py_hash h (slot_key s) (_gopkg_data (self w)))
      as [j|] eqn:Ej; [|exfalso; exact (pdict_index_own _ i s En Hs_hash Ej)].
    unfold update_entry. run. cbn [heap self get_field set_field _gopkg_data w1].
    assert (Ej1 : pdict_index py_hash h (slot_key s) d1 = Some j)
      by (unfold d1; now rewrite pdict_index_update_nth).
    rewrite Hh, (pdict_update_index h (slot_key s) g d1 j Ej1).
    eexists. split; [reflexivity|].
    split; [exact Hh|]. cbn [self _gopkg_data set_field].
    split; [unfold d1; now rewrite !length_update_nth|]. split.
    - apply Forall_update_nth; [|intros x Hx; exact Hx].
      unfold d1. apply Forall_update_nth; [exact Hhash|intros x Hx; exact Hx].
    - unfold named_from. cbn [self _gopkg_data set_field].
      apply Forall_skipn_update_nth; [intros x Hx; cbn [slot_map slot_val]; now rewrite Hg|].
      unfold d1. rewrite skipn_update_nth_before. exact Hrest. }
  unfold set_sources_at. run. rewrite En, Ename. cbv beta iota. fold d1. fold w1.
  destruct (if sdict_mem pkg_name (_gomod_data (self w))
            then Some pkg_name
            else match_parent_module pkg_name (sdict_keys (_gomod_data (self w))))
    as [module_name|] eqn:Em.
  - assert (Hmod : sdict_get module_name (_gomod_data (self w)) <> None).
    { unfold sdict_mem in Em.
      destruct (sdict_get pkg_name (_gomod_data (self w))) eqn:Eg.
      - injection Em as <-. congruence.
      - apply match_parent_module_In in Em.
        destruct (sdict_get_In module_name _ Em) as [v Hv]. congruence. }
    destruct (sdict_get module_name (_gomod_data (self w))) as [module|]; [|congruence].
    apply Hupd. reflexivity.
  - eexists. split; [reflexivity|].
    split; [exact Hh|]. cbn [self _gopkg_data set_field w1].
    split; [unfold d1; now rewrite length_update_nth|]. split.
    + unfold d1. apply Forall_update_nth; [exact Hhash|intros x Hx; exact Hx].
    + unfold named_from. cbn [self _gopkg_data set_field].
      unfold d1. rewrite skipn_update_nth_before. exact Hrest.
Qed.

Lemma set_sources_loop_ready n k :
  forall i w,
    sources_ready py_hash h n i w -> i + k = n ->
    exists w', for_each (List.seq i k) (set_sources_at py_hash) w = (w', Ok tt)
               /\ heap w' = h.
Proof.
  induction k as [|k IH]; intros i w Hw Hik.
  - exists w. split; [reflexivity|]. apply Hw.
  - destruct (set_sources_at_ready n i w Hw) as (w1 & H1 & Hw1); [lia|].
    destruct (IH (S i) w1 Hw1) as (w2 & H2 & Hh2); [lia|].
    exists w2. split; [|exact Hh2]. cbn [List.seq for_each]. unfold bind. now rewrite H1.
Qed.

End SourcesReady.

(** X15: [to_json] returns a document, and leaves every Package object as
    it was, whenever the purl functions return for the packages of the
    supported types and for the dependencies it processes, and no
    dependency of a Go module or go-package that it processes has a local
    version: the lookups in its working maps cannot fail. *)
Theorem to_json_returns :
  forall w,
    (forall a, In a (packages (self w)) -> sbom_supported (type (heap w a)) = true ->
       is_ok (to_top_level_purl (heap w a) (request (self w)) (path (heap w a))) = true) ->
    (forall a d, processed_dependency (heap w) (packages (self w)) a d ->
       (forall rel, is_ok (to_purl (heap w d) rel) = true)
       /\ (type (heap w a) = "gomod" \/ type (heap w a) = "go-package" ->
           Py.is_local (version (heap w d)) = false)) ->
    is_ok (to_vcs_purl (Py.last_segment (get_repo_name (repo (request (self w)))))
             (repo (request (self w))) (ref (request (self w)))) = true ->
    is_ok (snd (to_json py_hash w)) = true
    /\ heap (fst (to_json py_hash w)) = heap w.
Proof.
  intros w Htop Hdeps Hvcs.
  set (h := heap w) in *. set (rq := request (self w)) in *.
  set (pkgs := packages (self w)) in *.
  unfold to_json. run.
  set (w0 := {| heap := heap w; self := reset_icm_maps (self w); log := log w |}).
  change (packages (self w0)) with pkgs.
  assert (R0 : ready py_hash h rq [] w0).
  { split; [reflexivity|]. split; [reflexivity|].
    split; [intros f a []|]. split; [intros a []|constructor]. }
  assert (N0 : named_from 0 w0) by constructor.
  destruct (seed_icm_loop_ready h rq pkgs [] w0 R0 N0 Htop) as (w1 & H1 & R1 & N1).
  rewrite H1. cbv beta iota.
  assert (R1' : ready py_hash h rq pkgs w1).
  { destruct R1 as (A1 & A2 & A3 & A4 & A5). rewrite List.app_nil_r in A3, A4.
    split; [exact A1|]. split; [exact A2|]. split; [|split; [|exact A5]].
    - intros f a Ha. apply A3. now apply List.in_rev in Ha.
    - intros a Ha. apply A4. now apply List.in_rev in Ha. }
  destruct (for_each_runs (fun w => ready py_hash h rq pkgs w /\ named_from 0 w) pkgs
              (process_package py_hash "icm")) with (w := w1) as (w2 & H2 & R2 & N2);
    [|now split|].
  { intros a w' Ha [Rw Nw]. apply process_package_ready; try assumption.
    intros d Hd Ht Hproc. apply Hdeps. repeat split; assumption. }
  rewrite H2. cbv beta iota.
  destruct R2 as (B1 & _ & _ & _ & B5).
  unfold set_go_package_sources. run.
  destruct (set_sources_loop_ready h (List.length (_gopkg_data (self w2)))
              (List.length (_gopkg_data (self w2))) 0 w2) as (w3 & H3 & Hh3);
    [repeat split; assumption|reflexivity|].
  rewrite H3. cbv beta iota. cbn [fst snd]. split; [reflexivity|exact Hh3].
Qed.

(** * The SBOM components without loops *)

Lemma for_each_out {A X} (J : World -> Prop) (out : World -> list X) (f : A -> list X)
      (l : list A) (body : A -> M unit) :
  (forall x w, In x l -> J w ->
     exists w', body x w = (w', Ok tt) /\ J w' /\ out w' = out w ++ f x) ->
  forall w, J w ->
    exists w', for_each l body w = (w', Ok tt) /\ J w'
               /\ out w' = out w ++ List.flat_map f l.
Proof.
  induction l as [|x l IH]; intros Hb w Hw.
  - exists w. split; [reflexivity|]. split; [exact Hw|]. cbn. now rewrite List.app_nil_r.
  - destruct (Hb x w (or_introl eq_refl) Hw) as (w1 & H1 & J1 & O1).
    destruct (IH (fun y w' Hy => Hb y w' (or_intror Hy)) w1 J1) as (w2 & H2 & J2 & O2).
    exists w2. split; [|split; [exact J2|]].
    + cbn [for_each]. unfold bind. now rewrite H1.
    + rewrite O2, O1. cbn [List.flat_map]. now rewrite List.app_assoc.
Qed.

Lemma sdict_get_setdefault_eq {V} k n (v : V) (d : sdict V) :
  sdict_get n (sdict_setdefault k v d)
  = match sdict_get n d with
    | Some x => Some x
    | None => if String.eqb k n then Some v else None
    end.
Proof.
  unfold sdict_setdefault, sdict_mem.
  destruct (sdict_get k d) eqn:Ek.
  - destruct (sdict_get n d) eqn:En; [reflexivity|].
    destruct (String.eqb k n) eqn:E; [|reflexivity].
    apply String.eqb_eq in E. congruence.
  - rewrite sdict_get_app. destruct (sdict_get n d); [reflexivity|]. reflexivity.
Qed.

Lemma find_In_some {A} (P : A -> bool) (l : list A) (x : A) :
  In x l -> P x = true -> exists y, List.find P l = Some y.
Proof.
  induction l as [|z l IH]; [intros []|]. intros [<-|Hx] Hp; simpl.
  - rewrite Hp. eauto.
  - destruct (P z); eauto.
Qed.

Section SbomRuns.

Variable h : addr -> Package.
Variable rq : Request.
Variable pkgs : list addr.

Lemma is_ok_value (r : result string) : is_ok r = true -> r = Ok (value r).
Proof. destruct r; [reflexivity|discriminate]. Qed.

Lemma seed_sbom_step a seen w :
  sbom_seeded h rq seen w ->
  (sbom_supported (type (h a)) = true ->
   is_ok (to_top_level_purl (h a) rq (path (h a))) = true) ->
  exists w', seed_sbom a w = (w', Ok tt) /\ sbom_seeded h rq (seen ++ [a]) w'.
Proof.
  intros (Hh & Hr & Hc & Hg) Hp.
  unfold seed_sbom. run. rewrite Hh, Hr.
  destruct (sbom_supported (type (h a))) eqn:Es.
  - rewrite (is_ok_value _ (Hp eq_refl)). cbv beta iota.
    fold (top_level_purl h rq a).
    destruct (String.eqb (type (h a)) "gomod") eqn:Eg.
    + unfold setdefault_module, append_component. run.
      eexists. split; [reflexivity|]. unfold sbom_seeded.
      cbn [heap self log _sbom_components _gomod_data request set_sbom_components
             set_gomod_data].
      split; [exact Hh|]. split; [exact Hr|]. split.
      * cbn [_sbom_components set_sbom_components set_gomod_data].
        rewrite Hc, List.filter_app, List.map_app. cbn [List.filter]. rewrite Es.
        reflexivity.
      * intro n. cbn [_gomod_data set_sbom_components set_gomod_data].
        rewrite sdict_get_setdefault_eq, Hg, find_snoc, Eg. cbn [andb].
        destruct (List.find _ seen); [reflexivity|].
        destruct (String.eqb (name (h a)) n); reflexivity.
    + unfold append_component. run.
      eexists. split; [reflexivity|]. unfold sbom_seeded.
      cbn [heap self log _sbom_components _gomod_data request set_sbom_components
             set_gomod_data].
      split; [exact Hh|]. split; [exact Hr|]. split.
      * cbn [_sbom_components set_sbom_components].
        rewrite Hc, List.filter_app, List.map_app. cbn [List.filter]. rewrite Es.
        reflexivity.
      * intro n. cbn [_gomod_data set_sbom_components].
        rewrite Hg, find_snoc, Eg. cbn [andb].
        destruct (List.find _ seen); reflexivity.
  - eexists. split; [reflexivity|]. unfold sbom_seeded.
      cbn [heap self log _sbom_components _gomod_data request set_sbom_components
             set_gomod_data].
    split; [exact Hh|]. split; [exact Hr|]. split.
    + rewrite Hc, List.filter_app. cbn [List.filter]. rewrite Es.
      now rewrite List.app_nil_r.
    + intro n. rewrite Hg, find_snoc.
      assert (Eg : String.eqb (type (h a)) "gomod" = false).
      { unfold sbom_supported in Es.
        destruct (String.eqb (type (h a)) "gomod"); [|reflexivity].
        rewrite Bool.orb_true_r in Es. cbn in Es. discriminate. }
      rewrite Eg. cbn [andb]. destruct (List.find _ seen); reflexivity.
Qed.

Lemma seed_sbom_loop_run l :
  forall seen w,
    sbom_seeded h rq seen w ->
    (forall a, In a l -> sbom_supported (type (h a)) = true ->
               is_ok (to_top_level_purl (h a) rq (path (h a))) = true) ->
    exists w', for_each l seed_sbom w = (w', Ok tt) /\ sbom_seeded h rq (seen ++ l) w'.
Proof.
  induction l as [|a l IH]; intros seen w Hw Hp.
  - exists w. split; [reflexivity|]. now rewrite List.app_nil_r.
  - destruct (seed_sbom_step a seen w Hw (Hp a (or_introl eq_refl))) as (w1 & H1 & S1).
    destruct (IH (seen ++ [a]) w1 S1 (fun b Hb => Hp b (or_intror Hb))) as (w2 & H2 & S2).
    exists w2. split.
    + cbn [for_each]. unfold bind. now rewrite H1.
    + now rewrite <- List.app_assoc in S2.
Qed.

Lemma append_component_run c w :
  sbom_processing h rq pkgs w ->
  exists w',
    append_component c w = (w', Ok tt)
    /\ sbom_processing h rq pkgs w'
    /\ _sbom_components (self w') = _sbom_components (self w) ++ [c].
Proof.
  intros (Hh & Hr & Hg). unfold append_component. run.
  eexists. split; [reflexivity|]. split; [|reflexivity].
  split; [exact Hh|]. split; [exact Hr|exact Hg].
Qed.

Ltac eqb_compute := cbn [String.eqb Ascii.eqb Bool.eqb]; cbv beta iota.

Lemma process_go_package_sbom_run p d w :
  sbom_processing h rq pkgs w ->
  type (h p) = "go-package" -> type (h d) = "go-package" ->
  Py.is_local (version (h d)) = false ->
  is_ok (to_purl (h d) None) = true ->
  exists w',
    process_go_package py_hash p d "sbom" w = (w', Ok tt)
    /\ sbom_processing h rq pkgs w'
    /\ _sbom_components (self w')
       = _sbom_components (self w) ++ [component_of (h d) (dependency_purl h rq pkgs p d)].
Proof.
  intros Hw Htp Htd Hl Hp. pose proof Hw as (Hh & Hr & Hg).
  unfold process_go_package. run. rewrite Hh, Htd, Hl. eqb_compute.
  rewrite (is_ok_value _ Hp). cbv beta iota. rewrite Hh.
  unfold dependency_purl. rewrite Htp. eqb_compute.
  now apply append_component_run.
Qed.

Lemma process_gomod_sbom_run p d w :
  sbom_processing h rq pkgs w ->
  In p pkgs ->
  type (h p) = "gomod" -> type (h d) = "gomod" ->
  Py.is_local (version (h d)) = false ->
  is_ok (to_purl (h d) None) = true ->
  exists w',
    process_gomod p d "sbom" w = (w', Ok tt)
    /\ sbom_processing h rq pkgs w'
    /\ _sbom_components (self w')
       = _sbom_components (self w) ++ [component_of (h d) (dependency_purl h rq pkgs p d)].
Proof.
  intros Hw Hin Htp Htd Hl Hp. pose proof Hw as (Hh & Hr & Hg).
  destruct (find_In_some
              (fun a => String.eqb (type (h a)) "gomod"
                        && String.eqb (name (h a)) (name (h p))) pkgs p Hin)
    as [m Hm]; [rewrite Htp, !String.eqb_refl; reflexivity|].
  unfold process_gomod. run. rewrite Hh, Htd, Hl. eqb_compute. cbn [fst snd].
  rewrite Hh, Hg, Hm. cbn [option_map new_module m_purl]. cbv beta iota.
  rewrite (is_ok_value _ Hp). cbv beta iota.
  unfold dependency_purl, module_purl. rewrite Htp, Hm. eqb_compute.
  now apply append_component_run.
Qed.

Lemma process_standard_sbom_run t f p d w :
  sbom_processing h rq pkgs w ->
  field_of_type t = Some f -> t <> "rubygems" ->
  type (h p) = t -> type (h d) = t ->
  is_ok (to_purl (h d) None) = true ->
  exists w',
    process_standard py_hash t p d "sbom" w = (w', Ok tt)
    /\ sbom_processing h rq pkgs w'
    /\ _sbom_components (self w')
       = _sbom_components (self w) ++ [component_of (h d) (dependency_purl h rq pkgs p d)].
Proof.
  intros Hw Hf Hnr Htp Htd Hp. pose proof Hw as (Hh & Hr & Hg).
  assert (Hng : String.eqb t "gomod" = false).
  { apply String.eqb_neq. intros ->. discriminate Hf. }
  apply String.eqb_neq in Hnr.
  unfold process_standard. run. rewrite Hh, Htd, String.eqb_refl. eqb_compute.
  unfold _process_standard_package_sbom. run. rewrite Hh.
  rewrite (is_ok_value _ Hp). cbv beta iota.
  unfold dependency_purl. rewrite Htp, Hnr, Hng.
  now apply append_component_run.
Qed.

Lemma process_rubygems_sbom_run p d w :
  sbom_processing h rq pkgs w ->
  type (h p) = "rubygems" -> type (h d) = "rubygems" ->
  is_ok (to_vcs_purl (Py.last_segment (get_repo_name (repo rq))) (repo rq) (ref rq)) = true ->
  is_ok (to_purl (h d) (path (h p))) = true ->
  exists w',
    process_rubygems_package py_hash p d "sbom" w = (w', Ok tt)
    /\ sbom_processing h rq pkgs w'
    /\ _sbom_components (self w')
       = _sbom_components (self w) ++ [component_of (h d) (dependency_purl h rq pkgs p d)].
Proof.
  intros Hw Htp Htd Hv Hp. pose proof Hw as (Hh & Hr & Hg).
  unfold process_rubygems_package. run. rewrite Hh, Htd. eqb_compute.
  rewrite Hr, (is_ok_value _ Hv). cbv beta iota.
  rewrite Hh, (is_ok_value _ Hp). cbv beta iota.
  unfold dependency_purl, request_purl. rewrite Htp. eqb_compute.
  now apply append_component_run.
Qed.

Lemma process_dependency_sbom_run p d w :
  sbom_processing h rq pkgs w ->
  In p pkgs ->
  (type (h d) = type (h p) -> has_processor (type (h p)) = true ->
   (forall rel, is_ok (to_purl (h d) rel) = true)
   /\ (type (h p) = "gomod" \/ type (h p) = "go-package" ->
       Py.is_local (version (h d)) = false)) ->
  is_ok (to_vcs_purl (Py.last_segment (get_repo_name (repo rq))) (repo rq) (ref rq)) = true ->
  exists w',
    process_dependency py_hash "sbom" p d w = (w', Ok tt)
    /\ sbom_processing h rq pkgs w'
    /\ _sbom_components (self w')
       = _sbom_components (self w)
         ++ (if has_processor (type (h p)) && String.eqb (type (h d)) (type (h p))
             then [component_of (h d) (dependency_purl h rq pkgs p d)] else []).
Proof.
  intros Hw Hin Hdep Hv. pose proof Hw as (Hh & _).
  destruct (String.eqb (type (h d)) (type (h p))) eqn:E.
  - apply String.eqb_eq in E. specialize (Hdep E).
    unfold process_dependency. run. rewrite Hh. unfold has_processor in *.
    destruct (String.eqb (type (h p)) "go-package") eqn:E1.
    { apply String.eqb_eq in E1. destruct (Hdep eq_refl) as [Hp Hl]. cbn [orb andb].
      apply process_go_package_sbom_run; try assumption; try congruence; auto. }
    destruct (String.eqb (type (h p)) "gomod") eqn:E2.
    { apply String.eqb_eq in E2. destruct (Hdep eq_refl) as [Hp Hl]. cbn [orb andb].
      apply process_gomod_sbom_run; try assumption; try congruence; auto. }
    destruct (String.eqb (type (h p)) "npm") eqn:E3.
    { apply String.eqb_eq in E3. destruct (Hdep eq_refl) as [Hp Hl]. cbn [orb andb].
      apply (process_standard_sbom_run "npm" F_npm); try assumption; try congruence;
        try discriminate; auto. }
    destruct (String.eqb (type (h p)) "pip") eqn:E4.
    { apply String.eqb_eq in E4. destruct (Hdep eq_refl) as [Hp Hl]. cbn [orb andb].
      apply (process_standard_sbom_run "pip" F_pip); try assumption; try congruence;
        try discriminate; auto. }
    destruct (String.eqb (type (h p)) "yarn") eqn:E5.
    { apply String.eqb_eq in E5. destruct (Hdep eq_refl) as [Hp Hl]. cbn [orb andb].
      apply (process_standard_sbom_run "yarn" F_yarn); try assumption; try congruence;
        try discriminate; auto. }
    destruct (String.eqb (type (h p)) "rubygems") eqn:E6.
    { apply String.eqb_eq in E6. destruct (Hdep eq_refl) as [Hp Hl]. cbn [orb andb].
      apply process_rubygems_sbom_run; try assumption; try congruence; auto. }
    cbn [orb andb]. exists w. split; [reflexivity|]. split; [exact Hw|].
    now rewrite List.app_nil_r.
  - rewrite Bool.andb_false_r. exists w. split; [|split; [exact Hw|now rewrite List.app_nil_r]].
    apply String.eqb_neq in E. apply process_dependency_other_type. now rewrite Hh.
Qed.

End SbomRuns.

(** X16: when the purl functions return for the packages of the supported
    types and for the dependencies that are processed, and no dependency
    of a Go module or go-package that is processed has a local version,
    [sbom_components_list] returns one component for each package of a
    supported type, with its top-level purl, followed by one component for
    each processed dependency, in the order of the packages and of their
    dependencies.  The purl of a dependency is what [to_purl] gives for
    it, with the path of the owning package and the purl of the repository
    for the parent placeholder in a gem, and with the purl of the first
    module of the owner's name for the placeholder in a Go module.  No
    Package object changes. *)
Theorem sbom_components_list_returns :
  forall w,
    (forall a, In a (packages (self w)) -> sbom_supported (type (heap w a)) = true ->
       is_ok (to_top_level_purl (heap w a) (request (self w)) (path (heap w a))) = true) ->
    (forall a d, processed_dependency (heap w) (packages (self w)) a d ->
       (forall rel, is_ok (to_purl (heap w d) rel) = true)
       /\ (type (heap w a) = "gomod" \/ type (heap w a) = "go-package" ->
           Py.is_local (version (heap w d)) = false)) ->
    is_ok (to_vcs_purl (Py.last_segment (get_repo_name (repo (request (self w)))))
             (repo (request (self w))) (ref (request (self w)))) = true ->
    snd (sbom_components_list py_hash w)
    = Ok (expected_components (heap w) (request (self w)) (packages (self w)))
    /\ heap (fst (sbom_components_list py_hash w)) = heap w.
Proof.
  intros w Htop Hdeps Hvcs.
  set (h := heap w) in *. set (rq := request (self w)) in *.
  set (pkgs := packages (self w)) in *.
  unfold sbom_components_list. run.
  set (w0 := {| heap := heap w; self := reset_sbom (self w); log := log w |}).
  change (packages (self w0)) with pkgs.
  assert (S0 : sbom_seeded h rq [] w0).
  { split; [reflexivity|]. split; [reflexivity|]. split; [reflexivity|].
    intro n. reflexivity. }
  destruct (seed_sbom_loop_run h rq pkgs [] w0 S0 Htop) as (w1 & H1 & S1).
  rewrite H1. cbv beta iota. cbn [List.app] in S1.
  destruct S1 as (Hh1 & Hr1 & Hc1 & Hg1).
  assert (P1 : sbom_processing h rq pkgs w1) by (repeat split; assumption).
  destruct (for_each_out (sbom_processing h rq pkgs) (fun w => _sbom_components (self w))
              (fun p => List.flat_map
                          (fun d => if has_processor (type (h p))
                                       && String.eqb (type (h d)) (type (h p))
                                    then [component_of (h d) (dependency_purl h rq pkgs p d)]
                                    else [])
                          (dependencies (h p)))
              pkgs (process_package py_hash "sbom")) with (w := w1)
    as (w2 & H2 & P2 & O2); [|exact P1|].
  { intros p w' Hp Pw'. pose proof Pw' as (Hh' & _).
    unfold process_package. run. rewrite Hh'.
    apply (for_each_out (sbom_processing h rq pkgs) (fun w => _sbom_components (self w)));
      [|exact Pw'].
    intros d w'' Hd Pw''. apply process_dependency_sbom_run; try assumption.
    intros Ht Hproc. apply Hdeps. repeat split; assumption. }
  rewrite H2. cbv beta iota. cbn [fst snd]. split; [|apply P2].
  cbv beta in O2. rewrite O2, Hc1. reflexivity.
Qed.

(** * The document without loops *)

Section Dictionaries.

Variable h : addr -> Package.

Lemma Package_eq_sym p q : Package_eq p q = Package_eq q p.
Proof.
  destruct (Package_eq p q) eqn:E1, (Package_eq q p) eqn:E2; try reflexivity.
  - apply Package_eq_identity in E1. symmetry in E1. apply Package_eq_identity in E1.
    congruence.
  - apply Package_eq_identity in E2. symmetry in E2. apply Package_eq_identity in E2.
    congruence.
Qed.

Lemma Package_eq_trans p q r :
  Package_eq p q = true -> Package_eq q r = true -> Package_eq p r = true.
Proof.
  intros H1 H2. apply Package_eq_identity in H1, H2. apply Package_eq_identity. congruence.
Qed.

Lemma Package_eq_type p q : Package_eq p q = true -> type p = type q.
Proof.
  intro H. apply Package_eq_identity in H. unfold Package_identity in H. congruence.
Qed.

Lemma slot_matches_own a k (v : PkgData) :
  slot_matches py_hash h a (mkSlot (Package_hash py_hash (h k)) k v) = Package_eq (h k) (h a).
Proof.
  unfold slot_matches. cbn [slot_hash slot_key].
  destruct (Package_eq (h k) (h a)) eqn:E.
  - rewrite Bool.orb_true_r, Bool.andb_true_r. apply Z.eqb_eq. unfold Package_hash.
    apply Package_eq_identity in E. now rewrite E.
  - rewrite Bool.orb_false_r. destruct (Nat.eqb k a) eqn:En; [|apply Bool.andb_false_r].
    apply Nat.eqb_eq in En. subst. now rewrite Package_eq_refl in E.
Qed.

Lemma pdict_get_dict_of F a keys :
  match pdict_get py_hash h a (dict_of py_hash h F keys) with
  | Some _ => true
  | None => false
  end = List.existsb (fun b => Package_eq (h b) (h a)) keys.
Proof.
  induction keys as [|k keys IH]; [reflexivity|].
  cbn [dict_of List.map pdict_get List.existsb]. rewrite slot_matches_own.
  destruct (Package_eq (h k) (h a)); [reflexivity|exact IH].
Qed.

Lemma pdict_setdefault_dict_of F a keys :
  pdict_setdefault py_hash h a (F a) (dict_of py_hash h F keys)
  = dict_of py_hash h F (distinct_from h keys [a]).
Proof.
  unfold pdict_setdefault, distinct_from. cbn [List.fold_left].
  pose proof (pdict_get_dict_of F a keys) as H.
  destruct (pdict_get py_hash h a (dict_of py_hash h F keys));
    rewrite <- H; [reflexivity|].
  unfold dict_of. now rewrite List.map_app.
Qed.

Lemma pdict_update_dict_of F g a keys :
  distinct h keys ->
  List.existsb (fun b => Package_eq (h b) (h a)) keys = true ->
  pdict_update py_hash h a g (dict_of py_hash h F keys)
  = Some (dict_of py_hash h (fun k => if Package_eq (h k) (h a) then g (F k) else F k) keys).
Proof.
  induction keys as [|k keys IH]; [discriminate|].
  intros [Hk Hd] He. cbn [dict_of List.map pdict_update]. rewrite slot_matches_own.
  cbn [List.existsb] in He. cbv beta.
  destruct (Package_eq (h k) (h a)) eqn:E.
  - cbn [slot_hash slot_key slot_val]. apply f_equal. apply f_equal.
    apply List.map_ext_in. intros k' Hk'.
    rewrite Forall_forall in Hk. specialize (Hk k' Hk').
    destruct (Package_eq (h k') (h a)) eqn:E'; [|reflexivity].
    rewrite Package_eq_sym in E'.
    now rewrite (Package_eq_trans _ _ _ E E') in Hk.
  - cbn [orb] in He. fold (dict_of py_hash h F keys). rewrite (IH Hd He). reflexivity.
Qed.

Lemma findable_dict_of F keys :
  distinct h keys -> findable py_hash h (dict_of py_hash h F keys).
Proof.
  induction keys as [|k keys IH]; intros Hd i s Hn.
  - destruct i; discriminate.
  - destruct Hd as [Hk Hd]. cbn [dict_of List.map] in *.
    destruct i as [|i]; cbn [List.nth_error] in Hn.
    + injection Hn as <-. cbn [pdict_index slot_key].
      now rewrite slot_matches_own, Package_eq_refl.
    + cbn [pdict_index]. rewrite slot_matches_own.
      assert (Hin : In (slot_key s) keys).
      { apply List.nth_error_In in Hn. apply List.in_map_iff in Hn.
        destruct Hn as (k' & <- & Hk'). exact Hk'. }
      rewrite Forall_forall in Hk. rewrite (Hk _ Hin).
      specialize (IH Hd i s Hn). unfold dict_of in IH. now rewrite IH.
Qed.

Lemma distinct_snoc keys a :
  distinct h keys ->
  List.existsb (fun b => Package_eq (h b) (h a)) keys = false ->
  distinct h (keys ++ [a]).
Proof.
  induction keys as [|k keys IH]; intros Hd He.
  - split; constructor.
  - destruct Hd as [Hk Hd]. cbn [List.existsb] in He.
    apply Bool.orb_false_iff in He. destruct He as [He1 He2].
    cbn [List.app distinct]. split; [|now apply IH].
    apply Forall_app. split; [exact Hk|]. constructor; [exact He1|constructor].
Qed.

Lemma distinct_from_distinct l :
  forall acc, distinct h acc -> distinct h (distinct_from h acc l).
Proof.
  unfold distinct_from. induction l as [|a l IH]; intros acc Hacc; [exact Hacc|].
  cbn [List.fold_left]. apply IH.
  destruct (List.existsb _ acc) eqn:E; [exact Hacc|now apply distinct_snoc].
Qed.

Lemma distinct_from_In l :
  forall acc k, In k (distinct_from h acc l) -> In k acc \/ In k l.
Proof.
  unfold distinct_from. induction l as [|a l IH]; intros acc k Hk; [now left|].
  cbn [List.fold_left] in Hk. apply IH in Hk. destruct Hk as [Hk|Hk]; [|right; now right].
  destruct (List.existsb _ acc); [now left|].
  apply List.in_app_or in Hk. destruct Hk as [Hk|[<-|[]]]; [now left|right; now left].
Qed.

Lemma distinct_from_covers l :
  forall acc a,
    In a acc \/ In a l ->
    List.existsb (fun b => Package_eq (h b) (h a)) (distinct_from h acc l) = true.
Proof.
  unfold distinct_from. induction l as [|x l IH]; intros acc a Ha.
  - destruct Ha as [Ha|[]]. apply List.existsb_exists. exists a.
    split; [exact Ha|apply Package_eq_refl].
  - cbn [List.fold_left]. 
    destruct (List.existsb (fun b => Package_eq (h b) (h x)) acc) eqn:E.
    + destruct Ha as [Ha|[<-|Ha]].
      * apply IH. now left.
      * apply List.existsb_exists in E. destruct E as (b & Hb & Eb).
        specialize (IH acc b (or_introl Hb)).
        apply List.existsb_exists in IH. destruct IH as (c & Hc & Ec).
        apply List.existsb_exists. exists c. split; [exact Hc|].
        now apply (Package_eq_trans _ _ _ Ec Eb).
      * apply IH. now right.
    + apply IH. destruct Ha as [Ha|[<-|Ha]].
      * left. apply List.in_or_app. now left.
      * left. apply List.in_or_app. right. now left.
      * now right.
Qed.

End Dictionaries.

Section ModuleNames.

Variable h : addr -> Package.
Variable rq : Request.

Lemma module_names_snoc l a :
  module_names h (l ++ [a])
  = if String.eqb (type (h a)) "gomod"
    then if List.existsb (String.eqb (name (h a))) (module_names h l)
         then module_names h l else module_names h l ++ [name (h a)]
    else module_names h l.
Proof. unfold module_names. now rewrite List.fold_left_app. Qed.

Lemma existsb_snoc {A} (P : A -> bool) l x :
  List.existsb P (l ++ [x]) = List.existsb P l || P x.
Proof. rewrite List.existsb_app. cbn. now rewrite Bool.orb_false_r. Qed.

Lemma module_names_find l n :
  List.existsb (String.eqb n) (module_names h l)
  = match List.find (fun a => String.eqb (type (h a)) "gomod" && String.eqb (name (h a)) n) l
    with Some _ => true | None => false end.
Proof.
  induction l as [|a l IH] using List.rev_ind; [reflexivity|].
  rewrite module_names_snoc, find_snoc.
  destruct (String.eqb (type (h a)) "gomod"); cbn [andb].
  - destruct (List.existsb (String.eqb (name (h a))) (module_names h l)) eqn:E.
    + rewrite IH. destruct (List.find _ l); [reflexivity|].
      destruct (String.eqb (name (h a)) n) eqn:En; [|reflexivity].
      apply String.eqb_eq in En. subst n. rewrite IH in E. discriminate.
    + rewrite existsb_snoc, IH. destruct (List.find _ l); [reflexivity|].
      cbn [orb]. rewrite (String.eqb_sym n).
      destruct (String.eqb (name (h a)) n); reflexivity.
  - rewrite IH. destruct (List.find _ l); reflexivity.
Qed.

Lemma module_names_NoDup l : NoDup (module_names h l).
Proof.
  induction l as [|a l IH] using List.rev_ind; [constructor|].
  rewrite module_names_snoc.
  destruct (String.eqb (type (h a)) "gomod"); [|exact IH].
  destruct (List.existsb (String.eqb (name (h a))) (module_names h l)) eqn:E; [exact IH|].
  apply List.NoDup_app; [exact IH|repeat constructor; intros []|].
  intros x Hx [<-|[]].
  assert (List.existsb (String.eqb (name (h a))) (module_names h l) = true).
  { apply List.existsb_exists. exists (name (h a)). split; [exact Hx|apply String.eqb_refl]. }
  congruence.
Qed.

Lemma module_purl_snoc l a n :
  List.existsb (String.eqb n) (module_names h l) = true
  \/ String.eqb (type (h a)) "gomod" && String.eqb (name (h a)) n = false ->
  module_purl h rq (l ++ [a]) n = module_purl h rq l n.
Proof.
  unfold module_purl. rewrite find_snoc, module_names_find.
  destruct (List.find _ l); [reflexivity|].
  intros [H|H]; [discriminate|]. now rewrite H.
Qed.

Lemma module_purl_new l a :
  String.eqb (type (h a)) "gomod" = true ->
  List.existsb (String.eqb (name (h a))) (module_names h l) = false ->
  module_purl h rq (l ++ [a]) (name (h a)) = top_level_purl h rq a.
Proof.
  intros Ht He. unfold module_purl. rewrite find_snoc.
  rewrite module_names_find in He.
  destruct (List.find _ l); [discriminate|].
  now rewrite Ht, String.eqb_refl.
Qed.

(** The dictionary of the modules [names], each with the data [G]. *)
Lemma sdict_get_names (G : string -> ModData) names n :
  sdict_get n (List.map (fun m => (m, G m)) names)
  = if List.existsb (String.eqb n) names then Some (G n) else None.
Proof.
  induction names as [|m names IH]; [reflexivity|].
  cbn [List.map sdict_get List.existsb]. rewrite (String.eqb_sym n m).
  destruct (String.eqb m n) eqn:E; [|exact IH].
  apply String.eqb_eq in E. now subst.
Qed.

Lemma sdict_update_names (G : string -> ModData) g names n :
  NoDup names ->
  List.existsb (String.eqb n) names = true ->
  sdict_update n g (List.map (fun m => (m, G m)) names)
  = Some (List.map (fun m => (m, if String.eqb m n then g (G m) else G m)) names).
Proof.
  induction names as [|m names IH]; [discriminate|].
  intros Hnd He. inversion Hnd as [|? ? Hm Hnd']; subst.
  cbn [List.map sdict_update List.existsb] in *.
  destruct (String.eqb m n) eqn:E.
  - apply f_equal. apply f_equal. apply List.map_ext_in. intros m' Hm'.
    destruct (String.eqb m' n) eqn:E'; [|reflexivity].
    apply String.eqb_eq in E, E'. subst. contradiction.
  - rewrite (String.eqb_sym n m), E in He. cbn [orb] in He.
    rewrite (IH Hnd' He). reflexivity.
Qed.

End ModuleNames.

Section DocumentSeeding.

Variable h : addr -> Package.
Variable rq : Request.

Lemma keys_of_snoc f l a :
  keys_of h f (l ++ [a])
  = if String.eqb (type (h a)) (field_type f)
    then distinct_from h (keys_of h f l) [a] else keys_of h f l.
Proof.
  unfold keys_of, distinct_packages, packages_of_type.
  rewrite List.filter_app. cbn [List.filter].
  destruct (String.eqb (type (h a)) (field_type f)).
  - apply distinct_from_app.
  - now rewrite List.app_nil_r.
Qed.

Lemma dict_after_snoc_other f l a :
  String.eqb (type (h a)) (field_type f) = false ->
  dict_after py_hash h rq (l ++ [a]) f [] = dict_after py_hash h rq l f [].
Proof. intro H. unfold dict_after. now rewrite keys_of_snoc, H. Qed.

Lemma dict_after_snoc_same f l a :
  String.eqb (type (h a)) (field_type f) = true ->
  pdict_setdefault py_hash h a
    (new_entry (match f with F_gopkg => Some (name (h a)) | _ => None end)
       (top_level_purl h rq a))
    (dict_after py_hash h rq l f [])
  = dict_after py_hash h rq (l ++ [a]) f [].
Proof.
  intro H. unfold dict_after. rewrite keys_of_snoc, H.
  exact (pdict_setdefault_dict_of h (entry_after h rq l f []) a (keys_of h f l)).
Qed.

Lemma modules_after_snoc_other l a :
  String.eqb (type (h a)) "gomod" = false ->
  modules_after h rq (l ++ [a]) [] = modules_after h rq l [].
Proof.
  intro H. unfold modules_after. rewrite module_names_snoc, H.
  apply List.map_ext. intro n. cbn [List.flat_map].
  rewrite module_purl_snoc; [reflexivity|]. right. now rewrite H.
Qed.

Lemma modules_after_snoc_gomod l a :
  String.eqb (type (h a)) "gomod" = true ->
  sdict_setdefault (name (h a)) (new_module (top_level_purl h rq a)) (modules_after h rq l [])
  = modules_after h rq (l ++ [a]) [].
Proof.
  intro H. unfold sdict_setdefault, sdict_mem, modules_after.
  rewrite sdict_get_names, module_names_snoc, H.
  destruct (List.existsb (String.eqb (name (h a))) (module_names h l)) eqn:E.
  - apply List.map_ext_in. intros n Hn. cbn [List.flat_map].
    rewrite module_purl_snoc; [reflexivity|]. left.
    apply List.existsb_exists. exists n. split; [exact Hn|apply String.eqb_refl].
  - rewrite List.map_app. cbn [List.map List.flat_map]. f_equal.
    + apply List.map_ext_in. intros n Hn.
      rewrite module_purl_snoc; [reflexivity|]. left.
      apply List.existsb_exists. exists n. split; [exact Hn|apply String.eqb_refl].
    + now rewrite module_purl_new.
Qed.

Lemma field_type_eqb_other f f' a :
  type (h a) = field_type f -> f <> f' ->
  String.eqb (type (h a)) (field_type f') = false.
Proof.
  intros H Hne. apply String.eqb_neq. intro H'. apply Hne. apply field_type_inj. congruence.
Qed.

Lemma setdefault_entry_exact f a seen w :
  icm_processing py_hash h rq seen [] w ->
  type (h a) = field_type f ->
  exists w',
    setdefault_entry py_hash f a
      (new_entry (match f with F_gopkg => Some (name (h a)) | _ => None end)
         (top_level_purl h rq a)) w = (w', Ok tt)
    /\ icm_processing py_hash h rq (seen ++ [a]) [] w'.
Proof.
  intros (Hh & Hr & Hf & Hg) Ht.
  unfold setdefault_entry. run. eexists. split; [reflexivity|].
  unfold icm_processing. cbn [heap self].
  split; [exact Hh|]. split; [destruct f; exact Hr|]. split.
  - intro f'. destruct (field_eq_dec f f') as [<-|Hne].
    + rewrite get_set_field, Hh, Hf. apply dict_after_snoc_same.
      rewrite Ht. apply String.eqb_refl.
    + rewrite get_set_field_other by exact Hne. rewrite Hf.
      symmetry. apply dict_after_snoc_other. now apply (field_type_eqb_other f).
  - replace (_gomod_data (set_field f _ (self w))) with (_gomod_data (self w))
      by (destruct f; reflexivity).
    rewrite Hg. symmetry. apply modules_after_snoc_other.
    apply String.eqb_neq. rewrite Ht. apply field_type_not_gomod.
Qed.

Lemma seed_icm_exact a seen w :
  icm_processing py_hash h rq seen [] w ->
  (sbom_supported (type (h a)) = true ->
   is_ok (to_top_level_purl (h a) rq (path (h a))) = true) ->
  exists w',
    seed_icm py_hash a w = (w', Ok tt)
    /\ icm_processing py_hash h rq (seen ++ [a]) [] w'.
Proof.
  intros Hw Hp. pose proof Hw as (Hh & Hr & Hf & Hg).
  unfold seed_icm. run. rewrite Hh, Hr.
  destruct (sbom_supported (type (h a))) eqn:Es.
  - rewrite (is_ok_value _ (Hp eq_refl)). fold (top_level_purl h rq a).
    unfold sbom_supported in Es.
    destruct (String.eqb (type (h a)) "go-package") eqn:E1.
    { apply String.eqb_eq in E1. now apply (setdefault_entry_exact F_gopkg). }
    destruct (String.eqb (type (h a)) "gomod") eqn:E2.
    { cbv beta iota. unfold setdefault_module. run. eexists. split; [reflexivity|].
      unfold icm_processing. cbn [heap self].
      split; [exact Hh|]. split; [exact Hr|]. split.
      - intro f. replace (get_field f (set_gomod_data _ (self w))) with (get_field f (self w))
          by (destruct f; reflexivity).
        rewrite Hf. symmetry. apply dict_after_snoc_other.
        apply String.eqb_eq in E2. rewrite E2. apply String.eqb_neq.
        intro H. symmetry in H. exact (field_type_not_gomod f H).
      - cbn [_gomod_data set_gomod_data]. rewrite Hg. now apply modules_after_snoc_gomod. }
    unfold field_of_type.
    destruct (String.eqb (type (h a)) "npm") eqn:E3.
    { apply String.eqb_eq in E3. now apply (setdefault_entry_exact F_npm). }
    destruct (String.eqb (type (h a)) "pip") eqn:E4.
    { apply String.eqb_eq in E4. now apply (setdefault_entry_exact F_pip). }
    destruct (String.eqb (type (h a)) "yarn") eqn:E5.
    { apply String.eqb_eq in E5. now apply (setdefault_entry_exact F_yarn). }
    destruct (String.eqb (type (h a)) "rubygems") eqn:E6.
    { apply String.eqb_eq in E6. now apply (setdefault_entry_exact F_rubygems). }
    destruct (String.eqb (type (h a)) "git-submodule") eqn:E7; [|discriminate].
    apply String.eqb_eq in E7. now apply (setdefault_entry_exact F_gitsubmodule).
  - pose proof Es as Es'. unfold sbom_supported in Es'.
    repeat (apply Bool.orb_false_iff in Es'; destruct Es' as [Es' ?]).
    unfold field_of_type.
    repeat match goal with E : String.eqb _ _ = false |- _ => rewrite E end.
    eexists. split; [reflexivity|].
    unfold icm_processing. cbn [heap self].
    split; [exact Hh|]. split; [exact Hr|]. split.
    + intro f. rewrite Hf. symmetry. apply dict_after_snoc_other.
      destruct f; cbn [field_type]; assumption.
    + rewrite Hg. symmetry. now apply modules_after_snoc_other.
Qed.

Lemma seed_icm_loop_exact l :
  forall seen w,
    icm_processing py_hash h rq seen [] w ->
    (forall a, In a l -> sbom_supported (type (h a)) = true ->
               is_ok (to_top_level_purl (h a) rq (path (h a))) = true) ->
    exists w',
      for_each l (seed_icm py_hash) w = (w', Ok tt)
      /\ icm_processing py_hash h rq (seen ++ l) [] w'.
Proof.
  induction l as [|a l IH]; intros seen w Hw Hp.
  - exists w. split; [reflexivity|]. now rewrite List.app_nil_r.
  - destruct (seed_icm_exact a seen w Hw (Hp a (or_introl eq_refl))) as (w1 & H1 & S1).
    destruct (IH (seen ++ [a]) w1 S1 (fun b Hb => Hp b (or_intror Hb))) as (w2 & H2 & S2).
    exists w2. split.
    + cbn [for_each]. unfold bind. now rewrite H1.
    + now rewrite <- List.app_assoc in S2.
Qed.

End DocumentSeeding.

Section DocumentProcessing.

Variable h : addr -> Package.
Variable rq : Request.
Variable pkgs : list addr.

Lemma keys_of_distinct f : distinct h (keys_of h f pkgs).
Proof. unfold keys_of, distinct_packages. now apply distinct_from_distinct. Qed.

Lemma keys_of_In f k :
  In k (keys_of h f pkgs) -> In k pkgs /\ type (h k) = field_type f.
Proof.
  unfold keys_of, distinct_packages. intro H.
  apply distinct_from_In in H. destruct H as [[]|H].
  unfold packages_of_type in H. apply List.filter_In in H. destruct H as [H1 H2].
  split; [exact H1|now apply String.eqb_eq].
Qed.

Lemma keys_of_covers f p :
  In p pkgs -> type (h p) = field_type f ->
  List.existsb (fun b => Package_eq (h b) (h p)) (keys_of h f pkgs) = true.
Proof.
  intros Hp Ht. unfold keys_of, distinct_packages. apply distinct_from_covers. right.
  unfold packages_of_type. apply List.filter_In. split; [exact Hp|].
  now apply String.eqb_eq.
Qed.

Lemma dicts_ext F F' w :
  (forall f k, In k (keys_of h f pkgs) -> F f k = F' f k) ->
  dicts py_hash h pkgs F w -> dicts py_hash h pkgs F' w.
Proof.
  intros He Hd f. rewrite (Hd f). unfold dict_of.
  apply List.map_ext_in. intros k Hk. now rewrite (He f k Hk).
Qed.

Lemma update_entry_dicts F f p g w :
  heap w = h -> dicts py_hash h pkgs F w ->
  In p pkgs -> type (h p) = field_type f ->
  exists w',
    update_entry py_hash f p g w = (w', Ok tt)
    /\ heap w' = h
    /\ request (self w') = request (self w)
    /\ _gomod_data (self w') = _gomod_data (self w)
    /\ dicts py_hash h pkgs
         (fun f' k => if Package_eq (h k) (h p) then g (F f' k) else F f' k) w'.
Proof.
  intros Hh Hd Hp Ht.
  unfold update_entry. run. rewrite Hh, (Hd f).
  rewrite (pdict_update_dict_of h (F f) g p (keys_of h f pkgs) (keys_of_distinct f)
             (keys_of_covers f p Hp Ht)).
  eexists. split; [reflexivity|]. cbn [heap self].
  split; [exact Hh|]. split; [destruct f; reflexivity|].
  split; [destruct f; reflexivity|].
  intro f'. cbn [self]. destruct (field_eq_dec f f') as [<-|Hne].
  - now rewrite get_set_field.
  - rewrite get_set_field_other by exact Hne. rewrite (Hd f'). unfold dict_of.
    apply List.map_ext_in. intros k Hk.
    destruct (Package_eq (h k) (h p)) eqn:E; [|reflexivity].
    exfalso. apply Hne. apply field_type_inj.
    apply Package_eq_type in E. destruct (keys_of_In f' k Hk) as [_ Hk']. congruence.
Qed.

Lemma entry_after_snoc f done pd k :
  entry_after h rq pkgs f (done ++ [pd]) k
  = add_to (entry_after h rq pkgs f done k)
      (dependency_of h rq pkgs k pd) (source_of h rq pkgs k pd).
Proof.
  unfold entry_after, add_to. cbn [d_name d_purl d_dependencies d_sources].
  rewrite !List.flat_map_app. cbn [List.flat_map]. now rewrite !List.app_nil_r.
Qed.

Lemma add_to_nil e : add_to e [] [] = e.
Proof. destruct e. unfold add_to. cbn. now rewrite !List.app_nil_r. Qed.

Lemma modules_after_snoc done pd :
  modules_after h rq pkgs (done ++ [pd])
  = List.map
      (fun n => (n, {| m_purl := module_purl h rq pkgs n;
                       m_dependencies :=
                         List.flat_map (module_dependency_of h rq pkgs n) done
                         ++ module_dependency_of h rq pkgs n pd |}))
      (module_names h pkgs).
Proof.
  unfold modules_after. apply List.map_ext. intro n.
  rewrite List.flat_map_app. cbn [List.flat_map]. now rewrite List.app_nil_r.
Qed.

(** The pair adds nothing anywhere. *)
Lemma icm_processing_skip done p d w :
  icm_processing py_hash h rq pkgs done w ->
  processed h p d = false ->
  icm_processing py_hash h rq pkgs (done ++ [(p, d)]) w.
Proof.
  intros (Hh & Hr & Hf & Hg) Hn.
  split; [exact Hh|]. split; [exact Hr|]. split.
  - intro f. rewrite Hf. unfold dict_after, dict_of. apply List.map_ext. intro k.
    rewrite entry_after_snoc. unfold dependency_of, source_of. cbn [fst snd].
    rewrite Hn, !Bool.andb_false_r. cbn [andb]. now rewrite add_to_nil.
  - rewrite Hg, modules_after_snoc. unfold modules_after.
    apply List.map_ext. intro n. unfold module_dependency_of. cbn [fst snd].
    rewrite Hn, Bool.andb_false_r. now rewrite List.app_nil_r.
Qed.

Ltac contributions Htp Htd :=
  unfold dependency_of, source_of, module_dependency_of, processed, has_processor,
    is_standard, dependency_purl;
  cbn [fst snd]; rewrite ?Htd, ?Htp;
  cbn [String.eqb Ascii.eqb Bool.eqb orb andb negb].

Lemma contributions_go_package k p d :
  type (h p) = "go-package" -> type (h d) = "go-package" ->
  dependency_of h rq pkgs k (p, d)
  = (if Package_eq (h k) (h p) then [value (to_purl (h d) None)] else [])
  /\ source_of h rq pkgs k (p, d) = []
  /\ forall n, module_dependency_of h rq pkgs n (p, d) = [].
Proof.
  intros Htp Htd. contributions Htp Htd.
  rewrite !Bool.andb_true_r, Bool.andb_false_r. repeat split.
Qed.

Lemma contributions_gomod k p d :
  type (h p) = "gomod" -> type (h d) = "gomod" -> type (h k) <> "gomod" ->
  dependency_of h rq pkgs k (p, d) = []
  /\ source_of h rq pkgs k (p, d) = []
  /\ forall n, module_dependency_of h rq pkgs n (p, d)
               = if String.eqb (name (h p)) n
                 then [replace_parent_purl_placeholder (value (to_purl (h d) None))
                         (module_purl h rq pkgs (name (h p)))]
                 else [].
Proof.
  intros Htp Htd Hk.
  assert (E : Package_eq (h k) (h p) = false).
  { destruct (Package_eq (h k) (h p)) eqn:E; [|reflexivity].
    apply Package_eq_type in E. congruence. }
  contributions Htp Htd. rewrite E. cbn [andb]. repeat split.
  intro n. now rewrite Bool.andb_true_r.
Qed.

Lemma module_contribution_gomod p d n :
  type (h p) = "gomod" -> type (h d) = "gomod" ->
  module_dependency_of h rq pkgs n (p, d)
  = if String.eqb (name (h p)) n
    then [replace_parent_purl_placeholder (value (to_purl (h d) None))
            (module_purl h rq pkgs (name (h p)))]
    else [].
Proof.
  intros Htp Htd. contributions Htp Htd. now rewrite Bool.andb_true_r.
Qed.

Lemma contributions_standard t k p d :
  t = "npm" \/ t = "pip" \/ t = "yarn" ->
  type (h p) = t -> type (h d) = t ->
  dependency_of h rq pkgs k (p, d)
  = (if Package_eq (h k) (h p) && negb (dev (h d))
     then [value (to_purl (h d) None)] else [])
  /\ source_of h rq pkgs k (p, d)
     = (if Package_eq (h k) (h p) then [value (to_purl (h d) None)] else [])
  /\ forall n, module_dependency_of h rq pkgs n (p, d) = [].
Proof.
  intros Ht Htp Htd.
  destruct Ht as [-> | [-> | ->]]; contributions Htp Htd;
    rewrite !Bool.andb_true_r; repeat split.
Qed.

Lemma contributions_rubygems k p d :
  type (h p) = "rubygems" -> type (h d) = "rubygems" ->
  dependency_of h rq pkgs k (p, d)
  = (if Package_eq (h k) (h p)
     then [replace_parent_purl_placeholder (value (to_purl (h d) (path (h p))))
             (request_purl rq)]
     else [])
  /\ source_of h rq pkgs k (p, d)
     = (if Package_eq (h k) (h p)
        then [replace_parent_purl_placeholder (value (to_purl (h d) (path (h p))))
                (request_purl rq)]
        else [])
  /\ forall n, module_dependency_of h rq pkgs n (p, d) = [].
Proof.
  intros Htp Htd. contributions Htp Htd.
  rewrite !Bool.andb_true_r. repeat split.
Qed.

Lemma modules_after_same done pd :
  (forall n, module_dependency_of h rq pkgs n pd = []) ->
  modules_after h rq pkgs (done ++ [pd]) = modules_after h rq pkgs done.
Proof.
  intro H. rewrite modules_after_snoc. unfold modules_after.
  apply List.map_ext. intro n. now rewrite H, List.app_nil_r.
Qed.

Ltac eqb_reduce := cbn [String.eqb Ascii.eqb Bool.eqb]; cbv beta iota.

Lemma icm_processing_dicts done w :
  icm_processing py_hash h rq pkgs done w ->
  dicts py_hash h pkgs (fun f => entry_after h rq pkgs f done) w.
Proof. intros (_ & _ & Hf & _) f. apply Hf. Qed.

Lemma process_go_package_exact done p d w :
  icm_processing py_hash h rq pkgs done w ->
  In p pkgs -> type (h p) = "go-package" -> type (h d) = "go-package" ->
  Py.is_local (version (h d)) = false ->
  is_ok (to_purl (h d) None) = true ->
  exists w',
    process_go_package py_hash p d "icm" w = (w', Ok tt)
    /\ icm_processing py_hash h rq pkgs (done ++ [(p, d)]) w'.
Proof.
  intros Hw Hp Htp Htd Hl Hpurl. pose proof Hw as (Hh & Hr & Hf & Hg).
  unfold process_go_package. run. rewrite Hh, Htd, Hl. eqb_reduce.
  rewrite (is_ok_value _ Hpurl). cbv beta iota.
  destruct (update_entry_dicts (fun f => entry_after h rq pkgs f done) F_gopkg p (append_dependency (value (to_purl (h d) None))) w
              Hh (icm_processing_dicts done w Hw) Hp Htp)
    as (w' & Hrun & Hh' & Hr' & Hg' & Hd').
  exists w'. split; [exact Hrun|].
  split; [exact Hh'|]. split; [congruence|]. split.
  - refine (dicts_ext _ (fun f => entry_after h rq pkgs f (done ++ [(p, d)])) w' _ Hd').
    intros f k _. cbv beta. rewrite entry_after_snoc.
    destruct (contributions_go_package k p d Htp Htd) as (-> & -> & _).
    destruct (Package_eq (h k) (h p)); [|now rewrite add_to_nil].
    unfold append_dependency, add_to. now rewrite List.app_nil_r.
  - rewrite Hg', Hg. symmetry. apply modules_after_same.
    apply (contributions_go_package p p d Htp Htd).
Qed.

Lemma process_gomod_exact done p d w :
  icm_processing py_hash h rq pkgs done w ->
  In p pkgs -> type (h p) = "gomod" -> type (h d) = "gomod" ->
  Py.is_local (version (h d)) = false ->
  is_ok (to_purl (h d) None) = true ->
  exists w',
    process_gomod p d "icm" w = (w', Ok tt)
    /\ icm_processing py_hash h rq pkgs (done ++ [(p, d)]) w'.
Proof.
  intros Hw Hp Htp Htd Hl Hpurl. pose proof Hw as (Hh & Hr & Hf & Hg).
  assert (Hin : List.existsb (String.eqb (name (h p))) (module_names h pkgs) = true).
  { rewrite module_names_find.
    destruct (find_In_some
                (fun a => String.eqb (type (h a)) "gomod"
                          && String.eqb (name (h a)) (name (h p))) pkgs p Hp) as [m Hm];
      [rewrite Htp, !String.eqb_refl; reflexivity|].
    now rewrite Hm. }
  unfold process_gomod. run. rewrite Hh, Htd, Hl. eqb_reduce. cbn [fst snd].
  rewrite Hh, Hg. unfold modules_after at 1. rewrite sdict_get_names, Hin.
  cbv beta iota. cbn [m_purl]. rewrite (is_ok_value _ Hpurl). cbv beta iota.
  unfold modules_after.
  rewrite (sdict_update_names _ _ _ _ (module_names_NoDup h pkgs) Hin).
  eexists. split; [reflexivity|]. unfold icm_processing. cbn [heap self].
  split; [exact Hh|]. split; [exact Hr|]. split.
  - intro f. replace (get_field f (set_gomod_data _ (self w))) with (get_field f (self w))
      by (destruct f; reflexivity).
    rewrite Hf. unfold dict_after, dict_of. apply List.map_ext_in. intros k Hk.
    rewrite entry_after_snoc.
    destruct (contributions_gomod k p d Htp Htd) as (-> & -> & _).
    + destruct (keys_of_In f k Hk) as [_ Hk']. rewrite Hk'. apply field_type_not_gomod.
    + now rewrite add_to_nil.
  - cbn [_gomod_data set_gomod_data]. rewrite modules_after_snoc.
    apply List.map_ext. intro n.
    rewrite (module_contribution_gomod p d n Htp Htd), (String.eqb_sym n).
    destruct (String.eqb (name (h p)) n); [reflexivity|].
    now rewrite List.app_nil_r.
Qed.

Lemma process_standard_exact t f done p d w :
  t = "npm" \/ t = "pip" \/ t = "yarn" ->
  field_of_type t = Some f ->
  icm_processing py_hash h rq pkgs done w ->
  In p pkgs -> type (h p) = t -> type (h d) = t ->
  is_ok (to_purl (h d) None) = true ->
  exists w',
    process_standard py_hash t p d "icm" w = (w', Ok tt)
    /\ icm_processing py_hash h rq pkgs (done ++ [(p, d)]) w'.
Proof.
  intros Ht Hft Hw Hp Htp Htd Hpurl. pose proof Hw as (Hh & Hr & Hf & Hg).
  pose proof (field_of_type_some t f Hft) as Hty.
  unfold process_standard. run. rewrite Hh, Htd, String.eqb_refl. eqb_reduce.
  unfold _process_standard_package. rewrite Hft. run.
  rewrite Hh, (is_ok_value _ Hpurl). cbv beta iota.
  destruct (update_entry_dicts (fun f => entry_after h rq pkgs f done) f p
              (append_source (value (to_purl (h d) None))) w
              Hh (icm_processing_dicts done w Hw) Hp)
    as (w1 & H1 & Hh1 & Hr1 & Hg1 & Hd1); [congruence|].
  rewrite H1. cbv beta iota.
  destruct (dev (h d)) eqn:Edev; cbn [negb].
  - exists w1. split; [reflexivity|].
    split; [exact Hh1|]. split; [congruence|]. split.
    + refine (dicts_ext _ (fun f => entry_after h rq pkgs f (done ++ [(p, d)])) w1 _ Hd1).
      intros f' k _. cbv beta. rewrite entry_after_snoc.
      destruct (contributions_standard t k p d Ht Htp Htd) as (-> & -> & _).
      rewrite Edev. cbn [negb]. rewrite Bool.andb_false_r.
      destruct (Package_eq (h k) (h p)); [|now rewrite add_to_nil].
      unfold append_source, add_to. now rewrite List.app_nil_r.
    + rewrite Hg1, Hg. symmetry. apply modules_after_same.
      apply (contributions_standard t p p d Ht Htp Htd).
  - destruct (update_entry_dicts _ f p (append_dependency (value (to_purl (h d) None))) w1
                Hh1 Hd1 Hp)
      as (w2 & H2 & Hh2 & Hr2 & Hg2 & Hd2); [congruence|].
    exists w2. split; [exact H2|].
    split; [exact Hh2|]. split; [congruence|]. split.
    + refine (dicts_ext _ (fun f => entry_after h rq pkgs f (done ++ [(p, d)])) w2 _ Hd2).
      intros f' k _. cbv beta. rewrite entry_after_snoc.
      destruct (contributions_standard t k p d Ht Htp Htd) as (-> & -> & _).
      rewrite Edev. cbn [negb]. rewrite Bool.andb_true_r.
      destruct (Package_eq (h k) (h p)); [reflexivity|now rewrite add_to_nil].
    + rewrite Hg2, Hg1, Hg. symmetry. apply modules_after_same.
      apply (contributions_standard t p p d Ht Htp Htd).
Qed.

Lemma process_rubygems_exact done p d w :
  icm_processing py_hash h rq pkgs done w ->
  In p pkgs -> type (h p) = "rubygems" -> type (h d) = "rubygems" ->
  is_ok (to_vcs_purl (Py.last_segment (get_repo_name (repo rq))) (repo rq) (ref rq)) = true ->
  is_ok (to_purl (h d) (path (h p))) = true ->
  exists w',
    process_rubygems_package py_hash p d "icm" w = (w', Ok tt)
    /\ icm_processing py_hash h rq pkgs (done ++ [(p, d)]) w'.
Proof.
  intros Hw Hp Htp Htd Hv Hpurl. pose proof Hw as (Hh & Hr & Hf & Hg).
  unfold process_rubygems_package. run. rewrite Hh, Htd. eqb_reduce.
  rewrite Hr, (is_ok_value _ Hv). cbv beta iota.
  rewrite Hh, (is_ok_value _ Hpurl). cbv beta iota.
  fold (request_purl rq).
  set (purl := replace_parent_purl_placeholder (value (to_purl (h d) (path (h p))))
                 (request_purl rq)).
  destruct (update_entry_dicts (fun f => entry_after h rq pkgs f done) F_rubygems p
              (append_source purl) w Hh (icm_processing_dicts done w Hw) Hp Htp)
    as (w1 & H1 & Hh1 & Hr1 & Hg1 & Hd1).
  rewrite H1. cbv beta iota.
  destruct (update_entry_dicts _ F_rubygems p (append_dependency purl) w1 Hh1 Hd1 Hp Htp)
    as (w2 & H2 & Hh2 & Hr2 & Hg2 & Hd2).
  exists w2. split; [exact H2|].
  split; [exact Hh2|]. split; [congruence|]. split.
  - refine (dicts_ext _ (fun f => entry_after h rq pkgs f (done ++ [(p, d)])) w2 _ Hd2).
    intros f' k _. cbv beta. rewrite entry_after_snoc.
    destruct (contributions_rubygems k p d Htp Htd) as (-> & -> & _).
    destruct (Package_eq (h k) (h p)); [reflexivity|now rewrite add_to_nil].
  - rewrite Hg2, Hg1, Hg. symmetry. apply modules_after_same.
    apply (contributions_rubygems p p d Htp Htd).
Qed.

Lemma processed_other_type p d : type (h d) <> type (h p) -> processed h p d = false.
Proof.
  intro Hne. unfold processed. apply String.eqb_neq in Hne. rewrite Hne.
  apply Bool.andb_false_r.
Qed.

Lemma process_dependency_exact done p d w :
  icm_processing py_hash h rq pkgs done w ->
  In p pkgs ->
  (type (h d) = type (h p) -> has_processor (type (h p)) = true ->
   (forall rel, is_ok (to_purl (h d) rel) = true)
   /\ (type (h p) = "gomod" \/ type (h p) = "go-package" ->
       Py.is_local (version (h d)) = false)) ->
  is_ok (to_vcs_purl (Py.last_segment (get_repo_name (repo rq))) (repo rq) (ref rq)) = true ->
  exists w',
    process_dependency py_hash "icm" p d w = (w', Ok tt)
    /\ icm_processing py_hash h rq pkgs (done ++ [(p, d)]) w'.
Proof.
  intros Hw Hp Hdep Hv.
  pose proof Hw as (Hh & _).
  destruct (String.eqb (type (h d)) (type (h p))) eqn:E.
  - apply String.eqb_eq in E. specialize (Hdep E).
    unfold process_dependency. run. rewrite Hh. unfold has_processor in Hdep.
    destruct (String.eqb (type (h p)) "go-package") eqn:E1.
    { apply String.eqb_eq in E1. destruct (Hdep eq_refl) as [Hpurl Hl].
      apply process_go_package_exact; try assumption; try congruence; auto. }
    destruct (String.eqb (type (h p)) "gomod") eqn:E2.
    { apply String.eqb_eq in E2. destruct (Hdep eq_refl) as [Hpurl Hl].
      apply process_gomod_exact; try assumption; try congruence; auto. }
    destruct (String.eqb (type (h p)) "npm") eqn:E3.
    { apply String.eqb_eq in E3. destruct (Hdep eq_refl) as [Hpurl Hl].
      apply (process_standard_exact "npm" F_npm); try assumption; try congruence; auto. }
    destruct (String.eqb (type (h p)) "pip") eqn:E4.
    { apply String.eqb_eq in E4. destruct (Hdep eq_refl) as [Hpurl Hl].
      apply (process_standard_exact "pip" F_pip); try assumption; try congruence; auto. }
    destruct (String.eqb (type (h p)) "yarn") eqn:E5.
    { apply String.eqb_eq in E5. destruct (Hdep eq_refl) as [Hpurl Hl].
      apply (process_standard_exact "yarn" F_yarn); try assumption; try congruence; auto. }
    destruct (String.eqb (type (h p)) "rubygems") eqn:E6.
    { apply String.eqb_eq in E6. destruct (Hdep eq_refl) as [Hpurl Hl].
      apply process_rubygems_exact; try assumption; try congruence; auto. }
    exists w. split; [reflexivity|]. apply icm_processing_skip; [exact Hw|].
    unfold processed, has_processor. rewrite E1, E2, E3, E4, E5, E6. reflexivity.
  - apply String.eqb_neq in E. exists w. split.
    + apply process_dependency_other_type. now rewrite Hh.
    + apply icm_processing_skip; [exact Hw|]. now apply processed_other_type.
Qed.

Lemma process_dependencies_exact p l :
  In p pkgs ->
  is_ok (to_vcs_purl (Py.last_segment (get_repo_name (repo rq))) (repo rq) (ref rq)) = true ->
  (forall d, In d l ->
     type (h d) = type (h p) -> has_processor (type (h p)) = true ->
     (forall rel, is_ok (to_purl (h d) rel) = true)
     /\ (type (h p) = "gomod" \/ type (h p) = "go-package" ->
         Py.is_local (version (h d)) = false)) ->
  forall done w,
    icm_processing py_hash h rq pkgs done w ->
    exists w',
      for_each l (process_dependency py_hash "icm" p) w = (w', Ok tt)
      /\ icm_processing py_hash h rq pkgs (done ++ List.map (pair p) l) w'.
Proof.
  intros Hp Hv. induction l as [|d l IH]; intros Hdeps done w Hw.
  - exists w. split; [reflexivity|]. cbn [List.map]. now rewrite List.app_nil_r.
  - destruct (process_dependency_exact done p d w Hw Hp (Hdeps d (or_introl eq_refl)) Hv)
      as (w1 & H1 & S1).
    destruct (IH (fun x Hx => Hdeps x (or_intror Hx)) (done ++ [(p, d)]) w1 S1)
      as (w2 & H2 & S2).
    exists w2. split.
    + cbn [for_each]. unfold bind. now rewrite H1.
    + cbn [List.map]. now rewrite <- List.app_assoc in S2.
Qed.

Lemma process_packages_exact l :
  incl l pkgs ->
  is_ok (to_vcs_purl (Py.last_segment (get_repo_name (repo rq))) (repo rq) (ref rq)) = true ->
  (forall p d, processed_dependency h pkgs p d ->
     (forall rel, is_ok (to_purl (h d) rel) = true)
     /\ (type (h p) = "gomod" \/ type (h p) = "go-package" ->
         Py.is_local (version (h d)) = false)) ->
  forall done w,
    icm_processing py_hash h rq pkgs done w ->
    exists w',
      for_each l (process_package py_hash "icm") w = (w', Ok tt)
      /\ icm_processing py_hash h rq pkgs (done ++ all_pairs h l) w'.
Proof.
  intros Hl Hv Hdeps. induction l as [|p l IH]; intros done w Hw.
  - exists w. split; [reflexivity|]. unfold all_pairs. cbn [List.flat_map].
    now rewrite List.app_nil_r.
  - assert (Hp : In p pkgs) by (apply Hl; now left).
    pose proof Hw as (Hh & _).
    destruct (process_dependencies_exact p (dependencies (h p)) Hp Hv) with (done := done) (w := w)
      as (w1 & H1 & S1); [|exact Hw|].
    { intros d Hd Ht Hproc. apply Hdeps. repeat split; assumption. }
    destruct (IH (fun x Hx => Hl x (or_intror Hx)) _ w1 S1) as (w2 & H2 & S2).
    exists w2. split.
    + cbn [for_each]. unfold bind, process_package at 1. run. rewrite Hh, H1. exact H2.
    + unfold all_pairs in *. cbn [List.flat_map]. now rewrite List.app_assoc.
Qed.

Lemma top_level_packages_exact w gm :
  dicts py_hash h pkgs (fun f => entry_after h rq pkgs f (all_pairs h pkgs)) w ->
  gm = modules_after h rq pkgs (all_pairs h pkgs) ->
  top_level_packages
    (set_field F_gopkg (List.map (slot_map (with_sources gm)) (_gopkg_data (self w))) (self w))
  = expected_entries h rq pkgs.
Proof.
  intros Hd ->. unfold top_level_packages, expected_entries, icm_fields.
  cbn [List.flat_map set_field _gopkg_data _npm_data _pip_data _yarn_data _rubygems_data
       _gitsubmodule_data].
  pose proof (Hd F_gopkg) as H1. pose proof (Hd F_npm) as H2. pose proof (Hd F_pip) as H3.
  pose proof (Hd F_yarn) as H4. pose proof (Hd F_rubygems) as H5.
  pose proof (Hd F_gitsubmodule) as H6. cbn [get_field] in *.
  rewrite H1, H2, H3, H4, H5, H6. unfold pdict_values, dict_of.
  rewrite !List.map_map, List.app_nil_r. reflexivity.
Qed.

End DocumentProcessing.

(** X17: the document of [to_json] without its loops.  Whenever the purl
    functions return for the packages of the supported types and for the
    dependencies that are processed, and no processed dependency of a Go
    module or go-package has a local version, [image_contents] holds, before
    the sorting of [generate_icm], one entry for each distinct package of
    each of the types go-package, npm, pip, yarn, rubygems and
    git-submodule, in that order of the types: its top-level purl, as
    dependencies the purls of the processed dependencies of all the packages
    equal to it (but for the dev dependencies of npm, pip and yarn
    packages), and as sources the purls of all of them, or for a go-package
    the dependencies of the Go module that owns its name. *)
Theorem to_json_contents :
  forall w,
    (forall a, In a (packages (self w)) -> sbom_supported (type (heap w a)) = true ->
       is_ok (to_top_level_purl (heap w a) (request (self w)) (path (heap w a))) = true) ->
    (forall a d, processed_dependency (heap w) (packages (self w)) a d ->
       (forall rel, is_ok (to_purl (heap w d) rel) = true)
       /\ (type (heap w a) = "gomod" \/ type (heap w a) = "go-package" ->
           Py.is_local (version (heap w d)) = false)) ->
    is_ok (to_vcs_purl (Py.last_segment (get_repo_name (repo (request (self w)))))
             (repo (request (self w))) (ref (request (self w)))) = true ->
    snd (to_json py_hash w)
    = Ok (generate_icm
            (expected_entries (heap w) (request (self w)) (packages (self w)))).
Proof.
  intros w Htop Hdeps Hvcs.
  set (h := heap w) in *. set (rq := request (self w)) in *.
  set (pkgs := packages (self w)) in *.
  unfold to_json. run.
  set (w0 := {| heap := heap w; self := reset_icm_maps (self w); log := log w |}).
  change (packages (self w0)) with pkgs.
  assert (S0 : icm_processing py_hash h rq [] [] w0).
  { split; [reflexivity|]. split; [reflexivity|].
    split; [intro f; destruct f; reflexivity|reflexivity]. }
  destruct (seed_icm_loop_exact h rq pkgs [] w0 S0 Htop) as (w1 & H1 & S1).
  rewrite H1. cbv beta iota. cbn [List.app] in S1.
  destruct (process_packages_exact h rq pkgs pkgs (List.incl_refl _) Hvcs Hdeps [] w1 S1)
    as (w2 & H2 & S2).
  rewrite H2. cbv beta iota. cbn [List.app] in S2.
  pose proof S2 as (Hh2 & Hr2 & Hf2 & Hg2).
  rewrite set_go_package_sources_run.
  - cbv beta iota. cbn [fst snd self]. apply f_equal. apply f_equal.
    apply top_level_packages_exact; [exact (icm_processing_dicts h rq pkgs _ w2 S2)|exact Hg2].
  - rewrite Hh2. pose proof (Hf2 F_gopkg) as E. cbn [get_field] in E. rewrite E.
    apply findable_dict_of. apply keys_of_distinct.
  - pose proof (Hf2 F_gopkg) as E. cbn [get_field] in E. rewrite E.
    unfold dict_after, dict_of. apply List.Forall_forall. intros s Hs.
    apply List.in_map_iff in Hs. destruct Hs as (k & <- & _). discriminate.
Qed.

(** * The entries of the packages that are no go-packages *)

(** ** Loops that return *)

Lemma for_each_returns {A} (J : list A -> World -> Prop) (body : A -> M unit) (l : list A) :
  (forall seen x w,
      In x l -> J seen w -> snd (body x w) = Ok tt -> J (seen ++ [x]) (fst (body x w))) ->
  forall seen w,
    J seen w -> snd (for_each l body w) = Ok tt ->
    J (seen ++ l) (fst (for_each l body w)).
Proof.
  induction l as [|x l IH]; intros Hb seen w Hw Hok.
  - rewrite List.app_nil_r. exact Hw.
  - cbn [for_each] in *. unfold bind in *.
    pose proof (Hb seen x w (or_introl eq_refl) Hw) as Hx.
    destruct (body x w) as [w1 [[]|e]]; cbn [fst snd] in *; [|discriminate].
    replace (seen ++ x :: l) with ((seen ++ [x]) ++ l) by now rewrite <- List.app_assoc.
    apply IH; [|now apply Hx|exact Hok].
    intros seen' y w' Hy. apply Hb. now right.
Qed.

Lemma for_each_each_returns {A} (I : World -> Prop) (Q : A -> Prop) (body : A -> M unit)
      (l : list A) :
  (forall x, keeps I (body x)) ->
  (forall x w, I w -> snd (body x w) = Ok tt -> Q x) ->
  forall w, I w -> snd (for_each l body w) = Ok tt -> Forall Q l.
Proof.
  intros Hk Hq. induction l as [|x l IH]; intros w Hw Hok; [constructor|].
  cbn [for_each] in Hok. unfold bind in Hok.
  pose proof (Hk x w Hw) as H1. pose proof (Hq x w Hw) as H2.
  destruct (body x w) as [w1 [[]|e]]; cbn [fst snd] in *; [|discriminate].
  constructor; [now apply H2|]. now apply (IH w1).
Qed.

(** ** What the processors of Go modules and go-packages leave alone *)

Section Frame.

Variable rq : Request.
Variable D : field -> pdict PkgData.

Lemma other_modify f :
  (forall cm, request (f cm) = request cm
              /\ forall f', f' <> F_gopkg -> get_field f' (f cm) = get_field f' cm) ->
  keeps (other_dicts rq D) (modify_self f).
Proof.
  intros Hf w [Hr Hd]. destruct (Hf (self w)) as [H1 H2].
  split; cbn [modify_self fst self].
  - now rewrite H1.
  - intros f' Hf'. rewrite (H2 f' Hf'). now apply Hd.
Qed.

Ltac other_leaf :=
  first
    [ mode_leaf
    | match goal with
      | |- keeps (other_dicts _ _) (modify_self _) =>
          let f' := fresh "f" in
          let H := fresh "H" in
          apply other_modify; intro; split;
          [ reflexivity
          | intros f' H; destruct f'; first [reflexivity | exfalso; apply H; reflexivity] ]
      | |- keeps (other_dicts _ _) (emit _) => intros ? ?; assumption
      | |- keeps (other_dicts _ _) (assign_version _ _) => intros ? ?; assumption
      end ].

Lemma other_process_go_package package dependency :
  keeps (other_dicts rq D) (process_go_package py_hash package dependency "icm").
Proof.
  unfold process_go_package, _get_local_go_package_dep_purl, go_modules_by_name,
    update_entry.
  keeps_with other_leaf.
Qed.

Lemma other_process_gomod package dependency :
  keeps (other_dicts rq D) (process_gomod package dependency "icm").
Proof.
  unfold process_gomod. keeps_with other_leaf.
Qed.

Lemma other_set_go_package_sources :
  keeps (other_dicts rq D) (set_go_package_sources py_hash).
Proof.
  unfold set_go_package_sources, set_sources_at, update_entry.
  keeps_with other_leaf.
Qed.

End Frame.

Lemma other_dicts_ext rq D D' w :
  (forall f, f <> F_gopkg -> D f = D' f) -> other_dicts rq D w -> other_dicts rq D' w.
Proof.
  intros He [Hr Hd]. split; [exact Hr|]. intros f Hf. rewrite <- (He f Hf). now apply Hd.
Qed.

(** ** The store *)

Lemma untouched_refl h : untouched h h.
Proof. intro a. repeat split. Qed.

Lemma untouched_assign_version h a v w :
  type (h a) = "go-package" ->
  untouched h (heap w) -> untouched h (heap (fst (assign_version a v w))).
Proof.
  intros Ht Hu b. cbn [assign_version fst heap]. unfold heap_set.
  destruct (Nat.eqb b a) eqn:E; [|apply Hu].
  apply Nat.eqb_eq in E. subst b. destruct (Hu a) as (H1 & H2 & H3).
  destruct (heap w a). cbn in *. repeat split; try assumption. congruence.
Qed.

Ltac store_leaf :=
  first
    [ mode_leaf
    | match goal with
      | |- keeps (fun w => untouched _ (heap w)) (modify_self _) => intros ? ?; assumption
      | |- keeps (fun w => untouched _ (heap w)) (emit _) => intros ? ?; assumption
      end ].

Lemma untouched_get_local h package dependency :
  type (h dependency) = "go-package" ->
  keeps (fun w => untouched h (heap w)) (_get_local_go_package_dep_purl package dependency).
Proof.
  intro Ht. unfold _get_local_go_package_dep_purl, go_modules_by_name.
  keeps_with ltac:(first [ store_leaf
                         | match goal with
                           | |- keeps _ (assign_version _ _) =>
                               intros ? ?; now apply untouched_assign_version
                           end ]).
Qed.

Lemma untouched_process_go_package h package dependency :
  keeps (fun w => untouched h (heap w)) (process_go_package py_hash package dependency "icm").
Proof.
  intros w Hw. unfold process_go_package. unfold bind at 1, deref at 1. cbv beta iota.
  destruct (String.eqb (type (heap w dependency)) "go-package") eqn:E; [|exact Hw].
  apply String.eqb_eq in E.
  assert (Ht : type (h dependency) = "go-package").
  { destruct (Hw dependency) as (H1 & _). congruence. }
  refine (keeps_bind (fun w => untouched h (heap w)) _ _ _ _ w Hw).
  - destruct (Py.is_local (version (heap w dependency)));
      [now apply untouched_get_local|apply keeps_lift].
  - intro purl. unfold update_entry. keeps_with store_leaf.
Qed.

Lemma untouched_process_dependency h package dependency :
  keeps (fun w => untouched h (heap w))
    (process_dependency py_hash "icm" package dependency).
Proof.
  unfold process_dependency.
  apply keeps_bind; [apply keeps_deref|]. intro pkg.
  destruct (String.eqb (type pkg) "go-package"); [apply untouched_process_go_package|].
  unfold process_gomod, process_npm_package, process_pip_package, process_yarn_package,
    process_standard, _process_standard_package, process_rubygems_package, update_entry.
  keeps_with store_leaf.
Qed.

Lemma untouched_set_go_package_sources h :
  keeps (fun w => untouched h (heap w)) (set_go_package_sources py_hash).
Proof.
  unfold set_go_package_sources, set_sources_at, update_entry.
  keeps_with store_leaf.
Qed.

(** ** The steps of the second loop *)

Section OtherEntries.

Variable h : addr -> Package.
Variable rq : Request.
Variable pkgs : list addr.

Ltac eqb_reduce := cbn [String.eqb Ascii.eqb Bool.eqb]; cbv beta iota.

Lemma contributions_other_type k p d :
  type (h k) <> type (h p) ->
  dependency_of h rq pkgs k (p, d) = [] /\ source_of h rq pkgs k (p, d) = [].
Proof.
  intro Hne.
  assert (E : Package_eq (h k) (h p) = false).
  { destruct (Package_eq (h k) (h p)) eqn:E; [|reflexivity].
    apply Package_eq_type in E. congruence. }
  unfold dependency_of, source_of. cbn [fst snd]. rewrite E. split; reflexivity.
Qed.

Lemma dict_after_other_type f done p d :
  field_type f <> type (h p) ->
  dict_after py_hash h rq pkgs f (done ++ [(p, d)]) = dict_after py_hash h rq pkgs f done.
Proof.
  intro Hne. unfold dict_after, dict_of. apply List.map_ext_in. intros k Hk.
  rewrite entry_after_snoc. destruct (keys_of_In _ _ f k Hk) as [_ Hk'].
  destruct (contributions_other_type k p d) as [-> ->]; [congruence|].
  now rewrite add_to_nil.
Qed.

Lemma dict_after_skip f done p d :
  processed h p d = false ->
  dict_after py_hash h rq pkgs f (done ++ [(p, d)]) = dict_after py_hash h rq pkgs f done.
Proof.
  intro Hn. unfold dict_after, dict_of. apply List.map_ext. intro k.
  rewrite entry_after_snoc. unfold dependency_of, source_of. cbn [fst snd].
  rewrite Hn, !Bool.andb_false_r. cbn [andb]. now rewrite add_to_nil.
Qed.

Lemma update_entry_other F f p g w :
  f <> F_gopkg ->
  untouched h (heap w) ->
  get_field f (self w) = dict_of py_hash h F (keys_of h f pkgs) ->
  In p pkgs -> type (h p) = field_type f ->
  update_entry py_hash f p g w
  = ({| heap := heap w;
        self := set_field f
                  (dict_of py_hash h
                     (fun k => if Package_eq (h k) (h p) then g (F k) else F k)
                     (keys_of h f pkgs))
                  (self w);
        log := log w |}, Ok tt).
Proof.
  intros Hf Hu Hd Hp Ht.
  assert (Hng : field_type f <> "go-package") by (destruct f; try discriminate; congruence).
  unfold update_entry. run. rewrite Hd.
  rewrite (pdict_update_ext (heap w) h).
  - rewrite (pdict_update_dict_of h F g p _ (keys_of_distinct _ _ f)
               (keys_of_covers _ _ f p Hp Ht)).
    reflexivity.
  - apply Hu. congruence.
  - unfold dict_of. apply Forall_forall. intros s Hs. apply List.in_map_iff in Hs.
    destruct Hs as (k & <- & Hk). cbn [slot_key]. apply Hu.
    destruct (keys_of_In _ _ f k Hk) as [_ Hk']. congruence.
Qed.

Lemma process_standard_other t f done p d w :
  t = "npm" \/ t = "pip" \/ t = "yarn" ->
  field_of_type t = Some f ->
  untouched h (heap w) ->
  other_dicts rq (fun f => dict_after py_hash h rq pkgs f done) w ->
  In p pkgs -> type (h p) = t -> type (h d) = t ->
  snd (process_standard py_hash t p d "icm" w) = Ok tt ->
  is_ok (to_purl (h d) None) = true
  /\ other_dicts rq (fun f => dict_after py_hash h rq pkgs f (done ++ [(p, d)]))
       (fst (process_standard py_hash t p d "icm" w)).
Proof.
  intros Ht Hft Hu [Hr Hd] Hp Htp Htd.
  pose proof (field_of_type_some t f Hft) as Hty.
  assert (Hne : f <> F_gopkg).
  { intros ->. cbn in Hty. destruct Ht as [-> | [-> | ->]]; discriminate. }
  assert (Hhd : heap w d = h d).
  { apply Hu. rewrite Htd. destruct Ht as [-> | [-> | ->]]; discriminate. }
  unfold process_standard. run. rewrite Hhd, Htd, String.eqb_refl. eqb_reduce.
  unfold _process_standard_package. rewrite Hft. run. rewrite Hhd.
  destruct (to_purl (h d) None) as [purl|e] eqn:Ep; [|discriminate].
  cbv beta iota.
  rewrite (update_entry_other (entry_after h rq pkgs f done) f p (append_source purl) w
             Hne Hu (Hd f Hne) Hp); [|congruence].
  cbv beta iota.
  set (D1 := dict_of py_hash h _ (keys_of h f pkgs)).
  set (w1 := {| heap := heap w; self := set_field f D1 (self w); log := log w |}).
  assert (Hg1 : get_field f (self w1) = D1) by apply get_set_field.
  assert (Hv : value (to_purl (h d) None) = purl) by now rewrite Ep.
  assert (Hrest : forall cm f',
             f' <> F_gopkg -> f' <> f ->
             get_field f' cm = get_field f' (self w) ->
             get_field f' cm = dict_after py_hash h rq pkgs f' (done ++ [(p, d)])).
  { intros cm f' H1 H2 ->. rewrite (Hd f' H1). symmetry. apply dict_after_other_type.
    intro E. apply H2. apply field_type_inj. congruence. }
  destruct (dev (h d)) eqn:Edev; cbn [negb].
  - intros _. split; [reflexivity|]. cbn [fst]. split.
    + subst w1. cbn [self]. destruct f; exact Hr.
    + intros f' Hf'. destruct (field_eq_dec f f') as [<-|Hne'].
      * rewrite Hg1. subst D1. unfold dict_after, dict_of.
        apply List.map_ext. intro k. rewrite entry_after_snoc.
        destruct (contributions_standard h rq pkgs t k p d Ht Htp Htd) as (-> & -> & _).
        rewrite Edev, Hv. cbn [negb]. rewrite Bool.andb_false_r.
        destruct (Package_eq (h k) (h p)); [|now rewrite add_to_nil].
        unfold append_source, add_to. now rewrite List.app_nil_r.
      * apply Hrest; [exact Hf'|congruence|]. subst w1. cbn [self].
        now apply get_set_field_other.
  - rewrite (update_entry_other _ f p (append_dependency purl) w1 Hne Hu Hg1 Hp);
      [|congruence].
    intros _. split; [reflexivity|]. cbn [fst]. split; cbn [self].
    + destruct f; exact Hr.
    + intros f' Hf'. destruct (field_eq_dec f f') as [<-|Hne'].
      * rewrite get_set_field. subst D1. unfold dict_after, dict_of.
        apply List.map_ext. intro k. rewrite entry_after_snoc.
        destruct (contributions_standard h rq pkgs t k p d Ht Htp Htd) as (-> & -> & _).
        rewrite Edev, Hv. cbn [negb]. rewrite Bool.andb_true_r.
        destruct (Package_eq (h k) (h p)); [reflexivity|now rewrite add_to_nil].
      * apply Hrest; [exact Hf'|congruence|].
        rewrite get_set_field_other by exact Hne'. subst w1. cbn [self].
        now apply get_set_field_other.
Qed.

Lemma process_rubygems_other done p d w :
  untouched h (heap w) ->
  other_dicts rq (fun f => dict_after py_hash h rq pkgs f done) w ->
  In p pkgs -> type (h p) = "rubygems" -> type (h d) = "rubygems" ->
  snd (process_rubygems_package py_hash p d "icm" w) = Ok tt ->
  purl_returns h rq (p, d) = true
  /\ other_dicts rq (fun f => dict_after py_hash h rq pkgs f (done ++ [(p, d)]))
       (fst (process_rubygems_package py_hash p d "icm" w)).
Proof.
  intros Hu [Hr Hd] Hp Htp Htd.
  assert (Hne : F_rubygems <> F_gopkg) by discriminate.
  assert (Hhd : heap w d = h d) by (apply Hu; rewrite Htd; discriminate).
  assert (Hhp : heap w p = h p) by (apply Hu; rewrite Htp; discriminate).
  unfold purl_returns. cbn [fst snd]. rewrite Htp. eqb_reduce.
  unfold process_rubygems_package. run. rewrite Hhd, Htd. eqb_reduce. rewrite Hr.
  destruct (to_vcs_purl (Py.last_segment (get_repo_name (repo rq))) (repo rq) (ref rq))
    as [parent|e] eqn:Ev; [|discriminate].
  cbv beta iota. rewrite Hhp.
  destruct (to_purl (h d) (path (h p))) as [purl0|e] eqn:Ep; [|discriminate].
  cbv beta iota.
  set (purl := replace_parent_purl_placeholder purl0 parent).
  rewrite (update_entry_other (entry_after h rq pkgs F_rubygems done) F_rubygems p
             (append_source purl) w Hne Hu (Hd F_rubygems Hne) Hp Htp).
  cbv beta iota.
  set (D1 := dict_of py_hash h _ (keys_of h F_rubygems pkgs)).
  set (w1 := {| heap := heap w; self := set_field F_rubygems D1 (self w); log := log w |}).
  assert (Hg1 : get_field F_rubygems (self w1) = D1) by reflexivity.
  rewrite (update_entry_other _ F_rubygems p (append_dependency purl) w1 Hne Hu Hg1 Hp Htp).
  intros _. split; [reflexivity|]. cbn [fst]. split; cbn [self].
  - exact Hr.
  - intros f' Hf'. destruct (field_eq_dec F_rubygems f') as [<-|Hne'].
    + rewrite get_set_field. subst D1. unfold dict_after, dict_of.
      apply List.map_ext. intro k. rewrite entry_after_snoc.
      destruct (contributions_rubygems h rq pkgs k p d Htp Htd) as (-> & -> & _).
      unfold request_purl. rewrite Ev, Ep. cbn [value]. fold purl.
      destruct (Package_eq (h k) (h p)); [reflexivity|now rewrite add_to_nil].
    + rewrite get_set_field_other by exact Hne'. subst w1. cbn [self].
      rewrite get_set_field_other by exact Hne'. rewrite (Hd f' Hf'). symmetry.
      apply dict_after_other_type. intro E. apply Hne'. apply field_type_inj.
      rewrite E, Htp. reflexivity.
Qed.

Lemma is_other_types t :
  is_other t = true -> t <> "go-package" /\ t <> "gomod" /\ has_processor t = true.
Proof.
  unfold is_other, is_standard, has_processor. intro H.
  repeat split; try (intros ->; discriminate H).
  destruct (String.eqb t "go-package"), (String.eqb t "gomod"); try reflexivity.
  cbn [orb]. exact H.
Qed.

Lemma process_dependency_other done p d w :
  other_processing py_hash h rq pkgs done w ->
  In p pkgs ->
  snd (process_dependency py_hash "icm" p d w) = Ok tt ->
  other_processing py_hash h rq pkgs (done ++ [(p, d)])
    (fst (process_dependency py_hash "icm" p d w)).
Proof.
  intros (Hu & Ho & Hpurls) Hp Hok.
  split; [now apply untouched_process_dependency|].
  destruct (Hu p) as (Htp & _). destruct (Hu d) as (Htd & _).
  assert (Hskip : processed h p d = false ->
            fst (process_dependency py_hash "icm" p d w) = w ->
            other_dicts rq (fun f => dict_after py_hash h rq pkgs f (done ++ [(p, d)]))
              (fst (process_dependency py_hash "icm" p d w))
            /\ forall pd, In pd (done ++ [(p, d)]) -> processed h (fst pd) (snd pd) = true ->
                          is_other (type (h (fst pd))) = true -> purl_returns h rq pd = true).
  { intros Hn ->. split.
    - apply (other_dicts_ext rq (fun f => dict_after py_hash h rq pkgs f done)); [|exact Ho].
      intros f _. symmetry. now apply dict_after_skip.
    - intros pd Hin H1 H2. apply List.in_app_or in Hin. destruct Hin as [Hin|[<-|[]]].
      + now apply Hpurls.
      + cbn [fst snd] in H1. congruence. }
  destruct (String.eqb (type (h d)) (type (h p))) eqn:E.
  2:{ apply Hskip.
      - unfold processed. rewrite E. apply Bool.andb_false_r.
      - rewrite process_dependency_other_type; [reflexivity|].
        apply String.eqb_neq in E. congruence. }
  apply String.eqb_eq in E.
  assert (Hgo : forall (m : M unit),
             process_dependency py_hash "icm" p d w = m w ->
             keeps (other_dicts rq (fun f => dict_after py_hash h rq pkgs f done)) m ->
             is_other (type (h p)) = false ->
             (forall f, f <> F_gopkg -> field_type f <> type (h p)) ->
             other_dicts rq (fun f => dict_after py_hash h rq pkgs f (done ++ [(p, d)]))
               (fst (process_dependency py_hash "icm" p d w))
             /\ forall pd, In pd (done ++ [(p, d)]) -> processed h (fst pd) (snd pd) = true ->
                           is_other (type (h (fst pd))) = true ->
                           purl_returns h rq pd = true).
  { intros m -> Hk Hno Hty. split.
    - apply (other_dicts_ext rq (fun f => dict_after py_hash h rq pkgs f done));
        [|now apply Hk].
      intros f Hf. symmetry. apply dict_after_other_type. now apply Hty.
    - intros pd Hin H1 H2. apply List.in_app_or in Hin. destruct Hin as [Hin|[<-|[]]].
      + now apply Hpurls.
      + cbn [fst] in H2. congruence. }
  assert (Hstep : forall b,
             other_dicts rq (fun f => dict_after py_hash h rq pkgs f (done ++ [(p, d)]))
               (fst (process_dependency py_hash "icm" p d w)) ->
             purl_returns h rq (p, d) = b -> b = true ->
             other_dicts rq (fun f => dict_after py_hash h rq pkgs f (done ++ [(p, d)]))
               (fst (process_dependency py_hash "icm" p d w))
             /\ forall pd, In pd (done ++ [(p, d)]) -> processed h (fst pd) (snd pd) = true ->
                           is_other (type (h (fst pd))) = true ->
                           purl_returns h rq pd = true).
  { intros b H1 H2 ->. split; [exact H1|].
    intros pd Hin H3 H4. apply List.in_app_or in Hin. destruct Hin as [Hin|[<-|[]]].
    - now apply Hpurls.
    - exact H2. }
  revert Hok Hgo Hstep Hskip. unfold process_dependency. run. rewrite Htp.
  intros Hok Hgo Hstep Hskip.
  destruct (String.eqb (type (h p)) "go-package") eqn:E1.
  { apply String.eqb_eq in E1. apply (Hgo _ eq_refl).
    - apply other_process_go_package.
    - rewrite E1. reflexivity.
    - intros f Hf. rewrite E1. destruct f; try discriminate. congruence. }
  destruct (String.eqb (type (h p)) "gomod") eqn:E2.
  { apply String.eqb_eq in E2. apply (Hgo _ eq_refl).
    - apply other_process_gomod.
    - rewrite E2. reflexivity.
    - intros f Hf. rewrite E2. apply field_type_not_gomod. }
  destruct (String.eqb (type (h p)) "npm") eqn:E3.
  { apply String.eqb_eq in E3.
    destruct (process_standard_other "npm" F_npm done p d w) as [H1 H2];
      try assumption; try congruence; auto.
    apply (Hstep _ H2 eq_refl). unfold purl_returns. cbn [fst snd]. rewrite E3. exact H1. }
  destruct (String.eqb (type (h p)) "pip") eqn:E4.
  { apply String.eqb_eq in E4.
    destruct (process_standard_other "pip" F_pip done p d w) as [H1 H2];
      try assumption; try congruence; auto.
    apply (Hstep _ H2 eq_refl). unfold purl_returns. cbn [fst snd]. rewrite E4. exact H1. }
  destruct (String.eqb (type (h p)) "yarn") eqn:E5.
  { apply String.eqb_eq in E5.
    destruct (process_standard_other "yarn" F_yarn done p d w) as [H1 H2];
      try assumption; try congruence; auto.
    apply (Hstep _ H2 eq_refl). unfold purl_returns. cbn [fst snd]. rewrite E5. exact H1. }
  destruct (String.eqb (type (h p)) "rubygems") eqn:E6.
  { apply String.eqb_eq in E6.
    destruct (process_rubygems_other done p d w) as [H1 H2];
      try assumption; try congruence.
    now apply (Hstep _ H2 eq_refl). }
  apply Hskip; [|reflexivity].
  unfold processed, has_processor. rewrite E1, E2, E3, E4, E5, E6. reflexivity.
Qed.

Lemma process_package_other done p w :
  other_processing py_hash h rq pkgs done w ->
  In p pkgs ->
  snd (process_package py_hash "icm" p w) = Ok tt ->
  other_processing py_hash h rq pkgs (done ++ List.map (pair p) (dependencies (h p)))
    (fst (process_package py_hash "icm" p w)).
Proof.
  intros Hw Hp. unfold process_package. run.
  destruct Hw as (Hu & Hrest). destruct (Hu p) as (_ & -> & _).
  intro Hok.
  pose proof (for_each_returns
                (fun seen w' =>
                   other_processing py_hash h rq pkgs (done ++ List.map (pair p) seen) w')
                (process_dependency py_hash "icm" p) (dependencies (h p))) as L.
  cbv beta in L. refine (L _ [] w _ _); clear L.
  - intros seen d w' _ Hw' Hd. rewrite List.map_app, List.app_assoc. cbn [List.map].
    now apply process_dependency_other.
  - cbn [List.map]. rewrite List.app_nil_r. now split.
  - exact Hok.
Qed.

Lemma process_packages_other l w :
  incl l pkgs ->
  other_processing py_hash h rq pkgs [] w ->
  snd (for_each l (process_package py_hash "icm") w) = Ok tt ->
  other_processing py_hash h rq pkgs (all_pairs h l)
    (fst (for_each l (process_package py_hash "icm") w)).
Proof.
  intros Hl Hw Hok.
  pose proof (for_each_returns
                (fun seen w' => other_processing py_hash h rq pkgs (all_pairs h seen) w')
                (process_package py_hash "icm") l) as L.
  cbv beta in L. refine (L _ [] w _ _); clear L; [|exact Hw|exact Hok].
  intros seen p w' Hp Hw' Hd. unfold all_pairs. rewrite List.flat_map_app.
  cbn [List.flat_map]. rewrite List.app_nil_r.
  apply process_package_other; [exact Hw'|now apply Hl|exact Hd].
Qed.

(** ** The first loop *)

Lemma seed_icm_returns a w :
  heap w = h -> request (self w) = rq ->
  snd (seed_icm py_hash a w) = Ok tt ->
  sbom_supported (type (h a)) = true ->
  is_ok (to_top_level_purl (h a) rq (path (h a))) = true.
Proof.
  intros Hh Hr. unfold seed_icm, sbom_supported. run. rewrite Hh, Hr.
  destruct (to_top_level_purl (h a) rq (path (h a))) as [purl|e]; [reflexivity|].
  unfold field_of_type.
  repeat match goal with
         | |- context [String.eqb (type (h a)) ?s] =>
             destruct (String.eqb (type (h a)) s)
         end; cbn; intros; congruence.
Qed.

Lemma seeding_returns l w :
  heap w = h -> request (self w) = rq ->
  snd (for_each l (seed_icm py_hash) w) = Ok tt ->
  forall a, In a l -> sbom_supported (type (h a)) = true ->
            is_ok (to_top_level_purl (h a) rq (path (h a))) = true.
Proof.
  intros Hh Hr Hok.
  assert (Hst : view_stable (fun w => heap w = h /\ request (self w) = rq)).
  { intros w1 w2 E1 _ E2 _ [H1 H2]. split; congruence. }
  pose proof (for_each_each_returns
                (fun w => heap w = h /\ request (self w) = rq)
                (fun a => sbom_supported (type (h a)) = true ->
                          is_ok (to_top_level_purl (h a) rq (path (h a))) = true)
                (seed_icm py_hash) l) as L.
  cbv beta in L. intros a Ha.
  refine (proj1 (Forall_forall _ _) (L _ _ w _ Hok) a Ha).
  - intro b. now apply keeps_seed_icm.
  - intros b w' [H1 H2]. now apply seed_icm_returns.
  - now split.
Qed.

(** ** The document *)

Lemma to_json_other w icm :
  heap w = h -> request (self w) = rq -> packages (self w) = pkgs ->
  snd (to_json py_hash w) = Ok icm ->
  (exists go_entries, icm = generate_icm (go_entries ++ other_entries h rq pkgs))
  /\ (forall a, In a pkgs -> sbom_supported (type (h a)) = true ->
                is_ok (to_top_level_purl (h a) rq (path (h a))) = true)
  /\ forall pd, In pd (all_pairs h pkgs) -> processed h (fst pd) (snd pd) = true ->
                is_other (type (h (fst pd))) = true -> purl_returns h rq pd = true.
Proof.
  intros Hh Hr Hp. unfold to_json. run.
  set (w0 := {| heap := heap w; self := reset_icm_maps (self w); log := log w |}).
  change (packages (self w0)) with (packages (self w)). rewrite Hp.
  assert (S0 : icm_processing py_hash h rq [] [] w0).
  { split; [exact Hh|]. split; [exact Hr|].
    split; [intro f; destruct f; reflexivity|reflexivity]. }
  destruct (for_each pkgs (seed_icm py_hash) w0) as [w1 [[]|e]] eqn:E1; [|discriminate].
  pose proof (seeding_returns pkgs w0 Hh Hr (f_equal snd E1)) as Htop.
  destruct (seed_icm_loop_exact h rq pkgs [] w0 S0 Htop) as (w1' & E1' & S1).
  rewrite E1 in E1'. injection E1' as <-. cbn [List.app] in S1.
  destruct S1 as (Hh1 & Hr1 & Hf1 & _).
  assert (O1 : other_processing py_hash h rq pkgs [] w1).
  { split; [rewrite Hh1; apply untouched_refl|]. split; [|intros pd []].
    split; [exact Hr1|]. intros f _. apply Hf1. }
  cbv beta iota.
  destruct (for_each pkgs (process_package py_hash "icm") w1) as [w2 [[]|e]] eqn:E2;
    [|discriminate].
  pose proof (process_packages_other pkgs w1 (List.incl_refl _) O1) as O2.
  rewrite E2 in O2. specialize (O2 eq_refl). cbn [fst] in O2.
  destruct O2 as (_ & Hd2 & Hpurls).
  cbv beta iota.
  pose proof (other_set_go_package_sources rq _ w2 Hd2) as Hd3.
  destruct (set_go_package_sources py_hash w2) as [w3 [[]|e]]; [|discriminate].
  cbn [fst] in Hd3. cbv beta iota. cbn [snd]. intro H. injection H as <-.
  split; [|split; [exact Htop|exact Hpurls]].
  exists (pdict_values (_gopkg_data (self w3))). apply f_equal.
  unfold top_level_packages, other_entries. cbn [List.flat_map].
  destruct Hd3 as [_ Hd3].
  pose proof (Hd3 F_npm) as H2. pose proof (Hd3 F_pip) as H3.
  pose proof (Hd3 F_yarn) as H4. pose proof (Hd3 F_rubygems) as H5.
  pose proof (Hd3 F_gitsubmodule) as H6. cbn [get_field] in *.
  rewrite H2, H3, H4, H5, H6 by discriminate. unfold pdict_values, dict_after, dict_of.
  rewrite !List.map_map, List.app_nil_r. reflexivity.
Qed.

(** ** The dependencies behind an entry *)

Lemma Package_eq_key k p q :
  Package_eq (h k) (h p) = true -> Package_eq (h k) (h q) = Package_eq (h q) (h p).
Proof.
  intro Hkp. destruct (Package_eq (h q) (h p)) eqn:E.
  - apply (Package_eq_trans _ (h p)); [exact Hkp|]. now rewrite Package_eq_sym.
  - destruct (Package_eq (h k) (h q)) eqn:E'; [|reflexivity].
    rewrite <- E. symmetry. apply (Package_eq_trans _ (h k)); [|exact Hkp].
    now rewrite Package_eq_sym.
Qed.

Lemma owned_In l p q d :
  In (q, d) (owned h l p) ->
  In q l /\ Package_eq (h q) (h p) = true
  /\ In d (dependencies (h q)) /\ type (h d) = type (h q).
Proof.
  unfold owned. intro H. apply List.in_flat_map in H. destruct H as (q' & Hq & H).
  destruct (Package_eq (h q') (h p)) eqn:E; [|destruct H].
  apply List.in_map_iff in H. destruct H as (d' & Hd & H). injection Hd as <- <-.
  apply List.filter_In in H. destruct H as [H1 H2].
  repeat split; try assumption. now apply String.eqb_eq.
Qed.

Lemma owned_all_pairs l p pd : In pd (owned h l p) -> In pd (all_pairs h l).
Proof.
  destruct pd as [q d]. intro H. apply owned_In in H. destruct H as (H1 & _ & H3 & _).
  unfold all_pairs. apply List.in_flat_map. exists q. split; [exact H1|].
  now apply List.in_map.
Qed.

Lemma contributions_owned k p l :
  Package_eq (h k) (h p) = true ->
  is_other (type (h p)) = true ->
  List.flat_map (source_of h rq pkgs k) (all_pairs h l)
  = List.map (fun pd => dependency_purl h rq pkgs (fst pd) (snd pd)) (owned h l p)
  /\ List.flat_map (dependency_of h rq pkgs k) (all_pairs h l)
     = List.map (fun pd => dependency_purl h rq pkgs (fst pd) (snd pd))
         (List.filter
            (fun pd => negb (is_standard (type (h (fst pd))) && dev (h (snd pd))))
            (owned h l p)).
Proof.
  intros Hkp Hother. destruct (is_other_types _ Hother) as (Hgo & _ & Hproc).
  induction l as [|q l [IH1 IH2]]; [split; reflexivity|].
  unfold all_pairs, owned in *. cbn [List.flat_map].
  rewrite !List.flat_map_app, List.filter_app, !List.map_app, IH1, IH2.
  assert (Hq : List.flat_map (source_of h rq pkgs k)
                 (List.map (pair q) (dependencies (h q)))
               = List.map (fun pd => dependency_purl h rq pkgs (fst pd) (snd pd))
                   (if Package_eq (h q) (h p)
                    then List.map (pair q)
                           (List.filter (fun d => String.eqb (type (h d)) (type (h q)))
                              (dependencies (h q)))
                    else [])
               /\ List.flat_map (dependency_of h rq pkgs k)
                    (List.map (pair q) (dependencies (h q)))
                  = List.map (fun pd => dependency_purl h rq pkgs (fst pd) (snd pd))
                      (List.filter
                         (fun pd => negb (is_standard (type (h (fst pd)))
                                          && dev (h (snd pd))))
                         (if Package_eq (h q) (h p)
                          then List.map (pair q)
                                 (List.filter
                                    (fun d => String.eqb (type (h d)) (type (h q)))
                                    (dependencies (h q)))
                          else []))).
  { pose proof (Package_eq_key k p q Hkp) as Hkq.
    induction (dependencies (h q)) as [|d ds [IHd1 IHd2]].
    - destruct (Package_eq (h q) (h p)); split; reflexivity.
    - cbn [List.map List.flat_map List.filter]. rewrite IHd1, IHd2.
      unfold source_of at 1, dependency_of at 1, processed. cbn [fst snd]. rewrite Hkq.
      destruct (Package_eq (h q) (h p)) eqn:E; [|split; reflexivity].
      apply Package_eq_type in E. rewrite E, Hproc.
      assert (Hg : String.eqb (type (h p)) "go-package" = false)
        by now apply String.eqb_neq.
      rewrite Hg. cbn [andb negb].
      destruct (String.eqb (type (h d)) (type (h p))); cbn [andb List.map List.filter];
        [|split; reflexivity].
      cbn [fst snd]. rewrite E.
      destruct (negb (is_standard (type (h p)) && dev (h d))); split; reflexivity. }
  destruct Hq as [-> ->]. split; reflexivity.
Qed.

Lemma to_json_entry w icm f p :
  heap w = h -> request (self w) = rq -> packages (self w) = pkgs ->
  snd (to_json py_hash w) = Ok icm ->
  f <> F_gopkg -> In p pkgs -> type (h p) = field_type f ->
  exists k,
    In k pkgs /\ Package_eq (h k) (h p) = true
    /\ to_top_level_purl (h k) rq (path (h k)) = Ok (top_level_purl h rq k)
    /\ In (sort_entry (entry_after h rq pkgs f (all_pairs h pkgs) k)) (image_contents icm).
Proof.
  intros Hh Hr Hp Hok Hf Hin Ht.
  destruct (to_json_other w icm Hh Hr Hp Hok) as ((go & ->) & Htop & _).
  pose proof (keys_of_covers _ _ f p Hin Ht) as Hk.
  apply List.existsb_exists in Hk. destruct Hk as (k & Hk & Hkp).
  destruct (keys_of_In _ _ f k Hk) as [Hkin Hkt].
  exists k. split; [exact Hkin|]. split; [exact Hkp|]. split.
  - unfold top_level_purl. apply is_ok_value. apply Htop; [exact Hkin|].
    rewrite Hkt. destruct f; reflexivity.
  - unfold generate_icm, deep_sort_icm. cbn [image_contents].
    apply (Permutation_in _ (Permutation_sym (sort_by_perm _ _))).
    apply List.in_map. apply List.in_or_app. right.
    unfold other_entries. apply List.in_flat_map. exists f. split.
    + destruct f; cbn; first [tauto | congruence].
    + now apply List.in_map.
Qed.

Lemma owned_processed p pd :
  is_other (type (h p)) = true ->
  In pd (owned h pkgs p) ->
  type (h (fst pd)) = type (h p)
  /\ In pd (all_pairs h pkgs)
  /\ processed h (fst pd) (snd pd) = true.
Proof.
  intros Hother Hin. pose proof (owned_all_pairs _ _ _ Hin) as Hall.
  destruct pd as [q d]. apply owned_In in Hin. destruct Hin as (_ & Hq & _ & Hd).
  apply Package_eq_type in Hq. cbn [fst snd]. split; [exact Hq|]. split; [exact Hall|].
  unfold processed. rewrite Hd, String.eqb_refl, Hq.
  destruct (is_other_types _ Hother) as (_ & _ & ->). reflexivity.
Qed.

Lemma to_json_owned w icm f p :
  heap w = h -> request (self w) = rq -> packages (self w) = pkgs ->
  snd (to_json py_hash w) = Ok icm ->
  f <> F_gopkg -> In p pkgs -> type (h p) = field_type f ->
  is_other (type (h p)) = true ->
  Forall (fun pd => purl_returns h rq pd = true) (owned h pkgs p)
  /\ exists k e,
      In k pkgs /\ Package_eq (h k) (h p) = true
      /\ In e (image_contents icm)
      /\ to_top_level_purl (h k) rq (path (h k)) = Ok (d_purl e)
      /\ Permutation (d_sources e)
           (List.map (fun pd => dependency_purl h rq pkgs (fst pd) (snd pd))
              (owned h pkgs p))
      /\ Permutation (d_dependencies e)
           (List.map (fun pd => dependency_purl h rq pkgs (fst pd) (snd pd))
              (List.filter
                 (fun pd => negb (is_standard (type (h (fst pd))) && dev (h (snd pd))))
                 (owned h pkgs p))).
Proof.
  intros Hh Hr Hp Hok Hf Hin Ht Hother. split.
  - destruct (to_json_other w icm Hh Hr Hp Hok) as (_ & _ & Hpurls).
    apply Forall_forall. intros pd Hpd.
    destruct (owned_processed p pd Hother Hpd) as (Hq & Hall & Hproc).
    apply Hpurls; [exact Hall|exact Hproc|now rewrite Hq].
  - destruct (to_json_entry w icm f p Hh Hr Hp Hok Hf Hin Ht) as (k & Hk & Hkp & Hpurl & He).
    destruct (contributions_owned k p pkgs Hkp Hother) as [Hs Hd].
    exists k, (sort_entry (entry_after h rq pkgs f (all_pairs h pkgs) k)).
    split; [exact Hk|]. split; [exact Hkp|]. split; [exact He|].
    split; [exact Hpurl|]. cbn [sort_entry entry_after d_sources d_dependencies].
    rewrite Hs, Hd. unfold sort_purls. split; apply sort_by_perm.
Qed.

End OtherEntries.

(** C2: in the document [to_json] returns, the entry of an npm, pip or
    yarn package of the list has as sources the purls of all the
    dependencies of its own type of the packages equal to it, and as
    dependencies the purls of those that are no dev dependencies, each as
    often as it is met; the lists are sorted.  A dev dependency adds a
    source and no dependency.  The purl function returned for each of
    them. *)
Theorem to_json_standard_dependencies :
  forall (w : World) (icm : ICM) (p : addr),
    snd (to_json py_hash w) = Ok icm ->
    In p (packages (self w)) ->
    type (heap w p) = "npm" \/ type (heap w p) = "pip" \/ type (heap w p) = "yarn" ->
    Forall (fun pd => is_ok (to_purl (heap w (snd pd)) None) = true)
      (owned (heap w) (packages (self w)) p)
    /\ exists k e,
        In k (packages (self w)) /\ Package_eq (heap w k) (heap w p) = true
        /\ In e (image_contents icm)
        /\ to_top_level_purl (heap w k) (request (self w)) (path (heap w k))
           = Ok (d_purl e)
        /\ Permutation (d_sources e)
             (List.map (standard_purl (heap w)) (owned (heap w) (packages (self w)) p))
        /\ Permutation (d_dependencies e)
             (List.map (standard_purl (heap w))
                (List.filter (fun pd => negb (dev (heap w (snd pd))))
                   (owned (heap w) (packages (self w)) p))).
Proof.
  intros w icm p Hok Hin Ht.
  set (h := heap w) in *. set (rq := request (self w)) in *.
  set (pkgs := packages (self w)) in *.
  assert (Hstd : is_standard (type (h p)) = true).
  { unfold is_standard. destruct Ht as [-> | [-> | ->]]; reflexivity. }
  assert (Hf : exists f, f <> F_gopkg /\ type (h p) = field_type f).
  { destruct Ht as [Ht | [Ht | Ht]];
      [exists F_npm | exists F_pip | exists F_yarn]; (split; [discriminate|exact Ht]). }
  destruct Hf as (f & Hf & Htf).
  assert (Hother : is_other (type (h p)) = true) by (unfold is_other; now rewrite Hstd).
  assert (Hown : forall pd, In pd (owned h pkgs p) ->
             is_standard (type (h (fst pd))) = true
             /\ dependency_purl h rq pkgs (fst pd) (snd pd) = standard_purl h pd
             /\ purl_returns h rq pd = is_ok (to_purl (h (snd pd)) None)).
  { intros pd Hpd. destruct (owned_processed h pkgs p pd Hother Hpd) as (Hq & _).
    rewrite Hq. split; [exact Hstd|].
    unfold dependency_purl, purl_returns, standard_purl. rewrite Hq.
    destruct Ht as [-> | [-> | ->]]; split; reflexivity. }
  destruct (to_json_owned h rq pkgs w icm f p eq_refl eq_refl eq_refl Hok Hf Hin Htf Hother)
    as (Hpurls & k & e & H1 & H2 & H3 & H4 & H5 & H6).
  split.
  - apply Forall_forall. intros pd Hpd. rewrite Forall_forall in Hpurls.
    destruct (Hown pd Hpd) as (_ & _ & <-). now apply Hpurls.
  - exists k, e. repeat (split; [assumption|]). split.
    + rewrite H5. apply Permutation_refl'. apply List.map_ext_in.
      intros pd Hpd. now destruct (Hown pd Hpd) as (_ & -> & _).
    + rewrite H6. apply Permutation_refl'.
      rewrite (List.filter_ext_in
                 (fun pd => negb (is_standard (type (h (fst pd))) && dev (h (snd pd))))
                 (fun pd => negb (dev (h (snd pd))))).
      * apply List.map_ext_in. intros pd Hpd. apply List.filter_In in Hpd.
        now destruct (Hown pd (proj1 Hpd)) as (_ & -> & _).
      * intros pd Hpd. now destruct (Hown pd Hpd) as (-> & _).
Qed.

(** C9: in the document [to_json] returns, the entry of a rubygems package
    of the list has as dependencies and as sources the same purls, those of
    all the rubygems dependencies of the packages equal to it, dev
    dependencies included, each as often as it is met; the lists are
    sorted.  The purl of a dependency is made with the path of its package,
    and its parent is the purl of the repository of the request; both
    purl functions returned. *)
Theorem to_json_rubygems_dependencies :
  forall (w : World) (icm : ICM) (p : addr),
    snd (to_json py_hash w) = Ok icm ->
    In p (packages (self w)) ->
    type (heap w p) = "rubygems" ->
    Forall
      (fun pd =>
         is_ok (to_vcs_purl (Py.last_segment (get_repo_name (repo (request (self w)))))
                  (repo (request (self w))) (ref (request (self w)))) = true
         /\ is_ok (to_purl (heap w (snd pd)) (path (heap w (fst pd)))) = true)
      (owned (heap w) (packages (self w)) p)
    /\ exists k e,
        In k (packages (self w)) /\ Package_eq (heap w k) (heap w p) = true
        /\ In e (image_contents icm)
        /\ to_top_level_purl (heap w k) (request (self w)) (path (heap w k))
           = Ok (d_purl e)
        /\ Permutation (d_sources e)
             (List.map (rubygems_purl (heap w) (request (self w)))
                (owned (heap w) (packages (self w)) p))
        /\ Permutation (d_dependencies e)
             (List.map (rubygems_purl (heap w) (request (self w)))
                (owned (heap w) (packages (self w)) p)).
Proof.
  intros w icm p Hok Hin Ht.
  set (h := heap w) in *. set (rq := request (self w)) in *.
  set (pkgs := packages (self w)) in *.
  assert (Hother : is_other (type (h p)) = true) by now rewrite Ht.
  assert (Hown : forall pd, In pd (owned h pkgs p) ->
             is_standard (type (h (fst pd))) = false
             /\ dependency_purl h rq pkgs (fst pd) (snd pd) = rubygems_purl h rq pd
             /\ (purl_returns h rq pd = true ->
                 is_ok (to_vcs_purl (Py.last_segment (get_repo_name (repo rq)))
                          (repo rq) (ref rq)) = true
                 /\ is_ok (to_purl (h (snd pd)) (path (h (fst pd)))) = true)).
  { intros pd Hpd. destruct (owned_processed h pkgs p pd Hother Hpd) as (Hq & _).
    rewrite Hq, Ht. split; [reflexivity|].
    unfold dependency_purl, purl_returns, rubygems_purl. rewrite Hq, Ht.
    split; [reflexivity|]. cbn [String.eqb Ascii.eqb Bool.eqb].
    intro H. now apply Bool.andb_true_iff in H. }
  destruct (to_json_owned h rq pkgs w icm F_rubygems p eq_refl eq_refl eq_refl Hok
              ltac:(discriminate) Hin Ht Hother)
    as (Hpurls & k & e & H1 & H2 & H3 & H4 & H5 & H6).
  assert (Hmap : List.map (fun pd => dependency_purl h rq pkgs (fst pd) (snd pd))
                   (owned h pkgs p)
                 = List.map (rubygems_purl h rq) (owned h pkgs p)).
  { apply List.map_ext_in. intros pd Hpd. now destruct (Hown pd Hpd) as (_ & -> & _). }
  split.
  - apply Forall_forall. intros pd Hpd. rewrite Forall_forall in Hpurls.
    destruct (Hown pd Hpd) as (_ & _ & H). apply H. now apply Hpurls.
  - exists k, e. repeat (split; [assumption|]). split.
    + now rewrite H5, Hmap.
    + rewrite H6, <- Hmap. apply Permutation_refl'. apply f_equal.
      rewrite (List.filter_ext_in
                 (fun pd => negb (is_standard (type (h (fst pd))) && dev (h (snd pd))))
                 (fun _ => true)).
      * clear. induction (owned h pkgs p) as [|x l IH]; [reflexivity|].
        cbn [List.filter]. now rewrite IH.
      * intros pd Hpd. now destruct (Hown pd Hpd) as (-> & _).
Qed.

End Properties.

(** * The properties at runs of the methods *)

(** C8, at the packages of [test_process_go_package_with_local_dep]. *)
Lemma calls_change_versions_witness :
  cache_ok Examples.local_dep_world
  /\ (version (heap (fst (to_json PurlModel.tuple_hash Examples.local_dep_world)) 4)
      = version (heap Examples.local_dep_world 4)
      \/ (go_package_dependency (heap Examples.local_dep_world)
            (packages (self Examples.local_dep_world)) 4
          /\ resolution (heap Examples.local_dep_world)
               (packages (self Examples.local_dep_world)) 4
             = Some (heap (fst (to_json PurlModel.tuple_hash Examples.local_dep_world)) 4))).
Proof.
  assert (Hc : cache_ok Examples.local_dep_world) by (left; reflexivity).
  split; [exact Hc|].
  apply (calls_change_versions_of_local_go_dependencies_only PurlModel.tuple_hash
           Examples.local_dep_world Hc _ (or_introl eq_refl) 4).
Defined.

(** C8 as stated fails: [to_json] overwrites the version of the local
    dependency at address 4 with the version of its module. *)
Lemma to_json_overwrites_dependency_version :
  version (Examples.local_dep_store 4) = Some "./foo/package"
  /\ version (heap (fst (to_json PurlModel.tuple_hash Examples.local_dep_world)) 4)
     = Some "2.2.2"
  /\ version (heap (fst (sbom_components_list PurlModel.tuple_hash Examples.local_dep_world)) 4)
     = Some "2.2.2".
Proof. vm_compute. repeat split. Qed.

(** C1, at the packages of [test_process_go_package_with_local_dep]: one
    entry, for the go-package. *)
Lemma to_json_document_witness :
  icm_packages (heap Examples.local_dep_world) (packages (self Examples.local_dep_world)) = [2]
  /\ exists icm : ICM,
      snd (to_json PurlModel.tuple_hash Examples.local_dep_world) = Ok icm
      /\ metadata icm
         = {| icm_version := 1; icm_spec := JSON_SCHEMA_URL; image_layer_index := -1 |}
      /\ exists purls : list string,
          Forall2
            (fun a purl =>
               to_top_level_purl (heap Examples.local_dep_world a)
                 (request (self Examples.local_dep_world))
                 (path (heap Examples.local_dep_world a)) = Ok purl)
            (icm_packages (heap Examples.local_dep_world)
               (packages (self Examples.local_dep_world))) purls
          /\ Permutation (List.map d_purl (image_contents icm)) purls.
Proof.
  split; [reflexivity|].
  destruct (snd (to_json PurlModel.tuple_hash Examples.local_dep_world)) as [icm|e] eqn:E.
  - exists icm. split; [reflexivity|].
    exact (proj2 (to_json_document PurlModel.tuple_hash Examples.local_dep_world) icm E).
  - vm_compute in E. discriminate E.
Defined.

(** C2, at an npm package with the dev dependency [mocha] and another
    dependency: both are sources of its entry, and the dev dependency is
    no dependency of it. *)
Lemma to_json_standard_witness :
  exists icm,
    snd (to_json PurlModel.tuple_hash Examples.npm_world) = Ok icm
    /\ image_contents icm
       = [ {| d_name := None; d_purl := Examples.repo_purl;
              d_dependencies := ["pkg:npm/%40angular/core@10.0.5"];
              d_sources := ["pkg:npm/%40angular/core@10.0.5"; "pkg:npm/mocha@8.1.3"] |} ]
    /\ List.map (fun pd => (snd pd, dev (heap Examples.npm_world (snd pd))))
         (owned (heap Examples.npm_world) (packages (self Examples.npm_world)) 0)
       = [(1, true); (2, false)]
    /\ Forall (fun pd => is_ok (to_purl (heap Examples.npm_world (snd pd)) None) = true)
         (owned (heap Examples.npm_world) (packages (self Examples.npm_world)) 0)
    /\ exists k e,
        In k (packages (self Examples.npm_world))
        /\ Package_eq (heap Examples.npm_world k) (heap Examples.npm_world 0) = true
        /\ In e (image_contents icm)
        /\ to_top_level_purl (heap Examples.npm_world k) (request (self Examples.npm_world))
             (path (heap Examples.npm_world k))
           = Ok (d_purl e)
        /\ Permutation (d_sources e)
             (List.map (standard_purl (heap Examples.npm_world))
                (owned (heap Examples.npm_world) (packages (self Examples.npm_world)) 0))
        /\ Permutation (d_dependencies e)
             (List.map (standard_purl (heap Examples.npm_world))
                (List.filter (fun pd => negb (dev (heap Examples.npm_world (snd pd))))
                   (owned (heap Examples.npm_world) (packages (self Examples.npm_world))
                      0))).
Proof.
  eexists. split; [vm_compute; reflexivity|]. split; [reflexivity|].
  split; [reflexivity|].
  apply (@to_json_standard_dependencies PurlModel.tuple_hash PurlModel.codec
           Examples.npm_world _ 0);
    [vm_compute; reflexivity | left; reflexivity | left; reflexivity].
Defined.

(** C9, at a rubygems package with the dev dependency [rspec]: it is a
    source and a dependency of its entry. *)
Lemma to_json_rubygems_witness :
  exists icm,
    snd (to_json PurlModel.tuple_hash Examples.rubygems_world) = Ok icm
    /\ image_contents icm
       = [ {| d_name := None; d_purl := Examples.repo_purl +:+ "#sub";
              d_dependencies := ["pkg:gem/rspec@3.9.0"];
              d_sources := ["pkg:gem/rspec@3.9.0"] |} ]
    /\ List.map (fun pd => (snd pd, dev (heap Examples.rubygems_world (snd pd))))
         (owned (heap Examples.rubygems_world) (packages (self Examples.rubygems_world)) 0)
       = [(1, true)]
    /\ Forall
         (fun pd =>
            is_ok (to_vcs_purl
                     (Py.last_segment
                        (get_repo_name (repo (request (self Examples.rubygems_world)))))
                     (repo (request (self Examples.rubygems_world)))
                     (ref (request (self Examples.rubygems_world)))) = true
            /\ is_ok (to_purl (heap Examples.rubygems_world (snd pd))
                        (path (heap Examples.rubygems_world (fst pd)))) = true)
         (owned (heap Examples.rubygems_world) (packages (self Examples.rubygems_world)) 0)
    /\ exists k e,
        In k (packages (self Examples.rubygems_world))
        /\ Package_eq (heap Examples.rubygems_world k) (heap Examples.rubygems_world 0) = true
        /\ In e (image_contents icm)
        /\ to_top_level_purl (heap Examples.rubygems_world k)
             (request (self Examples.rubygems_world))
             (path (heap Examples.rubygems_world k))
           = Ok (d_purl e)
        /\ Permutation (d_sources e)
             (List.map
                (rubygems_purl (heap Examples.rubygems_world)
                   (request (self Examples.rubygems_world)))
                (owned (heap Examples.rubygems_world)
                   (packages (self Examples.rubygems_world)) 0))
        /\ Permutation (d_dependencies e)
             (List.map
                (rubygems_purl (heap Examples.rubygems_world)
                   (request (self Examples.rubygems_world)))
                (owned (heap Examples.rubygems_world)
                   (packages (self Examples.rubygems_world)) 0)).
Proof.
  eexists. split; [vm_compute; reflexivity|]. split; [reflexivity|].
  split; [reflexivity|].
  apply (@to_json_rubygems_dependencies PurlModel.tuple_hash PurlModel.codec
           Examples.rubygems_world _ 0);
    [vm_compute; reflexivity | left; reflexivity | reflexivity].
Defined.

(** C10, at a go-package listed under a Go module. *)
Lemma mismatched_dependency_witness :
  type (heap Examples.mixed_world 0) = "gomod"
  /\ type (heap Examples.mixed_world 1) = "go-package"
  /\ process_dependency PurlModel.tuple_hash "icm" 0 1 Examples.mixed_world
     = (Examples.mixed_world, Ok tt)
  /\ process_dependency PurlModel.tuple_hash "sbom" 0 1 Examples.mixed_world
     = (Examples.mixed_world, Ok tt).
Proof.
  assert (H : type (heap Examples.mixed_world 1) <> type (heap Examples.mixed_world 0))
    by (vm_compute; discriminate).
  split; [reflexivity|]. split; [reflexivity|]. split.
  - exact (mismatched_dependency_skipped PurlModel.tuple_hash "icm" Examples.mixed_world 0 1 H).
  - exact (mismatched_dependency_skipped PurlModel.tuple_hash "sbom" Examples.mixed_world 0 1 H).
Defined.

(** C6 (amended), at a Go module and a go-package with two local
    dependencies that match no module by name. *)
Lemma sbom_components_shapes_witness :
  cache_ok Examples.unprocessed_world
  /\ exists components,
      snd (sbom_components_list PurlModel.tuple_hash Examples.unprocessed_world) = Ok components
      /\ List.map component_shape components
         = [("library", "example.com/org/project", Some "1.1.1");
            ("library", "example.com/org/project", Some "1.1.1");
            ("library", "example.com/otherorg/project/foo", Some "./foo");
            ("library", "example.com/otherorg/project/foo/package", Some "./foo/package")].
Proof.
  split; [left; reflexivity|].
  destruct (snd (sbom_components_list PurlModel.tuple_hash Examples.unprocessed_world))
    as [components|e] eqn:E.
  - exists components. split; [reflexivity|].
    exact (@sbom_components_shapes PurlModel.tuple_hash PurlModel.codec
             Examples.unprocessed_world components (or_introl eq_refl) E).
  - vm_compute in E. discriminate E.
Defined.

(** C6 fails as stated: the module has no version, the local dependency
    [lib] has the version [./lib] when the call starts, and its component
    carries no version. *)
Lemma sbom_component_without_version_of_versioned_dependency :
  version (heap Examples.unversioned_world 2) = Some "./lib"
  /\ dependencies (heap Examples.unversioned_world 1) = [2]
  /\ snd (sbom_components_list PurlModel.tuple_hash Examples.unversioned_world)
     = Ok [ {| c_type := "library"; c_name := "example.com/org/project";
               c_purl := "pkg:golang/example.com%2Forg%2Fproject"; c_version := None |};
            {| c_type := "library"; c_name := "example.com/org/project";
               c_purl := "pkg:golang/example.com%2Forg%2Fproject@1.1.1";
               c_version := Some "1.1.1" |};
            {| c_type := "library"; c_name := "example.com/org/project/lib";
               c_purl := "pkg:golang/example.com%2Forg%2Fproject%2Flib";
               c_version := None |} ].
Proof.
  vm_compute. repeat split.
Qed.

(** C4 (amended), at a package list that shares no object with the local
    dependencies. *)
Lemma calls_do_not_depend_on_earlier_calls_witness :
  no_alias Examples.local_dep_store [0; 1; 2]
  /\ snd (run_call PurlModel.tuple_hash ToJson
            (run_calls PurlModel.tuple_hash [ToJson; SbomComponentsList]
               Examples.local_dep_world))
     = snd (run_call PurlModel.tuple_hash ToJson Examples.local_dep_world).
Proof.
  assert (H : no_alias Examples.local_dep_store [0; 1; 2]).
  { intros a Ha _. destruct Ha as [<-|[<-|[<-|[]]]]; reflexivity. }
  split; [exact H|].
  exact (proj1 (@calls_do_not_depend_on_earlier_calls PurlModel.tuple_hash PurlModel.codec
                  Examples.local_dep_store PurlModel.default_request [0; 1; 2] H
                  [ToJson; SbomComponentsList] ToJson)).
Defined.

(** C4 fails as stated: the object [lib] is in the package list and is a
    local dependency of another package; the first call replaces its version,
    and the second call on the same instance returns another list.  With
    [to_json] the first call raises [KeyError], the key of the entry having
    changed its hash, and the second call returns a document. *)
Lemma second_sbom_call_differs :
  exists first second,
    snd (sbom_components_list PurlModel.tuple_hash Examples.shared_world) = Ok first
    /\ snd (sbom_components_list PurlModel.tuple_hash
              (fst (sbom_components_list PurlModel.tuple_hash Examples.shared_world)))
       = Ok second
    /\ List.map component_shape first
       = [("library", "example.com/org/project", Some "1.1.1");
          ("library", "example.com/org/project", Some "1.1.1");
          ("library", "example.com/org/project/lib", Some "./lib");
          ("library", "example.com/org/project/lib", Some "1.1.1")]
    /\ List.map component_shape second
       = [("library", "example.com/org/project", Some "1.1.1");
          ("library", "example.com/org/project", Some "1.1.1");
          ("library", "example.com/org/project/lib", Some "1.1.1");
          ("library", "example.com/org/project/lib", Some "1.1.1")]
    /\ snd (to_json PurlModel.tuple_hash Examples.shared_world) = Raise KeyError
    /\ is_ok (snd (to_json PurlModel.tuple_hash
                     (fst (to_json PurlModel.tuple_hash Examples.shared_world)))) = true.
Proof.
  eexists. eexists. vm_compute. repeat split.
Qed.

(** C5, after the packages of the local-dependency example were processed:
    the go-package gets the dependencies of the module of its name, and its
    name is removed from the entry. *)
Lemma set_go_package_sources_witness :
  exists w',
    set_go_package_sources PurlModel.tuple_hash Examples.local_dep_processed = (w', Ok tt)
    /\ List.map (fun s => (d_name (slot_val s), d_sources (slot_val s)))
         (_gopkg_data (self w'))
       = [(None, ["pkg:golang/example.com%2Forg%2Fproject%2Ffoo@2.2.2"])]
    /\ log w' = log Examples.local_dep_processed.
Proof.
  eexists. split.
  - apply (set_go_package_sources_assigns PurlModel.tuple_hash Examples.local_dep_processed).
    + intros i s H. destruct i as [|i].
      * vm_compute in H. injection H as <-. vm_compute. reflexivity.
      * destruct i; vm_compute in H; discriminate H.
    + vm_compute. repeat constructor. discriminate.
  - vm_compute. split; reflexivity.
Defined.

(** C5 fails as stated: [to_json] on a go-package and a second one that is
    its dependency, with a local version.  The version of the second is
    overwritten with the version of the module, which makes it equal to the
    first.  Both entries have the name of a package under the module, whose
    dependencies are not empty; [set_go_package_sources] returns, and the
    lookup of the second key gives the entry of the first: the entry of the
    second keeps empty sources, and no warning is logged.  The second key
    is not found at its own entry. *)
Lemma set_go_package_sources_misses_overwritten_key :
  List.map (fun s => (slot_key s, d_name (slot_val s)))
    (_gopkg_data (self Examples.overwritten_processed))
  = [ (1, Some "example.com/org/project/lib"); (2, Some "example.com/org/project/lib") ]
  /\ option_map m_dependencies
       (owning_module "example.com/org/project/lib"
          (_gomod_data (self Examples.overwritten_processed)))
     = Some ["pkg:golang/example.com%2Fanotherorg%2Fproject%2Flib@3.3.3"]
  /\ pdict_index PurlModel.tuple_hash (heap Examples.overwritten_processed) 2
       (_gopkg_data (self Examples.overwritten_processed)) = Some 0
  /\ (exists w',
        set_go_package_sources PurlModel.tuple_hash Examples.overwritten_processed
        = (w', Ok tt)
        /\ List.map (fun s => (slot_key s, d_sources (slot_val s))) (_gopkg_data (self w'))
           = [ (1, ["pkg:golang/example.com%2Fanotherorg%2Fproject%2Flib@3.3.3"]);
               (2, []) ]
        /\ log w' = log Examples.overwritten_processed)
  /\ option_map (fun icm => List.map d_sources (image_contents icm))
       (match snd (to_json PurlModel.tuple_hash Examples.overwritten_world) with
        | Ok icm => Some icm
        | Raise _ => None
        end)
     = Some [ []; ["pkg:golang/example.com%2Fanotherorg%2Fproject%2Flib@3.3.3"] ].
Proof.
  split; [reflexivity|]. split; [reflexivity|]. split; [reflexivity|].
  split; [|reflexivity].
  eexists. split; [vm_compute; reflexivity|]. split; reflexivity.
Qed.

(** C7 (amended), at a seeded instance and a local dependency whose name
    matches no module: no listed case holds, and the method returns. *)
Lemma get_local_purl_witness :
  Py.is_local (version (heap Examples.unprocessed_seeded 3)) = true
  /\ match_parent_module (name (heap Examples.unprocessed_seeded 3))
       (sdict_keys (known_modules Examples.unprocessed_seeded)) = None
  /\ match_parent_module (name (heap Examples.unprocessed_seeded 1))
       (sdict_keys (known_modules Examples.unprocessed_seeded))
     = Some "example.com/org/project"
  /\ match_parent_module
       (local_path "example.com/org/project" (heap Examples.unprocessed_seeded 3))
       (sdict_keys (known_modules Examples.unprocessed_seeded))
     = Some "example.com/org/project"
  /\ is_ok (snd (_get_local_go_package_dep_purl 1 3 Examples.unprocessed_seeded)) = true.
Proof.
  split; [reflexivity|]. split; [reflexivity|]. split; [reflexivity|].
  split; [reflexivity|].
  assert (Hseeded : forall m,
             In m (sdict_keys (known_modules Examples.unprocessed_seeded)) ->
             sdict_get m (_gomod_data (self Examples.unprocessed_seeded)) <> None).
  { intros m Hm. vm_compute in Hm. destruct Hm as [<-|[]]. vm_compute. discriminate. }
  assert (Hpurl : forall v rel,
             is_ok (to_purl (set_version v (heap Examples.unprocessed_seeded 3)) rel) = true).
  { intros v rel. unfold to_purl, PurlModel.codec, PurlModel.model_to_purl.
    change (type (set_version v (heap Examples.unprocessed_seeded 3))) with "go-package".
    change (String.eqb "go-package" "gomod" || String.eqb "go-package" "go-package")%bool
      with true.
    cbv iota zeta beta.
    destruct (negb (Py.truthy (version (set_version v (heap Examples.unprocessed_seeded 3)))));
      [reflexivity|].
    destruct (Py.is_local (version (set_version v (heap Examples.unprocessed_seeded 3))));
      reflexivity. }
  destruct (is_ok (snd (_get_local_go_package_dep_purl 1 3 Examples.unprocessed_seeded)))
    eqn:E; [reflexivity|].
  destruct (proj1 (proj1 (@get_local_purl_raises_iff PurlModel.codec
                            Examples.unprocessed_seeded 1 3 Hseeded Hpurl)) E)
    as [H|[_ [H|[pm [Hpm [H|[dm [Hdm H]]]]]]]].
  - vm_compute in H. discriminate H.
  - vm_compute in H. discriminate H.
  - vm_compute in Hpm. injection Hpm as <-. vm_compute in H. discriminate H.
  - vm_compute in Hpm. injection Hpm as <-. vm_compute in Hdm. injection Hdm as <-.
    vm_compute in H. discriminate H.
Defined.

(** C7 fails as stated: on an instance whose module data were not seeded,
    none of the listed cases holds and the method raises [KeyError]; and for
    a package whose name matches no module the method returns, when the
    name of the dependency matches one. *)
Lemma get_local_purl_key_error :
  Py.is_local (version (heap Examples.unprocessed_world 3)) = true
  /\ match_parent_module (name (heap Examples.unprocessed_world 1))
       (sdict_keys (known_modules Examples.unprocessed_world))
     = Some "example.com/org/project"
  /\ match_parent_module
       (local_path "example.com/org/project" (heap Examples.unprocessed_world 3))
       (sdict_keys (known_modules Examples.unprocessed_world))
     = Some "example.com/org/project"
  /\ snd (_get_local_go_package_dep_purl 1 3 Examples.unprocessed_world) = Raise KeyError
  /\ match_parent_module (name (heap Examples.foreign_world 1))
       (sdict_keys (known_modules Examples.foreign_world)) = None
  /\ snd (_get_local_go_package_dep_purl 1 2 Examples.foreign_world)
     = Ok "pkg:golang/example.com%2Forg%2Fproject%2Flib@1.1.1".
Proof.
  vm_compute. repeat split.
Qed.

(** * The properties of single methods at runs *)

(** X1, at two Go modules of the same name: the name maps to the second. *)
Lemma go_modules_by_name_witness :
  last_module (heap Runs.twin_world) (packages (self Runs.twin_world))
    "example.com/org/project" = Some 1
  /\ exists modules w',
      go_modules_by_name Runs.twin_world = (w', Ok modules)
      /\ (forall n, sdict_get n modules
                    = last_module (heap Runs.twin_world) (packages (self Runs.twin_world)) n)
      /\ (forall w'', self w'' = self w' -> snd (go_modules_by_name w'') = Ok modules).
Proof.
  split; [reflexivity|].
  exact (go_modules_by_name_last_module Runs.twin_world eq_refl).
Defined.

(** X2, at a Go module with a dependency on a module of another
    repository. *)
Lemma process_gomod_appends_witness :
  exists gm',
    process_gomod 0 1 "icm" Runs.gomod_seeded
    = ({| heap := heap Runs.gomod_seeded;
          self := set_gomod_data gm' (self Runs.gomod_seeded);
          log := log Runs.gomod_seeded |}, Ok tt)
    /\ sdict_get "example.com/org/project" gm'
       = Some {| m_purl := "pkg:golang/example.com%2Forg%2Fproject@1.1.1";
                 m_dependencies :=
                   ["pkg:golang/example.com%2Fanotherorg%2Fproject%2Flib@3.3.3"] |}.
Proof.
  destruct (@process_gomod_appends_dependency PurlModel.codec Runs.gomod_seeded 0 1
              (new_module "pkg:golang/example.com%2Forg%2Fproject@1.1.1")
              "pkg:golang/example.com%2Fanotherorg%2Fproject%2Flib@3.3.3"
              eq_refl eq_refl eq_refl eq_refl) as (gm' & H1 & _ & H3).
  exists gm'. split; [exact H1|]. exact (H3 "example.com/org/project").
Defined.

(** X3, at the local dependency of [test_process_gomod_with_local_dep_unprocessed_module]:
    its name is no module of the request, and its purl is the purl of the
    parent module with the relative path. *)
Lemma process_gomod_local_witness :
  exists gm',
    process_gomod 0 2 "icm" Examples.unprocessed_seeded
    = ({| heap := heap Examples.unprocessed_seeded;
          self := set_gomod_data gm' (self Examples.unprocessed_seeded);
          log := log Examples.unprocessed_seeded |}, Ok tt)
    /\ sdict_get "example.com/org/project" gm'
       = Some {| m_purl := "pkg:golang/example.com%2Forg%2Fproject@1.1.1";
                 m_dependencies := ["pkg:golang/example.com%2Forg%2Fproject@1.1.1#foo"] |}.
Proof.
  destruct (@process_gomod_local_dependency PurlModel.codec Examples.unprocessed_seeded 0 2
              "example.com/org/project"
              (new_module "pkg:golang/example.com%2Forg%2Fproject@1.1.1")
              (new_module "pkg:golang/example.com%2Forg%2Fproject@1.1.1")
              (Some "foo") "PARENT_PURL#foo"
              eq_refl eq_refl eq_refl eq_refl eq_refl eq_refl
              (fun _ H => match H with eq_refl => I end) eq_refl)
    as (gm' & H1 & _ & H3).
  exists gm'. split; [exact H1|]. exact (H3 "example.com/org/project").
Defined.

(** X4, at a local dependency whose path leaves the module. *)
Lemma process_gomod_raises_witness :
  local_path "example.com/org/project" (heap Runs.escaping_seeded 1) = "example.com/x"
  /\ process_gomod 0 1 "icm" Runs.escaping_seeded = (Runs.escaping_seeded, Raise TypeError).
Proof.
  split; [reflexivity|].
  exact (proj1 (@process_gomod_raises PurlModel.codec Runs.escaping_seeded 0 1 "icm" eq_refl)
           eq_refl eq_refl).
Defined.

(** X5, at the go-package and the dependency of [test_process_go]. *)
Lemma process_go_package_appends_witness :
  exists w',
    process_go_package PurlModel.tuple_hash 0 1 "icm" Runs.gopkg_seeded = (w', Ok tt)
    /\ heap w' = heap Runs.gopkg_seeded
    /\ pdict_get PurlModel.tuple_hash (heap w') 0 (_gopkg_data (self w'))
       = Some {| d_name := Some "example.com/org/project";
                 d_purl := "pkg:golang/example.com%2Forg%2Fproject@1.1.1";
                 d_dependencies := ["pkg:golang/example.com%2Forg%2Fproject%2Flib@2.2.2"];
                 d_sources := [] |}.
Proof.
  exact (proj1 (@process_go_package_appends_dependency PurlModel.tuple_hash PurlModel.codec
                  Runs.gopkg_seeded 0 1
                  "pkg:golang/example.com%2Forg%2Fproject%2Flib@2.2.2"
                  eq_refl eq_refl eq_refl)
           (new_entry (Some "example.com/org/project")
              "pkg:golang/example.com%2Forg%2Fproject@1.1.1")
           eq_refl).
Defined.

(** X6, at the local dependency of [test_process_go_package_with_local_dep]:
    its name lies under the module [foo], whose version 2.2.2 it gets. *)
Lemma get_local_purl_of_module_package_witness :
  exists w',
    _get_local_go_package_dep_purl 2 4 Examples.local_dep_world
    = (w', Ok "pkg:golang/example.com%2Forg%2Fproject%2Ffoo%2Fpackage@2.2.2")
    /\ version (heap Examples.local_dep_world 4) = Some "./foo/package"
    /\ version (heap w' 4) = Some "2.2.2".
Proof.
  destruct (@get_local_purl_of_module_package PurlModel.codec Examples.local_dep_world 2 4
              "example.com/org/project/foo" 1 eq_refl eq_refl eq_refl)
    as (w' & H1 & H2 & _).
  exists w'. split; [exact H1|]. split; [reflexivity|]. now rewrite H2.
Defined.

(** X7, at the local dependency of
    [test_process_go_package_with_local_dep_unprocessed_module]. *)
Lemma get_local_purl_of_foreign_package_witness :
  exists w',
    _get_local_go_package_dep_purl 1 3 Examples.unprocessed_seeded
    = (w', Ok "pkg:golang/example.com%2Forg%2Fproject@1.1.1#foo/package")
    /\ heap w' = heap Examples.unprocessed_seeded.
Proof.
  destruct (@get_local_purl_of_foreign_package PurlModel.codec Examples.unprocessed_seeded 1 3
              "example.com/org/project" "example.com/org/project" "foo/package"
              (new_module "pkg:golang/example.com%2Forg%2Fproject@1.1.1")
              "PARENT_PURL#foo/package"
              eq_refl eq_refl eq_refl eq_refl eq_refl eq_refl eq_refl)
    as (w' & H1 & H2 & _).
  exists w'. split; [exact H1|exact H2].
Defined.

(** X8, at the instance of [test_process_go_package_with_local_dep] when
    [to_json] reaches [set_go_package_sources]. *)
Lemma set_go_package_sources_twice_witness :
  exists w1,
    set_go_package_sources PurlModel.tuple_hash Examples.local_dep_processed = (w1, Ok tt)
    /\ set_go_package_sources PurlModel.tuple_hash w1 = (w1, Raise KeyError).
Proof.
  apply (set_go_package_sources_twice PurlModel.tuple_hash Examples.local_dep_processed).
  - intros i s H. destruct i as [|i].
    + vm_compute in H. injection H as <-. vm_compute. reflexivity.
    + destruct i; vm_compute in H; discriminate H.
  - vm_compute. repeat constructor. discriminate.
  - vm_compute. discriminate.
Defined.

(** X10, at a git submodule that lists a dependency. *)
Lemma process_package_without_processor_witness :
  dependencies (heap Runs.submodule_world 0) = [2]
  /\ process_package PurlModel.tuple_hash "icm" 0 Runs.submodule_world
     = (Runs.submodule_world, Ok tt)
  /\ process_package PurlModel.tuple_hash "sbom" 0 Runs.submodule_world
     = (Runs.submodule_world, Ok tt).
Proof.
  split; [reflexivity|]. split.
  - exact (@process_package_without_processor PurlModel.tuple_hash PurlModel.codec
             "icm" Runs.submodule_world 0 eq_refl).
  - exact (@process_package_without_processor PurlModel.tuple_hash PurlModel.codec
             "sbom" Runs.submodule_world 0 eq_refl).
Defined.

(** X11, at a package of an unknown type followed by an npm package. *)
Lemma calls_log_witness :
  log (fst (sbom_components_list PurlModel.tuple_hash Runs.bogus_world))
  = [LogDebug "No SBOM implementation for '%s' packages" "bogus"]
  /\ with_warnings [LogDebug "No ICM implementation for '%s' packages" "bogus"]
       (fst (to_json PurlModel.tuple_hash Runs.bogus_world)).
Proof.
  split.
  - destruct (snd (sbom_components_list PurlModel.tuple_hash Runs.bogus_world))
      as [components|e] eqn:E.
    + exact (proj1 (@calls_log_unsupported_types PurlModel.tuple_hash PurlModel.codec
                      Runs.bogus_world) components E).
    + vm_compute in E. discriminate E.
  - destruct (snd (to_json PurlModel.tuple_hash Runs.bogus_world)) as [icm|e] eqn:E.
    + exact (proj2 (@calls_log_unsupported_types PurlModel.tuple_hash PurlModel.codec
                      Runs.bogus_world) icm E).
    + vm_compute in E. discriminate E.
Defined.

(** X12, at a dictionary whose dependency has no version, and at one with
    every key. *)
Lemma from_json_raises_witness :
  from_json Runs.broken_json [] = Raise KeyError
  /\ is_ok (from_json Runs.folder_json []) = true.
Proof.
  split.
  - exact (proj2 (from_json_raises_iff_incomplete Runs.broken_json []) eq_refl).
  - exact (proj1 (from_json_raises_iff_incomplete Runs.folder_json []) eq_refl).
Defined.

(** X13, at the dictionary of [test_package_from_json] with a
    dependency. *)
Lemma from_json_builds_witness :
  exists a objs',
    from_json Runs.module_json [] = Ok (a, objs')
    /\ represents objs' a Runs.module_json
    /\ new_tree 0 objs' a Runs.module_json
    /\ List.length objs' = S a.
Proof.
  destruct (from_json Runs.module_json []) as [[a objs']|e] eqn:E.
  - exists a, objs'. split; [reflexivity|].
    destruct (from_json_builds_the_package Runs.module_json [] a objs' E)
      as (H1 & H2 & _ & H3 & _).
    split; [exact H1|]. split; [exact H2|exact H3].
  - vm_compute in E. discriminate E.
Defined.

(** X14, at two dictionaries, one with a dependency. *)
Lemma loaded_packages_witness :
  exists pkgs objs',
    _load_packages_from_json [Runs.module_json; Runs.folder_json] [] = Ok (pkgs, objs')
    /\ snd (run_call PurlModel.tuple_hash ToJson
              (run_calls PurlModel.tuple_hash [SbomComponentsList; ToJson]
                 (fresh (store objs') PurlModel.default_request pkgs)))
       = snd (run_call PurlModel.tuple_hash ToJson
                (fresh (store objs') PurlModel.default_request pkgs)).
Proof.
  destruct (_load_packages_from_json [Runs.module_json; Runs.folder_json] [])
    as [[pkgs objs']|e] eqn:E.
  - exists pkgs, objs'. split; [reflexivity|].
    exact (proj2 (@loaded_packages_share_no_object PurlModel.tuple_hash PurlModel.codec
                    [Runs.module_json; Runs.folder_json] [] pkgs objs'
                    PurlModel.default_request E)
             [SbomComponentsList; ToJson] ToJson).
  - vm_compute in E. discriminate E.
Defined.

(** The purl functions return on the packages of [Runs.full_world], and
    none of their dependencies has a local version. *)
Lemma full_world_top_level a :
  In a (packages (self Runs.full_world)) ->
  sbom_supported (type (heap Runs.full_world a)) = true ->
  is_ok (to_top_level_purl (heap Runs.full_world a) (request (self Runs.full_world))
           (path (heap Runs.full_world a))) = true.
Proof. intros [<-|[<-|[<-|[]]]] _; reflexivity. Qed.

Lemma full_world_dependencies a d :
  processed_dependency (heap Runs.full_world) (packages (self Runs.full_world)) a d ->
  (forall rel, is_ok (to_purl (heap Runs.full_world d) rel) = true)
  /\ (type (heap Runs.full_world a) = "gomod" \/ type (heap Runs.full_world a) = "go-package" ->
      Py.is_local (version (heap Runs.full_world d)) = false).
Proof.
  intros (Ha & Hd & _ & _).
  destruct Ha as [<-|[<-|[<-|[]]]]; vm_compute in Hd.
  - destruct Hd as [<-|[]]. split; [intro rel|intros _]; reflexivity.
  - destruct Hd as [<-|[]]. split; [intro rel|intros _]; reflexivity.
  - destruct Hd as [<-|[<-|[]]]; (split; [intro rel; reflexivity|]);
      intros [H|H]; discriminate H.
Qed.

(** X15, at a Go module, a go-package and an npm package with
    dependencies. *)
Lemma to_json_returns_witness :
  is_ok (snd (to_json PurlModel.tuple_hash Runs.full_world)) = true
  /\ heap (fst (to_json PurlModel.tuple_hash Runs.full_world)) = heap Runs.full_world.
Proof.
  exact (@to_json_returns PurlModel.tuple_hash PurlModel.codec Runs.full_world
           full_world_top_level full_world_dependencies eq_refl).
Defined.

(** X16, at the same packages. *)
Lemma sbom_components_list_returns_witness :
  snd (sbom_components_list PurlModel.tuple_hash Runs.full_world)
  = Ok (expected_components (heap Runs.full_world) (request (self Runs.full_world))
          (packages (self Runs.full_world)))
  /\ List.map c_purl
       (expected_components (heap Runs.full_world) (request (self Runs.full_world))
          (packages (self Runs.full_world)))
     = [ "pkg:golang/example.com%2Forg%2Fproject@1.1.1";
         "pkg:golang/example.com%2Forg%2Fproject@1.1.1";
         "pkg:github/namespace/repo@1798a59f297f5f3886e41bc054e538540581f8ce";
         "pkg:golang/example.com%2Fanotherorg%2Fproject%2Flib@3.3.3";
         "pkg:golang/example.com%2Forg%2Fproject%2Flib@2.2.2";
         "pkg:npm/mocha@8.1.3";
         "pkg:npm/%40angular/core@10.0.5" ].
Proof.
  split; [|reflexivity].
  exact (proj1 (@sbom_components_list_returns PurlModel.tuple_hash PurlModel.codec
                  Runs.full_world full_world_top_level full_world_dependencies eq_refl)).
Defined.

(** X17, at the same packages: the go-package has the dependency of its
    module as its source, and the npm package has its dev dependency among
    its sources only. *)
Lemma to_json_contents_witness :
  snd (to_json PurlModel.tuple_hash Runs.full_world)
  = Ok (generate_icm
          (expected_entries (heap Runs.full_world) (request (self Runs.full_world))
             (packages (self Runs.full_world))))
  /\ expected_entries (heap Runs.full_world) (request (self Runs.full_world))
       (packages (self Runs.full_world))
     = [ {| d_name := None;
            d_purl := "pkg:golang/example.com%2Forg%2Fproject@1.1.1";
            d_dependencies := ["pkg:golang/example.com%2Forg%2Fproject%2Flib@2.2.2"];
            d_sources := ["pkg:golang/example.com%2Fanotherorg%2Fproject%2Flib@3.3.3"] |};
         {| d_name := None;
            d_purl := "pkg:github/namespace/repo@1798a59f297f5f3886e41bc054e538540581f8ce";
            d_dependencies := ["pkg:npm/%40angular/core@10.0.5"];
            d_sources := ["pkg:npm/mocha@8.1.3"; "pkg:npm/%40angular/core@10.0.5"] |} ].
Proof.
  split; [|reflexivity].
  exact (@to_json_contents PurlModel.tuple_hash PurlModel.codec Runs.full_world
           full_world_top_level full_world_dependencies eq_refl).
Defined.
